(* ===== verification/_CoqProject ===== *)
-Q . S2P
Prelude.v
Js.v
ShopCart.v
WarehouseCart.v
Page.v
Monitor.v
Shop.v
Reconcile.v
Lenient.v
Install.v
AutoRefresh.v
AddModal.v
Remover.v
Notification.v
Bracket.v
LiveEvent.v
Match.v
CarPanel.v
Qualifying.v
Garage.v
Stage.v
