(* ===== verification/Prelude.v ===== *)
(** * GRANPIX client: a verification development of the browser flows

    The repository is the browser side of a motorsport league
    application ([src/static/script.js], [src/static/qualificacao.js],
    [src/static/sistema_notificacao.js]). Most of the logic is in
    [script.js]. Purchases build a cart or a pending purchase, ask the
    server for a PIX QR code, poll the transaction status every second
    and, on approval, apply the purchase with one or more mutation
    requests. Pieces kept in the team's warehouse are installed on cars
    through carts, modals and PIX charges. Pieces are taken off cars, and
    timers reload the page's data. [sistema_notificacao.js] polls for a
    stage that is running and shows a banner and a floating button that
    open the live-event screen of [qualificacao.js]. That screen
    refreshes every two seconds. [qualificacao.js] also computes the
    places of a battle bracket, and its match modal reports winners and
    runs the damage rolls of a battle. This development models those flows as
    Rocq definitions written from the code, and proves what they do.

    ** Files, in dependency order

    - [Prelude] (this file): the JavaScript exceptions [js_error], the
      state-and-exception monad [SE] with its notations in
      [granpix_scope], sums of money [sum_by] over exact rationals [Q]
      (with a [Proper] instance for permutations), list lemmas, the
      option fold [mfoldl] used for [forEach] loops whose body may
      throw, [Nat.iter] lemmas, and the hint databases [granpix] and
      [granpix_sum].
    - [Js]: the values [jv] returned by [resp.json()] and the operators
      the code reads them with ([truthy], [js_or], [jget] for [o.k] that
      throws on [null], [jget_opt] for [o?.k], [===], [String], [split],
      [trim], [parseFloat], [parseInt], a [find] and a [filter] whose
      test may throw), [+], [-] and [>] on primitives ([prim]), property
      writes [o.k = v] ([js_set], [campo_set]), the spread [{...v}],
      [JSON.stringify] ([js_stringify]: escaping, [undefined] dropped in
      objects and written [null] in arrays), and objects used as
      dictionaries: the key order of
      [Object.entries] ([ordem_chaves]) and grouping ([agrupar]), with
      the lemmas that grouping and enumeration keep every element once.
    - [ShopCart]: the global [carrinho] and the destination modal
      ([adicionarAoCarrinho] ... [tiposComDuplicatas] ... the decision of
      [confirmarDistribuicaoPecas], script.js 3643-3956), with the cart
      invariant [cart_wf].
    - [WarehouseCart]: [carrinhoArmazem] and [destinoCarrinhoArmazem]
      ([mudarQtdArmazem] ... the decisions of [processarCarrinhoArmazem],
      2608-2845).
    - [Page]: the record [page] of every window global the flows share
      (the TransactionStore of the specification: [transacaoPixAtual],
      [transacaoPixAtualDividido], [compraPendentePix], [pixPollings],
      the split-purchase fields, the carts, [equipeAtual]), the timers and
      their closure state, the pending continuations of the event loop,
      and the logs of requests, posted calls, toasts and reloads.
      [setInterval], [clearInterval], [setTimeout] and [fetch] are
      functions on it.
    - [Monitor]: [mostrarModalPix], [monitorarTransacaoPix],
      [processarCompraAposPagamento] and [confirmarPagamentoManual]
      (2339-2606). There is one function per callback, and their event
      loop [Monitor.step] runs over [Monitor.event] with the inductive
      [reachable].
    - [Shop]: the shop's purchase modals ([abrirEscolherCarro] ...
      [confirmarCompra], [solicitarMudarCarro], 1442-1832) in [Loja], and
      [verificarPecasCompletas] (1974-1993) in [Garagem].
    - [Reconcile]: the sequential purchase loops
      ([enviarCarrinhoParaArmazem], [processarPecasCarroDividido],
      [processarPecasArmazemDividido], [enviarCarrinhoParaArmazemDividido])
      against any server, given by the class [Servidor], and the balance
      handling of [gerarPixCarroAtivoDividido]. [resultados] is the
      reconciliation the specification describes.
    - [Lenient]: the four other pollers (cart, stage regularisation,
      stage enrolment, split purchase), [gerarPixCarroAtivo], and
      [Lenient.step], the event loop of the page with every payment flow.
    - [Install]: the installs of warehouse pieces (2205-2336, 2747-2955,
      3416-3601). It covers one piece at a time, the warehouse cart sent
      to the active car or to a resting car, and the two paths of the
      selection modal, each [POST] logged and answered by a [Servidor].
      It also holds the whole of [confirmarDistribuicaoPecas]
      (3922-3956): the decision of [ShopCart], the install on the active
      car, and the split purchase of [Reconcile].
    - [AutoRefresh]: the two auto-refresh intervals, the modal and
      visibility listeners that pause and resume them (37-170, 2244-2256),
      and in [Lazy] the loading of a tab's data on first display
      (232-310).
    - [AddModal]: the selection object [selecaoAdicaoPecas] of the
      add-pieces modal and every function that writes or reads it
      (2959-3414), with the install price (430-453).
    - [Remover]: taking a piece off a car (4906-5102): the destinations
      offered, the confirm button, the answers in flight.
    - [Notification]: all of [sistema_notificacao.js]. [Notificacao.estado]
      holds its globals, the banner, the floating button, the styles,
      the intervals and timeouts, and the location. There is one
      definition per function and per callback, and [Notificacao.step]
      is the event loop over answers, interval ticks, timeouts, clicks
      and [beforeunload].
    - [Bracket]: [calcularColocacoesBracket] (qualificacao.js 1864-1893).
      It is an option-valued function: [None] is a [TypeError] thrown on
      a malformed bracket.
    - [LiveEvent]: [carregarEvento] and [mostrarEventoAoVivo]
      (qualificacao.js 1065-1223). [EventoAoVivo.estado] embeds the
      notification state, because the two scripts share the page:
      [EvNotif] runs a notification event and then the
      [mostrarEventoAoVivo] calls it made. The modal's [hidden.bs.modal]
      listener calls the notification script's [mostrarBotaoFlutante].
    - [Match]: the battle match modal (qualificacao.js 1966-2253):
      [abrirModalPartida], the pilots and pieces' life loaded into it,
      [executarPassada] with its two-roll count in the modal's [dataset],
      [reportarVencedorPartida], [desfazerResultadoPartida] and the
      bracket reload. [Partida.estado] holds the modal elements of the
      document, so that a callback that looks the modal up again by id
      finds whatever modal is open.
    - [CarPanel]: the pieces panel of a car in the garage
      ([gerarHtmlPecas], script.js 1834-1973) as the list of entries it
      shows, and the retífica of a piece ([recuperarPecaVida],
      4876-4901). [Js.js_Number] and [Js.minusculas] model [Number(v)]
      and [toLowerCase] on the values they are applied to.
    - [Qualifying]: the admin lap table of the qualification
      (qualificacao.js 1405-1806). [VoltasAdmin.renderizarVoltasAdmin]
      gives the rows it draws; the handlers [atualizarTabelaVoltasAdmin],
      [carregarTabelaVoltasAdmin], [salvarNotaEquipeAdmin] and
      [finalizarQualificacao] give their requests, toasts, table and
      scheduled reloads for each answer. [Array.prototype.sort] is the
      insertion sort [ordenar]; [Js.js_mais] and [Js.js_menos] model
      [+] and [-] on values, strings included.
    - [Garage]: [carregarGaragem] (script.js 544-651) in
      [CarregarGaragem]: the four awaited answers are parameters, the
      state is [_cacheGaragem], [window.garagemAtual] and the logs of
      requests, calls and toasts; [buscar] gives the values that reach
      the cache check and [carregarGaragem] draws only when the
      [JSON.stringify] of the payload is new. The garage object is
      shared by [garagem] and [window.garagemAtual], as in the code.
    - [Stage]: [carregarProximaEtapa] and [inscreverEtapa] (script.js
      5104-5231) in [ProximaEtapa]. The state is [window.proximaEtapa],
      the card, the enrolment button with its [dataset], the requests,
      the toasts and the missing-pieces modal. Their Section [Pagina]
      takes the presence of the card and the button, the locale text of
      a date, and the [message] of an exception as variables.
      [window.garagemAtual] is the one [Garage] computes.

    The environment chooses the order of events: which timer fires, which
    pending answer arrives, when a [setTimeout] fires, which modal is
    shown. So a run is any interleaving the browser and the network
    allow, including answers out of order and several queries of one
    poller in flight.

    ** What is proved (claim ids of the manifest)

    - Monitor: an invariant of every reachable page, proved by rule
      induction, bounds each interval's queries by [maxTentativas] = 120
      (C1). A measure, the firings an interval has left, gives
      termination after 121 of its own firings whatever else happens
      (C2). A session answered "pending" issues exactly 120 queries and
      times out on its 121st firing (C3). Each answer has its functional
      behaviour: approval (C4), refusal and non-OK (C5), and superseded
      answers (C6). Concrete runs of [Monitor] show a double
      confirmation and a manual confirmation that does not stop polling.
    - Reconcile: [enviarCarrinhoParaArmazem] refines the specification's
      reconciliation for every server (C7); for every server the cart is
      emptied, with the reloads and the success toast, exactly when one
      unit went through, and the warning exactly when one failed (C8). A
      thrown split purchase refunds nothing (C39).
    - AutoRefresh: in every reachable state at most one interval of each
      kind is live (C9); [Lazy] proves that each tab's data is loaded at
      most once.
    - Lenient: the split-purchase poller never times out (C10), and the
      other pollers time out on the 120th answer (C37), and a refusal is
      ignored (C38).
    - Notification: in every run at most one verification interval is
      live (C11). The retries of [abrirEventoEmAnda] end after 50 ticks
      (C12), and an admin page is never notified (C13). A repeated stage
      has no effect (C15), and an answer without a banner keeps the
      floating button. A retry that outlives its stage redirects to
      [etapa=null] from any state (C16).
    - Live event: at most one refresh interval is live, the one
      [intervaloEventoAtual] names (C17). Closing any modal stops all
      refreshing (C18) and shows the floating button.
    - Bracket: the function throws exactly on the malformed brackets
      (C19). When the last phase is a single decided match the places
      are 1 .. n (C20).
    - Match modal: the rolls of one modal, executed or in flight, are at
      most two in every run (C21), by an invariant over every event. A
      pilots answer writes its teams into whatever modal is first on the
      page, so a late answer gives the next match's roll the teams of
      another match (C22). A report answered after the modal was closed
      shows an error and skips the reload (C23).
    - Installs: [confirmarDistribuicaoPecas] empties the cart exactly
      when some piece went to the warehouse, with its requests in order
      (C14). The summary of the selection modal is a product.
    - Removal of a piece: [Remover] proves one request however many
      clicks.
    - Car pieces panel: the five slots are always shown in order, the
      differential once per piece (C24); the object [mapaPecas] is the
      reference reading of the pieces, the last piece of each type
      (C25); a piece with no price is shown the retífica button, whose
      click is always refused (C26).
    - Qualification lap table: the sort of a finalised qualification is
      the stable sorted permutation by (total, line mark) (C27), proved
      against the contract of [Array.prototype.sort] in the Section
      [Consistente]; the loop with its [break] marks exactly the first
      and second unevaluated rows (C28); a malformed [equipes] is
      reported as a connection error (C29); saving a mark posts one
      integer and reloads only on success; closing the qualification
      reloads exactly on success, whatever Challonge says (C30).
    - Garage loader: a second load with the same answers calls nothing,
      not even [carregarProximaEtapa] (C31); [garagem] and
      [window.garagemAtual] are one object holding the warehouse and
      cars that all have [pecas] (C32), proved with the lemmas of [Js]
      on property writes; a car request with a numeric [equipe_id] is
      never listed, while the piece request of the same team is (C33).
      After a failed load the next successful one draws again.
    - Next stage and enrolment: the requests of [inscreverEtapa] on
      every path, the enrolment only after a valid answer (C34); a load
      that finds no stage keeps the previous one, in which the team is
      then enrolled (C35); after a garage load the button carries the
      stage and the active car of that garage (C36), a theorem over
      [Garage] and [Stage] together. With the button on the page every
      enrolment attempt shows exactly one toast.
    - Carts: adding a new piece appends it, and removing it gives the
      cart back (C40); the cart invariants are lemmas of [ShopCart] and
      [WarehouseCart].

    ** Bounds and fuel

    Nothing needs fuel. The event loops are total step functions folded
    over a finite list of events, and the loops of the source are
    structural recursions over lists; [Nat.iter] counts the ticks of a
    retry interval. The constant 120 is the source's [maxTentativas],
    and 50 is the retry limit of [abrirEventoEmAnda]. Round counts in
    theorems are an arbitrary [m], or 119 and 120 where the source's
    constant fixes them. Number printing ([num_to_string]) is exact up to
    20 decimals, which covers integers and amounts in cents.

    ** Not modelled, and why

    - Rendering and the DOM are not modelled, except the observable
      outputs: the status text, the toasts, the modal buttons and
      options, and the banner and button. The rendering functions of the
      live screen are modelled only by whether they throw.
    - The data loaders other than [carregarGaragem] and
      [carregarProximaEtapa] appear only as logged loads.
    - The qualification and bracket screens of [qualificacao.js] are not
      modelled, apart from the live event, the places, the match
      modal and the admin lap table. Nor are the other admin screens.
    - Floating-point rounding, exponents and [Infinity] are not
      modelled: numbers are exact rationals, and [NaN] is [None] where
      it matters. Transaction ids are strings. [Number] on a string
      reads an optional sign and decimal digits with one point; hex,
      exponents and [Infinity] give [NaN]. [toLowerCase] maps ASCII
      letters only.
    - The awaits inside one handler run without interleaving with other
      events, except where a handler returns to the event loop
      ([Monitor], [Lenient], [Remover], [Notification], [LiveEvent],
      [Match]).
    - The compatibility filters that only grey out options of the
      add-pieces modal are not modelled.
    - [Array.prototype.sort] with a comparator that is not consistent
      (marks sent as strings) has an order the standard leaves to the
      engine; the model fixes the order of its insertion sort there,
      and the theorems about the sort assume numeric marks.
    - [renderizarGaragem] and the cart views called by
      [carregarGaragem] are recorded as calls and taken not to throw.
      Properties written on an array are not modelled (an array answer
      for the garage keeps its elements only, which is what its
      [JSON.stringify] shows).
    - In [Stage], [toLocaleDateString] and [toLocaleTimeString] are a
      variable of the Section, as is the [message] of an exception,
      which the engine chooses. The card's inner elements are taken to be
      in the document with the card. [toUpperCase] maps ASCII letters
      only.
    - Elements the handlers look up are taken to be in the document:
      the container of the admin lap table ([if (!container) return],
      qualificacao.js 1479, is not modelled), and the modal instances
      hidden by [bootstrap.Modal.getInstance(...).hide()] after an
      approval (script.js 2450) and in [confirmarDistribuicaoPecas]
      (3932), so those calls do not throw. In [Match], a modal is
      opened only when none is shown, which the modal backdrop
      enforces in the browser.
    - Prices and balances are read as numbers: [parseFloat(preco)] in
      [adicionarAoCarrinho] (3648) and [doricoins] in
      [gerarPixCarroAtivoDividido] (4013-4021) are rationals, so a
      [NaN] there is not modelled. The cost printed into the retífica
      button's [onclick] is passed back as the number it printed. *)

From stdpp Require Export base list gmap strings.
From Stdlib Require Export QArith Lqa.

(** ** JavaScript exceptions

    The handlers of [src/static/script.js] run inside [try]/[catch]
    blocks; what can be thrown is one of these. *)
Inductive js_error :=
| TypeError        (** property read on [undefined]/[null], [x.toFixed] on a non-number *)
| NetworkError     (** [fetch] rejected *)
| SyntaxError.     (** [resp.json()] on a body that is not JSON *)

#[export] Instance js_error_eq_dec : EqDecision js_error.
Proof. solve_decision. Defined.

(** ** A state and exception monad

    [SE S A] threads the page state [S] and may throw: the state reached
    at the throw is kept, exactly as JavaScript keeps the writes done
    before an exception. *)
Definition SE (S A : Type) : Type := S -> S * (A + js_error).

Module SE.
Definition ret {S A} (a : A) : SE S A := fun s => (s, inl a).
Definition throw {S A} (e : js_error) : SE S A := fun s => (s, inr e).
Definition bind {S A B} (c : SE S A) (k : A -> SE S B) : SE S B :=
  fun s => match c s with
           | (s', inl a) => k a s'
           | (s', inr e) => (s', inr e)
           end.
Definition get {S} : SE S S := fun s => (s, inl s).
Definition put {S} (s : S) : SE S unit := fun _ => (s, inl tt).
Definition modify {S} (f : S -> S) : SE S unit := fun s => (f s, inl tt).
(** [try { c } catch (e) { h e }] *)
Definition catch {S A} (c : SE S A) (h : js_error -> SE S A) : SE S A :=
  fun s => match c s with
           | (s', inl a) => (s', inl a)
           | (s', inr e) => h e s'
           end.
(** Lift an [option] whose [None] is a JavaScript [TypeError]. *)
Definition of_option {S A} (o : option A) : SE S A :=
  match o with Some a => ret a | None => throw TypeError end.
End SE.

Declare Scope granpix_scope.
Delimit Scope granpix_scope with gp.
Notation "x <-- c ;; k" := (SE.bind c (fun x => k))
  (at level 65, c at next level, right associativity) : granpix_scope.
Notation "c ;;; k" := (SE.bind c (fun _ => k))
  (at level 65, right associativity) : granpix_scope.

Create HintDb granpix discriminated.
Create Rewrite HintDb granpix_sum.

(** ** Sums of JavaScript numbers

    [arr.reduce((t, x) => t + f(x), 0)] and the [forEach] loops that do
    [total += f(x)] are left folds; money is modelled by exact rationals
    [Q], so two sums are compared with [Qeq] ([==]). *)
Local Open Scope Q_scope.

Definition sum_by {A} (f : A -> Q) (l : list A) : Q :=
  fold_left (fun t x => t + f x) l 0.

Lemma fold_left_Qplus_shift {A} (f : A -> Q) (l : list A) (a : Q) :
  fold_left (fun t x => t + f x) l a == a + fold_left (fun t x => t + f x) l 0.
Proof.
  revert a. induction l as [|x l IH]; intros a; simpl; [lra|].
  rewrite (IH (a + f x)), (IH (0 + f x)). lra.
Qed.

Lemma sum_by_nil {A} (f : A -> Q) : sum_by f [] = 0.
Proof. reflexivity. Qed.

Lemma sum_by_cons {A} (f : A -> Q) x l : sum_by f (x :: l) == f x + sum_by f l.
Proof. unfold sum_by. simpl. rewrite fold_left_Qplus_shift. lra. Qed.

Lemma sum_by_app {A} (f : A -> Q) l1 l2 :
  sum_by f (l1 ++ l2) == sum_by f l1 + sum_by f l2.
Proof.
  induction l1 as [|x l1 IH]; simpl.
  - rewrite sum_by_nil. lra.
  - rewrite !sum_by_cons, IH. lra.
Qed.

Lemma sum_by_ext {A} (f g : A -> Q) l :
  (forall x, x ∈ l -> f x == g x) -> sum_by f l == sum_by g l.
Proof.
  induction l as [|x l IH]; intros Hfg; [reflexivity|].
  rewrite !sum_by_cons, Hfg, IH; [reflexivity| |]; set_solver.
Qed.

Lemma sum_by_nonneg {A} (f : A -> Q) l :
  (forall x, x ∈ l -> 0 <= f x) -> 0 <= sum_by f l.
Proof.
  induction l as [|x l IH]; intros Hf; [unfold sum_by; simpl; lra|].
  rewrite sum_by_cons.
  assert (0 <= f x) by (apply Hf; set_solver).
  assert (0 <= sum_by f l) by (apply IH; set_solver). lra.
Qed.

#[export] Instance sum_by_perm {A} (f : A -> Q) :
  Proper (Permutation ==> Qeq) (sum_by f).
Proof.
  intros l1 l2 Hp. induction Hp as [|x l1 l2 _ IH|x y l|l1 l2 l3 _ IH1 _ IH2].
  - reflexivity.
  - rewrite !sum_by_cons, IH. reflexivity.
  - rewrite !sum_by_cons. lra.
  - by rewrite IH1.
Qed.

(** Splitting a list by a boolean test splits its sum. *)
Lemma sum_by_filter_split {A} (f : A -> Q) (p : A -> bool) l :
  sum_by f l == sum_by f (List.filter p l) + sum_by f (List.filter (fun x => negb (p x)) l).
Proof.
  induction l as [|x l IH]; simpl; [unfold sum_by; simpl; lra|].
  destruct (p x); simpl; rewrite !sum_by_cons, IH; lra.
Qed.

#[export] Hint Rewrite @sum_by_app : granpix_sum.

(** ** Lists *)

Lemma filter_partition_perm {A} (p : A -> bool) (l : list A) :
  Permutation l (List.filter p l ++ List.filter (fun x => negb (p x)) l).
Proof.
  induction l as [|x l IH]; simpl; [done|].
  destruct (p x); simpl.
  - by constructor.
  - etrans; [by apply perm_skip|]. apply Permutation_middle.
Qed.

Lemma list_filter_sublist {A} (f : A -> bool) (l : list A) :
  sublist (List.filter f l) l.
Proof. induction l as [|x l IH]; simpl; [done|]. destruct (f x); by constructor. Qed.

Lemma sublist_NoDup_fmap {A B} (g : A -> B) (l1 l2 : list A) :
  sublist l1 l2 -> NoDup (g <$> l2) -> NoDup (g <$> l1).
Proof. intros Hs Hnd. eapply sublist_NoDup; [done|]. by apply fmap_sublist. Qed.

Lemma sublist_Forall {A} (P : A -> Prop) (l1 l2 : list A) :
  sublist l1 l2 -> Forall P l2 -> Forall P l1.
Proof.
  intros Hs. rewrite !Forall_forall. intros H x Hx. apply H.
  by eapply elem_of_sublist.
Qed.

#[export] Hint Resolve list_filter_sublist sublist_NoDup_fmap sublist_Forall : granpix.

(** [arr.find(pred)]: the first element satisfying the test. *)
Definition js_find {A} (p : A -> bool) (l : list A) : option A :=
  List.find p l.

Lemma js_find_some {A} (p : A -> bool) l x :
  js_find p l = Some x -> x ∈ l /\ p x = true.
Proof.
  unfold js_find. intros H. split.
  - apply list_elem_of_In. by eapply find_some.
  - by eapply find_some.
Qed.

Lemma js_find_none {A} (p : A -> bool) l :
  js_find p l = None -> forall x, x ∈ l -> p x = false.
Proof.
  unfold js_find. intros H x Hx. apply list_elem_of_In in Hx. by eapply find_none.
Qed.

Lemma find_Forall_none {A} (p : A -> bool) l :
  Forall (fun x => p x = false) l -> List.find p l = None.
Proof. induction 1 as [|x l Hx _ IH]; simpl; [done|]. by rewrite Hx. Qed.

Lemma filter_Forall_false {A} (p : A -> bool) l :
  Forall (fun x => p x = false) l -> List.filter p l = [].
Proof. induction 1 as [|x l Hx _ IH]; simpl; [done|]. by rewrite Hx. Qed.

Lemma filter_Forall_true {A} (p : A -> bool) l :
  Forall (fun x => p x = true) l -> List.filter p l = l.
Proof. induction 1 as [|x l Hx _ IH]; simpl; [done|]. by rewrite Hx, IH. Qed.

#[export] Hint Resolve js_find_some js_find_none : granpix.

(** ** [forEach] whose callback may throw: a left fold in [option] *)
Fixpoint mfoldl {A B} (f : A -> B -> option A) (a : A) (l : list B) : option A :=
  match l with
  | [] => Some a
  | x :: l' => a' ← f a x; mfoldl f a' l'
  end.

Lemma mfoldl_app {A B} (f : A -> B -> option A) a l1 l2 :
  mfoldl f a (l1 ++ l2) = a' ← mfoldl f a l1; mfoldl f a' l2.
Proof.
  revert a. induction l1 as [|x l1 IH]; intros a; [done|]. cbn. destruct (f a x); cbn; [apply IH|done].
Qed.

(** A fold whose every step succeeds keeps any property the steps keep. *)
Lemma mfoldl_ind {A B} (P : A -> Prop) (f : A -> B -> option A) a l a' :
  (forall x y y', x ∈ l -> P y -> f y x = Some y' -> P y') ->
  P a -> mfoldl f a l = Some a' -> P a'.
Proof.
  revert a. induction l as [|x l IH]; intros a Hf Ha; cbn; [by intros [= <-]|].
  destruct (f a x) as [b|] eqn:E; [|done]. cbn. apply IH.
  - intros ????. apply Hf. set_solver.
  - apply (Hf x a b); [set_solver|done|done].
Qed.

(** A fold whose step fails exactly on the bad elements fails exactly
    when some element is bad. *)
Lemma mfoldl_None {A B} (f : A -> B -> option A) (ok : B -> bool) a l :
  (forall a x, f a x = None <-> ok x = false) -> mfoldl f a l = None <-> forallb ok l = false.
Proof.
  intros Hf. revert a. induction l as [|x l IH]; intros a; cbn; [done|].
  destruct (f a x) as [b|] eqn:E; cbn.
  - assert (ok x = true) as ->.
    { destruct (ok x) eqn:Ho; [done|]. apply (proj2 (Hf a x)) in Ho. congruence. }
    apply IH.
  - apply Hf in E. by rewrite E.
Qed.

Lemma mfoldl_Some {A B} (f : A -> B -> option A) a l :
  (forall a x, x ∈ l -> is_Some (f a x)) -> is_Some (mfoldl f a l).
Proof.
  revert a. induction l as [|x l IH]; intros a Hf; cbn; [done|].
  destruct (Hf a x) as [b Hb]; [set_solver|]. rewrite Hb. cbn. apply IH. intros ???. apply Hf. set_solver.
Qed.

(** ** Timers fired [n] times: [Nat.iter] *)
Lemma iter_succ_l {A} (f : A -> A) n x : Nat.iter (S n) f x = f (Nat.iter n f x).
Proof. done. Qed.

Lemma iter_succ_r {A} (f : A -> A) n x : Nat.iter (S n) f x = Nat.iter n f (f x).
Proof.
  induction n as [|n IH]; [done|].
  change (f (Nat.iter (S n) f x) = f (Nat.iter n f (f x))). by rewrite IH.
Qed.

Lemma iter_fixo {A} (f : A -> A) n x : f x = x -> Nat.iter n f x = x.
Proof. intros Hx. induction n as [|n IH]; [done|]. change (f (Nat.iter n f x) = x). by rewrite IH. Qed.

(** [Ltac] used across the components: unfold a handler, split its
    conditionals and close the trivial branches. *)
Ltac case_ifs :=
  repeat match goal with
         | |- context [if ?b then _ else _] => destruct b eqn:?
         | H : context [if ?b then _ else _] |- _ => destruct b eqn:?
         end.

Ltac invc H := inversion H; subst; clear H.

