(* ===== verification/Js.v ===== *)
(** * JavaScript values as the client reads them

    The client reads every server response with [await resp.json()] and
    then probes it with property reads, [||], [?.] and [===]. This file
    models those values ([jv]) and operators, so that the handlers of the
    other files can be written the way the source writes them. It also
    holds what the code does to values: [+], [-] and [>] on primitives,
    property writes, the spread [{...v}], [filter], and [JSON.stringify],
    with the lemmas that a write is read back. Numbers are exact
    rationals: floating-point rounding and [NaN] are not modelled. *)
From S2P Require Import Prelude.
From stdpp Require Import pretty.
Set Warnings "-register-all".

Inductive jv :=
| JUndef
| JNull
| JBool (b : bool)
| JNum (q : Q)
| JStr (s : string)
| JArr (xs : list jv)
| JObj (fs : list (string * jv)).

(** [if (v)]: the falsy values are [undefined], [null], [false], [0] and
    [""]. *)
Definition truthy (v : jv) : bool :=
  match v with
  | JUndef | JNull => false
  | JBool b => b
  | JNum q => negb (Qeq_bool q 0)
  | JStr s => negb (bool_decide (s = ""))
  | JArr _ | JObj _ => true
  end.

(** [a || b] returns [a] itself when it is truthy. *)
Definition js_or (a b : jv) : jv := if truthy a then a else b.

(** The last binding of a key wins, as in [JSON.parse]. *)
Definition assoc_last (k : string) (fs : list (string * jv)) : option jv :=
  fold_left (fun acc kv => if bool_decide (kv.1 = k) then Some kv.2 else acc) fs None.

(** [o.k]: reading a property of [undefined] or [null] throws a
    [TypeError] ([None]); a missing property is [undefined]. *)
Definition jget (o : jv) (k : string) : option jv :=
  match o with
  | JUndef | JNull => None
  | JObj fs => Some (default JUndef (assoc_last k fs))
  | _ => Some JUndef
  end.

(** [o?.k] never throws. *)
Definition jget_opt (o : jv) (k : string) : jv :=
  match o with
  | JUndef | JNull => JUndef
  | _ => default JUndef (jget o k)
  end.

(** [a === b] on primitive values; two objects read from different
    places of a JSON answer are different objects. *)
Definition js_strict_eq (a b : jv) : bool :=
  match a, b with
  | JUndef, JUndef | JNull, JNull => true
  | JBool x, JBool y => Bool.eqb x y
  | JNum x, JNum y => Qeq_bool x y
  | JStr x, JStr y => bool_decide (x = y)
  | _, _ => false
  end.

(** [v === "s"] and [v === true]. *)
Definition js_eq_str (v : jv) (s : string) : bool :=
  match v with JStr s' => bool_decide (s' = s) | _ => false end.

Definition js_is_true (v : jv) : bool :=
  match v with JBool true => true | _ => false end.

(** [typeof v === 'number'] gives the number read by [v.toFixed(2)]. *)
Definition js_number (v : jv) : option Q :=
  match v with JNum q => Some q | _ => None end.

(** [(v || 0)] read as a number, as in [peca.quantidade || 1]. *)
Definition num_or (v : jv) (d : Q) : Q :=
  match js_or v (JNum d) with JNum q => q | _ => d end.

(** ** Strings

    [String(v)] and template literals. Numbers print as their decimal
    expansion: exactly when it ends within 20 digits after the point
    (every integer, every amount in cents), otherwise cut after 20
    digits; the exponent notation and the rounding of floating-point
    numbers are not modelled. *)
Fixpoint casas (fuel : nat) (k : nat) (r d : Z) : nat :=
  match fuel with
  | O => k
  | S f => if bool_decide ((r * 10 ^ Z.of_nat k) mod d = 0)%Z then k else casas f (S k) r d
  end.

Definition zeros (n : nat) : string := String.concat "" (replicate n "0").

Definition num_to_string (q : Q) : string :=
  let q := Qred q in
  let n := Qnum q in
  let d := Zpos (Qden q) in
  let a := Z.abs n in
  let i := (a / d)%Z in
  let r := (a mod d)%Z in
  let k := casas 20 0 r d in
  let f := pretty ((r * 10 ^ Z.of_nat k) / d)%Z in
  (if bool_decide (n < 0)%Z then "-" else "") ++ pretty i ++
  (if bool_decide (k = 0) then "" else "." ++ zeros (k - String.length f) ++ f).

Fixpoint js_String (v : jv) : string :=
  match v with
  | JUndef => "undefined"
  | JNull => "null"
  | JBool b => if b then "true" else "false"
  | JNum q => num_to_string q
  | JStr s => s
  | JArr xs =>
      String.concat ","
        ((fix elems (xs : list jv) : list string :=
            match xs with
            | [] => []
            | x :: xs' => match x with JUndef | JNull => "" | _ => js_String x end :: elems xs'
            end) xs)
  | JObj _ => "[object Object]"
  end.

(** [s.split(",")] on a one-character separator. *)
Fixpoint js_split (c : Ascii.ascii) (s : string) : list string :=
  match s with
  | EmptyString => [""]
  | String a s' =>
      if bool_decide (a = c) then "" :: js_split c s'
      else match js_split c s' with
           | [] => [String a ""]
           | w :: ws => String a w :: ws
           end
  end.

(** The whitespace [trim()] removes, in ASCII: space, tab, line feed,
    vertical tab, form feed, carriage return. *)
Definition js_ws (a : Ascii.ascii) : bool :=
  let n := Ascii.nat_of_ascii a in bool_decide (n = 32 \/ 9 <= n <= 13).

Fixpoint ltrim (s : string) : string :=
  match s with
  | String a s' => if js_ws a then ltrim s' else s
  | EmptyString => EmptyString
  end.

Fixpoint rtrim (s : string) : string :=
  match s with
  | String a s' =>
      let r := rtrim s' in
      if js_ws a && bool_decide (r = EmptyString) then EmptyString else String a r
  | EmptyString => EmptyString
  end.

Definition js_trim (s : string) : string := rtrim (ltrim s).

(** The separator [','] of [split(',')]. *)
Definition virgula : Ascii.ascii := Ascii.ascii_of_nat 44.

(** [arr.includes(x)] on strings. *)
Definition js_includes (xs : list string) (x : string) : bool := bool_decide (x ∈ xs).

(** [a < b] for a value read from the server and a number: [null] and
    [false] count as 0, [true] as 1, [undefined] and the other values as
    [NaN] (numeric strings are not parsed), which makes the comparison
    false. *)
Definition js_lt_num (v : jv) (b : Q) : bool :=
  match v with
  | JNum a => negb (Qle_bool b a)
  | JNull => negb (Qle_bool b 0)
  | JBool x => negb (Qle_bool b (if x then 1 else 0))
  | _ => false
  end.

(** ** Objects used as dictionaries

    The keys of a JavaScript object are strings, enumerated by
    [Object.keys], [Object.values] and [Object.entries] in this order:
    first the array indices (canonical decimal numerals below
    [2^32 - 1]) in increasing numeric order, then the other keys in
    insertion order. *)
Definition digito (a : Ascii.ascii) : option N :=
  let n := Ascii.nat_of_ascii a in
  if bool_decide (48 <= n <= 57) then Some (N.of_nat (n - 48)) else None.

Fixpoint digitos (s : string) (acc : N) : option N :=
  match s with
  | EmptyString => Some acc
  | String a s' => d ← digito a; digitos s' (10 * acc + d)%N
  end.

(** [s] as an array index: digits only, no leading zero but for "0". *)
Definition indice_array (s : string) : option N :=
  match s with
  | EmptyString => None
  | String a s' =>
      if bool_decide (Ascii.nat_of_ascii a = 48) && negb (bool_decide (s' = EmptyString)) then None
      else n ← digitos s 0; if bool_decide (n < 4294967295)%N then Some n else None
  end.

Fixpoint inserir_indice (k : N * string) (l : list (N * string)) : list (N * string) :=
  match l with
  | [] => [k]
  | x :: l' => if bool_decide (k.1 <= x.1)%N then k :: l else x :: inserir_indice k l'
  end.

(** The enumeration order of keys inserted in the order [ks] (each once). *)
Definition ordem_chaves (ks : list string) : list string :=
  let idx := foldr (fun k acc => match indice_array k with
                                 | Some n => inserir_indice (n, k) acc
                                 | None => acc end) [] ks in
  (snd <$> idx) ++ List.filter (fun k => negb (bool_decide (is_Some (indice_array k)))) ks.

(** [obj[k]] read or created by [if (!obj[k]) obj[k] = []; obj[k].push(x)]:
    the groups in insertion order of their keys. *)
Fixpoint agrupar_em {A} (k : string) (x : A) (g : list (string * list A)) : list (string * list A) :=
  match g with
  | [] => [(k, [x])]
  | (k', xs) :: g' => if bool_decide (k' = k) then (k', xs ++ [x]) :: g' else (k', xs) :: agrupar_em k x g'
  end.

Definition agrupar {A} (chave : A -> string) (l : list A) : list (string * list A) :=
  foldl (fun g x => agrupar_em (chave x) x g) [] l.

(** [Object.entries(obj)] of such an object. *)
Definition entries {B} (g : list (string * B)) : list (string * B) :=
  omap (fun k => List.find (fun kv => bool_decide (kv.1 = k)) g) (ordem_chaves (fst <$> g)).

(** [parseFloat(s)]: leading white space, a sign, the digits and the
    decimals of the longest numeric prefix; [None] is [NaN] (no digit at
    all). Exponents and [Infinity] are not modelled. *)
Fixpoint ler_digitos (s : string) (acc : Z) (n : nat) : Z * nat * string :=
  match s with
  | String a s' =>
      match digito a with
      | Some d => ler_digitos s' (10 * acc + Z.of_N d)%Z (S n)
      | None => (acc, n, s)
      end
  | EmptyString => (acc, n, s)
  end.

Definition parseFloat (s : string) : option Q :=
  let s := ltrim s in
  let '(neg, s) := match s with
                   | String a r => if bool_decide (Ascii.nat_of_ascii a = 45) then (true, r)
                                   else if bool_decide (Ascii.nat_of_ascii a = 43) then (false, r)
                                   else (false, s)
                   | EmptyString => (false, s)
                   end in
  let '(i, ni, r) := ler_digitos s 0 0 in
  let '(f, nf) := match r with
                  | String a r' => if bool_decide (Ascii.nat_of_ascii a = 46)
                                   then let '(f, nf, _) := ler_digitos r' 0 0 in (f, nf)
                                   else (0%Z, 0)
                  | EmptyString => (0%Z, 0)
                  end in
  if bool_decide (ni + nf = 0) then None
  else Some (Qred ((if neg then -1 else 1) * (inject_Z i + Qmake f (Z.to_pos (10 ^ Z.of_nat nf)%Z))))%Q.

(** [parseInt(String(v))]: the integer prefix after white space and a
    sign; [None] is [NaN]. *)
Definition parseInt (s : string) : option Z :=
  let s := ltrim s in
  let '(neg, s) := match s with
                   | String a r => if bool_decide (Ascii.nat_of_ascii a = 45) then (true, r)
                                   else if bool_decide (Ascii.nat_of_ascii a = 43) then (false, r)
                                   else (false, s)
                   | EmptyString => (false, s)
                   end in
  let '(i, n, _) := ler_digitos s 0 0 in
  if bool_decide (n = 0) then None else Some (if neg then (- i)%Z else i).

(** [Number(s)] on a string: the white space around it is trimmed, the
    empty string is [0], and otherwise the whole rest must be a decimal
    numeral with an optional sign; [None] is [NaN]. Exponents,
    [Infinity] and the [0x], [0o], [0b] prefixes are not modelled. *)
Definition numero_str (s : string) : option Q :=
  let t := js_trim s in
  if bool_decide (t = EmptyString) then Some 0%Q else
  let '(neg, r) := match t with
                   | String a r => if bool_decide (Ascii.nat_of_ascii a = 45) then (true, r)
                                   else if bool_decide (Ascii.nat_of_ascii a = 43) then (false, r)
                                   else (false, t)
                   | EmptyString => (false, t)
                   end in
  let '(i, ni, r) := ler_digitos r 0 0 in
  let '(f, nf, r) := match r with
                     | String a r' => if bool_decide (Ascii.nat_of_ascii a = 46)
                                      then ler_digitos r' 0 0 else (0%Z, 0, r)
                     | EmptyString => (0%Z, 0, r)
                     end in
  if bool_decide (ni + nf = 0) || negb (bool_decide (r = EmptyString)) then None
  else Some (Qred ((if neg then -1 else 1) * (inject_Z i + Qmake f (Z.to_pos (10 ^ Z.of_nat nf)%Z))))%Q.

(** [Number(v)]: [undefined] and objects are [NaN], [null] is [0], an
    array goes through its string. *)
Definition js_Number (v : jv) : option Q :=
  match v with
  | JUndef => None
  | JNull => Some 0%Q
  | JBool b => Some (if b then 1 else 0)%Q
  | JNum q => Some q
  | JStr s => numero_str s
  | JArr _ => numero_str (js_String v)
  | JObj _ => None
  end.

(** [Number(v) || d]: [NaN] and [0] give [d]. *)
Definition numero_or (v : jv) (d : Q) : Q :=
  match js_Number v with
  | Some q => if Qeq_bool q 0 then d else q
  | None => d
  end.

(** [s.toLowerCase()] on the ASCII letters; the bytes of other
    characters are kept. *)
Definition minuscula (a : Ascii.ascii) : Ascii.ascii :=
  let n := Ascii.nat_of_ascii a in
  if Nat.leb 65 n && Nat.leb n 90 then Ascii.ascii_of_nat (n + 32) else a.

Fixpoint minusculas (s : string) : string :=
  match s with
  | EmptyString => EmptyString
  | String a s' => String (minuscula a) (minusculas s')
  end.

(** [arr.find(pred)] when the test may throw ([None]): the elements
    after the first hit are not tested. *)
Fixpoint find_js (f : jv -> option bool) (l : list jv) : option (option jv) :=
  match l with
  | [] => Some None
  | x :: l' => match f x with
               | None => None
               | Some true => Some (Some x)
               | Some false => find_js f l'
               end
  end.

(** A JSON object literal. *)
Definition obj (fs : list (string * jv)) : jv := JObj fs.

(** ** The operators [+], [-] and [>] on values

    A value as [+] and [-] see it after [ToPrimitive]: a number ([None]
    is [NaN]) or a string (arrays and objects become their string). *)
Inductive prim := PNum (q : option Q) | PStr (s : string).

Definition prim_de (v : jv) : prim :=
  match v with
  | JUndef => PNum None
  | JNull => PNum (Some 0%Q)
  | JBool b => PNum (Some (if b then 1 else 0)%Q)
  | JNum q => PNum (Some q)
  | JStr s => PStr s
  | JArr _ | JObj _ => PStr (js_String v)
  end.

Definition prim_String (p : prim) : string :=
  match p with PNum (Some q) => num_to_string q | PNum None => "NaN" | PStr s => s end.

(** [a + b]: a string on either side concatenates. *)
Definition js_mais (a b : prim) : prim :=
  match a, b with
  | PNum x, PNum y => PNum (x' ← x; y' ← y; Some (x' + y')%Q)
  | _, _ => PStr (prim_String a ++ prim_String b)
  end.

Definition prim_Number (p : prim) : option Q :=
  match p with PNum x => x | PStr s => numero_str s end.

(** [a - b], [NaN] as [None]. *)
Definition js_menos (a b : prim) : option Q :=
  x ← prim_Number a; y ← prim_Number b; Some (x - y)%Q.

(** [a === b] on primitives: [NaN] is equal to nothing. *)
Definition prim_strict_eq (a b : prim) : bool :=
  match a, b with
  | PNum (Some x), PNum (Some y) => Qeq_bool x y
  | PStr x, PStr y => bool_decide (x = y)
  | _, _ => false
  end.

(** [p > 0]: a string is compared as the number it reads. *)
Definition prim_positivo (p : prim) : bool :=
  match prim_Number p with Some q => negb (Qle_bool q 0) | None => false end.

(** ** Objects written by the code

    [o.k = v] on an object: an existing key keeps its place (and a
    repeated key, read with the last binding, becomes one). *)
Fixpoint campo_set (fs : list (string * jv)) (k : string) (v : jv) : list (string * jv) :=
  match fs with
  | [] => [(k, v)]
  | (k', v') :: r =>
      if bool_decide (k' = k) then (k, v) :: List.filter (fun p => negb (bool_decide (p.1 = k))) r
      else (k', v') :: campo_set r k v
  end.

(** [o.k = v]: it throws on [undefined] and [null], and is ignored on
    a number, a string or a boolean (the scripts are not in strict
    mode). A property added to an array is not modelled. *)
Definition js_set (o : jv) (k : string) (v : jv) : option jv :=
  match o with
  | JUndef | JNull => None
  | JObj fs => Some (JObj (campo_set fs k v))
  | _ => Some o
  end.

(** The index keys [String(i)] of an array or a string. *)
Definition indice (i : nat) : string := js_String (JNum (inject_Z (Z.of_nat i))).

Fixpoint caracteres (s : string) : list jv :=
  match s with EmptyString => [] | String a r => JStr (String a EmptyString) :: caracteres r end.

(** [{...v}]: the own enumerable properties, in order. *)
Definition js_espalhar (v : jv) : list (string * jv) :=
  match v with
  | JObj fs => foldl (fun acc kv => campo_set acc kv.1 kv.2) [] fs
  | JArr xs => imap (fun i x => (indice i, x)) xs
  | JStr s => imap (fun i x => (indice i, x)) (caracteres s)
  | _ => []
  end.

(** [v.length]: of an array or a string, or the [length] property of
    anything else. *)
Definition js_length (v : jv) : option jv :=
  match v with
  | JArr xs => Some (JNum (inject_Z (Z.of_nat (length xs))))
  | JStr s => Some (JNum (inject_Z (Z.of_nat (String.length s))))
  | _ => jget v "length"
  end.

(** [arr.filter(pred)] when the test may throw ([None]). *)
Fixpoint filter_js (f : jv -> option bool) (l : list jv) : option (list jv) :=
  match l with
  | [] => Some []
  | x :: l' =>
      match f x, filter_js f l' with
      | Some b, Some r => Some (if b then x :: r else r)
      | _, _ => None
      end
  end.

(** ** [JSON.stringify]

    A string between quotes, with the quote, the backslash and the
    control characters escaped. *)
Definition aspas : string := String (Ascii.ascii_of_nat 34) EmptyString.
Definition barra : string := String (Ascii.ascii_of_nat 92) EmptyString.

Definition hex (n : nat) : string :=
  String (Ascii.ascii_of_nat (if Nat.ltb n 10 then 48 + n else 87 + n)) EmptyString.

Definition escapar_char (a : Ascii.ascii) : string :=
  let n := Ascii.nat_of_ascii a in
  if Nat.eqb n 34 then barra +:+ aspas
  else if Nat.eqb n 92 then barra +:+ barra
  else if Nat.eqb n 8 then barra +:+ "b"
  else if Nat.eqb n 12 then barra +:+ "f"
  else if Nat.eqb n 10 then barra +:+ "n"
  else if Nat.eqb n 13 then barra +:+ "r"
  else if Nat.eqb n 9 then barra +:+ "t"
  else if Nat.ltb n 32 then barra +:+ "u00" +:+ hex (n / 16) +:+ hex (n mod 16)
  else String a EmptyString.

Fixpoint escapar (s : string) : string :=
  match s with EmptyString => EmptyString | String a r => escapar_char a +:+ escapar r end.

Definition citar (s : string) : string := aspas +:+ escapar s +:+ aspas.

(** The fields of an object once its repeated keys are merged. *)
Definition campos_unicos {B} (fs : list (string * B)) : list (string * B) :=
  foldl (fun acc kv =>
           if bool_decide (kv.1 ∈ acc.*1)
           then (fun p => if bool_decide (p.1 = kv.1) then kv else p) <$> acc
           else acc ++ [kv]) [] fs.

(** [JSON.stringify(v)]: [None] is [undefined], which an array writes
    as [null] and an object leaves out. *)
Fixpoint js_stringify (v : jv) : option string :=
  match v with
  | JUndef => None
  | JNull => Some "null"
  | JBool b => Some (if b then "true" else "false")
  | JNum q => Some (num_to_string q)
  | JStr s => Some (citar s)
  | JArr xs =>
      Some ("[" +:+ String.concat ","
              ((fix elems (xs : list jv) : list string :=
                  match xs with
                  | [] => []
                  | x :: r => default "null" (js_stringify x) :: elems r
                  end) xs) +:+ "]")
  | JObj fs =>
      Some ("{" +:+ String.concat ","
              (omap (fun kt => (fun t => citar kt.1 +:+ ":" +:+ t) <$> kt.2)
                 (campos_unicos
                    ((fix campos (fs : list (string * jv)) : list (string * option string) :=
                        match fs with
                        | [] => []
                        | (k, x) :: r => (k, js_stringify x) :: campos r
                        end) fs))) +:+ "}")
  end.

Lemma jget_obj_hit k v fs :
  jget (JObj (fs ++ [(k, v)])) k = Some v.
Proof.
  unfold jget, assoc_last. rewrite fold_left_app. simpl.
  by rewrite bool_decide_eq_true_2.
Qed.

Lemma jget_opt_jget o k v : jget o k = Some v -> jget_opt o k = v.
Proof. destruct o; simpl; congruence. Qed.

Lemma jget_none o k : jget o k = None <-> o = JUndef \/ o = JNull.
Proof. destruct o; simpl; intuition congruence. Qed.

Lemma js_eq_str_spec v s : js_eq_str v s = true <-> v = JStr s.
Proof.
  destruct v; simpl; split; try done.
  - by intros ?%bool_decide_eq_true_1; subst.
  - intros [= ->]. by apply bool_decide_eq_true_2.
Qed.

Lemma js_is_true_spec v : js_is_true v = true <-> v = JBool true.
Proof. destruct v as [| |[]| | | |]; simpl; intuition congruence. Qed.

Lemma js_or_truthy a b : truthy a = true -> js_or a b = a.
Proof. unfold js_or. by intros ->. Qed.

Lemma js_or_falsy a b : truthy a = false -> js_or a b = b.
Proof. unfold js_or. by intros ->. Qed.

#[export] Hint Rewrite js_or_truthy js_or_falsy using reflexivity : granpix_sum.
#[export] Hint Resolve jget_opt_jget : granpix.

(** ** Grouping and [Object.entries] *)

Lemma inserir_indice_perm k l : inserir_indice k l ≡ₚ k :: l.
Proof.
  induction l as [|x l IH]; simpl; [done|].
  case_bool_decide; [done|]. rewrite IH. by constructor.
Qed.

(** The enumeration order lists each key once. *)
Lemma ordem_chaves_perm ks : ordem_chaves ks ≡ₚ ks.
Proof.
  unfold ordem_chaves. symmetry.
  etrans; [apply (filter_partition_perm (fun k => bool_decide (is_Some (indice_array k))))|].
  apply Permutation_app; [|done].
  induction ks as [|k ks IH]; simpl; [done|].
  destruct (indice_array k) eqn:Hk; simpl.
  - rewrite inserir_indice_perm. simpl. by f_equiv.
  - done.
Qed.

Lemma omap_perm {A B} (f : A -> option B) l1 l2 : l1 ≡ₚ l2 -> omap f l1 ≡ₚ omap f l2.
Proof.
  induction 1 as [|x l1 l2 _ IH|x y l|l1 l2 l3 _ IH1 _ IH2]; simpl.
  - done.
  - destruct (f x); [by f_equiv|done].
  - destruct (f x), (f y); try done. apply perm_swap.
  - by etrans.
Qed.

Section Entradas.
Context {B : Type}.
Implicit Types (g : list (string * B)).

Definition busca g (k : string) : option (string * B) :=
  List.find (fun kv => bool_decide (kv.1 = k)) g.

Lemma busca_omap g : NoDup (fst <$> g) -> omap (busca g) (fst <$> g) = g.
Proof.
  induction g as [|[k xs] g IH]; simpl; intros Hnd; [done|].
  apply NoDup_cons in Hnd as [Hk Hnd]. unfold busca at 1. simpl.
  rewrite bool_decide_eq_true_2 by done. f_equal.
  transitivity (omap (busca g) (fst <$> g)); [|by apply IH].
  apply list_omap_ext, Forall_Forall2_diag, Forall_forall. intros k' Hk'.
  unfold busca. simpl. rewrite bool_decide_eq_false_2; [done|]. by intros ->.
Qed.

(** [Object.entries] lists each group once, when the keys are distinct. *)
Lemma entries_perm g : NoDup (fst <$> g) -> entries g ≡ₚ g.
Proof.
  intros Hnd. unfold entries. fold (busca g).
  rewrite (omap_perm _ _ _ (ordem_chaves_perm _)). by rewrite busca_omap.
Qed.

End Entradas.

Section Grupos.
Context {A : Type}.
Implicit Types (g : list (string * list A)) (l : list A).

(** The groups are well formed for [chave]: distinct keys, each member
    under its own key. *)
Definition grupos_ok (chave : A -> string) g : Prop :=
  NoDup (fst <$> g) /\ Forall (fun kg => Forall (fun x => chave x = kg.1) kg.2) g.

Lemma agrupar_em_fst k x g :
  k ∈ fst <$> g -> fst <$> agrupar_em k x g = fst <$> g.
Proof.
  induction g as [|[k' xs] g IH]; simpl; [by intros ?%elem_of_nil|].
  case_bool_decide; simpl; [done|]. intros [?|?]%elem_of_cons; [congruence|]. f_equal. by apply IH.
Qed.

Lemma agrupar_em_fst_novo k x g :
  k ∉ fst <$> g -> fst <$> agrupar_em k x g = (fst <$> g) ++ [k].
Proof.
  induction g as [|[k' xs] g IH]; simpl; [done|].
  intros Hk. rewrite bool_decide_eq_false_2 by (intros ->; apply Hk; left).
  simpl. f_equal. apply IH. intros ?. apply Hk. by right.
Qed.

Lemma agrupar_em_perm k x g : concat (snd <$> agrupar_em k x g) ≡ₚ x :: concat (snd <$> g).
Proof.
  induction g as [|[k' xs] g IH]; simpl; [done|].
  case_bool_decide; simpl.
  - rewrite <-app_assoc. simpl. by rewrite Permutation_middle.
  - rewrite IH. by rewrite Permutation_middle.
Qed.

Lemma agrupar_em_ok chave x g : grupos_ok chave g -> grupos_ok chave (agrupar_em (chave x) x g).
Proof.
  intros [Hnd Hf]. split.
  - destruct (decide (chave x ∈ fst <$> g)).
    + by rewrite agrupar_em_fst.
    + rewrite agrupar_em_fst_novo by done. apply NoDup_app. split_and!; [done| |by apply NoDup_singleton].
      intros ? ? ->%list_elem_of_singleton. done.
  - clear Hnd. induction g as [|[k' xs] g IH]; simpl; [by repeat constructor|].
    apply Forall_cons in Hf as [Hk Hf]. case_bool_decide.
    + constructor; [|done]. simpl in *. apply Forall_app. split; [done|]. by constructor.
    + constructor; [done|]. by apply IH.
Qed.

(** Grouping keeps every element once and puts it under its key. *)
Lemma agrupar_spec chave l :
  grupos_ok chave (agrupar chave l) /\ concat (snd <$> agrupar chave l) ≡ₚ l.
Proof.
  unfold agrupar. cut (forall g, grupos_ok chave g ->
    grupos_ok chave (foldl (fun g x => agrupar_em (chave x) x g) g l) /\
    concat (snd <$> foldl (fun g x => agrupar_em (chave x) x g) g l) ≡ₚ concat (snd <$> g) ++ l).
  { intros Hc. destruct (Hc [] (conj NoDup_nil_2 (Forall_nil_2 _))) as [Hok Hp]. by split. }
  induction l as [|x l IH]; intros g Hg; simpl.
  - by rewrite app_nil_r.
  - destruct (IH _ (agrupar_em_ok chave x g Hg)) as [Hok Hp]. split; [done|].
    rewrite Hp, agrupar_em_perm. by rewrite <-Permutation_middle.
Qed.

(** Hence the groups [Object.entries] enumerates. *)
Lemma entries_agrupar chave l :
  let es := entries (agrupar chave l) in
  NoDup (fst <$> es) /\ Forall (fun kg => Forall (fun x => chave x = kg.1) kg.2) es /\
  concat (snd <$> es) ≡ₚ l.
Proof.
  destruct (agrupar_spec chave l) as [[Hnd Hf] Hp].
  pose proof (entries_perm _ Hnd) as He. simpl. split_and!.
  - by rewrite He.
  - by rewrite He.
  - by rewrite He.
Qed.

End Grupos.

Lemma assoc_last_fold k l acc :
  fold_left (fun acc kv => if bool_decide (kv.1 = k) then Some kv.2 else acc) l acc =
  match assoc_last k l with Some v => Some v | None => acc end.
Proof.
  unfold assoc_last. revert acc. induction l as [|kv l IH]; intros acc; [done|]. cbn.
  rewrite (IH (if bool_decide (kv.1 = k) then Some kv.2 else acc)),
          (IH (if bool_decide (kv.1 = k) then Some kv.2 else None)).
  destruct (fold_left _ l None); [done|]. by case_bool_decide.
Qed.

Lemma assoc_last_cons k kv l :
  assoc_last k (kv :: l) =
  match assoc_last k l with Some v => Some v | None => if bool_decide (kv.1 = k) then Some kv.2 else None end.
Proof. unfold assoc_last at 1. cbn. by rewrite assoc_last_fold. Qed.

Lemma assoc_last_filter_eq k l :
  assoc_last k (List.filter (fun p => negb (bool_decide (p.1 = k))) l) = None.
Proof.
  induction l as [|[k1 v1] l IH]; [done|]. cbn [List.filter fst].
  case_bool_decide as Hk; cbn [negb]; [done|].
  rewrite assoc_last_cons, IH. cbn [fst]. by rewrite bool_decide_eq_false_2.
Qed.

Lemma assoc_last_filter_ne k k' l :
  k' <> k -> assoc_last k' (List.filter (fun p => negb (bool_decide (p.1 = k))) l) = assoc_last k' l.
Proof.
  intros Hne. induction l as [|[k1 v1] l IH]; [done|]. cbn [List.filter fst].
  rewrite (assoc_last_cons k' (k1, v1) l). cbn [fst snd].
  case_bool_decide as Hk; cbn [negb].
  - subst k1. rewrite IH. destruct (assoc_last k' l); [done|]. by rewrite bool_decide_eq_false_2.
  - by rewrite assoc_last_cons, IH.
Qed.

Lemma campo_set_eq fs k v : assoc_last k (campo_set fs k v) = Some v.
Proof.
  induction fs as [|[k' v'] fs IH]; cbn [campo_set].
  { unfold assoc_last. cbn. by rewrite bool_decide_eq_true_2. }
  case_bool_decide; rewrite assoc_last_cons; cbn [fst snd].
  - rewrite assoc_last_filter_eq. by rewrite bool_decide_eq_true_2.
  - by rewrite IH.
Qed.

Lemma campo_set_ne fs k k' v : k' <> k -> assoc_last k' (campo_set fs k v) = assoc_last k' fs.
Proof.
  intros Hne. induction fs as [|[k'' v''] fs IH]; cbn [campo_set].
  - rewrite assoc_last_cons. cbn [fst]. rewrite bool_decide_eq_false_2; [done|congruence].
  - case_bool_decide as Hk; rewrite !assoc_last_cons; cbn [fst snd].
    + subst k''. rewrite assoc_last_filter_ne by done.
      destruct (assoc_last k' fs); [done|]. rewrite !bool_decide_eq_false_2; [done|congruence..].
    + by rewrite IH.
Qed.

Lemma jget_opt_set_eq fs k v : jget_opt (JObj (campo_set fs k v)) k = v.
Proof. cbn. by rewrite campo_set_eq. Qed.

Lemma jget_opt_set_ne fs k k' v : k' <> k -> jget_opt (JObj (campo_set fs k v)) k' = jget_opt (JObj fs) k'.
Proof. intros. cbn. by rewrite campo_set_ne. Qed.

Lemma js_or_arr_truthy p xs : truthy (js_or p (JArr xs)) = true.
Proof. unfold js_or. by destruct (truthy p) eqn:E. Qed.

Lemma jget_truthy_some o k : truthy (jget_opt o k) = true -> jget o k = Some (jget_opt o k).
Proof. destruct o; cbn; done. Qed.

Lemma jget_opt_truthy_base o k : truthy (jget_opt o k) = true -> truthy o = true.
Proof. destruct o; cbn; done. Qed.
