(* ===== verification/ShopCart.v ===== *)
(** * The shop cart ([carrinho]) and its split by destination

    Models the global [carrinho] of [src/static/script.js] and the
    functions that change it ([adicionarAoCarrinho], [removerDoCarrinho],
    [limparCarrinho]), its total ([calcularTotalCarrinho]) and view
    ([atualizarUICarrinho]), and the destination modal: the map
    [destinosPecas] ([abrirModalDestino], [selecionarDestinoPeca]), the
    duplicate checks ([verificarPecasDuplicadasNoCarroAtivo],
    [renderizarListaPecasDestino]), the totals ([atualizarTotaisPecas])
    and the split done by [confirmarDistribuicaoPecas]. *)
From S2P Require Import Prelude Js.
Set Warnings "-register-all".

Inductive toast_kind := TSuccess | TError | TWarning | TInfo.

#[export] Instance toast_kind_eq_dec : EqDecision toast_kind.
Proof. solve_decision. Defined.

(** A toast shown by [mostrarToast(mensagem, tipo)]; the message is kept
    as a short ASCII key naming the source's text. *)
Definition toast := (toast_kind * string)%type.

Module ShopCart.

(** The object pushed by [adicionarAoCarrinho]:
    [{id, nome, preco: parseFloat(preco), compatibilidade, tipo, quantidade: 1}]. *)
Record peca := mk_peca {
  pc_id : string;
  pc_nome : string;
  pc_preco : Q;
  pc_compat : string;
  pc_tipo : string;
  pc_quantidade : Q
}.

(** [destinosPecas[id]] takes the two values the buttons pass. *)
Inductive destino := Armazem | CarroAtivo.

#[export] Instance destino_eq_dec : EqDecision destino.
Proof. solve_decision. Defined.

Definition has_id (id : string) (p : peca) : bool := bool_decide (pc_id p = id).

(** [adicionarAoCarrinho(pecaId, nomePeca, preco, compatibilidade, tipo)]
    (script.js 3643-3672): a second copy of an id is refused with a
    warning toast. *)
Definition adicionarAoCarrinho (c : list peca) (pecaId nome : string) (preco : Q)
    (compat tipo : string) : list peca * option toast :=
  let p := mk_peca pecaId nome preco compat tipo 1 in
  match js_find (has_id pecaId) c with
  | Some _ => (c, Some (TWarning, "ja_esta_no_carrinho"))
  | None => (c ++ [p], None)
  end.

(** [removerDoCarrinho(pecaId)]: [carrinho.filter(p => p.id !== pecaId)]. *)
Definition removerDoCarrinho (c : list peca) (pecaId : string) : list peca :=
  List.filter (fun p => negb (has_id pecaId p)) c.

(** [limparCarrinho()]. *)
Definition limparCarrinho (c : list peca) : list peca := [].

(** [calcularTotalCarrinho()]: [reduce((t, p) => t + p.preco * p.quantidade, 0)]. *)
Definition calcularTotalCarrinho (c : list peca) : Q :=
  sum_by (fun p => pc_preco p * pc_quantidade p) c.

(** [peca.preco * (peca.quantidade || 1)], used by the other totals. *)
Definition subtotal (p : peca) : Q :=
  pc_preco p * (if Qeq_bool (pc_quantidade p) 0 then 1 else pc_quantidade p).

(** What [atualizarUICarrinho()] (script.js 3693-3744) writes: the badge
    and its visibility, the buy button, and the panel content. *)
Inductive cart_content :=
| CartVazio
| CartItens (itens : list (string * Q * Q)) (total : Q).

Record cart_view := {
  cv_badge : nat;
  cv_badge_visivel : bool;
  cv_btn_comprar : bool;
  cv_conteudo : cart_content
}.

Definition atualizarUICarrinho (c : list peca) : cart_view :=
  {| cv_badge := length c;
     cv_badge_visivel := bool_decide (0 < length c)%nat;
     cv_btn_comprar := bool_decide (0 < length c)%nat;
     cv_conteudo :=
       match c with
       | [] => CartVazio
       | _ => CartItens (map (fun p => (pc_nome p, pc_preco p,
                  if Qeq_bool (pc_quantidade p) 0 then 1 else pc_quantidade p)) c)
                (calcularTotalCarrinho c)
       end |}.

(** [abrirModalDestino()] (script.js 3756-3775): an empty cart is refused;
    otherwise every piece starts in the warehouse. *)
Definition abrirModalDestino (c : list peca) (d : gmap string destino)
    : gmap string destino * option toast :=
  match c with
  | [] => (d, Some (TError, "carrinho_vazio"))
  | _ => (foldl (fun m p => match m !! pc_id p with
                            | Some _ => m
                            | None => <[pc_id p := Armazem]> m
                            end) ∅ c, None)
  end.

(** [selecionarDestinoPeca(pecaId, novoDestino)] (script.js 3884-3895):
    the active car is refused when the team has none. *)
Definition selecionarDestinoPeca (d : gmap string destino) (temCarroAtivo : bool)
    (pecaId : string) (novo : destino) : gmap string destino * option toast :=
  if bool_decide (novo = CarroAtivo) && negb temCarroAtivo
  then (d, Some (TError, "sem_carro_ativo"))
  else (<[pecaId := novo]> d, None).

Definition is_dest (d : gmap string destino) (x : destino) (p : peca) : bool :=
  bool_decide (d !! pc_id p = Some x).

(** [destinosPecas[p.id] || 'armazem']. *)
Definition dest_or_armazem (d : gmap string destino) (p : peca) : destino :=
  default Armazem (d !! pc_id p).

(** The key the blocking check counts by:
    [peca.tipo || peca.compatibilidade || 'desconhecido']. *)
Definition chave_verificar (p : peca) : string :=
  if bool_decide (pc_tipo p = "") then
    (if bool_decide (pc_compat p = "") then "desconhecido" else pc_compat p)
  else pc_tipo p.

(** The key the warning counts by: [peca.tipo || 'desconhecido']. *)
Definition chave_render (p : peca) : string :=
  if bool_decide (pc_tipo p = "") then "desconhecido" else pc_tipo p.

Definition conta (m : gmap string nat) (k : string) : gmap string nat :=
  <[k := S (default 0%nat (m !! k))]> m.

(** [verificarPecasDuplicadasNoCarroAtivo()] (script.js 3777-3797): the
    loop over the pieces sent to the active car, skipping upgrades, with
    its counter object, its flag and its list of ids. *)
Definition verificarPecasDuplicadasNoCarroAtivo (c : list peca) (d : gmap string destino)
    : bool * list string :=
  let '(_, tem, ids) :=
    foldl (fun '(m, tem, ids) p =>
             if bool_decide (pc_tipo p = "upgrade") then (m, tem, ids)
             else
               let k := chave_verificar p in
               let m' := conta m k in
               if bool_decide (1 < default 0 (m' !! k))%nat then
                 (m', true, if bool_decide (pc_id p ∈ ids) then ids else ids ++ [pc_id p])
               else (m', tem, ids))
          (∅ : gmap string nat, false, [])
          (List.filter (is_dest d CarroAtivo) c) in
  (tem, ids).

(** [renderizarListaPecasDestino()] (script.js 3803-3818), the part that
    decides the red warning: the counter object [contagemTipos] over the
    base pieces sent to the active car, read back with [Object.keys] in
    the engine's key order. The count of a key is the length of its group
    in [agrupar]. *)
Definition tiposComDuplicatas (c : list peca) (d : gmap string destino) : list string :=
  let base := List.filter (fun p => negb (bool_decide (pc_tipo p = "upgrade")))
                (List.filter (is_dest d CarroAtivo) c) in
  let contagemTipos := agrupar chave_render base in
  fst <$> List.filter (fun kv => bool_decide (1 < length kv.2)%nat) (entries contagemTipos).

(** [const temDuplicatas = tiposComDuplicatas.length > 0]. *)
Definition avisoDuplicatas (c : list peca) (d : gmap string destino) : bool :=
  bool_decide (tiposComDuplicatas c d <> []).

(** [atualizarTotaisPecas()] (script.js 3897-3920): totals and counts per
    destination, with the [|| 'armazem'] default. *)
Definition atualizarTotaisPecas (c : list peca) (d : gmap string destino)
    : (Q * nat) * (Q * nat) :=
  let arm := List.filter (fun p => bool_decide (dest_or_armazem d p = Armazem)) c in
  let atv := List.filter (fun p => bool_decide (dest_or_armazem d p = CarroAtivo)) c in
  ((sum_by subtotal arm, length arm), (sum_by subtotal atv, length atv)).

(** [confirmarDistribuicaoPecas()] (script.js 3922-3956): blocked by the
    duplicate check; otherwise the two lists, read with [===] and no
    default. The follow-up calls are modelled in [Reconcile]. *)
Inductive distribuicao :=
| DistBloqueada (t : toast)
| DistSeparada (pecasCarroAtivo pecasArmazem : list peca).

Definition confirmarDistribuicaoPecas (c : list peca) (d : gmap string destino) : distribuicao :=
  if (verificarPecasDuplicadasNoCarroAtivo c d).1
  then DistBloqueada (TError, "pecas_duplicadas_no_carro_ativo")
  else DistSeparada (List.filter (is_dest d CarroAtivo) c) (List.filter (is_dest d Armazem) c).

(** ** Invariant of the cart: ids are unique and every quantity is 1. *)
Definition cart_wf (c : list peca) : Prop :=
  NoDup (pc_id <$> c) /\ Forall (fun p => pc_quantidade p = 1) c.

(** Every piece of the cart has a destination: what [abrirModalDestino]
    establishes and [selecionarDestinoPeca] keeps. *)
Definition destinos_total (c : list peca) (d : gmap string destino) : Prop :=
  Forall (fun p => is_Some (d !! pc_id p)) c.


(** ** Lemmas *)

Lemma find_has_id_none c id : js_find (has_id id) c = None <-> id ∉ pc_id <$> c.
Proof.
  unfold js_find. split.
  - intros Hn Hin. apply list_elem_of_fmap in Hin as (p & -> & Hp).
    apply list_elem_of_In in Hp. eapply find_none in Hn; [|done].
    unfold has_id in Hn. by rewrite bool_decide_eq_false in Hn.
  - intros Hn. destruct (find (has_id id) c) as [p|] eqn:E; [|done].
    apply find_some in E as [Hp Hid]. unfold has_id in Hid.
    apply bool_decide_eq_true_1 in Hid. subst id.
    exfalso. apply Hn. apply list_elem_of_fmap. exists p. split; [done|].
    by apply list_elem_of_In.
Qed.

Lemma filter_not_id_notin c id : id ∉ pc_id <$> c -> removerDoCarrinho c id = c.
Proof.
  induction c as [|p c IH]; intros Hn; [done|]. simpl in *.
  unfold has_id at 1. rewrite bool_decide_eq_false_2; [simpl|set_solver].
  f_equal. apply IH. set_solver.
Qed.

Lemma remover_sublist c id : sublist (removerDoCarrinho c id) c.
Proof.
  induction c as [|p c IH]; simpl; [done|].
  destruct (negb (has_id id p)); by constructor.
Qed.

Lemma remover_id_gone c id : id ∉ pc_id <$> removerDoCarrinho c id.
Proof.
  induction c as [|p c IH]; simpl; [set_solver|].
  destruct (has_id id p) eqn:E; simpl; [done|].
  unfold has_id in E. apply bool_decide_eq_false_1 in E. set_solver.
Qed.

Lemma cart_wf_sublist c c' : sublist c' c -> cart_wf c -> cart_wf c'.
Proof.
  intros Hs [Hnd Hq]. split; eauto with granpix.
Qed.

#[export] Hint Resolve remover_sublist cart_wf_sublist : granpix.

Lemma abrir_fold_spec (l : list peca) (m : gmap string destino) :
  (forall k v, m !! k = Some v -> v = Armazem) ->
  let m' := foldl (fun m p => match m !! pc_id p with
                              | Some _ => m
                              | None => <[pc_id p := Armazem]> m
                              end) m l in
  (forall k v, m' !! k = Some v -> v = Armazem) /\
  (forall k, is_Some (m !! k) -> is_Some (m' !! k)) /\
  (forall p, p ∈ l -> m' !! pc_id p = Some Armazem).
Proof.
  revert m. induction l as [|p l IH]; intros m Hm; simpl.
  - split_and!; [done|done|]. intros p Hp. set_solver.
  - destruct (m !! pc_id p) as [v|] eqn:E.
    + destruct (IH m Hm) as (H1 & H2 & H3). split_and!; [done|done|].
      intros q Hq. apply elem_of_cons in Hq as [->|Hq]; [|by apply H3].
      destruct (H2 (pc_id p)) as [w Hw]; [by eexists|]. rewrite Hw.
      by erewrite (H1 _ w).
    + assert (Hm' : forall k v, <[pc_id p:=Armazem]> m !! k = Some v -> v = Armazem).
      { intros k v. rewrite lookup_insert. case_decide; [congruence|apply Hm]. }
      destruct (IH _ Hm') as (H1 & H2 & H3). split_and!; [done| |].
      * intros k Hk. apply H2. rewrite lookup_insert. case_decide; [by eexists|done].
      * intros q Hq. apply elem_of_cons in Hq as [->|Hq]; [|by apply H3].
        destruct (H2 (pc_id p)) as [w Hw]; [by rewrite lookup_insert_eq; eexists|].
        rewrite Hw. by erewrite (H1 _ w).
Qed.

Lemma is_dest_other d p :
  is_Some (d !! pc_id p) -> is_dest d Armazem p = negb (is_dest d CarroAtivo p).
Proof.
  intros [[] Hv]; unfold is_dest; rewrite Hv;
    repeat case_bool_decide; naive_solver.
Qed.

Lemma dest_or_armazem_is_dest d p x :
  is_Some (d !! pc_id p) -> bool_decide (dest_or_armazem d p = x) = is_dest d x p.
Proof.
  intros [v Hv]. unfold dest_or_armazem, is_dest. rewrite Hv. simpl.
  apply bool_decide_ext. naive_solver.
Qed.

Lemma split_perm c d :
  destinos_total c d ->
  Permutation c (List.filter (is_dest d CarroAtivo) c ++ List.filter (is_dest d Armazem) c) /\
  sum_by subtotal c == sum_by subtotal (List.filter (is_dest d CarroAtivo) c)
                      + sum_by subtotal (List.filter (is_dest d Armazem) c).
Proof.
  intros Ht. unfold destinos_total in Ht; rewrite Forall_forall in Ht.
  assert (List.filter (is_dest d Armazem) c =
          List.filter (fun p => negb (is_dest d CarroAtivo p)) c) as ->.
  { apply filter_ext_in. intros p Hp%list_elem_of_In. by apply is_dest_other, Ht. }
  split; [apply filter_partition_perm|apply sum_by_filter_split].
Qed.

(** ** Theorems *)

(** adding a piece keeps the cart well formed: ids unique, quantity 1. *)
Theorem adicionar_preserves_wf c pecaId nome preco compat tipo :
  cart_wf c -> cart_wf (adicionarAoCarrinho c pecaId nome preco compat tipo).1.
Proof.
  intros [Hnd Hq]. unfold adicionarAoCarrinho.
  destruct (js_find (has_id pecaId) c) eqn:E; simpl; [by split|].
  apply find_has_id_none in E. split.
  - rewrite fmap_app. apply NoDup_app. split_and!; [done| |by apply NoDup_singleton].
    intros x Hx Hy. simpl in Hy. set_solver.
  - apply Forall_app. split; [done|]. by constructor.
Qed.

(** Removing a piece keeps the cart well formed. *)
Theorem remover_preserves_wf c pecaId :
  cart_wf c -> cart_wf (removerDoCarrinho c pecaId).
Proof. eauto with granpix. Qed.

(** Adding a piece that is already in the cart changes nothing and
    warns. *)
Theorem adicionar_duplicate_refused c pecaId nome preco compat tipo :
  pecaId ∈ pc_id <$> c ->
  adicionarAoCarrinho c pecaId nome preco compat tipo = (c, Some (TWarning, "ja_esta_no_carrinho")).
Proof.
  intros Hin. unfold adicionarAoCarrinho.
  destruct (js_find (has_id pecaId) c) eqn:E; [done|].
  apply find_has_id_none in E. contradiction.
Qed.

(** C40: adding a piece that is not in the cart appends exactly that
    piece, with quantity 1 and no toast, and removing it then gives
    back the cart (round trip). *)
Theorem adicionar_remover_roundtrip c pecaId nome preco compat tipo :
  pecaId ∉ pc_id <$> c ->
  let r := adicionarAoCarrinho c pecaId nome preco compat tipo in
  r = (c ++ [mk_peca pecaId nome preco compat tipo 1], None) /\
  removerDoCarrinho r.1 pecaId = c.
Proof.
  intros Hn. unfold adicionarAoCarrinho.
  assert (js_find (has_id pecaId) c = None) as -> by by apply find_has_id_none.
  split; [done|]. simpl. unfold removerDoCarrinho. rewrite List.filter_app.
  fold (removerDoCarrinho c pecaId). rewrite filter_not_id_notin by done.
  simpl. unfold has_id. rewrite bool_decide_eq_true_2; [|done]. by rewrite app_nil_r.
Qed.


(** Opening the destination modal on a non-empty cart sends every
    piece to the warehouse. *)
Theorem abrir_todos_armazem c d :
  c <> [] ->
  (abrirModalDestino c d).2 = None /\
  forall p, p ∈ c -> (abrirModalDestino c d).1 !! pc_id p = Some Armazem.
Proof.
  intros Hc. destruct c as [|p0 c']; [done|]. split; [done|].
  intros p Hp. destruct (abrir_fold_spec (p0 :: c') ∅) as (_ & _ & H3);
    [intros ??; by rewrite lookup_empty|].
  by apply H3.
Qed.

Lemma abrir_total c d : destinos_total c (abrirModalDestino c d).1.
Proof.
  destruct c as [|p0 c'] eqn:Ec; [constructor|].
  apply Forall_forall. intros p Hp.
  rewrite (proj2 (abrir_todos_armazem (p0 :: c') d ltac:(done)) p Hp). by eexists.
Qed.

Lemma selecionar_total c d b pid novo :
  destinos_total c d -> destinos_total c (selecionarDestinoPeca d b pid novo).1.
Proof.
  unfold selecionarDestinoPeca. intros Ht.
  destruct (_ && _); simpl; [done|].
  eapply Forall_impl; [done|]. intros p Hp. rewrite lookup_insert.
  case_decide; [by eexists|done].
Qed.

(** When every piece has a destination, the split of
    [confirmarDistribuicaoPecas] loses and duplicates no piece, and the
    two totals add up to the cart's total. *)
Theorem distribuicao_partition c d atv arm :
  destinos_total c d ->
  confirmarDistribuicaoPecas c d = DistSeparada atv arm ->
  Permutation c (atv ++ arm) /\ sum_by subtotal c == sum_by subtotal atv + sum_by subtotal arm.
Proof.
  intros Ht. unfold confirmarDistribuicaoPecas.
  destruct (verificarPecasDuplicadasNoCarroAtivo c d).1; [done|].
  intros [= <- <-]. by apply split_perm.
Qed.

(** The totals shown in the modal ([atualizarTotaisPecas]) are those
    of the two lists that [confirmarDistribuicaoPecas] sends on. *)
Theorem totais_match_distribuicao c d :
  destinos_total c d ->
  atualizarTotaisPecas c d =
    ((sum_by subtotal (List.filter (is_dest d Armazem) c),
      length (List.filter (is_dest d Armazem) c)),
     (sum_by subtotal (List.filter (is_dest d CarroAtivo) c),
      length (List.filter (is_dest d CarroAtivo) c))).
Proof.
  intros Ht. unfold destinos_total in Ht; rewrite Forall_forall in Ht. unfold atualizarTotaisPecas.
  rewrite !(filter_ext_in _ _ c (fun p Hp => dest_or_armazem_is_dest d p _ (Ht p (proj2 (list_elem_of_In _ _) Hp)))).
  reflexivity.
Qed.

(** the warning and the blocking check count by different keys: two
    base pieces with no [tipo] and different [compatibilidade], both sent
    to the active car, are shown in red as duplicates, yet
    [confirmarDistribuicaoPecas] lets them through. *)
Theorem aviso_sem_bloqueio :
  let c := [mk_peca "1" "Motor A" 100 "A" "" 1; mk_peca "2" "Motor B" 100 "B" "" 1] in
  let d := <["1" := CarroAtivo]> (<["2" := CarroAtivo]> ∅) in
  avisoDuplicatas c d = true /\ confirmarDistribuicaoPecas c d = DistSeparada c [].
Proof. split; vm_compute; reflexivity. Qed.

(** ** Witnesses: a one-piece cart *)

Definition cart1 : list peca := [mk_peca "1" "Motor" 100 "" "motor" 1].
Definition dest1 : gmap string destino := <["1" := CarroAtivo]> ∅.

Lemma cart1_wf : cart_wf cart1.
Proof. split; [apply (bool_decide_unpack _); by vm_compute|repeat constructor]. Qed.

Lemma dest1_total : destinos_total cart1 dest1.
Proof. repeat constructor. by eexists. Qed.

Lemma adicionar_preserves_wf_witness :
  cart_wf cart1 /\ cart_wf (adicionarAoCarrinho cart1 "2" "Turbo" 50 "" "turbo").1.
Proof. split; [exact cart1_wf|apply adicionar_preserves_wf, cart1_wf]. Defined.

Lemma remover_preserves_wf_witness :
  cart_wf cart1 /\ cart_wf (removerDoCarrinho cart1 "1").
Proof. split; [exact cart1_wf|apply remover_preserves_wf, cart1_wf]. Defined.

Lemma adicionar_duplicate_refused_witness :
  "1" ∈ pc_id <$> cart1 /\
  adicionarAoCarrinho cart1 "1" "Motor" 100 "" "motor" = (cart1, Some (TWarning, "ja_esta_no_carrinho")).
Proof.
  assert (H : "1" ∈ pc_id <$> cart1) by (simpl; set_solver).
  split; [exact H|exact (adicionar_duplicate_refused _ _ _ _ _ _ H)].
Defined.

Lemma adicionar_remover_roundtrip_witness :
  "2" ∉ pc_id <$> cart1 /\
  let r := adicionarAoCarrinho cart1 "2" "Turbo" 50 "" "turbo" in
  r = (cart1 ++ [mk_peca "2" "Turbo" 50 "" "turbo" 1], None) /\
  removerDoCarrinho r.1 "2" = cart1.
Proof.
  assert (H : "2" ∉ pc_id <$> cart1) by (simpl; set_solver).
  split; [exact H|exact (adicionar_remover_roundtrip _ _ _ _ _ _ H)].
Defined.

Lemma abrir_todos_armazem_witness :
  cart1 <> [] /\ (abrirModalDestino cart1 ∅).1 !! "1" = Some Armazem.
Proof.
  assert (H : cart1 <> []) by discriminate.
  split; [exact H|].
  apply (proj2 (abrir_todos_armazem cart1 ∅ H) (mk_peca "1" "Motor" 100 "" "motor" 1)). by left.
Defined.

Lemma distribuicao_partition_witness :
  destinos_total cart1 dest1 /\ confirmarDistribuicaoPecas cart1 dest1 = DistSeparada cart1 [] /\
  Permutation cart1 (cart1 ++ []).
Proof.
  assert (Hc : confirmarDistribuicaoPecas cart1 dest1 = DistSeparada cart1 []) by (vm_compute; reflexivity).
  split_and!; [exact dest1_total|exact Hc|].
  exact (proj1 (distribuicao_partition cart1 dest1 cart1 [] dest1_total Hc)).
Defined.

Lemma totais_match_distribuicao_witness :
  destinos_total cart1 dest1 /\
  atualizarTotaisPecas cart1 dest1 =
    ((sum_by subtotal (List.filter (is_dest dest1 Armazem) cart1),
      length (List.filter (is_dest dest1 Armazem) cart1)),
     (sum_by subtotal (List.filter (is_dest dest1 CarroAtivo) cart1),
      length (List.filter (is_dest dest1 CarroAtivo) cart1))).
Proof. split; [exact dest1_total|exact (totais_match_distribuicao cart1 dest1 dest1_total)]. Defined.

End ShopCart.
