(* ===== verification/WarehouseCart.v ===== *)
(** * The warehouse cart ([carrinhoArmazem])

    Models the globals [carrinhoArmazem] and [destinoCarrinhoArmazem] of
    [src/static/script.js] and the functions that change them
    ([mudarQtdArmazem], [mudarDestinoArmazem], [removerDoCarrinhoArmazem],
    [limparCarrinhoArmazem]), the totals written by
    [atualizarUICarrinhoArmazem], and the decisions of
    [processarCarrinhoArmazem] and [processarCarrinhoArmazemAtivo]
    before their network calls. *)
From S2P Require Import Prelude Js ShopCart.
Set Warnings "-register-all".

Module WarehouseCart.

(** An entry [{nome, tipo, id, preco, pix_id, quantidade}]; [id] and
    [pix_id] are copied from the server's warehouse list, so they are
    JavaScript values. *)
Record item := mk_item {
  wi_nome : string;
  wi_tipo : string;
  wi_id : jv;
  wi_preco : Q;
  wi_pix_id : jv;
  wi_quantidade : Z
}.

(** An entry of [garagemAtual.armazem.pecas_guardadas]. *)
Record guardada := mk_guardada {
  g_nome : string;
  g_tipo : string;
  g_id : jv;
  g_preco : Q;
  g_pix_id : jv
}.

(** [destinoCarrinhoArmazem]: [null], ['ativo'] or ['repouso']. *)
Inductive destino := DAtivo | DRepouso.

#[export] Instance destino_eq_dec : EqDecision destino.
Proof. solve_decision. Defined.

Record cart := mk_cart {
  carrinhoArmazem : list item;
  destinoCarrinhoArmazem : option destino
}.

Definition vazio : cart := mk_cart [] None.

Inductive operacao := Mais | Menos.

Definition same_key (nome tipo : string) (p : item) : bool :=
  bool_decide (wi_nome p = nome /\ wi_tipo p = tipo).

(** [pecaExistente.quantidade += k] mutates the first entry found by
    [find]. *)
Fixpoint bump_first (nome tipo : string) (k : Z) (l : list item) : list item :=
  match l with
  | [] => []
  | p :: l' =>
      if same_key nome tipo p
      then mk_item (wi_nome p) (wi_tipo p) (wi_id p) (wi_preco p) (wi_pix_id p) (wi_quantidade p + k) :: l'
      else p :: bump_first nome tipo k l'
  end.

(** [mudarQtdArmazem(pecaNome, pecaTipo, operacao)] (script.js
    2608-2647). [armazem] is [window.garagemAtual.armazem.pecas_guardadas]
    when the garage is loaded. *)
Definition mudarQtdArmazem (armazem : option (list guardada)) (c : cart)
    (nome tipo : string) (op : operacao) : cart :=
  let l := carrinhoArmazem c in
  match op, js_find (same_key nome tipo) l with
  | Mais, Some _ => mk_cart (bump_first nome tipo 1 l) (destinoCarrinhoArmazem c)
  | Mais, None =>
      match armazem ≫= js_find (fun g => bool_decide (g_nome g = nome /\ g_tipo g = tipo)) with
      | Some g =>
          let dest := match destinoCarrinhoArmazem c with
                      | None => Some DAtivo
                      | d => d
                      end in
          mk_cart (l ++ [mk_item nome tipo (g_id g) (g_preco g) (g_pix_id g) 1]) dest
      | None => c
      end
  | Menos, Some p =>
      if bool_decide (wi_quantidade p - 1 <= 0)%Z
      then mk_cart (List.filter (fun q => negb (same_key nome tipo q)) l) (destinoCarrinhoArmazem c)
      else mk_cart (bump_first nome tipo (-1) l) (destinoCarrinhoArmazem c)
  | Menos, None => c
  end.

(** [mudarDestinoArmazem(destino)]. *)
Definition mudarDestinoArmazem (c : cart) (d : destino) : cart :=
  mk_cart (carrinhoArmazem c) (Some d).

(** [Array.prototype.splice(start, 1)]: a negative start counts from the
    end, a start past the end removes nothing. *)
Definition splice1 {A} (l : list A) (start : Z) : list A :=
  let n := Z.of_nat (length l) in
  let s := if bool_decide (start < 0)%Z then Z.max (n + start) 0 else Z.min start n in
  take (Z.to_nat s) l ++ drop (S (Z.to_nat s)) l.

(** [removerDoCarrinhoArmazem(indice)]. *)
Definition removerDoCarrinhoArmazem (c : cart) (indice : Z) : cart :=
  mk_cart (splice1 (carrinhoArmazem c) indice) (destinoCarrinhoArmazem c).

(** [limparCarrinhoArmazem(silencioso)]: the toast unless silent. *)
Definition limparCarrinhoArmazem (c : cart) (silencioso : bool) : cart * option toast :=
  (vazio, if silencioso then None else Some (TSuccess, "carrinho_do_armazem_limpo")).

(** The totals of [atualizarUICarrinhoArmazem()] (script.js 2656-2729):
    the panel's visibility, the piece count, and the value charged: only
    pieces with no [pix_id], and only for the active car. *)
Definition cobrado (p : item) : bool := negb (truthy (wi_pix_id p)).

Definition atualizarUICarrinhoArmazem (c : cart) : bool * Z * Q :=
  let l := carrinhoArmazem c in
  (bool_decide (0 < length l)%nat,
   foldl (fun t p => t + wi_quantidade p)%Z 0%Z l,
   if bool_decide (destinoCarrinhoArmazem c = Some DAtivo)
   then sum_by (fun p => if cobrado p then wi_preco p * inject_Z (wi_quantidade p) else 0) l
   else 0).

(** The branches of [processarCarrinhoArmazem()] (script.js 2747-2769)
    and [processarCarrinhoArmazemAtivo()] (2771-2845) before any network
    call. *)
Inductive plano :=
| PlanoAviso (t : toast)
| PlanoSolicitacoesSemPix (carroId : jv) (pecas : list item)
| PlanoPix (carroId : jv) (pecasParaPagar : list item)
| PlanoRepouso.

Definition processarCarrinhoArmazem (equipeAtual : jv) (c : cart) : plano :=
  let l := carrinhoArmazem c in
  match l, destinoCarrinhoArmazem c with
  | [], _ => PlanoAviso (TWarning, "nenhuma_peca_no_carrinho")
  | _, None => PlanoAviso (TWarning, "selecione_um_destino")
  | _, Some DRepouso => PlanoRepouso
  | _, Some DAtivo =>
      let carro := jget_opt equipeAtual "carro_ativo" in
      if negb (truthy equipeAtual) || negb (truthy carro)
      then PlanoAviso (TWarning, "sem_carro_ativo")
      else
        let carroId := jget_opt carro "id" in
        match List.filter cobrado l with
        | [] => PlanoSolicitacoesSemPix carroId l
        | pagar => PlanoPix carroId pagar
        end
  end.

(** ** Invariant: one entry per (name, type), every quantity positive. *)
Definition key (p : item) : string * string := (wi_nome p, wi_tipo p).

Definition cart_wf (c : cart) : Prop :=
  NoDup (key <$> carrinhoArmazem c) /\ Forall (fun p => (0 < wi_quantidade p)%Z) (carrinhoArmazem c).


(** ** Lemmas *)

Lemma bump_first_keys n t k l : key <$> bump_first n t k l = key <$> l.
Proof. induction l as [|p l IH]; simpl; [done|]. destruct (same_key n t p); simpl; by f_equal. Qed.

Lemma bump_first_pos n t k l p :
  Forall (fun p => (0 < wi_quantidade p)%Z) l ->
  js_find (same_key n t) l = Some p -> (0 < wi_quantidade p + k)%Z ->
  Forall (fun p => (0 < wi_quantidade p)%Z) (bump_first n t k l).
Proof.
  unfold js_find. induction l as [|q l IH]; intros Hl Hf Hk; simpl in *; [done|].
  inversion Hl; subst. destruct (same_key n t q).
  - injection Hf as ->. by constructor.
  - constructor; auto.
Qed.

Lemma splice1_sublist {A} (l : list A) s : sublist (splice1 l s) l.
Proof. unfold splice1. rewrite <- delete_take_drop. apply sublist_delete. Qed.

Lemma armazem_wf_sublist c l d :
  sublist l (carrinhoArmazem c) -> cart_wf c -> cart_wf (mk_cart l d).
Proof. intros Hs [Hnd Hq]. split; simpl; eauto with granpix. Qed.

#[export] Hint Resolve splice1_sublist armazem_wf_sublist : granpix.

(** ** Theorems *)

(** [mudarQtdArmazem] keeps one entry per (name, type) with a positive
    quantity, whatever the warehouse holds and whichever button. *)
Theorem mudarQtd_preserves_wf armazem c nome tipo op :
  cart_wf c -> cart_wf (mudarQtdArmazem armazem c nome tipo op).
Proof.
  intros [Hnd Hq]. unfold mudarQtdArmazem.
  destruct op; destruct (js_find (same_key nome tipo) (carrinhoArmazem c)) as [p|] eqn:Ef.
  - split; simpl; [by rewrite bump_first_keys|].
    eapply bump_first_pos; [done|done|].
    rewrite Forall_forall in Hq. apply js_find_some in Ef as [Hp _]. specialize (Hq p Hp). lia.
  - destruct (_ ≫= _) as [g|]; [|by split]. split; simpl.
    + rewrite fmap_app. apply NoDup_app. split_and!; [done| |by apply NoDup_singleton].
      intros x Hx Hy. apply list_elem_of_singleton in Hy. subst x.
      apply list_elem_of_fmap in Hx as (q & Hkey & Hq').
      eapply js_find_none in Ef; [|done]. unfold same_key in Ef.
      rewrite bool_decide_eq_false in Ef. unfold key in Hkey. simpl in Hkey.
      injection Hkey. naive_solver.
    + apply Forall_app. split; [done|]. constructor; [simpl; lia|done].
  - case_bool_decide; [eapply armazem_wf_sublist; [apply list_filter_sublist|by split]|].
    split; simpl; [by rewrite bump_first_keys|].
    eapply bump_first_pos; [done|done|]. lia.
  - by split.
Qed.

(** Removing by index ([splice]) keeps the cart well formed, for any
    index, negative or past the end. *)
Theorem remover_armazem_preserves_wf c indice :
  cart_wf c -> cart_wf (removerDoCarrinhoArmazem c indice).
Proof. eauto with granpix. Qed.

(** Pieces sent to a car at rest are never charged: the value shown is
    0 unless the destination is the active car, and for the active car
    it is the value of the pieces with no [pix_id]. *)
Theorem valor_cobrado_spec c :
  (atualizarUICarrinhoArmazem c).2 ==
    if bool_decide (destinoCarrinhoArmazem c = Some DAtivo)
    then sum_by (fun p => wi_preco p * inject_Z (wi_quantidade p))
                (List.filter cobrado (carrinhoArmazem c))
    else 0.
Proof.
  unfold atualizarUICarrinhoArmazem. simpl. case_bool_decide; [|reflexivity].
  rewrite (sum_by_filter_split _ cobrado).
  rewrite (sum_by_ext _ (fun _ => 0) (List.filter (fun x => negb (cobrado x)) _)).
  - rewrite (sum_by_ext _ (fun p => wi_preco p * inject_Z (wi_quantidade p))
               (List.filter cobrado _)).
    + assert (sum_by (fun _ : item => 0) (List.filter (fun x => negb (cobrado x)) (carrinhoArmazem c)) == 0)
        as ->; [|lra].
      induction (List.filter _ _) as [|x l IH]; [reflexivity|]. rewrite sum_by_cons, IH. lra.
    + intros x Hx%list_elem_of_In%filter_In. destruct Hx as [_ ->]. reflexivity.
  - intros x Hx%list_elem_of_In%filter_In. destruct Hx as [_ Hx].
    destruct (cobrado x); [done|reflexivity].
Qed.

(** ** Witnesses: a warehouse cart with one bought piece *)

Definition item1 : item := mk_item "Motor" "motor" (JNum 7) 100 (JStr "pix1") 1.
Definition carrinho_armazem1 : cart := mk_cart [item1] (Some DAtivo).
Definition armazem1 : list guardada := [mk_guardada "Freio" "freio" (JNum 8) 30 JNull].

Lemma carrinho_armazem1_wf : cart_wf carrinho_armazem1.
Proof. split; [apply (bool_decide_unpack _); by vm_compute|repeat constructor]. Qed.

Lemma mudarQtd_preserves_wf_witness :
  cart_wf carrinho_armazem1 /\ cart_wf (mudarQtdArmazem (Some armazem1) carrinho_armazem1 "Freio" "freio" Mais).
Proof. split; [exact carrinho_armazem1_wf|apply mudarQtd_preserves_wf, carrinho_armazem1_wf]. Defined.

Lemma remover_armazem_preserves_wf_witness :
  cart_wf carrinho_armazem1 /\ cart_wf (removerDoCarrinhoArmazem carrinho_armazem1 (-1)).
Proof. split; [exact carrinho_armazem1_wf|apply remover_armazem_preserves_wf, carrinho_armazem1_wf]. Defined.

End WarehouseCart.
