(* ===== verification/Page.v ===== *)
(** * The page: window globals, timers and network requests

    The payment flows of [src/static/script.js] share the window's
    globals ([window.transacaoPixAtual], [window.compraPendentePix],
    the [pixPollings] registry, the carts, [equipeAtual]) and talk to the
    browser through [setInterval]/[clearInterval], [setTimeout] and
    [fetch]. This file gathers that shared state in one record, [page],
    and gives the browser primitives the handlers use:

    - a timer handle is a positive number drawn from [pg_next_handle];
      [pg_intervals] holds the live [setInterval] timers, and
      [pg_closures] the closure state of every interval ever created
      (its [tentativas] counter and transaction id), which outlives
      [clearInterval] because in-flight callbacks still read it;
    - [pg_pending] lists the continuations waiting for a [fetch] or a
      [setTimeout]: the environment resolves any of them, in any order,
      which models the event loop and network reordering;
    - what the user and the server observe is logged: status and
      confirmation requests issued ([pg_requests]), the other posted
      calls ([pg_chamadas], which a [Servidor] of [Reconcile] answers),
      toasts ([pg_toasts]) and data reloads ([pg_reloads]). *)
From S2P Require Import Prelude Js ShopCart WarehouseCart.
Set Warnings "-register-all".
Local Close Scope Q_scope.

(** Which [setInterval] callback a timer runs. *)
Inductive poller_kind :=
| KMonitor      (** [monitorarTransacaoPix] *)
| KCarrinho       (** [iniciarPollingPixCarrinho] *)
| KRegularizacao  (** [iniciarPollingPixRegularizacao] *)
| KInscricao      (** [iniciarPollingPixInscricao] *)
| KDividido.      (** [iniciarPollingPixDividido] *)

#[export] Instance poller_kind_eq_dec : EqDecision poller_kind.
Proof. solve_decision. Defined.

(** The closure of one [setInterval] callback: its transaction id and
    its [let tentativas] counter. *)
Record closure := mk_closure {
  cl_kind : poller_kind;
  cl_tid : string;
  cl_tentativas : nat
}.

(** What a [fetch] gives back: a rejection ([NetworkError]), or a
    response with its [resp.ok] and its body, [None] when the body is
    not JSON (so [resp.json()] rejects). *)
Inductive fetch_result :=
| FNetErr
| FResp (ok : bool) (body : option jv).

(** The requests the client issues, tagged with the timer that issued
    a status query. *)
Inductive request :=
| ReqStatus (h : nat) (tid : string)   (** GET /api/transacao-pix/{tid} *)
| ReqConfirmar (tid : jv).             (** POST /api/confirmar-pagamento-manual {transacao_id} *)

(** The data reloads: [carregarDetalhesEquipe], [carregarGaragem],
    [carregarHistorico], [carregarPecasLoja], [carregarCarrosLoja],
    [recarregarDadosEquipe]. *)
Inductive reload := RlDetalhes | RlGaragem | RlHistorico | RlPecasLoja | RlCarrosLoja | RlDadosEquipe.

(** The purchase requests of the reconciliation loops. *)
Inductive chamada :=
| ComprarPecaArmazem (peca_id : string)
    (** POST /api/comprar-peca-armazem {peca_id} *)
| ProcessarCompraPix (item_id : string) (carro_id : jv) (transacao_id : option string)
    (** POST /api/processar-compra-pix {tipo: 'peca', item_id, carro_id, transacao_id} *)
| GerarQrPix (carro_id : jv) (valor_custom : Q)
    (** POST /api/gerar-qr-pix {tipo: 'peca', item_id, carro_id, valor_custom} *)
| Post (url : string) (body : jv).
    (** any other POST, with its JSON body *)

(** The text of [#pixStatus]. *)
Inductive pix_status :=
| PsVazio
| PsAguardando                   (** "Aguardando confirmação..." *)
| PsRestante (segundos : Z)      (** "Aguardando confirmação... (Ns)" *)
| PsConfirmado                   (** "Pagamento confirmado! Processando..." *)
| PsTempoEsgotado                (** "Tempo limite expirado" *)
| PsNaoRealizado.                (** "Pagamento não realizado" *)

(** Continuations waiting on the event loop. *)
Inductive task :=
| TkStatus (h : nat)
    (** interval [h] awaits its GET /api/transacao-pix *)
| TkProcessar (tipo : jv)
    (** [processarCompraAposPagamento] awaits its POST; [tipo] is
        [dadosCompra.tipo] *)
| TkFecharAprovado
    (** the [setTimeout(..., 2000)] after an approval *)
| TkRecarregarGaragem
    (** the [setTimeout(() => carregarGaragem(), 1000)] after a
        warehouse purchase is processed *)
| TkManual
    (** [confirmarPagamentoManual] awaits its POST *)
| TkFecharManual (saldoAnterior valorGasto : Q)
    (** the [setTimeout(..., 1500)] after a manual confirmation *)
| TkFecharLeniente (h : nat).
    (** the [setTimeout] after an approval seen by the lenient poller [h] *)

Record page := mk_page {
  pg_next_handle : nat;
  pg_intervals : gmap nat poller_kind;
  pg_closures : gmap nat closure;
  pg_pending : list task;
  pg_pixPollings : gmap string nat;
  pg_transacaoPixAtual : option string;
  pg_transacaoPixAtualDividido : option string;
  pg_tipo_transacao_atual : option string;
  pg_compraPendentePix : jv;
  pg_pixStatus : pix_status;
  pg_pixModalAberto : bool;
  pg_carrinho : list ShopCart.peca;
  pg_armazem : WarehouseCart.cart;
  pg_equipeAtual : jv;
  pg_pecasCarroPixDividido : list ShopCart.peca;
  pg_carroAtivoDividido : jv;
  pg_pecasArmazemPendente : list ShopCart.peca;
  pg_requests : list request;
  pg_chamadas : list chamada;
  pg_toasts : list toast;
  pg_reloads : list reload
}.

(** The page when the script has loaded: every global at its initial
    value ([let carrinho = []], [equipeAtual = null], the [window] fields
    undefined), no timer, no request. *)
Definition page_init : page :=
  mk_page 1 ∅ ∅ [] ∅ None None None JUndef PsVazio false [] WarehouseCart.vazio JNull
    [] JUndef [] [] [] [] [].

(** ** Field updates *)
Definition set_timers (p : page) (nh : nat) (iv : gmap nat poller_kind) (cl : gmap nat closure) : page :=
  mk_page nh iv cl p.(pg_pending) p.(pg_pixPollings) p.(pg_transacaoPixAtual)
    p.(pg_transacaoPixAtualDividido) p.(pg_tipo_transacao_atual) p.(pg_compraPendentePix)
    p.(pg_pixStatus) p.(pg_pixModalAberto) p.(pg_carrinho) p.(pg_armazem) p.(pg_equipeAtual)
    p.(pg_pecasCarroPixDividido) p.(pg_carroAtivoDividido) p.(pg_pecasArmazemPendente)
    p.(pg_requests) p.(pg_chamadas) p.(pg_toasts) p.(pg_reloads).

Definition set_pending (p : page) (x : list task) : page :=
  mk_page p.(pg_next_handle) p.(pg_intervals) p.(pg_closures) x p.(pg_pixPollings)
    p.(pg_transacaoPixAtual) p.(pg_transacaoPixAtualDividido) p.(pg_tipo_transacao_atual)
    p.(pg_compraPendentePix) p.(pg_pixStatus) p.(pg_pixModalAberto) p.(pg_carrinho)
    p.(pg_armazem) p.(pg_equipeAtual) p.(pg_pecasCarroPixDividido) p.(pg_carroAtivoDividido)
    p.(pg_pecasArmazemPendente) p.(pg_requests) p.(pg_chamadas) p.(pg_toasts) p.(pg_reloads).

Definition set_pixPollings (p : page) (x : gmap string nat) : page :=
  mk_page p.(pg_next_handle) p.(pg_intervals) p.(pg_closures) p.(pg_pending) x
    p.(pg_transacaoPixAtual) p.(pg_transacaoPixAtualDividido) p.(pg_tipo_transacao_atual)
    p.(pg_compraPendentePix) p.(pg_pixStatus) p.(pg_pixModalAberto) p.(pg_carrinho)
    p.(pg_armazem) p.(pg_equipeAtual) p.(pg_pecasCarroPixDividido) p.(pg_carroAtivoDividido)
    p.(pg_pecasArmazemPendente) p.(pg_requests) p.(pg_chamadas) p.(pg_toasts) p.(pg_reloads).

Definition set_transacao (p : page) (atual dividido : option string) : page :=
  mk_page p.(pg_next_handle) p.(pg_intervals) p.(pg_closures) p.(pg_pending) p.(pg_pixPollings)
    atual dividido p.(pg_tipo_transacao_atual) p.(pg_compraPendentePix) p.(pg_pixStatus)
    p.(pg_pixModalAberto) p.(pg_carrinho) p.(pg_armazem) p.(pg_equipeAtual)
    p.(pg_pecasCarroPixDividido) p.(pg_carroAtivoDividido) p.(pg_pecasArmazemPendente)
    p.(pg_requests) p.(pg_chamadas) p.(pg_toasts) p.(pg_reloads).

Definition set_tipo_transacao (p : page) (x : option string) : page :=
  mk_page p.(pg_next_handle) p.(pg_intervals) p.(pg_closures) p.(pg_pending) p.(pg_pixPollings)
    p.(pg_transacaoPixAtual) p.(pg_transacaoPixAtualDividido) x p.(pg_compraPendentePix)
    p.(pg_pixStatus) p.(pg_pixModalAberto) p.(pg_carrinho) p.(pg_armazem) p.(pg_equipeAtual)
    p.(pg_pecasCarroPixDividido) p.(pg_carroAtivoDividido) p.(pg_pecasArmazemPendente)
    p.(pg_requests) p.(pg_chamadas) p.(pg_toasts) p.(pg_reloads).

Definition set_compra (p : page) (x : jv) : page :=
  mk_page p.(pg_next_handle) p.(pg_intervals) p.(pg_closures) p.(pg_pending) p.(pg_pixPollings)
    p.(pg_transacaoPixAtual) p.(pg_transacaoPixAtualDividido) p.(pg_tipo_transacao_atual) x
    p.(pg_pixStatus) p.(pg_pixModalAberto) p.(pg_carrinho) p.(pg_armazem) p.(pg_equipeAtual)
    p.(pg_pecasCarroPixDividido) p.(pg_carroAtivoDividido) p.(pg_pecasArmazemPendente)
    p.(pg_requests) p.(pg_chamadas) p.(pg_toasts) p.(pg_reloads).

Definition set_pixStatus (p : page) (x : pix_status) : page :=
  mk_page p.(pg_next_handle) p.(pg_intervals) p.(pg_closures) p.(pg_pending) p.(pg_pixPollings)
    p.(pg_transacaoPixAtual) p.(pg_transacaoPixAtualDividido) p.(pg_tipo_transacao_atual)
    p.(pg_compraPendentePix) x p.(pg_pixModalAberto) p.(pg_carrinho) p.(pg_armazem)
    p.(pg_equipeAtual) p.(pg_pecasCarroPixDividido) p.(pg_carroAtivoDividido)
    p.(pg_pecasArmazemPendente) p.(pg_requests) p.(pg_chamadas) p.(pg_toasts) p.(pg_reloads).

Definition set_modal (p : page) (x : bool) : page :=
  mk_page p.(pg_next_handle) p.(pg_intervals) p.(pg_closures) p.(pg_pending) p.(pg_pixPollings)
    p.(pg_transacaoPixAtual) p.(pg_transacaoPixAtualDividido) p.(pg_tipo_transacao_atual)
    p.(pg_compraPendentePix) p.(pg_pixStatus) x p.(pg_carrinho) p.(pg_armazem)
    p.(pg_equipeAtual) p.(pg_pecasCarroPixDividido) p.(pg_carroAtivoDividido)
    p.(pg_pecasArmazemPendente) p.(pg_requests) p.(pg_chamadas) p.(pg_toasts) p.(pg_reloads).

Definition set_carts (p : page) (c : list ShopCart.peca) (a : WarehouseCart.cart) : page :=
  mk_page p.(pg_next_handle) p.(pg_intervals) p.(pg_closures) p.(pg_pending) p.(pg_pixPollings)
    p.(pg_transacaoPixAtual) p.(pg_transacaoPixAtualDividido) p.(pg_tipo_transacao_atual)
    p.(pg_compraPendentePix) p.(pg_pixStatus) p.(pg_pixModalAberto) c a p.(pg_equipeAtual)
    p.(pg_pecasCarroPixDividido) p.(pg_carroAtivoDividido) p.(pg_pecasArmazemPendente)
    p.(pg_requests) p.(pg_chamadas) p.(pg_toasts) p.(pg_reloads).

Definition set_dividido (p : page) (pecasCarro : list ShopCart.peca) (carroId : jv) (pecasArmazem : list ShopCart.peca) : page :=
  mk_page p.(pg_next_handle) p.(pg_intervals) p.(pg_closures) p.(pg_pending) p.(pg_pixPollings)
    p.(pg_transacaoPixAtual) p.(pg_transacaoPixAtualDividido) p.(pg_tipo_transacao_atual)
    p.(pg_compraPendentePix) p.(pg_pixStatus) p.(pg_pixModalAberto) p.(pg_carrinho)
    p.(pg_armazem) p.(pg_equipeAtual) pecasCarro carroId pecasArmazem p.(pg_requests)
    p.(pg_chamadas) p.(pg_toasts) p.(pg_reloads).

Definition set_log (p : page) (rq : list request) (ts : list toast) (rl : list reload) : page :=
  mk_page p.(pg_next_handle) p.(pg_intervals) p.(pg_closures) p.(pg_pending) p.(pg_pixPollings)
    p.(pg_transacaoPixAtual) p.(pg_transacaoPixAtualDividido) p.(pg_tipo_transacao_atual)
    p.(pg_compraPendentePix) p.(pg_pixStatus) p.(pg_pixModalAberto) p.(pg_carrinho)
    p.(pg_armazem) p.(pg_equipeAtual) p.(pg_pecasCarroPixDividido) p.(pg_carroAtivoDividido)
    p.(pg_pecasArmazemPendente) rq p.(pg_chamadas) ts rl.

Definition set_chamadas (p : page) (x : list chamada) : page :=
  mk_page p.(pg_next_handle) p.(pg_intervals) p.(pg_closures) p.(pg_pending) p.(pg_pixPollings)
    p.(pg_transacaoPixAtual) p.(pg_transacaoPixAtualDividido) p.(pg_tipo_transacao_atual)
    p.(pg_compraPendentePix) p.(pg_pixStatus) p.(pg_pixModalAberto) p.(pg_carrinho)
    p.(pg_armazem) p.(pg_equipeAtual) p.(pg_pecasCarroPixDividido) p.(pg_carroAtivoDividido)
    p.(pg_pecasArmazemPendente) p.(pg_requests) x p.(pg_toasts) p.(pg_reloads).

(** [equipeAtual = ...], as [carregarDetalhesEquipe] writes it. *)
Definition set_equipe (p : page) (x : jv) : page :=
  mk_page p.(pg_next_handle) p.(pg_intervals) p.(pg_closures) p.(pg_pending) p.(pg_pixPollings)
    p.(pg_transacaoPixAtual) p.(pg_transacaoPixAtualDividido) p.(pg_tipo_transacao_atual)
    p.(pg_compraPendentePix) p.(pg_pixStatus) p.(pg_pixModalAberto) p.(pg_carrinho)
    p.(pg_armazem) x p.(pg_pecasCarroPixDividido) p.(pg_carroAtivoDividido)
    p.(pg_pecasArmazemPendente) p.(pg_requests) p.(pg_chamadas) p.(pg_toasts) p.(pg_reloads).

(** ** Browser primitives *)

(** [const h = setInterval(cb, ms)]: a fresh handle, a live timer, and
    the closure's initial state. *)
Definition setInterval (k : poller_kind) (tid : string) (p : page) : page * nat :=
  let h := pg_next_handle p in
  (set_timers p (S h) (<[h := k]> (pg_intervals p)) (<[h := mk_closure k tid 0]> (pg_closures p)), h).

(** [clearInterval(h)]: idempotent; the closure stays for in-flight
    callbacks. *)
Definition clearInterval (h : nat) (p : page) : page :=
  set_timers p (pg_next_handle p) (delete h (pg_intervals p)) (pg_closures p).

(** [tentativas++] in the closure of [h]. *)
Definition incr_tentativas (c : closure) : closure :=
  mk_closure (cl_kind c) (cl_tid c) (S (cl_tentativas c)).

Definition bump_tentativas (h : nat) (p : page) : page :=
  set_timers p (pg_next_handle p) (pg_intervals p) (alter incr_tentativas h (pg_closures p)).

(** [fetch(...)] issues a request and the caller awaits it. *)
Definition fetch (r : request) (k : task) (p : page) : page :=
  set_pending (set_log p (pg_requests p ++ [r]) (pg_toasts p) (pg_reloads p)) (pg_pending p ++ [k]).

(** [setTimeout(cb, ms)]. *)
Definition setTimeout (k : task) (p : page) : page :=
  set_pending p (pg_pending p ++ [k]).

Definition mostrarToast (t : toast) (p : page) : page :=
  set_log p (pg_requests p) (pg_toasts p ++ [t]) (pg_reloads p).

Definition recarregar (rs : list reload) (p : page) : page :=
  set_log p (pg_requests p) (pg_toasts p) (pg_reloads p ++ rs).

(** Take the [i]-th pending continuation off the event loop. *)
Definition take_task (i : nat) (p : page) : option (task * page) :=
  match pg_pending p !! i with
  | Some k => Some (k, set_pending p (delete i (pg_pending p)))
  | None => None
  end.

(** The requests a timer issued to the status endpoint. *)
Definition is_status_of (h : nat) (r : request) : bool :=
  match r with ReqStatus h' _ => bool_decide (h' = h) | _ => false end.

Definition status_requests (h : nat) (p : page) : nat :=
  length (List.filter (is_status_of h) (pg_requests p)).

Definition is_confirmar (r : request) : bool :=
  match r with ReqConfirmar _ => true | _ => false end.

Definition confirm_requests (p : page) : list request :=
  List.filter is_confirmar (pg_requests p).
