(* ===== verification/Monitor.v ===== *)
(** * The PIX payment monitor ([monitorarTransacaoPix])

    The generic payment poller of [src/static/script.js] (lines
    2337-2606): [mostrarModalPix] opens the payment modal and starts
    [monitorarTransacaoPix], a [setInterval] of one second that queries
    [GET /api/transacao-pix/{id}] until the payment is approved, refused,
    superseded, not found, or 120 attempts have passed; on approval it
    runs [processarCompraAposPagamento], which posts
    [/api/confirmar-pagamento-manual]. [confirmarPagamentoManual] is the
    test path that confirms by hand.

    Every handler is a function on [page]; the browser's event loop is
    the event type [event] and [step]: the environment chooses which
    timer fires and which awaited response arrives, in any order. *)
From S2P Require Import Prelude Js ShopCart WarehouseCart Page.
Set Warnings "-register-all".
Local Close Scope Q_scope.

Module Monitor.

(** [maxTentativas]. *)
Definition maxTentativas : nat := 120.

(** The object passed to [mostrarModalPix(dadosPix)]. The transaction id
    is the server's opaque string; the other fields are read as the
    server sent them. *)
Record dados_pix := mk_dados_pix {
  dp_transacao_id : string;
  dp_item_nome : jv;
  dp_valor_item : jv;
  dp_valor_total : jv;
  dp_taxa : jv;
  dp_qr_code_url : jv;
  dp_tipo_item : jv;
  dp_item_id : jv;
  dp_carro_id : jv
}.

(** [if (window.transacaoPixAtual && pixPollings[window.transacaoPixAtual])
    { clearInterval(...); delete pixPollings[...]; }]. Timer handles are
    positive, so a registered handle is truthy. *)
Definition pararPollingAnterior (p : page) : page :=
  match pg_transacaoPixAtual p with
  | Some cur =>
      if bool_decide (cur = "") then p
      else match pg_pixPollings p !! cur with
           | Some h => set_pixPollings (clearInterval h p) (delete cur (pg_pixPollings p))
           | None => p
           end
  | None => p
  end.

(** [monitorarTransacaoPix(transacaoId)] (script.js 2394-2474), up to the
    registration of the new timer: an older timer registered for the
    same id is cleared (but not deleted), a new interval starts with
    [tentativas = 0], and [pixPollings[transacaoId] = intervalo]. *)
Definition monitorarTransacaoPix (tid : string) (p : page) : page :=
  let p1 := match pg_pixPollings p !! tid with
            | Some h0 => clearInterval h0 p
            | None => p
            end in
  let '(p2, h) := setInterval KMonitor tid p1 in
  set_pixPollings p2 (<[tid := h]> (pg_pixPollings p2)).

(** The object stored when none with a [tipo] is stored yet. *)
Definition compra_de (d : dados_pix) : jv :=
  obj [("transacao_id", JStr (dp_transacao_id d)); ("tipo", dp_tipo_item d);
       ("item_id", dp_item_id d); ("carro_id", js_or (dp_carro_id d) JNull)].

Local Open Scope granpix_scope.

(** [mostrarModalPix(dadosPix)] (script.js 2341-2392). The three
    [toFixed(2)] calls throw a [TypeError] on a value that is not a
    number, after the previous poller was stopped and before anything
    else is written. *)
Definition mostrarModalPix (d : dados_pix) : SE page unit :=
  SE.modify pararPollingAnterior ;;;
  _ <-- SE.of_option (js_number (dp_valor_item d)) ;;
  _ <-- SE.of_option (js_number (dp_valor_total d)) ;;
  _ <-- SE.of_option (js_number (dp_taxa d)) ;;
  SE.modify (fun p =>
    let tid := dp_transacao_id d in
    let p := set_transacao p (Some tid) (Some tid) in
    let c := pg_compraPendentePix p in
    let p := if negb (truthy c) || negb (truthy (jget_opt c "tipo"))
             then set_compra p (compra_de d) else p in
    monitorarTransacaoPix tid (set_modal (set_pixStatus p PsAguardando) true)).

Local Close Scope granpix_scope.

(** Stop this interval: [clearInterval(intervalo); delete pixPollings[transacaoId]]. *)
Definition parar (h : nat) (tid : string) (p : page) : page :=
  set_pixPollings (clearInterval h p) (delete tid (pg_pixPollings p)).

(** One firing of the interval [h] (script.js 2404-2417): the counter is
    incremented; past [maxTentativas] the interval stops with the
    time-out message, otherwise the status query is issued. *)
Definition tick (h : nat) (p : page) : page :=
  match pg_intervals p !! h, pg_closures p !! h with
  | Some KMonitor, Some c =>
      let p := bump_tentativas h p in
      if bool_decide (maxTentativas < S (cl_tentativas c))
      then set_pixStatus (parar h (cl_tid c) p) PsTempoEsgotado
      else fetch (ReqStatus h (cl_tid c)) (TkStatus h) p
  | _, _ => p
  end.

(** [processarCompraAposPagamento(dadosCompra)] (script.js 2476-2520)
    up to its request, followed by what the monitor does once it
    returns: the [setTimeout] of two seconds. With no [transacao_id]
    nothing is posted. *)
Definition processarCompraAposPagamento (dados : jv) (p : page) : page :=
  if negb (truthy dados) || negb (truthy (jget_opt dados "transacao_id"))
  then setTimeout TkFecharAprovado p
  else fetch (ReqConfirmar (jget_opt dados "transacao_id"))
             (TkProcessar (jget_opt dados "tipo")) p.

(** The status response of interval [h] (script.js 2418-2467). The
    non-OK response, a superseded transaction, a refusal and an approval
    stop the interval; an unparsable body or a [null] one throws inside
    the [try] and is only logged. *)
Definition on_status (h : nat) (r : fetch_result) (p : page) : page :=
  match pg_closures p !! h with
  | None => p
  | Some c =>
      let tid := cl_tid c in
      match r with
      | FNetErr => p
      | FResp false _ => parar h tid p
      | FResp true None => p
      | FResp true (Some body) =>
          match jget body "status" with
          | None => p
          | Some st =>
              if bool_decide (pg_transacaoPixAtual p <> Some tid) then parar h tid p
              else if js_eq_str st "aprovado" then
                processarCompraAposPagamento (pg_compraPendentePix p)
                  (set_pixStatus (parar h tid p) PsConfirmado)
              else if js_eq_str st "pendente" then
                set_pixStatus p (PsRestante (Z.of_nat maxTentativas - Z.of_nat (cl_tentativas c)))
              else if js_eq_str st "recusado" || js_eq_str st "cancelado" then
                set_pixStatus (parar h tid p) PsNaoRealizado
              else p
          end
      end
  end.

Definition tipos_multiplas : list string :=
  ["multiplas_pecas_armazem"; "multiplas_pecas_armazem_ativo"; "multiplas_pecas_armazem_ativo_modal"].

(** The answer to [processarCompraAposPagamento]'s POST (script.js
    2500-2519), then the monitor's [setTimeout]. [resp.ok] is not read;
    a success for a warehouse purchase empties the warehouse cart
    silently and schedules [setTimeout(() => carregarGaragem(), 1000)],
    the timer [TkRecarregarGaragem]. *)
Definition on_processar (tipo : jv) (r : fetch_result) (p : page) : page :=
  let p' :=
    match r with
    | FNetErr | FResp _ None => mostrarToast (TError, "erro_ao_processar_compra") p
    | FResp _ (Some res) =>
        match jget res "sucesso" with
        | None => mostrarToast (TError, "erro_ao_processar_compra") p
        | Some suc =>
            if truthy suc then
              if existsb (js_eq_str tipo) tipos_multiplas
              then setTimeout TkRecarregarGaragem (set_carts p (pg_carrinho p) WarehouseCart.vazio)
              else p
            else mostrarToast (TError, "erro_ao_processar_compra_com_detalhe") p
        end
    end in
  setTimeout TkFecharAprovado p'.

(** The [setTimeout(..., 2000)] after an approval (script.js 2448-2457). *)
Definition fechar_aprovado (p : page) : page :=
  recarregar [RlDetalhes; RlGaragem; RlHistorico]
    (mostrarToast (TSuccess, "compra_realizada_com_sucesso") (set_modal p false)).

(** [a || b] on two [window] fields that hold a string or nothing. *)
Definition or_str (a b : option string) : option string :=
  match a with
  | Some s => if bool_decide (s = "") then b else a
  | None => b
  end.

(** [confirmarPagamentoManual()] (script.js 2522-2547) up to its
    request: the split-purchase id wins over the current one. *)
Definition confirmarPagamentoManual (p : page) : page :=
  match or_str (pg_transacaoPixAtualDividido p) (pg_transacaoPixAtual p) with
  | Some tid =>
      if bool_decide (tid = "") then mostrarToast (TError, "nenhuma_transacao_ativa") p
      else fetch (ReqConfirmar (JStr tid)) TkManual p
  | None => mostrarToast (TError, "nenhuma_transacao_ativa") p
  end.

(** Its answer (script.js 2548-2569). The stop of the polling reads
    [window.pixPollings], which is [undefined]: the registry is the
    top-level [const pixPollings], which is not a property of [window].
    So no interval is cleared here. *)
Definition on_manual (r : fetch_result) (p : page) : page :=
  match r with
  | FNetErr | FResp _ None => mostrarToast (TError, "erro_ao_confirmar_pagamento") p
  | FResp ok (Some res) =>
      match jget res "sucesso" with
      | None => mostrarToast (TError, "erro_ao_confirmar_pagamento") p
      | Some suc =>
          if negb ok || negb (truthy suc) then mostrarToast (TError, "erro_confirmacao") p
          else
            let saldo := num_or (jget_opt (pg_equipeAtual p) "saldo") 0 in
            let gasto := sum_by ShopCart.subtotal (pg_carrinho p) in
            setTimeout (TkFecharManual saldo gasto) (set_pixStatus p PsConfirmado)
      end
  end.

(** The [setTimeout(..., 1500)] after a manual confirmation (script.js
    2571-2599): the modal closes, the toast is shown and the shop cart
    is emptied; then [atualizarPainelCarrinho()] is called without the
    [typeof] guard used elsewhere, and no file of the repository defines
    it: the [ReferenceError] ends the callback, so the reloads and the
    final modal after it never run. *)
Definition fechar_manual (saldo gasto : Q) (p : page) : page :=
  set_carts (mostrarToast (TSuccess, "compra_realizada_com_sucesso") (set_modal p false))
    [] (pg_armazem p).

(** ** The event loop *)
Inductive event :=
| EvMostrarModalPix (d : dados_pix)     (** a purchase flow opens the PIX modal *)
| EvTick (h : nat)                      (** interval [h] fires *)
| EvResolve (i : nat) (r : fetch_result) (** the [i]-th awaited request resolves *)
| EvFire (i : nat)                      (** the [i]-th pending [setTimeout] fires *)
| EvConfirmarManual.                    (** the "confirm payment" test button *)

Definition step (p : page) (e : event) : page :=
  match e with
  | EvMostrarModalPix d => (mostrarModalPix d p).1
  | EvTick h => tick h p
  | EvResolve i r =>
      match take_task i p with
      | Some (TkStatus h, p') => on_status h r p'
      | Some (TkProcessar tipo, p') => on_processar tipo r p'
      | Some (TkManual, p') => on_manual r p'
      | _ => p
      end
  | EvFire i =>
      match take_task i p with
      | Some (TkFecharAprovado, p') => fechar_aprovado p'
      | Some (TkRecarregarGaragem, p') => recarregar [RlGaragem] p'
      | Some (TkFecharManual s g, p') => fechar_manual s g p'
      | _ => p
      end
  | EvConfirmarManual => confirmarPagamentoManual p
  end.

Definition run (p : page) (evs : list event) : page := foldl step p evs.

Inductive reachable : page -> Prop :=
| reach_init : reachable page_init
| reach_step p e : reachable p -> reachable (step p e).

(** ** Frames: handlers that leave the timers alone

    Most handlers write the globals, the log and the pending list, but
    never create a timer, never touch a closure and never query the
    status endpoint; at most they clear intervals. [frame p p'] says
    so, and the timer invariant below only depends on what a frame
    keeps. *)
Definition frame (p p' : page) : Prop :=
  pg_next_handle p' = pg_next_handle p /\ pg_closures p' = pg_closures p /\
  pg_intervals p' ⊆ pg_intervals p /\ (forall h, status_requests h p' = status_requests h p).

Create HintDb frame discriminated.

Lemma frame_refl p : frame p p.
Proof. done. Qed.

(** Writing a field other than the timers and the requests is a frame
    by conversion. *)
Ltac frame_trivial := intros; match goal with H : frame _ _ |- _ => exact H end.

Lemma frame_pixStatus p q x : frame p q -> frame p (set_pixStatus q x).
Proof. frame_trivial. Qed.
Lemma frame_pixPollings p q x : frame p q -> frame p (set_pixPollings q x).
Proof. frame_trivial. Qed.
Lemma frame_transacao p q a b : frame p q -> frame p (set_transacao q a b).
Proof. frame_trivial. Qed.
Lemma frame_compra p q x : frame p q -> frame p (set_compra q x).
Proof. frame_trivial. Qed.
Lemma frame_modal p q x : frame p q -> frame p (set_modal q x).
Proof. frame_trivial. Qed.
Lemma frame_carts p q c a : frame p q -> frame p (set_carts q c a).
Proof. frame_trivial. Qed.
Lemma frame_pending p q x : frame p q -> frame p (set_pending q x).
Proof. frame_trivial. Qed.
Lemma frame_toast p q t : frame p q -> frame p (mostrarToast t q).
Proof. frame_trivial. Qed.
Lemma frame_recarregar p q rs : frame p q -> frame p (recarregar rs q).
Proof. frame_trivial. Qed.
Lemma frame_setTimeout p q k : frame p q -> frame p (setTimeout k q).
Proof. frame_trivial. Qed.

Lemma frame_clearInterval p q h : frame p q -> frame p (clearInterval h q).
Proof.
  intros (H1 & H2 & H3 & H4). split_and!; try done.
  simpl. etrans; [apply delete_subseteq|done].
Qed.

Lemma frame_fetch_confirmar p q t k : frame p q -> frame p (fetch (ReqConfirmar t) k q).
Proof.
  intros (H1 & H2 & H3 & H4). split_and!; try done.
  intros h. rewrite <- H4. unfold status_requests. simpl.
  by rewrite List.filter_app, length_app, Nat.add_0_r.
Qed.

#[export] Hint Resolve frame_refl frame_pixStatus frame_pixPollings frame_transacao
  frame_compra frame_modal frame_carts frame_pending frame_toast frame_recarregar
  frame_setTimeout frame_clearInterval frame_fetch_confirmar : frame.

Ltac solve_frame :=
  repeat (case_match || case_bool_decide); simplify_eq/=; eauto 20 with frame.

Lemma frame_trans p q r : frame p q -> frame q r -> frame p r.
Proof.
  intros (A1 & A2 & A3 & A4) (B1 & B2 & B3 & B4).
  split_and!; [congruence|congruence|by etrans|]. intros h. by rewrite B4.
Qed.

Lemma parar_frame p h tid : frame p (parar h tid p).
Proof. unfold parar. solve_frame. Qed.

Lemma pararPollingAnterior_frame p : frame p (pararPollingAnterior p).
Proof. unfold pararPollingAnterior. solve_frame. Qed.

Lemma processar_frame p q dados : frame p q -> frame p (processarCompraAposPagamento dados q).
Proof. unfold processarCompraAposPagamento. solve_frame. Qed.

#[export] Hint Resolve processar_frame : frame.

Lemma parar_frame' p q h tid : frame p q -> frame p (parar h tid q).
Proof. intros. unfold parar. solve_frame. Qed.

#[export] Hint Resolve parar_frame' : frame.

Lemma on_status_frame h r p : frame p (on_status h r p).
Proof. unfold on_status. solve_frame. Qed.

Lemma on_processar_frame tipo r p : frame p (on_processar tipo r p).
Proof. unfold on_processar. solve_frame. Qed.

Lemma on_manual_frame r p : frame p (on_manual r p).
Proof. unfold on_manual. solve_frame. Qed.

Lemma fechar_aprovado_frame p : frame p (fechar_aprovado p).
Proof. unfold fechar_aprovado. solve_frame. Qed.

Lemma fechar_manual_frame s g p : frame p (fechar_manual s g p).
Proof. unfold fechar_manual. solve_frame. Qed.

Lemma confirmarPagamentoManual_frame p : frame p (confirmarPagamentoManual p).
Proof. unfold confirmarPagamentoManual. solve_frame. Qed.

Lemma take_task_frame i p k p' : take_task i p = Some (k, p') -> frame p p'.
Proof. unfold take_task. intros H. case_match; simplify_eq. solve_frame. Qed.

#[export] Hint Resolve pararPollingAnterior_frame : frame.

(** ** The timer invariant

    Every live interval has its closure and has made at most
    [maxTentativas] attempts; every closure's handle was drawn from the
    counter; and the number of status queries an interval issued is its
    attempt count, capped at [maxTentativas] (the attempt that times out
    issues none). *)
Definition inv (p : page) : Prop :=
  (forall h k, pg_intervals p !! h = Some k ->
     exists c, pg_closures p !! h = Some c /\ cl_kind c = k /\ cl_tentativas c <= maxTentativas) /\
  (forall h c, pg_closures p !! h = Some c ->
     h < pg_next_handle p /\ status_requests h p = min (cl_tentativas c) maxTentativas) /\
  (forall h, pg_closures p !! h = None -> status_requests h p = 0).

Lemma inv_init : inv page_init.
Proof. split_and!; intros ?; [intros ? H| intros ? H|]; try done. Qed.

Lemma inv_frame p p' : inv p -> frame p p' -> inv p'.
Proof.
  intros (I1 & I2 & I3) (F1 & F2 & F3 & F4). split_and!.
  - intros h k Hk. rewrite F2. apply (I1 h k). by eapply lookup_weaken.
  - intros h c Hc. rewrite F2 in Hc. rewrite F1, F4. by apply I2.
  - intros h Hh. rewrite F2 in Hh. rewrite F4. by apply I3.
Qed.

Lemma status_requests_fetch h h' t k p :
  status_requests h (fetch (ReqStatus h' t) k p) =
  status_requests h p + (if bool_decide (h' = h) then 1 else 0).
Proof.
  unfold status_requests. simpl. rewrite List.filter_app, length_app. simpl.
  by case_bool_decide.
Qed.

Lemma bump_lookup h h' (m : gmap nat closure) :
  alter incr_tentativas h m !! h' =
  if bool_decide (h = h') then incr_tentativas <$> m !! h' else m !! h'.
Proof. case_bool_decide; [subst; apply lookup_alter_eq|by apply lookup_alter_ne]. Qed.

Lemma tick_inv h p : inv p -> inv (tick h p).
Proof.
  intros Hi. pose proof Hi as (I1 & I2 & I3). unfold tick.
  destruct (pg_intervals p !! h) as [[]|] eqn:Eh; try done.
  destruct (pg_closures p !! h) as [c|] eqn:Ec; [|done].
  destruct (I1 _ _ Eh) as (c' & Ec' & Hkind & Hle). rewrite Ec in Ec'. injection Ec' as <-.
  destruct (I2 _ _ Ec) as [Hlt Hst].
  case_bool_decide as Hto; split_and!; simpl in *.
  - intros h' k Hk. simpl in Hk. rewrite lookup_delete in Hk. case_decide; [done|].
    rewrite bump_lookup, bool_decide_eq_false_2 by done. by apply (I1 h' k).
  - intros h' c' Hc'. rewrite bump_lookup in Hc'. case_bool_decide; subst.
    + rewrite Ec in Hc'. injection Hc' as <-. simpl. unfold status_requests in *. simpl.
      split; [done|]. rewrite Hst. unfold maxTentativas in *. lia.
    + apply (I2 h' c' Hc').
  - intros h' Hh'. rewrite bump_lookup in Hh'. case_bool_decide; subst.
    + by rewrite Ec in Hh'.
    + by apply I3.
  - intros h' k Hk. rewrite bump_lookup. simpl in Hk. case_bool_decide; subst.
    + rewrite Ec. eexists; split_and!; [done| |]; simpl; [congruence|]. unfold maxTentativas in *. lia.
    + by apply (I1 h' k).
  - intros h' c' Hc'. rewrite status_requests_fetch. rewrite bump_lookup in Hc'.
    case_bool_decide; subst.
    + rewrite Ec in Hc'. injection Hc' as <-. simpl. split; [done|].
      unfold status_requests in *. simpl in *. rewrite Hst. unfold maxTentativas in *. lia.
    + destruct (I2 h' c' Hc'). split; [done|]. unfold status_requests in *. simpl. lia.
  - intros h' Hh'. rewrite status_requests_fetch. rewrite bump_lookup in Hh'.
    case_bool_decide; subst; [by rewrite Ec in Hh'|].
    unfold status_requests in *. simpl. rewrite (I3 h' Hh'). lia.
Qed.

Lemma monitorar_inv tid p : inv p -> inv (monitorarTransacaoPix tid p).
Proof.
  intros Hi. unfold monitorarTransacaoPix.
  set (p1 := match pg_pixPollings p !! tid with Some h0 => clearInterval h0 p | None => p end).
  assert (Hi1 : inv p1) by (eapply inv_frame; [done|]; subst p1; solve_frame).
  destruct Hi1 as (I1 & I2 & I3). simpl.
  assert (Hn : pg_closures p1 !! pg_next_handle p1 = None).
  { destruct (pg_closures p1 !! _) as [c|] eqn:E; [|done]. destruct (I2 _ _ E). lia. }
  remember (pg_next_handle p1) as n eqn:En.
  split_and!; simpl.
  - intros h k Hk. rewrite lookup_insert in Hk. rewrite lookup_insert. case_decide.
    + eexists; split_and!; [done|simpl; congruence|]. simpl. unfold maxTentativas. lia.
    + by apply (I1 h k).
  - intros h c Hc. rewrite lookup_insert in Hc. case_decide; simplify_eq.
    + split; [lia|]. unfold status_requests in *. simpl. by rewrite (I3 _ Hn).
    + destruct (I2 h c Hc). split; [lia|done].
  - intros h Hh. rewrite lookup_insert in Hh. case_decide; [done|]. by apply I3.
Qed.

Lemma mostrar_inv d p : inv p -> inv (mostrarModalPix d p).1.
Proof.
  intros Hi. unfold mostrarModalPix, SE.bind, SE.modify, SE.of_option, SE.ret, SE.throw.
  assert (Hp : inv (pararPollingAnterior p)) by (eapply inv_frame; [exact Hi|eauto with frame]).
  destruct (js_number (dp_valor_item d)), (js_number (dp_valor_total d)), (js_number (dp_taxa d));
    cbv beta iota; try exact Hp.
  apply monitorar_inv. eapply inv_frame; [exact Hp|]. destruct (_ || _); eauto 20 with frame.
Qed.

Lemma step_inv p e : inv p -> inv (step p e).
Proof.
  intros Hi. destruct e; simpl.
  - by apply mostrar_inv.
  - by apply tick_inv.
  - destruct (take_task i p) as [[k p']|] eqn:E; [|done].
    apply take_task_frame in E. destruct k; try done; eapply inv_frame;
      (eapply inv_frame; [exact Hi|exact E]) || idtac;
      eauto using on_status_frame, on_processar_frame, on_manual_frame.
  - destruct (take_task i p) as [[k p']|] eqn:E; [|done].
    apply take_task_frame in E. destruct k; try done;
      try (eapply inv_frame; [exact Hi|by apply frame_recarregar]); eapply inv_frame;
      (eapply inv_frame; [exact Hi|exact E]) || idtac;
      eauto using fechar_aprovado_frame, fechar_manual_frame.
  - eapply inv_frame; [done|apply confirmarPagamentoManual_frame].
Qed.

Lemma reachable_inv p : reachable p -> inv p.
Proof. induction 1; eauto using inv_init, step_inv. Qed.

(** C1: bounded retries: in every reachable state of the page, each
    monitor interval has queried the status endpoint at most
    [maxTentativas] = 120 times. *)
Theorem status_requests_bounded p h :
  reachable p -> status_requests h p <= maxTentativas.
Proof.
  intros Hr. destruct (reachable_inv p Hr) as (_ & I2 & I3).
  destruct (pg_closures p !! h) as [c|] eqn:E.
  - destruct (I2 h c E) as [_ ->]. lia.
  - rewrite (I3 h E). lia.
Qed.

(** Every event is a frame, a tick, or a frame followed by the start of
    a new monitor. *)
Lemma mostrar_shape d p :
  exists q, frame p q /\
    ((mostrarModalPix d p).1 = q \/ exists tid, (mostrarModalPix d p).1 = monitorarTransacaoPix tid q).
Proof.
  unfold mostrarModalPix, SE.bind, SE.modify, SE.of_option, SE.ret, SE.throw.
  destruct (js_number (dp_valor_item d)), (js_number (dp_valor_total d)), (js_number (dp_taxa d));
    cbv beta iota; try (eexists; split; [apply pararPollingAnterior_frame|by left]).
  eexists; split; [|right; eexists; reflexivity]. destruct (_ || _); eauto 20 with frame.
Qed.

Lemma step_cases p e :
  frame p (step p e) \/ (exists h, e = EvTick h /\ step p e = tick h p) \/
  (exists tid q, frame p q /\ step p e = monitorarTransacaoPix tid q).
Proof.
  destruct e; simpl.
  - destruct (mostrar_shape d p) as (q & Hq & [-> | [tid ->]]); [by left|].
    right; right. eauto.
  - right; left. eauto.
  - left. destruct (take_task i p) as [[k p']|] eqn:E; [|done].
    apply take_task_frame in E. destruct k; try done; eapply frame_trans; eauto using
      on_status_frame, on_processar_frame, on_manual_frame.
  - left. destruct (take_task i p) as [[k p']|] eqn:E; [|done].
    apply take_task_frame in E. destruct k; try done; eapply frame_trans; eauto using
      fechar_aprovado_frame, fechar_manual_frame.
  - left. apply confirmarPagamentoManual_frame.
Qed.

(** ** Termination of every monitor

    [restantes h p] is how many more firings the interval [h] can make
    while live: the measure that each of its ticks decreases and no other
    event increases. *)
Definition restantes (h : nat) (p : page) : nat :=
  match pg_intervals p !! h, pg_closures p !! h with
  | Some _, Some c => S maxTentativas - cl_tentativas c
  | _, _ => 0
  end.

Lemma frame_restantes h p p' : frame p p' -> restantes h p' <= restantes h p.
Proof.
  intros (F1 & F2 & F3 & F4). unfold restantes. rewrite F2.
  destruct (pg_intervals p' !! h) eqn:E; [|lia].
  rewrite (lookup_weaken _ _ _ _ E F3). lia.
Qed.

Lemma monitorar_other tid p h :
  h < pg_next_handle p ->
  pg_intervals (monitorarTransacaoPix tid p) !! h =
    pg_intervals (match pg_pixPollings p !! tid with Some h0 => clearInterval h0 p | None => p end) !! h /\
  pg_closures (monitorarTransacaoPix tid p) !! h = pg_closures p !! h.
Proof.
  intros Hh. unfold monitorarTransacaoPix.
  destruct (pg_pixPollings p !! tid); simpl; rewrite !lookup_insert_ne by lia; done.
Qed.

Lemma monitorar_restantes tid p h :
  h < pg_next_handle p -> restantes h (monitorarTransacaoPix tid p) <= restantes h p.
Proof.
  intros Hh. destruct (monitorar_other tid p h Hh) as [E1 E2].
  etrans; [|apply (frame_restantes h p (match pg_pixPollings p !! tid with
                                          Some h0 => clearInterval h0 p | None => p end));
            solve_frame].
  unfold restantes. rewrite E1, E2.
  destruct (pg_pixPollings p !! tid); simpl; done.
Qed.

Lemma tick_restantes h h' p :
  inv p -> (h = h' -> forall c, pg_closures p !! h = Some c -> cl_kind c = KMonitor) ->
  restantes h' (tick h p) <= restantes h' p - (if bool_decide (h = h') then 1 else 0).
Proof.
  intros (I1 & _ & _) Hmon. unfold tick.
  destruct (pg_intervals p !! h) as [k|] eqn:Eh;
    [|unfold restantes; case_bool_decide; subst; [rewrite Eh|]; lia].
  destruct (I1 _ _ Eh) as (c & Ec & Hk & Hle). rewrite Ec.
  destruct (decide (k = KMonitor)) as [->|Hnk].
  2:{ destruct k; [done|..]; case_bool_decide; subst;
      try (specialize (Hmon eq_refl c Ec); congruence); lia. }
  unfold restantes. case_bool_decide as Hto; simpl; rewrite bump_lookup.
  - case_bool_decide; subst.
    + rewrite lookup_delete_eq. lia.
    + rewrite lookup_delete_ne by done. lia.
  - case_bool_decide; subst.
    + rewrite Eh, Ec. simpl. lia.
    + lia.
Qed.

Lemma tick_closure h h' p c :
  pg_closures p !! h' = Some c ->
  exists c', pg_closures (tick h p) !! h' = Some c' /\ cl_kind c' = cl_kind c.
Proof.
  intros Hc. unfold tick.
  destruct (pg_intervals p !! h) as [[]|], (pg_closures p !! h) as [c0|] eqn:E0; eauto.
  assert (pg_closures (bump_tentativas h p) !! h' = Some c \/
          pg_closures (bump_tentativas h p) !! h' = Some (incr_tentativas c)) as Hb.
  { simpl. rewrite bump_lookup. case_bool_decide; subst; rewrite Hc; auto. }
  case_bool_decide; simpl in *; destruct Hb as [Hb|Hb]; rewrite Hb; eauto.
Qed.

Lemma step_closure p e h c :
  inv p -> pg_closures p !! h = Some c ->
  exists c', pg_closures (step p e) !! h = Some c' /\ cl_kind c' = cl_kind c.
Proof.
  intros Hi Hc. destruct (step_cases p e) as [(_ & F2 & _)|[(h' & -> & ->)|(tid & q & (Q1 & Q2 & _) & ->)]].
  - rewrite F2. eauto.
  - by apply tick_closure.
  - destruct Hi as (_ & I2 & _). destruct (I2 h c Hc) as [Hlt _].
    rewrite (proj2 (monitorar_other tid q h ltac:(lia))), Q2. eauto.
Qed.

Definition is_tick (h : nat) (e : event) : bool :=
  match e with EvTick h' => bool_decide (h' = h) | _ => false end.

(** How many times [evs] fires the interval [h]. *)
Definition ticks_of (h : nat) (evs : list event) : nat := length (List.filter (is_tick h) evs).

Lemma step_restantes p e h c :
  inv p -> pg_closures p !! h = Some c -> cl_kind c = KMonitor ->
  restantes h (step p e) <= restantes h p - (if is_tick h e then 1 else 0).
Proof.
  intros Hi Hc Hk.
  assert (Hlt : h < pg_next_handle p) by (destruct Hi as (_ & I2 & _); by destruct (I2 h c Hc)).
  destruct (is_tick h e) eqn:Et.
  - destruct e; try done. simpl in Et. apply bool_decide_eq_true_1 in Et. subst. simpl.
    pose proof (tick_restantes h h p Hi (fun _ c' Hc' => ltac:(congruence))) as H.
    by rewrite bool_decide_eq_true_2 in H.
  - rewrite Nat.sub_0_r.
    destruct (step_cases p e) as [F|[(h' & -> & ->)|(tid & q & Fq & ->)]].
    + by apply frame_restantes.
    + simpl in Et. apply bool_decide_eq_false_1 in Et.
      pose proof (tick_restantes h' h p Hi (fun E => False_ind _ (Et E))) as H.
      rewrite bool_decide_eq_false_2 in H by done. lia.
    + assert (h < pg_next_handle q) by (destruct Fq as [-> _]; lia).
      pose proof (monitorar_restantes tid q h ltac:(assumption)).
      pose proof (frame_restantes h p q Fq). lia.
Qed.

Lemma run_cons p e evs : run p (e :: evs) = run (step p e) evs.
Proof. reflexivity. Qed.

Lemma run_restantes p evs h c :
  inv p -> pg_closures p !! h = Some c -> cl_kind c = KMonitor ->
  restantes h (run p evs) <= restantes h p - ticks_of h evs.
Proof.
  revert p c. induction evs as [|e evs IH]; intros p c Hi Hc Hk; [unfold run, ticks_of; cbn [foldl List.filter length]; lia|].
  rewrite run_cons. destruct (step_closure p e h c Hi Hc) as (c' & Hc' & Hk').
  pose proof (step_restantes p e h c Hi Hc Hk) as Hs.
  pose proof (IH (step p e) c' (step_inv p e Hi) Hc' ltac:(congruence)) as Hr.
  unfold ticks_of in *. simpl. destruct (is_tick h e); simpl in *; lia.
Qed.

Lemma restantes_le h p : restantes h p <= S maxTentativas.
Proof. unfold restantes. repeat case_match; lia. Qed.

(** C2: termination: once created, a monitor interval is no longer live
    after 121 of its own firings, whatever else happens in between
    (other purchases, responses in any order, manual confirmations). *)
Theorem monitor_stops p evs h c :
  reachable p -> pg_closures p !! h = Some c -> cl_kind c = KMonitor ->
  S maxTentativas <= ticks_of h evs -> pg_intervals (run p evs) !! h = None.
Proof.
  intros Hr Hc Hk Ht.
  pose proof (reachable_inv p Hr) as Hi.
  pose proof (run_restantes p evs h c Hi Hc Hk) as Hm.
  pose proof (restantes_le h p).
  assert (Hinv : inv (run p evs)).
  { clear -Hi. revert p Hi. induction evs; intros p Hi; [done|]. rewrite run_cons. auto using step_inv. }
  destruct (pg_intervals (run p evs) !! h) as [k|] eqn:E; [|done].
  destruct Hinv as (I1 & _ & _). destruct (I1 _ _ E) as (c' & Ec' & _ & Hle).
  assert (1 <= restantes h (run p evs)) by (unfold restantes; rewrite E, Ec'; lia). lia.
Qed.


Lemma reachable_run p evs : reachable p -> reachable (run p evs).
Proof. revert p. induction evs; intros p Hr; [done|]. rewrite run_cons. eauto using reachable. Qed.

(** ** Opening the modal registers a monitor *)

Lemma monitorar_registra tid p :
  pg_pixPollings (monitorarTransacaoPix tid p) !! tid = Some (pg_next_handle p) /\
  pg_intervals (monitorarTransacaoPix tid p) !! pg_next_handle p = Some KMonitor /\
  pg_transacaoPixAtual (monitorarTransacaoPix tid p) = pg_transacaoPixAtual p /\
  pg_chamadas (monitorarTransacaoPix tid p) = pg_chamadas p.
Proof. unfold monitorarTransacaoPix. destruct (pg_pixPollings p !! tid); simpl; by rewrite !lookup_insert_eq. Qed.

Lemma pararPollingAnterior_next p :
  pg_next_handle (pararPollingAnterior p) = pg_next_handle p /\
  pg_chamadas (pararPollingAnterior p) = pg_chamadas p.
Proof. unfold pararPollingAnterior. by repeat case_match. Qed.

Lemma mostrar_registra d p vi vt tx :
  js_number (dp_valor_item d) = Some vi -> js_number (dp_valor_total d) = Some vt ->
  js_number (dp_taxa d) = Some tx ->
  (mostrarModalPix d p).2 = inl tt /\
  pg_pixPollings (mostrarModalPix d p).1 !! dp_transacao_id d = Some (pg_next_handle p) /\
  pg_intervals (mostrarModalPix d p).1 !! pg_next_handle p = Some KMonitor /\
  pg_transacaoPixAtual (mostrarModalPix d p).1 = Some (dp_transacao_id d) /\
  pg_chamadas (mostrarModalPix d p).1 = pg_chamadas p.
Proof.
  intros H1 H2 H3. unfold mostrarModalPix, SE.bind, SE.modify, SE.of_option, SE.ret.
  rewrite H1, H2, H3. cbv beta iota zeta.
  destruct (pararPollingAnterior_next p) as [Hn Hc].
  destruct (negb _ || negb _);
    match goal with |- context [monitorarTransacaoPix ?t ?x] =>
      destruct (monitorar_registra t x) as (A & B & C & D) end;
    cbn [fst snd] in *;
    cbn [pg_next_handle pg_transacaoPixAtual pg_chamadas set_modal set_pixStatus set_compra set_transacao] in *;
    rewrite Hn, Hc in *; by split_and!.
Qed.

(** ** Behaviour of one status response *)

(** C4: an approval for the current transaction stops the interval,
    removes it from [pixPollings], shows "confirmed" and posts exactly
    one confirmation, for the [transacao_id] of [compraPendentePix]. *)
Theorem aprovado_para_e_confirma p h c body :
  pg_closures p !! h = Some c -> pg_transacaoPixAtual p = Some (cl_tid c) ->
  jget body "status" = Some (JStr "aprovado") ->
  truthy (pg_compraPendentePix p) = true ->
  truthy (jget_opt (pg_compraPendentePix p) "transacao_id") = true ->
  let p' := on_status h (FResp true (Some body)) p in
  pg_intervals p' !! h = None /\ pg_pixPollings p' !! cl_tid c = None /\
  pg_pixStatus p' = PsConfirmado /\
  pg_requests p' = pg_requests p ++ [ReqConfirmar (jget_opt (pg_compraPendentePix p) "transacao_id")].
Proof.
  intros Hc Ht Hb Hc1 Hc2. unfold on_status. rewrite Hc, Hb, Ht.
  rewrite bool_decide_eq_false_2 by congruence. simpl.
  unfold processarCompraAposPagamento. simpl.
  rewrite Hc1, Hc2. simpl. split_and!; [apply lookup_delete_eq|apply lookup_delete_eq|done|done].
Qed.

(** C5: a refusal ([recusado] or [cancelado]) for the current transaction
    stops the interval with "not paid" and posts nothing; a non-OK
    answer stops it without touching the status text or posting
    anything: three outcomes distinct from an approval. *)
Theorem recusa_e_nao_ok_param p h c body s :
  pg_closures p !! h = Some c -> pg_transacaoPixAtual p = Some (cl_tid c) ->
  jget body "status" = Some (JStr s) -> s = "recusado" \/ s = "cancelado" ->
  let p1 := on_status h (FResp true (Some body)) p in
  let p2 := on_status h (FResp false (Some body)) p in
  pg_intervals p1 !! h = None /\ pg_pixStatus p1 = PsNaoRealizado /\ pg_requests p1 = pg_requests p /\
  pg_intervals p2 !! h = None /\ pg_pixStatus p2 = pg_pixStatus p /\ pg_requests p2 = pg_requests p.
Proof.
  intros Hc Ht Hb Hs. unfold on_status. rewrite Hc, Hb, Ht.
  rewrite bool_decide_eq_false_2 by congruence. simpl.
  destruct Hs as [-> | ->]; simpl; split_and!; try done; apply lookup_delete_eq.
Qed.

(** C6: a response that arrives after the transaction was superseded
    ([window.transacaoPixAtual] now names another one) posts nothing,
    leaves the status text, the carts and the stored purchase as they
    are, and at most stops its own interval. *)
Theorem superseded_sem_efeito p h c r :
  pg_closures p !! h = Some c -> pg_transacaoPixAtual p <> Some (cl_tid c) ->
  let p' := on_status h r p in
  pg_requests p' = pg_requests p /\ pg_pixStatus p' = pg_pixStatus p /\
  pg_carrinho p' = pg_carrinho p /\ pg_armazem p' = pg_armazem p /\
  pg_compraPendentePix p' = pg_compraPendentePix p /\ pg_pending p' = pg_pending p /\
  (pg_intervals p' = pg_intervals p \/ pg_intervals p' = delete h (pg_intervals p)).
Proof.
  intros Hc Ht. unfold on_status. rewrite Hc.
  destruct r as [|[] [body|]]; simpl; try (split_and!; auto; fail).
  destruct (jget body "status"); [|split_and!; auto].
  rewrite bool_decide_eq_true_2 by done. simpl. split_and!; auto.
Qed.

(** the manual confirmation never stops a poller: its answer leaves
    the live intervals and the [pixPollings] registry unchanged, since it
    looks the registry up on [window], where it is not. *)
Theorem manual_nao_para_polling r p :
  pg_intervals (on_manual r p) = pg_intervals p /\
  pg_pixPollings (on_manual r p) = pg_pixPollings p.
Proof. unfold on_manual. repeat case_match; done. Qed.

(** ** A session that stays pending times out on its 121st firing *)

(** The server's answer [{status: "pendente"}]. *)
Definition resp_pendente : fetch_result := FResp true (Some (obj [("status", JStr "pendente")])).

(** One round of a sequential session: the interval fires, then its
    query (the last pending continuation, at index [k]) is answered
    "pending". *)
Definition ronda (h k : nat) : list event := [EvTick h; EvResolve k resp_pendente].

Definition aguardando (h : nat) (tid : string) (t k : nat) (p : page) : Prop :=
  pg_intervals p !! h = Some KMonitor /\ pg_closures p !! h = Some (mk_closure KMonitor tid t) /\
  pg_transacaoPixAtual p = Some tid /\ length (pg_pending p) = k.

Lemma delete_last {A} (l : list A) x : delete (length l) (l ++ [x]) = l.
Proof. induction l as [|y l IH]; simpl; [done|]. by rewrite IH. Qed.

Lemma run_app p evs1 evs2 : run p (evs1 ++ evs2) = run (run p evs1) evs2.
Proof. unfold run. apply foldl_app. Qed.

Lemma ronda_pendente h tid t k p :
  aguardando h tid t k p -> t < maxTentativas ->
  let p' := run p (ronda h k) in
  aguardando h tid (S t) k p' /\ status_requests h p' = S (status_requests h p) /\
  confirm_requests p' = confirm_requests p /\
  pg_pixStatus p' = PsRestante (Z.of_nat maxTentativas - Z.of_nat (S t)).
Proof.
  intros (Hi & Hc & Ht & Hk) Hlt.
  set (q := fetch (ReqStatus h tid) (TkStatus h) (bump_tentativas h p)).
  assert (E1 : step p (EvTick h) = q).
  { unfold step, tick. rewrite Hi, Hc. cbv beta iota.
    rewrite bool_decide_eq_false_2 by (simpl; lia). reflexivity. }
  assert (Hcq : pg_closures q !! h = Some (mk_closure KMonitor tid (S t))).
  { simpl. rewrite bump_lookup, bool_decide_eq_true_2, Hc by done. reflexivity. }
  assert (E2 : take_task k q = Some (TkStatus h, set_pending q (pg_pending p))).
  { unfold take_task. simpl. rewrite lookup_app_r by lia. rewrite Hk, Nat.sub_diag. simpl.
    by rewrite <- Hk, delete_last. }
  assert (E3 : step q (EvResolve k resp_pendente) =
               set_pixStatus (set_pending q (pg_pending p))
                 (PsRestante (Z.of_nat maxTentativas - Z.of_nat (S t)))).
  { unfold step. rewrite E2. unfold on_status. change (pg_closures (set_pending q (pg_pending p))) with (pg_closures q). rewrite Hcq.
    simpl. rewrite Ht. rewrite bool_decide_eq_false_2 by congruence. reflexivity. }
  change (run p (ronda h k)) with (step (step p (EvTick h)) (EvResolve k resp_pendente)).
  rewrite E1, E3. cbv zeta.
  unfold aguardando, status_requests, confirm_requests. simpl.
  rewrite bump_lookup, bool_decide_eq_true_2, Hc by done. simpl.
  rewrite !List.filter_app, !length_app. simpl. rewrite bool_decide_eq_true_2 by done.
  split_and!; try done; simpl; [lia|apply app_nil_r].
Qed.

Lemma rondas_pendentes n h tid t k p :
  aguardando h tid t k p -> t + n <= maxTentativas ->
  let p' := run p (concat (replicate n (ronda h k))) in
  aguardando h tid (t + n) k p' /\ status_requests h p' = status_requests h p + n /\
  confirm_requests p' = confirm_requests p.
Proof.
  revert t p. induction n as [|n IH]; intros t p Ha Hle; cbn [replicate concat]; cbv zeta.
  - change (run p []) with p. rewrite Nat.add_0_r. by split_and!; [|lia|].
  - rewrite run_app. destruct (ronda_pendente h tid t k p Ha ltac:(lia)) as (Ha' & Hs & Hcf & _).
    destruct (IH (S t) _ Ha' ltac:(lia)) as (Ha'' & Hs' & Hcf').
    rewrite Nat.add_succ_r. split_and!; [done|lia|congruence].
Qed.

Lemma tick_timeout q h tid :
  pg_intervals q !! h = Some KMonitor ->
  pg_closures q !! h = Some (mk_closure KMonitor tid maxTentativas) ->
  pg_intervals (run q [EvTick h]) !! h = None /\ pg_pixStatus (run q [EvTick h]) = PsTempoEsgotado /\
  status_requests h (run q [EvTick h]) = status_requests h q /\
  confirm_requests (run q [EvTick h]) = confirm_requests q.
Proof.
  intros Hi Hc. change (run q [EvTick h]) with (tick h q). unfold tick. rewrite Hi, Hc. cbv beta iota.
  rewrite bool_decide_eq_true_2 by (simpl; lia).
  split_and!; [apply lookup_delete_eq|done|done|done].
Qed.

(** C3: a session whose every answer is "pending" issues exactly 120
    status queries over its first 120 firings, and its 121st firing
    stops the interval with the time-out message, without a query and
    without any confirmation. *)
Theorem monitor_timeout p h tid :
  pg_intervals p !! h = Some KMonitor -> pg_closures p !! h = Some (mk_closure KMonitor tid 0) ->
  pg_transacaoPixAtual p = Some tid ->
  let p' := run p (concat (replicate maxTentativas (ronda h (length (pg_pending p)))) ++ [EvTick h]) in
  pg_intervals p' !! h = None /\ pg_pixStatus p' = PsTempoEsgotado /\
  status_requests h p' = status_requests h p + maxTentativas /\ confirm_requests p' = confirm_requests p.
Proof.
  intros Hi Hc Ht. cbv zeta. rewrite run_app.
  pose proof (rondas_pendentes maxTentativas h tid 0 (length (pg_pending p)) p) as H.
  cbv zeta in H. destruct H as ((Hi' & Hc' & _ & _) & Hs & Hcf); [done|lia|].
  rewrite Nat.add_0_l in Hc'.
  destruct (tick_timeout _ h tid Hi' Hc') as (T1 & T2 & T3 & T4).
  split_and!; [done|done|congruence|congruence].
Qed.

(** ** Concrete runs

    Two purchases as the shop and the warehouse start them: [pix_peca]
    for a part (the object [gerar-qr-pix] returns) and [pix_ativacao]
    for a car activation. *)
Definition pix_peca : dados_pix :=
  mk_dados_pix "A" (JStr "Motor") (JNum 10) (JNum (1010 # 100)) (JNum (10 # 100)) (JStr "qr")
    (JStr "peca") (JNum 5) JUndef.

Definition pix_ativacao : dados_pix :=
  mk_dados_pix "B" (JStr "Ativacao") (JNum 20) (JNum (2020 # 100)) (JNum (20 # 100)) (JStr "qr")
    (JStr "ativacao") (JNum 7) JUndef.

Definition resp_aprovado : fetch_result := FResp true (Some (obj [("status", JStr "aprovado")])).

(** The page once the part's PIX modal is open: interval 1 polls ["A"]. *)
Definition pagina_peca : page := run page_init [EvMostrarModalPix pix_peca].

Definition closure_peca : closure := mk_closure KMonitor "A" 0.

(** two status queries of the same interval are in flight (the
    interval fires every second whatever the network does); both answer
    "approved"; each runs [processarCompraAposPagamento], so the
    purchase is confirmed twice. The spec promises one reconciliation
    per approved intent. *)
Theorem aprovacao_dupla_confirma_duas_vezes :
  confirm_requests (run page_init [EvMostrarModalPix pix_peca; EvTick 1; EvTick 1;
                                   EvResolve 0 resp_aprovado; EvResolve 0 resp_aprovado])
  = [ReqConfirmar (JStr "A"); ReqConfirmar (JStr "A")].
Proof. vm_compute. reflexivity. Qed.

(** [window.compraPendentePix] is never cleared and [mostrarModalPix]
    only fills it when it has no [tipo]: after a first purchase, the
    approval of a second transaction ["B"] confirms the first one, ["A"],
    again, and ["B"] is never confirmed by the client. *)
Theorem compra_obsoleta_confirma_transacao_antiga :
  confirm_requests (run page_init [EvMostrarModalPix pix_peca; EvTick 1; EvResolve 0 resp_aprovado;
                                   EvMostrarModalPix pix_ativacao; EvTick 2; EvResolve 1 resp_aprovado])
  = [ReqConfirmar (JStr "A"); ReqConfirmar (JStr "A")].
Proof. vm_compute. reflexivity. Qed.

(** After a successful manual confirmation the poller keeps running,
    and its next "approved" answer posts the confirmation a second
    time. *)
Theorem manual_seguido_de_polling_confirma_de_novo :
  let p := run page_init [EvMostrarModalPix pix_peca; EvConfirmarManual;
                          EvResolve 0 (FResp true (Some (obj [("sucesso", JBool true)])));
                          EvTick 1; EvResolve 1 resp_aprovado] in
  confirm_requests p = [ReqConfirmar (JStr "A"); ReqConfirmar (JStr "A")] /\
  pg_toasts p = [].
Proof. vm_compute. split; reflexivity. Qed.

(** ** Witnesses: the theorems applied to the page of a part's purchase *)

Lemma pagina_peca_reachable : reachable pagina_peca.
Proof. apply reachable_run, reach_init. Qed.

Lemma pagina_peca_closure : pg_closures pagina_peca !! 1 = Some closure_peca.
Proof. vm_compute. reflexivity. Qed.

Lemma status_requests_bounded_witness :
  reachable pagina_peca /\ status_requests 1 pagina_peca <= maxTentativas.
Proof.
  split; [apply reachable_run, reach_init|].
  apply status_requests_bounded, reachable_run, reach_init.
Defined.

Lemma monitor_stops_witness :
  reachable pagina_peca /\ pg_closures pagina_peca !! 1 = Some closure_peca /\
  S maxTentativas <= ticks_of 1 (replicate 121 (EvTick 1)) /\
  pg_intervals (run pagina_peca (replicate 121 (EvTick 1))) !! 1 = None.
Proof.
  assert (Ht : S maxTentativas <= ticks_of 1 (replicate 121 (EvTick 1))) by (vm_compute; lia).
  split_and!; [exact pagina_peca_reachable|exact pagina_peca_closure|exact Ht|].
  exact (monitor_stops pagina_peca _ 1 closure_peca pagina_peca_reachable pagina_peca_closure eq_refl Ht).
Defined.

Definition corpo_aprovado : jv := obj [("status", JStr "aprovado")].

Lemma aprovado_para_e_confirma_witness :
  pg_transacaoPixAtual pagina_peca = Some (cl_tid closure_peca) /\
  truthy (jget_opt (pg_compraPendentePix pagina_peca) "transacao_id") = true /\
  pg_requests (on_status 1 (FResp true (Some corpo_aprovado)) pagina_peca) =
    pg_requests pagina_peca ++ [ReqConfirmar (jget_opt (pg_compraPendentePix pagina_peca) "transacao_id")].
Proof.
  assert (Ht : pg_transacaoPixAtual pagina_peca = Some (cl_tid closure_peca)) by (vm_compute; reflexivity).
  assert (Hc : truthy (jget_opt (pg_compraPendentePix pagina_peca) "transacao_id") = true) by (vm_compute; reflexivity).
  split_and!; [exact Ht|exact Hc|].
  apply (aprovado_para_e_confirma pagina_peca 1 closure_peca corpo_aprovado
           pagina_peca_closure Ht eq_refl ltac:(vm_compute; reflexivity) Hc).
Defined.

Definition corpo_recusado : jv := obj [("status", JStr "recusado")].

Lemma recusa_e_nao_ok_param_witness :
  pg_transacaoPixAtual pagina_peca = Some (cl_tid closure_peca) /\
  pg_pixStatus (on_status 1 (FResp true (Some corpo_recusado)) pagina_peca) = PsNaoRealizado.
Proof.
  assert (Ht : pg_transacaoPixAtual pagina_peca = Some (cl_tid closure_peca)) by (vm_compute; reflexivity).
  split; [exact Ht|].
  apply (recusa_e_nao_ok_param pagina_peca 1 closure_peca corpo_recusado "recusado"
           pagina_peca_closure Ht eq_refl (or_introl eq_refl)).
Defined.

(** After a second purchase, interval 1 still exists but is superseded. *)
Definition pagina_duas : page := run pagina_peca [EvMostrarModalPix pix_ativacao].

Lemma superseded_sem_efeito_witness :
  pg_closures pagina_duas !! 1 = Some closure_peca /\
  pg_transacaoPixAtual pagina_duas <> Some (cl_tid closure_peca) /\
  pg_requests (on_status 1 resp_aprovado pagina_duas) = pg_requests pagina_duas.
Proof.
  assert (Hc : pg_closures pagina_duas !! 1 = Some closure_peca) by (vm_compute; reflexivity).
  assert (Ht : pg_transacaoPixAtual pagina_duas <> Some (cl_tid closure_peca)) by (vm_compute; congruence).
  split_and!; [exact Hc|exact Ht|].
  apply (superseded_sem_efeito pagina_duas 1 closure_peca resp_aprovado Hc Ht).
Defined.

Lemma monitor_timeout_witness :
  pg_intervals pagina_peca !! 1 = Some KMonitor /\
  pg_transacaoPixAtual pagina_peca = Some "A" /\
  pg_pixStatus (run pagina_peca (concat (replicate maxTentativas (ronda 1 (length (pg_pending pagina_peca))))
                                  ++ [EvTick 1])) = PsTempoEsgotado.
Proof.
  assert (Hi : pg_intervals pagina_peca !! 1 = Some KMonitor) by (vm_compute; reflexivity).
  assert (Ht : pg_transacaoPixAtual pagina_peca = Some "A") by (vm_compute; reflexivity).
  split_and!; [exact Hi|exact Ht|].
  apply (monitor_timeout pagina_peca 1 "A" Hi pagina_peca_closure Ht).
Defined.

End Monitor.
