(* ===== verification/Shop.v ===== *)
(** * Shop purchases: choosing a car, confirming, paying by PIX

    The buy buttons of the shop run [abrirEscolherCarro] (script.js
    1444-1563): a piece needs a car, so the garage is fetched and the
    compatible cars are offered, with the warehouse on top; a car goes
    straight to [abrirConfirmacao] (1631-1671). [selecionarCarroPeca]
    (1565-1629) records the choice and either buys for the warehouse at
    once or opens the confirmation. [confirmarCompra] (1673-1776) builds
    the request from the global [compraPendente]: a car is bought with
    [POST /api/comprar], a piece asks for a PIX QR code and opens
    [mostrarModalPix] ([Monitor]). [solicitarMudarCarro] (1799-1832)
    asks for a car activation and opens the same modal.

    The state is the global [compraPendente], the two modals and the
    page. Each function runs to completion on its answers (the
    environment supplies them as arguments), without interleaving with
    the pollers. *)
From S2P Require Import Prelude Js ShopCart WarehouseCart Page Monitor.
Set Warnings "-register-all".
Local Close Scope Q_scope.

Module Loja.

(** [compraPendente]: the fields as the code writes them; a field an
    assignment leaves out is [undefined]. *)
Record compra := mk_compra {
  cp_id : jv;
  cp_tipo : jv;
  cp_nome : jv;
  cp_preco : Q;
  cp_carroSelecionado : jv;
  cp_compatibilidade : jv;
  cp_isVariacao : jv
}.

(** [let compraPendente = { id: null, tipo: null, nome: '', preco: 0, carroSelecionado: null }]. *)
Definition compra_inicial : compra := mk_compra JNull JNull (JStr "") 0 JNull JUndef JUndef.

(** An entry of [#listaCarrosModal]: the warehouse, or a car. *)
Inductive opcao := OpArmazem | OpCarro (carro : jv).

Record estado := mk_estado {
  es_compra : compra;
  es_opcoes : option (list opcao);   (** [#escolherCarroModal], when shown *)
  es_confirmacao : bool;             (** [#confirmacaoModal] shown *)
  es_page : page
}.

Definition com_page (e : estado) (p : page) : estado :=
  mk_estado (es_compra e) (es_opcoes e) (es_confirmacao e) p.
Definition com_compra (e : estado) (c : compra) : estado :=
  mk_estado c (es_opcoes e) (es_confirmacao e) (es_page e).
Definition com_modais (e : estado) (o : option (list opcao)) (conf : bool) : estado :=
  mk_estado (es_compra e) o conf (es_page e).

Definition toast_em (t : toast) (e : estado) : estado := com_page e (mostrarToast t (es_page e)).
Definition post_em (url : string) (body : jv) (e : estado) : estado :=
  com_page e (set_chamadas (es_page e) (pg_chamadas (es_page e) ++ [Post url body])).
Definition recarregar_em (rs : list reload) (e : estado) : estado :=
  com_page e (recarregar rs (es_page e)).

(** The guards shared by the three entry points: a team must be loaded
    and [equipeAtual.saldo < preco] refuses. *)
Definition guarda_saldo (preco : Q) (e : estado) : option toast :=
  let eq := pg_equipeAtual (es_page e) in
  if negb (truthy eq) then Some (TError, "erro_ao_carregar_equipe")
  else if js_lt_num (jget_opt eq "saldo") preco then Some (TError, "saldo_insuficiente")
  else None.

(** [idsCompatibilidade.includes(String(carro.modelo_id || '').trim())]
    over the garage's cars, in order; [carro.modelo_id] throws on a
    [null] entry. *)
Definition ids_compatibilidade (compat : jv) : list string :=
  js_trim <$> js_split virgula (js_String compat).

Fixpoint filtrar_compativeis (ids : list string) (cs : list jv) : option (list jv) :=
  match cs with
  | [] => Some []
  | c :: cs' =>
      m ← jget c "modelo_id";
      rest ← filtrar_compativeis ids cs';
      Some (if js_includes ids (js_trim (js_String (js_or m (JStr "")))) then c :: rest else rest)
  end.

(** The rendering loop reads [carro.status], [carro.id], [carro.marca]
    and [carro.modelo]: a [null] entry throws. *)
Definition renderizaveis (cs : list jv) : bool :=
  forallb (fun c => bool_decide (is_Some (jget c "status"))) cs.

(** [abrirConfirmacao(id, tipo, nome, preco, isVariacao)] (script.js
    1631-1671): [compraPendente] is replaced, which drops any
    [carroSelecionado]. *)
Definition abrirConfirmacao (id tipo nome : jv) (preco : Q) (isVariacao : jv) (e : estado) : estado :=
  match guarda_saldo preco e with
  | Some t => toast_em t e
  | None =>
      let e := com_compra e (mk_compra id tipo nome preco JUndef JUndef isVariacao) in
      com_modais e (es_opcoes e) true
  end.

(** [abrirEscolherCarro(id, tipo, nome, preco, compatibilidade)]
    (script.js 1444-1563); [garagem] answers [GET /api/garagem/{id}].
    [garagem.carros] is an array as the server sends it; another truthy
    value makes the spread or [forEach] throw after [compraPendente] was
    written. *)
Definition abrirEscolherCarro (id tipo nome : jv) (preco : Q) (compat : jv)
    (garagem : fetch_result) (e : estado) : estado :=
  match guarda_saldo preco e with
  | Some t => toast_em t e
  | None =>
      if negb (js_eq_str tipo "peca") then abrirConfirmacao id tipo nome preco (JBool false) e
      else
        let erro := toast_em (TError, "erro_ao_carregar_carros") in
        match garagem with
        | FResp _ (Some g) =>
            if negb (truthy g) || negb (truthy (jget_opt g "carros"))
            then toast_em (TError, "voce_nao_possui_carros") e
            else
              match jget_opt g "carros" with
              | JArr [] => toast_em (TError, "voce_nao_possui_carros") e
              | JArr cs =>
                  let e := com_compra e (mk_compra id tipo nome preco JNull compat JUndef) in
                  let comp := if js_eq_str compat "universal" then Some cs
                              else filtrar_compativeis (ids_compatibilidade compat) cs in
                  match comp with
                  | None => erro e
                  | Some [] => com_modais e (Some []) (es_confirmacao e)
                  | Some cs' =>
                      if renderizaveis cs'
                      then com_modais e (Some (OpArmazem :: (OpCarro <$> cs'))) (es_confirmacao e)
                      else erro e
                  end
              | _ => erro (com_compra e (mk_compra id tipo nome preco JNull compat JUndef))
              end
        | _ => erro e
        end
  end.

(** [selecionarCarroPeca(carroId, carroNome)] (script.js 1565-1629):
    the choice is written into [compraPendente] before the guards; the
    warehouse is bought at once with [POST /api/comprar-peca-armazem]
    ([resp] is its answer), a car opens the confirmation. *)
Definition selecionarCarroPeca (carroId : jv) (resp : fetch_result) (e : estado) : estado :=
  let c := es_compra e in
  let c := mk_compra (cp_id c) (cp_tipo c) (cp_nome c) (cp_preco c) carroId
             (cp_compatibilidade c) (cp_isVariacao c) in
  let e := com_modais (com_compra e c) None (es_confirmacao e) in
  match guarda_saldo (cp_preco c) e with
  | Some t => toast_em t e
  | None =>
      if js_eq_str carroId "armazem" then
        let e := post_em "/api/comprar-peca-armazem" (obj [("peca_id", cp_id c); ("tipo", cp_tipo c)]) e in
        match resp with
        | FResp _ (Some res) =>
            match jget res "sucesso" with
            | Some s =>
                if truthy s
                then recarregar_em [RlPecasLoja; RlDadosEquipe] (toast_em (TSuccess, "peca_adicionada_ao_armazem") e)
                else toast_em (TError, "erro_ao_comprar_para_armazem") e
            | None => toast_em (TError, "erro_ao_comprar_para_armazem") e
            end
        | _ => toast_em (TError, "erro_ao_comprar_para_armazem") e
        end
      else com_modais e None true
  end.

(** The object [mostrarModalPix] receives, with its id as a string. *)
Definition dados_pix_de (res : jv) : Monitor.dados_pix :=
  Monitor.mk_dados_pix (js_String (jget_opt res "transacao_id")) (jget_opt res "item_nome")
    (jget_opt res "valor_item") (jget_opt res "valor_total") (jget_opt res "taxa")
    (jget_opt res "qr_code_url") (jget_opt res "tipo_item") (jget_opt res "item_id")
    (jget_opt res "carro_id").

(** The body of [confirmarCompra]. *)
Definition com_carro (c : compra) : bool :=
  js_eq_str (cp_tipo c) "peca" && truthy (cp_carroSelecionado c).

Definition corpo (c : compra) : list (string * jv) :=
  [("tipo", cp_tipo c)] ++
  (if js_eq_str (cp_tipo c) "carro" && truthy (cp_isVariacao c)
   then [("variacao_id", cp_id c)] else [("item_id", cp_id c)]) ++
  (if com_carro c then [("carro_id", cp_carroSelecionado c)] else []).

Definition item_id_de (c : compra) : jv :=
  if js_eq_str (cp_tipo c) "carro" && truthy (cp_isVariacao c) then JUndef else cp_id c.

Definition carro_id_de (c : compra) : jv :=
  if com_carro c then cp_carroSelecionado c else JUndef.

(** [confirmarCompra()] (script.js 1673-1776); [resp] answers its one
    request. A piece without a car is refused before any request. *)
Definition confirmarCompra (resp : fetch_result) (e : estado) : estado :=
  let c := es_compra e in
  let erro := toast_em (TError, "erro_ao_processar_compra") in
  if negb (truthy (carro_id_de c)) && js_eq_str (cp_tipo c) "peca"
  then toast_em (TError, "selecione_um_carro") e
  else if js_eq_str (cp_tipo c) "carro" then
    let e := post_em "/api/comprar" (obj (corpo c)) e in
    match resp with
    | FResp _ (Some res) =>
        match jget res "sucesso" with
        | Some s =>
            if truthy s
            then recarregar_em [RlGaragem] (toast_em (TSuccess, "compra_realizada") (com_modais e (es_opcoes e) false))
            else toast_em (TError, "erro_do_servidor") e
        | None => erro e
        end
    | _ => erro e
    end
  else
    let e := post_em "/api/gerar-qr-pix"
               (obj [("tipo", cp_tipo c); ("item_id", item_id_de c); ("carro_id", js_or (carro_id_de c) JNull)]) e in
    match resp with
    | FResp _ (Some res) =>
        match jget res "sucesso" with
        | Some s =>
            if truthy s then
              let e := com_modais e (es_opcoes e) false in
              match Monitor.mostrarModalPix (dados_pix_de res) (es_page e) with
              | (p', inl _) => com_page e p'
              | (p', inr _) => erro (com_page e p')
              end
            else toast_em (TError, "erro_ao_gerar_qr_code") e
        | None => erro e
        end
    | _ => erro e
    end.

(** [solicitarMudarCarro(carroId, carroNome)] (script.js 1799-1832): the
    activation request; a refusal lists the missing pieces, an approval
    opens the PIX modal. [pecas_faltando.join] throws on a string. *)
Definition solicitarMudarCarro (carroId : jv) (resp : fetch_result) (e : estado) : estado :=
  let e := post_em "/api/ativar-carro" (obj [("carro_id", carroId)]) e in
  let erro := toast_em (TError, "erro_ao_ativar_carro") in
  match resp with
  | FNetErr | FResp _ None => erro e
  | FResp false (Some err) =>
      match jget err "pecas_faltando" with
      | None => erro e
      | Some (JArr (_ :: _)) => toast_em (TError, "carro_incompleto") e
      | Some (JStr s) =>
          if bool_decide (s = "") then toast_em (TError, "erro_ao_solicitar_ativacao") e else erro e
      | Some _ => toast_em (TError, "erro_ao_solicitar_ativacao") e
      end
  | FResp true (Some res) =>
      match jget res "sucesso" with
      | None => erro e
      | Some s =>
          if truthy s then
            match Monitor.mostrarModalPix (dados_pix_de res) (es_page e) with
            | (p', inl _) => com_page e p'
            | (p', inr _) => erro (com_page e p')
            end
          else toast_em (TError, "erro_ao_gerar_qr_code_de_ativacao") e
      end
  end.

(** ** Properties *)

Lemma guarda_saldo_com_page e p preco :
  pg_equipeAtual p = pg_equipeAtual (es_page e) -> guarda_saldo preco (com_page e p) = guarda_saldo preco e.
Proof. intros H. unfold guarda_saldo. simpl. by rewrite H. Qed.

(** [confirmarCompra] refuses a piece with no car chosen: whatever
    the server would answer, it only shows the error toast, with no
    request. *)
Theorem peca_sem_carro_recusada e resp :
  js_eq_str (cp_tipo (es_compra e)) "peca" = true -> truthy (cp_carroSelecionado (es_compra e)) = false ->
  confirmarCompra resp e = toast_em (TError, "selecione_um_carro") e.
Proof.
  intros Ht Hc. unfold confirmarCompra, carro_id_de, com_carro. rewrite Ht, Hc. reflexivity.
Qed.

(** A car is bought with exactly one [POST /api/comprar], carrying
    [variacao_id] for a variation and [item_id] otherwise, and no PIX
    poller is started, whatever the server answers. *)
Theorem compra_carro_sem_pix e resp :
  js_eq_str (cp_tipo (es_compra e)) "carro" = true ->
  let p' := es_page (confirmarCompra resp e) in
  pg_chamadas p' = pg_chamadas (es_page e) ++ [Post "/api/comprar" (obj (corpo (es_compra e)))] /\
  pg_intervals p' = pg_intervals (es_page e) /\ pg_pixPollings p' = pg_pixPollings (es_page e).
Proof.
  intros Ht. cbv zeta. unfold confirmarCompra, carro_id_de, com_carro.
  assert (Hp : js_eq_str (cp_tipo (es_compra e)) "peca" = false).
  { apply js_eq_str_spec in Ht. by rewrite Ht. }
  rewrite Hp, Ht. simpl andb. cbv iota.
  destruct resp as [|? [res|]]; [done| |done]. destruct (jget res "sucesso") as [s|]; [|done].
  destruct (truthy s); done.
Qed.

(** A piece with a chosen car asks for a QR code carrying the piece
    and the car; a granted code opens the PIX modal, which registers a
    monitor for the returned id in [pixPollings] and makes it current. *)
Theorem compra_peca_gera_pix e ok res vi vt tx :
  js_eq_str (cp_tipo (es_compra e)) "peca" = true -> truthy (cp_carroSelecionado (es_compra e)) = true ->
  jget res "sucesso" = Some (JBool true) ->
  js_number (jget_opt res "valor_item") = Some vi -> js_number (jget_opt res "valor_total") = Some vt ->
  js_number (jget_opt res "taxa") = Some tx ->
  let p := es_page e in
  let p' := es_page (confirmarCompra (FResp ok (Some res)) e) in
  let tid := js_String (jget_opt res "transacao_id") in
  pg_chamadas p' = pg_chamadas p ++
    [Post "/api/gerar-qr-pix" (obj [("tipo", JStr "peca"); ("item_id", cp_id (es_compra e));
                                   ("carro_id", cp_carroSelecionado (es_compra e))])] /\
  pg_pixPollings p' !! tid = Some (pg_next_handle p) /\
  pg_intervals p' !! pg_next_handle p = Some KMonitor /\
  pg_transacaoPixAtual p' = Some tid.
Proof.
  intros Ht Hc Hs H1 H2 H3. cbv zeta. unfold confirmarCompra, carro_id_de, item_id_de, com_carro.
  pose proof Ht as Ht'. apply js_eq_str_spec in Ht'. rewrite Ht, Hc. simpl.
  rewrite Ht'. simpl. rewrite Hc. simpl js_or. rewrite Hs. simpl truthy. cbv iota.
  match goal with |- context [Monitor.mostrarModalPix ?d ?q] =>
    destruct (Monitor.mostrar_registra d q vi vt tx H1 H2 H3) as (R1 & R2 & R3 & R4 & R5);
    destruct (Monitor.mostrarModalPix d q) as [p' r] end.
  simpl in *. subst r. simpl. rewrite js_or_truthy in R5 by done. by split_and!.
Qed.

(** With a balance below the price, [abrirEscolherCarro] and
    [abrirConfirmacao] only show the "insufficient balance" toast: no
    request, no modal, [compraPendente] unchanged. *)
Theorem saldo_insuficiente_recusa e id tipo nome preco compat garagem isVariacao :
  truthy (pg_equipeAtual (es_page e)) = true ->
  js_lt_num (jget_opt (pg_equipeAtual (es_page e)) "saldo") preco = true ->
  abrirEscolherCarro id tipo nome preco compat garagem e = toast_em (TError, "saldo_insuficiente") e /\
  abrirConfirmacao id tipo nome preco isVariacao e = toast_em (TError, "saldo_insuficiente") e.
Proof.
  intros Heq Hlt. unfold abrirEscolherCarro, abrirConfirmacao, guarda_saldo.
  rewrite Heq, Hlt. done.
Qed.

(** When none of the garage's cars is compatible with the piece, the
    modal offers nothing, not even the warehouse, which needs no car. *)
Theorem sem_compativeis_sem_armazem e id nome preco compat ok g cs :
  guarda_saldo preco e = None -> truthy g = true ->
  jget_opt g "carros" = JArr cs -> cs <> [] -> js_eq_str compat "universal" = false ->
  filtrar_compativeis (ids_compatibilidade compat) cs = Some [] ->
  es_opcoes (abrirEscolherCarro id (JStr "peca") nome preco compat (FResp ok (Some g)) e) = Some [].
Proof.
  intros Hg Htr Hc Hne Hu Hf. unfold abrirEscolherCarro. rewrite Hg. simpl.
  rewrite Htr, Hc. simpl. destruct cs as [|c cs]; [done|]. rewrite Hu, Hf. reflexivity.
Qed.

(** The garage of the examples: a car of model 1 and a car with no
    model. *)
Definition garagem_dois : jv :=
  obj [("carros", JArr [obj [("id", JNum 10); ("modelo_id", JNum 1); ("status", JStr "ativo")];
                        obj [("id", JNum 11); ("status", JStr "repouso")]])].

(** the compatibility list is split on commas and trimmed, so
    ["1, 2"] matches the car of model 1 only; but a trailing comma
    (["1,2,"]) adds an empty id, which matches every car with no
    [modelo_id]. *)
Example compatibilidade_virgula_final :
  ids_compatibilidade (JStr "1, 2") = ["1"; "2"] /\
  filtrar_compativeis (ids_compatibilidade (JStr "1, 2")) (match jget_opt garagem_dois "carros" with JArr cs => cs | _ => [] end)
    = Some [obj [("id", JNum 10); ("modelo_id", JNum 1); ("status", JStr "ativo")]] /\
  filtrar_compativeis (ids_compatibilidade (JStr "1,2,")) (match jget_opt garagem_dois "carros" with JArr cs => cs | _ => [] end)
    = Some [obj [("id", JNum 10); ("modelo_id", JNum 1); ("status", JStr "ativo")];
            obj [("id", JNum 11); ("status", JStr "repouso")]].
Proof. vm_compute. split_and!; reflexivity. Qed.

(** Choosing the warehouse buys at once, without a QR code. *)
Lemma armazem_sem_pix e resp :
  guarda_saldo (cp_preco (es_compra e)) e = None ->
  let c := es_compra e in
  let p' := es_page (selecionarCarroPeca (JStr "armazem") resp e) in
  pg_chamadas p' = pg_chamadas (es_page e) ++
    [Post "/api/comprar-peca-armazem" (obj [("peca_id", cp_id c); ("tipo", cp_tipo c)])] /\
  pg_intervals p' = pg_intervals (es_page e).
Proof.
  intros Hg. cbv zeta. unfold selecionarCarroPeca. unfold guarda_saldo in *. simpl in *.
  destruct (negb _); [done|]. destruct (js_lt_num _ _); [done|]. simpl.
  destruct resp as [|? [res|]]; simpl; [done| |done].
  destruct (jget res "sucesso"); [destruct (truthy _)|]; done.
Qed.

(** ** Witnesses *)

Definition pagina_equipe : page := set_equipe page_init (obj [("saldo", JNum 1000)]).
Definition compra_motor (carro : jv) : compra :=
  mk_compra (JNum 5) (JStr "peca") (JStr "Motor") 100 carro (JStr "universal") JUndef.
Definition estado_motor (carro : jv) : estado := mk_estado (compra_motor carro) None true pagina_equipe.
Definition qr_motor : jv :=
  obj [("sucesso", JBool true); ("transacao_id", JStr "T1"); ("valor_item", JNum 100);
       ("valor_total", JNum 101); ("taxa", JNum 1)].

Lemma peca_sem_carro_recusada_witness :
  truthy (cp_carroSelecionado (es_compra (estado_motor JNull))) = false /\
  confirmarCompra (FResp true (Some qr_motor)) (estado_motor JNull)
    = toast_em (TError, "selecione_um_carro") (estado_motor JNull).
Proof. split; [reflexivity|]. by apply peca_sem_carro_recusada. Defined.

Definition estado_carro : estado :=
  mk_estado (mk_compra (JNum 7) (JStr "carro") (JStr "Kart") 500 JUndef JUndef (JBool false)) None true pagina_equipe.

Lemma compra_carro_sem_pix_witness :
  js_eq_str (cp_tipo (es_compra estado_carro)) "carro" = true /\
  pg_intervals (es_page (confirmarCompra FNetErr estado_carro)) = pg_intervals (es_page estado_carro).
Proof. split; [reflexivity|]. exact (proj1 (proj2 (compra_carro_sem_pix estado_carro FNetErr eq_refl))). Defined.

Lemma compra_peca_gera_pix_witness :
  truthy (cp_carroSelecionado (es_compra (estado_motor (JNum 10)))) = true /\
  pg_transacaoPixAtual (es_page (confirmarCompra (FResp true (Some qr_motor)) (estado_motor (JNum 10))))
    = Some "T1".
Proof.
  split; [reflexivity|].
  exact (proj2 (proj2 (proj2 (compra_peca_gera_pix (estado_motor (JNum 10)) true qr_motor 100 101 1
           eq_refl eq_refl eq_refl eq_refl eq_refl eq_refl)))).
Defined.

Definition estado_pobre : estado :=
  mk_estado compra_inicial None false (set_equipe page_init (obj [("saldo", JNum 50)])).

Lemma saldo_insuficiente_recusa_witness :
  js_lt_num (jget_opt (pg_equipeAtual (es_page estado_pobre)) "saldo") 100 = true /\
  abrirConfirmacao (JNum 7) (JStr "carro") (JStr "Kart") 100 (JBool false) estado_pobre
    = toast_em (TError, "saldo_insuficiente") estado_pobre.
Proof.
  split; [reflexivity|].
  exact (proj2 (saldo_insuficiente_recusa estado_pobre (JNum 7) (JStr "carro") (JStr "Kart") 100
                  (JStr "universal") FNetErr (JBool false) eq_refl eq_refl)).
Defined.

Lemma sem_compativeis_sem_armazem_witness :
  filtrar_compativeis (ids_compatibilidade (JStr "9")) (match jget_opt garagem_dois "carros" with JArr cs => cs | _ => [] end)
    = Some [] /\
  es_opcoes (abrirEscolherCarro (JNum 5) (JStr "peca") (JStr "Motor") 100 (JStr "9")
               (FResp true (Some garagem_dois)) (estado_motor JNull)) = Some [].
Proof.
  assert (Hf : filtrar_compativeis (ids_compatibilidade (JStr "9"))
                 (match jget_opt garagem_dois "carros" with JArr cs => cs | _ => [] end) = Some [])
    by (vm_compute; reflexivity).
  split; [exact Hf|].
  apply (sem_compativeis_sem_armazem (estado_motor JNull) (JNum 5) (JStr "Motor") 100 (JStr "9") true
           garagem_dois _ eq_refl eq_refl eq_refl ltac:(discriminate) eq_refl Hf).
Defined.

End Loja.

(** * Whether a car has all its pieces

    [verificarPecasCompletas(carro)] (script.js 1974-1993), which the
    garage view uses to show whether a car can race. *)
Module Garagem.

Definition tipos_necessarios : list string := ["motor"; "cambio"; "suspensao"; "diferencial"; "kit_angulo"].

Definition tipos_instalados (pecas : list jv) : list jv :=
  (fun p => jget_opt p "tipo") <$> List.filter (fun p => truthy p && truthy (jget_opt p "tipo")) pecas.

Definition verificarPecasCompletas (carro : jv) : bool :=
  if negb (truthy carro) then false
  else match jget_opt carro "pecas" with
       | JArr pecas =>
           forallb (fun t => existsb (fun v => js_eq_str v t) (tipos_instalados pecas)) tipos_necessarios
       | _ => false
       end.

(** A car counts as complete exactly when, for each of the five
    required types, some valid piece of its [pecas] array has that
    type. *)
Theorem completo_sse carro pecas :
  truthy carro = true -> jget_opt carro "pecas" = JArr pecas ->
  verificarPecasCompletas carro = true <->
  Forall (fun t => exists p, p ∈ pecas /\ truthy p = true /\ jget_opt p "tipo" = JStr t) tipos_necessarios.
Proof.
  intros Hc Hp. unfold verificarPecasCompletas. rewrite Hc, Hp. cbn [negb].
  assert (Hex : forall t, t <> "" -> existsb (fun v => js_eq_str v t) (tipos_instalados pecas) = true <->
                 exists p, p ∈ pecas /\ truthy p = true /\ jget_opt p "tipo" = JStr t).
  { intros t Hne. rewrite existsb_exists. split.
    - intros (v & Hv & Ht). apply js_eq_str_spec in Ht as ->.
      apply list_elem_of_In, list_elem_of_fmap in Hv as (p & Hpt & Hin).
      apply list_elem_of_In, filter_In in Hin as [Hin Hok]. apply andb_true_iff in Hok as [Hok _].
      exists p. split_and!; [by apply list_elem_of_In|done|done].
    - intros (p & Hin & Hok & Ht). exists (JStr t). split; [|by apply js_eq_str_spec].
      apply list_elem_of_In, list_elem_of_fmap. exists p. split; [done|].
      apply list_elem_of_In, filter_In. split; [by apply list_elem_of_In|]. rewrite Hok, Ht. cbn.
      by rewrite bool_decide_eq_false_2. }
  assert (Hne : forall t, In t tipos_necessarios -> t <> "").
  { intros t Ht. repeat destruct Ht as [<-|Ht]; done. }
  rewrite forallb_forall, Forall_forall. split.
  - intros Hall t Ht. apply Hex; [by apply Hne, list_elem_of_In|]. apply Hall. by apply list_elem_of_In.
  - intros Hall t Ht. apply Hex; [by apply Hne|]. apply Hall. by apply list_elem_of_In.
Qed.

Definition peca_tipo (t : string) : jv := obj [("tipo", JStr t)].

Lemma completo_sse_witness :
  verificarPecasCompletas (obj [("pecas", JArr (peca_tipo <$> tipos_necessarios))]) = true.
Proof.
  apply (completo_sse _ (peca_tipo <$> tipos_necessarios)); [reflexivity|reflexivity|].
  apply Forall_forall. intros t Ht. exists (peca_tipo t).
  split_and!; [by apply list_elem_of_fmap_2|reflexivity|reflexivity].
Defined.

(** The comment says each type other than the differential must
    appear exactly once, but the code only asks that it appear: a car
    with two engines counts as complete. *)
Example dois_motores_completo :
  verificarPecasCompletas (obj [("pecas", JArr (peca_tipo <$> "motor" :: tipos_necessarios))]) = true.
Proof. reflexivity. Qed.

End Garagem.
