(* ===== verification/Reconcile.v ===== *)
(** * Reconciliation: the sequential purchase loops

    After a payment (or for purchases that need none), the client applies
    a cart to the server one piece at a time, awaiting each request
    before the next ([for ... of] with [await] inside [try]/[catch]).
    This file models those loops of [src/static/script.js]:
    [enviarCarrinhoParaArmazem] (4369-4453), [processarPecasCarroDividido]
    (4187-4218), [enviarCarrinhoParaArmazemDividido] (4220-4259),
    [processarPecasArmazemDividido] (4261-4285), and the balance
    handling of [gerarPixCarroAtivoDividido] (3958-4117).

    The server is an interface, the class [Servidor]: it answers each
    call, knowing the calls made before it. The loops' theorems hold for
    every server; concrete servers give the witnesses. *)
From S2P Require Import Prelude Js ShopCart Page.
From Stdlib Require Import Qround.
Set Warnings "-register-all".

Module Reconcile.

Import ShopCart.

(** What the client assumes of the server: an answer to each call, which
    may depend on the calls made before it. *)
Class Servidor := {
  responder : list chamada -> chamada -> fetch_result
}.

(** What [await resp.json()] and [if (resultado.sucesso)] make of an
    answer: a success, a failure with [resultado.erro], or an exception
    caught by the loop's [catch] ([fetch] rejected, a body that is not
    JSON, a [null] body). The status [resp.ok] is not read. *)
Inductive resposta :=
| RespSucesso
| RespFalha (erro : jv)
| RespExcecao (e : js_error).

Definition ler_resposta (r : fetch_result) : resposta :=
  match r with
  | FNetErr => RespExcecao NetworkError
  | FResp _ None => RespExcecao SyntaxError
  | FResp _ (Some res) =>
      match jget res "sucesso" with
      | None => RespExcecao TypeError
      | Some s => if truthy s then RespSucesso else RespFalha (jget_opt res "erro")
      end
  end.

Definition is_sucesso (r : resposta) : bool :=
  match r with RespSucesso => true | _ => false end.

(** The text pushed on [erros]: [resultado.erro] or the exception. *)
Definition mensagem (r : resposta) : jv + js_error :=
  match r with
  | RespFalha e => inl e
  | RespExcecao e => inr e
  | RespSucesso => inl JUndef
  end.

(** [for (let i = 0; i < peca.quantidade; i++)] runs once per natural
    number below the quantity. *)
Definition vezes (q : Q) : nat :=
  if Qle_bool q 0 then 0 else Z.to_nat (Qceiling q).

(** The units the nested loops post, in order. *)
Definition unidades (c : list peca) : list peca :=
  flat_map (fun p => replicate (vezes (pc_quantidade p)) p) c.

Section Loops.
Context `{Servidor}.

(** The inner body of [enviarCarrinhoParaArmazem]: success counts the
    piece and adds its price; a failure or a caught exception records
    an error, and the loop goes on. *)
Fixpoint enviar_unidades (hist : list chamada) (us : list peca)
    (enviados : nat) (gasto : Q) (erros : list (string * (jv + js_error)))
    : list chamada * nat * Q * list (string * (jv + js_error)) :=
  match us with
  | [] => (hist, enviados, gasto, erros)
  | p :: us' =>
      let ch := ComprarPecaArmazem (pc_id p) in
      let r := ler_resposta (responder hist ch) in
      if is_sucesso r
      then enviar_unidades (hist ++ [ch]) us' (S enviados) (gasto + pc_preco p)%Q erros
      else enviar_unidades (hist ++ [ch]) us' enviados gasto (erros ++ [(pc_nome p, mensagem r)])
  end.

(** What [enviarCarrinhoParaArmazem()] leaves behind. *)
Record envio := mk_envio {
  en_chamadas : list chamada;
  en_enviados : nat;
  en_gasto : Q;
  en_erros : list (string * (jv + js_error));
  en_carrinho : list peca;
  en_toasts : list toast;
  en_reloads : list reload
}.

(** [enviarCarrinhoParaArmazem()] (script.js 4369-4453). An empty cart
    is refused; [equipeAtual.saldo] is read before the [try], so a
    missing team throws before any request. The cart is emptied as soon
    as one unit went through, failed units included. *)
Definition enviarCarrinhoParaArmazem (equipeAtual : jv) (c : list peca) : envio + js_error :=
  match c with
  | [] => inl (mk_envio [] 0 0 [] c [(TError, "carrinho_vazio")] [])
  | _ =>
      match jget equipeAtual "saldo" with
      | None => inr TypeError
      | Some _ =>
          let '(hist, n, gasto, erros) := enviar_unidades [] (unidades c) 0 0 [] in
          let ok := bool_decide (0 < n)%nat in
          inl (mk_envio hist n gasto erros
                 (if ok then [] else c)
                 ((if ok then [(TSuccess, "pecas_enviadas_para_armazem")] else []) ++
                  (if bool_decide (erros <> []) then [(TWarning, "pecas_enviadas_com_erro")] else []))
                 (if ok then [RlDetalhes; RlGaragem] else []))
      end
  end.

(** [for (const peca of pecas) { await fetch(...) }] where every
    outcome is only logged, so the answers do not matter: [processarPecasCarroDividido(pecas, carroId)]
    posts one purchase per piece, whatever its quantity. *)
Fixpoint processarPecasCarroDividido (hist : list chamada) (pecas : list peca)
    (carroId : jv) (tid : option string) : list chamada :=
  match pecas with
  | [] => hist
  | p :: ps =>
      let ch := ProcessarCompraPix (pc_id p) carroId tid in
      processarPecasCarroDividido (hist ++ [ch]) ps carroId tid
  end.

(** [processarPecasArmazemDividido(pecas)], the same loop on the
    warehouse endpoint. *)
Fixpoint processarPecasArmazemDividido (hist : list chamada) (pecas : list peca) : list chamada :=
  match pecas with
  | [] => hist
  | p :: ps =>
      let ch := ComprarPecaArmazem (pc_id p) in
      processarPecasArmazemDividido (hist ++ [ch]) ps
  end.

(** [enviarCarrinhoParaArmazemDividido()] (script.js 4220-4259): after
    the loop the cart is emptied and the toast announces every piece as
    added, whatever the server answered. *)
Definition enviarCarrinhoParaArmazemDividido (pecasArmazem : list peca)
    : list chamada * option (list peca) * toast :=
  match pecasArmazem with
  | [] => ([], None, (TError, "nenhuma_peca_para_o_armazem"))
  | _ => (processarPecasArmazemDividido [] pecasArmazem, Some [],
          (TSuccess, "pecas_adicionadas_ao_armazem"))
  end.

End Loops.

(** ** The balance in [gerarPixCarroAtivoDividido] *)

(** The PIX charge: the commission times the number of pieces, plus the
    1% fee ([valorSemTaxa * 0.01]). *)
Definition valorPix (comissao : Q) (pecas : list peca) : Q * Q * Q :=
  let qtd := sum_by (fun p => if Qeq_bool (pc_quantidade p) 0 then 1 else pc_quantidade p) pecas in
  let semTaxa := (comissao * qtd)%Q in
  let taxa := (semTaxa * (1 # 100))%Q in
  (semTaxa, taxa, (semTaxa + taxa)%Q).

Inductive saida_dividido :=
| DivSemPecas
| DivSemCarro
| DivSaldoInsuficiente (falta : Q)
| DivFalhaQr (doricoins : Q)
| DivPixGerado (transacao_id : jv) (doricoins : Q) (valor : Q).

(** From the piece list on (script.js 3958-4061): the checks, the
    balance check, the debit before the request, and the credit back
    when the QR code is refused. [comissao] is the configured
    commission (10 when none is configured); [resp] is the answer to
    the [gerar-qr-pix] request. *)
Definition gerarPixCarroAtivoDividido (pecas : list peca) (carroAtivo : jv)
    (doricoins comissao : Q) (resp : fetch_result) : list chamada * saida_dividido :=
  match pecas with
  | [] => ([], DivSemPecas)
  | _ =>
      if negb (truthy carroAtivo) then ([], DivSemCarro)
      else
        let '(_, _, total) := valorPix comissao pecas in
        let preco := sum_by subtotal pecas in
        if negb (Qle_bool preco doricoins) then ([], DivSaldoInsuficiente (preco - doricoins)%Q)
        else
          let debitado := (doricoins - preco)%Q in
          let ch := GerarQrPix (jget_opt carroAtivo "id") total in
          match ler_resposta resp, resp with
          | RespSucesso, FResp _ (Some res) =>
              ([ch], DivPixGerado (jget_opt res "transacao_id") debitado total)
          | RespFalha _, _ => ([ch], DivFalhaQr (debitado + preco)%Q)
          | _, _ => ([ch], DivFalhaQr debitado)
          end
  end.

(** ** The reconciliation the specification asks for

    Every unit is tried, in order, and gets one outcome; the successes
    are kept and the failures reported with their error. *)
Section Spec.
Context `{Servidor}.

Fixpoint resultados (hist : list chamada) (us : list peca) : list (peca * resposta) :=
  match us with
  | [] => []
  | p :: us' =>
      let ch := ComprarPecaArmazem (pc_id p) in
      (p, ler_resposta (responder hist ch)) :: resultados (hist ++ [ch]) us'
  end.

Definition sucessos (rs : list (peca * resposta)) : list peca :=
  fst <$> List.filter (fun x => is_sucesso x.2) rs.

Definition falhas (rs : list (peca * resposta)) : list (string * (jv + js_error)) :=
  (fun x => (pc_nome x.1, mensagem x.2)) <$> List.filter (fun x => negb (is_sucesso x.2)) rs.

End Spec.

Definition compra (p : peca) : chamada := ComprarPecaArmazem (pc_id p).

(** ** Properties of the loops *)
Section LoopProps.
Context `{Servidor}.

Lemma resultados_unidades hist us : fst <$> resultados hist us = us.
Proof. revert hist. induction us as [|p us IH]; intros hist; simpl; [done|]. by rewrite IH. Qed.

Lemma enviar_unidades_spec hist us n g e :
  enviar_unidades hist us n g e =
  (hist ++ (compra <$> us),
   (n + length (sucessos (resultados hist us)))%nat,
   fold_left (fun t x => t + pc_preco x)%Q (sucessos (resultados hist us)) g,
   e ++ falhas (resultados hist us)).
Proof.
  revert hist n g e. induction us as [|p us IH]; intros hist n g e; simpl.
  - by rewrite !app_nil_r, Nat.add_0_r.
  - unfold sucessos, falhas in *. simpl.
    destruct (is_sucesso _) eqn:Hs; simpl; rewrite IH, <-!app_assoc; simpl;
      rewrite ?Nat.add_succ_r; reflexivity.
Qed.

Lemma resultados_todos_sucesso hist us :
  (forall hist' ch, is_sucesso (ler_resposta (responder hist' ch)) = true) ->
  sucessos (resultados hist us) = us /\ falhas (resultados hist us) = [].
Proof.
  intros Hok. revert hist. induction us as [|p us IH]; intros hist; [done|].
  unfold sucessos, falhas in *. simpl. rewrite Hok. simpl.
  destruct (IH (hist ++ [ComprarPecaArmazem (pc_id p)])) as [H1 H2].
  split; [by f_equal|done].
Qed.

End LoopProps.

Lemma unidades_unitarias c :
  Forall (fun p => pc_quantidade p = 1%Q) c -> unidades c = c.
Proof.
  induction 1 as [|p c Hq _ IH]; [done|].
  unfold unidades in *; simpl. rewrite Hq, IH. reflexivity.
Qed.

Lemma total_unitario c :
  Forall (fun p => pc_quantidade p = 1%Q) c ->
  (calcularTotalCarrinho c == sum_by pc_preco c)%Q.
Proof.
  intros Hq. apply sum_by_ext. intros p Hp.
  rewrite Forall_forall in Hq. rewrite (Hq p Hp). ring.
Qed.

Lemma processarPecasCarroDividido_spec hist ps carro tid :
  processarPecasCarroDividido hist ps carro tid =
    hist ++ ((fun q => ProcessarCompraPix (pc_id q) carro tid) <$> ps).
Proof.
  revert hist. induction ps as [|q ps IH]; intros hist; simpl; [by rewrite app_nil_r|].
  by rewrite IH, <-app_assoc.
Qed.

Lemma processarPecasArmazemDividido_spec hist ps :
  processarPecasArmazemDividido hist ps = hist ++ (compra <$> ps).
Proof.
  revert hist. induction ps as [|q ps IH]; intros hist; simpl; [by rewrite app_nil_r|].
  by rewrite IH, <-app_assoc.
Qed.

(** The balance check of [gerarPixCarroAtivoDividido] passes. *)
Lemma saldo_suficiente d preco : (preco <= d)%Q -> negb (Qle_bool preco d) = false.
Proof. intros Hle. apply Qle_bool_iff in Hle. by rewrite Hle. Qed.

#[export] Hint Resolve saldo_suficiente : granpix.

(** ** Concrete servers and carts for the examples *)

Definition resp_ok : fetch_result := FResp true (Some (obj [("sucesso", JBool true)])).
Definition resp_sem_estoque : fetch_result :=
  FResp true (Some (obj [("sucesso", JBool false); ("erro", JStr "sem_estoque")])).

(** A server that refuses the second purchase and accepts every other. *)
Definition falha_no_segundo : Servidor :=
  {| responder := fun hist _ => if bool_decide (length hist = 1%nat) then resp_sem_estoque else resp_ok |}.

(** A server that accepts everything. *)
Definition aceita_tudo : Servidor := {| responder := fun _ _ => resp_ok |}.

Definition motor : peca := mk_peca "p1" "Motor" 100 "" "motor" 1.
Definition turbo : peca := mk_peca "p2" "Turbo" 50 "" "turbo" 1.
Definition freio : peca := mk_peca "p3" "Freio" 30 "" "freio" 1.
Definition equipe_com_saldo : jv := obj [("saldo", JNum 1000); ("doricoins", JNum 1000)].
Definition carro_ativo : jv := obj [("id", JStr "c1")].
Definition tres : list peca := [motor; turbo; freio].
Definition resp_qr : fetch_result :=
  FResp true (Some (obj [("sucesso", JBool true); ("transacao_id", JStr "tx")])).
Definition resp_qr_recusado : fetch_result :=
  FResp true (Some (obj [("sucesso", JBool false); ("erro", JStr "mp_indisponivel")])).

(** ** The warehouse loop refines the reconciliation of the specification *)

(** C7: [enviarCarrinhoParaArmazem] with a team loaded and a non-empty
    cart posts one purchase per unit, in order, tries every unit whatever
    happened to the earlier ones, counts and charges exactly the units
    the server accepted, and reports every refused unit with its error:
    the outcome is the reconciliation [resultados] of the specification. *)
Theorem enviar_refina_reconciliacao `{Servidor} equipe c s :
  jget equipe "saldo" = Some s -> c <> [] ->
  exists r, enviarCarrinhoParaArmazem equipe c = inl r /\
    let rs := resultados [] (unidades c) in
    fst <$> rs = unidades c /\
    en_chamadas r = compra <$> unidades c /\
    en_enviados r = length (sucessos rs) /\
    en_gasto r = sum_by pc_preco (sucessos rs) /\
    en_erros r = falhas rs /\
    (en_carrinho r = [] <-> sucessos rs <> []).
Proof.
  intros Hs Hc. unfold enviarCarrinhoParaArmazem.
  destruct c as [|p c]; [done|]. rewrite Hs, enviar_unidades_spec.
  eexists; split; [reflexivity|]. cbn zeta.
  split; [apply resultados_unidades|]. split_and!; try done.
  case_bool_decide as Hn; split; try done.
  - intros _ Hnil. rewrite Hnil in Hn. simpl in Hn. lia.
  - intros Hne. destruct (sucessos _); [done|]. simpl in Hn. lia.
Qed.

(** A well-formed cart (distinct pieces, each of quantity 1) sent to a
    server that accepts every purchase: one call per piece, nothing
    refused, the amount spent equals [calcularTotalCarrinho] and the cart
    is emptied. *)
Theorem enviar_tudo_aceito `{Servidor} equipe c s :
  cart_wf c -> jget equipe "saldo" = Some s -> c <> [] ->
  (forall hist ch, ler_resposta (responder hist ch) = RespSucesso) ->
  exists r, enviarCarrinhoParaArmazem equipe c = inl r /\
    en_chamadas r = compra <$> c /\ en_enviados r = length c /\ en_erros r = [] /\
    (en_gasto r == calcularTotalCarrinho c)%Q /\ en_carrinho r = [].
Proof.
  intros [_ Hq] Hs Hc Hok.
  assert (Hall : forall hist ch, is_sucesso (ler_resposta (responder hist ch)) = true)
    by (intros; by rewrite Hok).
  destruct (resultados_todos_sucesso [] (unidades c) Hall) as [Hsuc Hfal].
  destruct (enviar_refina_reconciliacao equipe c s Hs Hc) as (r & Hr & _ & Hch & Hn & Hg & He & Hcar).
  rewrite unidades_unitarias in * by done.
  exists r. rewrite Hsuc in Hn, Hg, Hcar. rewrite Hfal in He.
  split_and!; try done.
  - rewrite Hg. symmetry. by apply total_unitario.
  - apply Hcar. by destruct c.
Qed.

(** C8: with a team loaded and a non-empty cart, whatever the server
    answers, the cart is emptied and the page's details and garage are
    reloaded exactly when at least one unit was bought, failures
    included; the success toast is shown exactly then, and the warning
    toast exactly when some unit was refused or threw. *)
Theorem enviar_parcial_esvazia `{Servidor} equipe c s :
  jget equipe "saldo" = Some s -> c <> [] ->
  exists r, enviarCarrinhoParaArmazem equipe c = inl r /\
    let rs := resultados [] (unidades c) in
    en_carrinho r = (if bool_decide (sucessos rs = []) then c else []) /\
    en_toasts r = (if bool_decide (sucessos rs = []) then [] else [(TSuccess, "pecas_enviadas_para_armazem")]) ++
                  (if bool_decide (falhas rs = []) then [] else [(TWarning, "pecas_enviadas_com_erro")]) /\
    en_reloads r = (if bool_decide (sucessos rs = []) then [] else [RlDetalhes; RlGaragem]).
Proof.
  intros Hs Hc. unfold enviarCarrinhoParaArmazem.
  destruct c as [|p c]; [done|]. rewrite Hs, enviar_unidades_spec.
  eexists; split; [reflexivity|]. cbn zeta. cbn [en_carrinho en_toasts en_reloads app].
  destruct (sucessos _) as [|x xs]; cbn [length];
    [rewrite bool_decide_eq_false_2 by lia; rewrite bool_decide_eq_true_2 by done
    |rewrite bool_decide_eq_true_2 by lia; rewrite bool_decide_eq_false_2 by done];
    destruct (falhas _); split_and!; try done;
    (rewrite bool_decide_eq_true_2 by done || rewrite bool_decide_eq_false_2 by done); done.
Qed.

(** The example of the specification: three pieces, the second
    refused by the server. The three purchases are posted in order
    (none skipped after the failure); two are counted and charged
    (100 + 30); the refused piece is reported with the server's error;
    the cart is emptied, a success and a warning toast are shown. *)
Example tres_pecas_segunda_falha :
  match @enviarCarrinhoParaArmazem falha_no_segundo equipe_com_saldo [motor; turbo; freio] with
  | inl r =>
      en_chamadas r = [compra motor; compra turbo; compra freio] /\
      en_enviados r = 2%nat /\ (en_gasto r == 130)%Q /\
      en_erros r = [("Turbo", inl (JStr "sem_estoque"))] /\
      en_carrinho r = [] /\
      en_toasts r = [(TSuccess, "pecas_enviadas_para_armazem"); (TWarning, "pecas_enviadas_com_erro")]
  | inr _ => False
  end.
Proof. vm_compute. split_and!; reflexivity. Qed.

(** ** The balance of [gerarPixCarroAtivoDividido] *)

Definition quantidade_pix (pecas : list peca) : Q :=
  sum_by (fun p => if Qeq_bool (pc_quantidade p) 0 then 1 else pc_quantidade p) pecas.

Lemma valorPix_total comissao pecas :
  ((valorPix comissao pecas).2 == comissao * quantidade_pix pecas * (101 # 100))%Q.
Proof. unfold valorPix, quantidade_pix. simpl. ring. Qed.

(** The run of [gerarPixCarroAtivoDividido] once the checks passed. *)
Lemma gerar_apos_checagens pecas carro d comissao resp :
  pecas <> [] -> truthy carro = true -> (sum_by subtotal pecas <= d)%Q ->
  gerarPixCarroAtivoDividido pecas carro d comissao resp =
  let total := (valorPix comissao pecas).2 in
  let preco := sum_by subtotal pecas in
  let ch := GerarQrPix (jget_opt carro "id") total in
  match ler_resposta resp, resp with
  | RespSucesso, FResp _ (Some res) =>
      ([ch], DivPixGerado (jget_opt res "transacao_id") (d - preco)%Q total)
  | RespFalha _, _ => ([ch], DivFalhaQr (d - preco + preco)%Q)
  | _, _ => ([ch], DivFalhaQr (d - preco)%Q)
  end.
Proof.
  intros Hp Hc Hle. unfold gerarPixCarroAtivoDividido.
  destruct pecas as [|p ps]; [done|]. rewrite Hc. simpl negb. cbv iota.
  destruct (valorPix _ _) as [[??] ?]. by rewrite saldo_suficiente.
Qed.

(** When [gerarPixCarroAtivoDividido] produces a QR code, the team's
    balance was debited by exactly the price of the pieces and is not
    negative, and the single request charges the commission times the
    number of pieces plus the 1% fee. *)
Theorem dividido_pix_gerado pecas carro d comissao resp chs t d' v :
  gerarPixCarroAtivoDividido pecas carro d comissao resp = (chs, DivPixGerado t d' v) ->
  (d' == d - sum_by subtotal pecas)%Q /\ (0 <= d')%Q /\
  (v == comissao * quantidade_pix pecas * (101 # 100))%Q /\
  chs = [GerarQrPix (jget_opt carro "id") v].
Proof.
  unfold gerarPixCarroAtivoDividido.
  destruct pecas as [|p ps]; [done|]. destruct (truthy carro); simpl negb; cbv iota; [|done].
  pose proof (valorPix_total comissao (p :: ps)) as Hv.
  destruct (valorPix _ _) as [[??] tot]. cbn [snd] in Hv.
  destruct (Qle_bool _ d) eqn:Hle; simpl; [|done]. apply Qle_bool_iff in Hle.
  destruct (ler_resposta resp), resp as [|? [res|]]; intros [= <- <- <- <-]; split_and!; try done; lra.
Qed.

(** When the server refuses the QR code ([resultado.sucesso] falsy),
    the debit is given back: the balance is the one before the click. *)
Theorem dividido_recusa_estorna pecas carro d comissao resp erro :
  pecas <> [] -> truthy carro = true -> (sum_by subtotal pecas <= d)%Q ->
  ler_resposta resp = RespFalha erro ->
  exists d', (gerarPixCarroAtivoDividido pecas carro d comissao resp).2 = DivFalhaQr d' /\ (d' == d)%Q.
Proof.
  intros Hp Hc Hle Hr. rewrite gerar_apos_checagens by done. cbv zeta.
  rewrite Hr. eexists; split; [reflexivity|]. ring.
Qed.

(** C39: When the QR request throws instead (the network fails, the body
    is not JSON or is [null]), the [catch] shows an error and the debit
    stays: the displayed balance is lowered by the price of pieces that
    were never bought. *)
Theorem dividido_excecao_sem_estorno pecas carro d comissao resp e :
  pecas <> [] -> truthy carro = true -> (sum_by subtotal pecas <= d)%Q ->
  ler_resposta resp = RespExcecao e ->
  (gerarPixCarroAtivoDividido pecas carro d comissao resp).2 = DivFalhaQr (d - sum_by subtotal pecas)%Q.
Proof.
  intros Hp Hc Hle Hr. rewrite gerar_apos_checagens by done. cbv zeta.
  by rewrite Hr.
Qed.

(** ** Witnesses *)

Lemma tres_wf : cart_wf tres.
Proof. split; [apply (bool_decide_unpack _); by vm_compute|repeat constructor]. Qed.

Lemma enviar_refina_reconciliacao_witness :
  jget equipe_com_saldo "saldo" = Some (JNum 1000) /\
  exists r, @enviarCarrinhoParaArmazem falha_no_segundo equipe_com_saldo tres = inl r /\
    en_chamadas r = compra <$> unidades tres.
Proof.
  split; [reflexivity|].
  destruct (@enviar_refina_reconciliacao falha_no_segundo equipe_com_saldo tres (JNum 1000) eq_refl ltac:(discriminate))
    as (r & Hr & _ & Hc & _).
  exists r. split; [exact Hr|exact Hc].
Defined.

Lemma enviar_parcial_esvazia_witness :
  jget equipe_com_saldo "saldo" = Some (JNum 1000) /\ tres <> [] /\
  exists r, @enviarCarrinhoParaArmazem falha_no_segundo equipe_com_saldo tres = inl r /\
    en_carrinho r = [] /\
    en_toasts r = [(TSuccess, "pecas_enviadas_para_armazem"); (TWarning, "pecas_enviadas_com_erro")].
Proof.
  split; [reflexivity|]. split; [discriminate|].
  destruct (@enviar_parcial_esvazia falha_no_segundo equipe_com_saldo tres (JNum 1000) eq_refl ltac:(discriminate))
    as (r & Hr & Hc & Ht & _).
  exists r. split; [exact Hr|]. split; [rewrite Hc; vm_compute; reflexivity|rewrite Ht; vm_compute; reflexivity].
Defined.

Lemma enviar_tudo_aceito_witness :
  cart_wf tres /\ (forall hist ch, ler_resposta (@responder aceita_tudo hist ch) = RespSucesso) /\
  exists r, @enviarCarrinhoParaArmazem aceita_tudo equipe_com_saldo tres = inl r /\
    (en_gasto r == calcularTotalCarrinho tres)%Q.
Proof.
  assert (Hok : forall hist ch, ler_resposta (@responder aceita_tudo hist ch) = RespSucesso) by reflexivity.
  split_and!; [exact tres_wf|exact Hok|].
  destruct (@enviar_tudo_aceito aceita_tudo equipe_com_saldo tres (JNum 1000) tres_wf eq_refl
              ltac:(discriminate) Hok) as (r & Hr & _ & _ & _ & Hg & _).
  exists r. split; [exact Hr|exact Hg].
Defined.

Lemma dividido_pix_gerado_witness :
  gerarPixCarroAtivoDividido [motor] carro_ativo 1000 10 resp_qr =
    ([GerarQrPix (JStr "c1") (1010 # 100)], DivPixGerado (JStr "tx") 900 (1010 # 100)) /\
  (0 <= 900)%Q.
Proof.
  assert (E : gerarPixCarroAtivoDividido [motor] carro_ativo 1000 10 resp_qr =
    ([GerarQrPix (JStr "c1") (1010 # 100)], DivPixGerado (JStr "tx") 900 (1010 # 100)))
    by (vm_compute; reflexivity).
  split; [exact E|exact (proj1 (proj2 (dividido_pix_gerado _ _ _ _ _ _ _ _ _ E)))].
Defined.

Lemma dividido_recusa_estorna_witness :
  ler_resposta resp_qr_recusado = RespFalha (JStr "mp_indisponivel") /\
  exists d', (gerarPixCarroAtivoDividido [motor] carro_ativo 1000 10 resp_qr_recusado).2 = DivFalhaQr d' /\
    (d' == 1000)%Q.
Proof.
  assert (Hr : ler_resposta resp_qr_recusado = RespFalha (JStr "mp_indisponivel")) by reflexivity.
  split; [exact Hr|].
  apply (dividido_recusa_estorna [motor] carro_ativo 1000 10 resp_qr_recusado _ ltac:(discriminate) eq_refl
           ltac:(vm_compute; intros; discriminate) Hr).
Defined.

Lemma dividido_excecao_sem_estorno_witness :
  ler_resposta FNetErr = RespExcecao NetworkError /\
  (gerarPixCarroAtivoDividido [motor] carro_ativo 1000 10 FNetErr).2 =
    DivFalhaQr (1000 - sum_by subtotal [motor])%Q.
Proof.
  split; [reflexivity|].
  apply (dividido_excecao_sem_estorno [motor] carro_ativo 1000 10 FNetErr NetworkError ltac:(discriminate) eq_refl
           ltac:(vm_compute; intros; discriminate) eq_refl).
Defined.

End Reconcile.
