(* ===== verification/Lenient.v ===== *)
(** * The lenient PIX pollers and the page's whole event loop

    Besides [monitorarTransacaoPix] ([Monitor]), [src/static/script.js]
    has four more payment pollers, each a copy of the same loop with its
    own variations:
    - [mostrarPixModalCarrinho] / [iniciarPollingPixCarrinho]
      (4455-4572), started by [gerarPixCarroAtivo] (4292-4367);
    - [mostrarPixModalRegularizacao] / [iniciarPollingPixRegularizacao]
      (4574-4677) and [mostrarPixModalInscricao] /
      [iniciarPollingPixInscricao] (4679-4782), which also read the status
      nested in [dados.transacao];
    - [iniciarPollingPixDividido] (4119-4185), started by
      [gerarPixCarroAtivoDividido] (4079-4104), whose approval runs the
      purchase loops of [Reconcile].
    Unlike the monitor they are not registered in [pixPollings], do not
    compare the transaction with [window.transacaoPixAtual], treat any
    status other than an approval as "keep polling", and check the
    attempt counter only when an answer arrives.

    The pollers of one kind differ only in the poller kind of their
    closure ([cl_kind]), so one handler per callback covers the four,
    with the differences written as matches on the kind. The last part
    of the file joins these handlers and the monitor's into [step], the
    event loop of the page with every payment flow. *)
From S2P Require Import Prelude Js ShopCart WarehouseCart Page Monitor Reconcile.
Set Warnings "-register-all".
Local Close Scope Q_scope.

Module Lenient.

Import ShopCart Reconcile.

(** [const maxTentativas = 120] of each poller. *)
Definition maxTentativas : nat := 120.

Definition leniente (k : poller_kind) : bool :=
  match k with KMonitor => false | _ => true end.

Local Open Scope granpix_scope.

(** [(dados.x || 0).toFixed(2)] throws a [TypeError] on a truthy value
    that is not a number. *)
Definition toFixed_ok (v : jv) : bool := bool_decide (is_Some (js_number (js_or v (JNum 0)))).

(** [mostrarPixModalCarrinho(dados)], [mostrarPixModalRegularizacao(dados)]
    and [mostrarPixModalInscricao(dados)] (script.js 4455-4486,
    4574-4606, 4679-4711): the payload check, the three amounts written
    with [toFixed(2)] (which may throw before any state is written), the
    current transaction, the kind of transaction for the two stage
    payments, and a new unregistered poller. Transaction ids are
    strings, as the server sends them. *)
Definition mostrarPixModalLeniente (k : poller_kind) (dados : jv) : SE page unit :=
  if negb (truthy dados) || negb (truthy (jget_opt dados "transacao_id"))
  then SE.modify (mostrarToast (TError, "dados_da_transacao_invalidos"))
  else if negb (toFixed_ok (jget_opt dados "valor_item") && toFixed_ok (jget_opt dados "taxa")
                && toFixed_ok (jget_opt dados "valor_total"))
  then SE.throw TypeError
  else
    match jget_opt dados "transacao_id" with
    | JStr tid =>
        SE.modify (fun p =>
          let p := set_transacao p (Some tid) (pg_transacaoPixAtualDividido p) in
          let p := match k with
                   | KRegularizacao => set_tipo_transacao p (Some "regularizacao")
                   | KInscricao => set_tipo_transacao p (Some "inscricao")
                   | _ => p
                   end in
          (setInterval k tid (set_modal (set_pixStatus p PsAguardando) true)).1)
    | _ => SE.ret tt
    end.

(** [gerarPixCarroAtivo()] (script.js 4292-4367). [cfg] is the
    commission read from [/api/admin/configuracoes] ([10] when the
    answer has none), [None] when reading it threw; [qr] is the answer
    to [POST /api/gerar-qr-pix]. The charge is the commission times the
    pieces plus 1%, with [carro_id: null]; the cart itself is only kept
    in [window.carrinhoPixAtual], which nothing reads. An exception of
    the modal is caught by the inner [catch]. *)
Definition gerarPixCarroAtivo (cfg : option Q) (qr : fetch_result) (p : page) : page :=
  match pg_carrinho p, cfg with
  | [], _ => mostrarToast (TError, "carrinho_vazio") p
  | _, None => mostrarToast (TError, "erro_ao_buscar_configuracoes") p
  | _, Some comissao =>
      let '(_, _, total) := valorPix comissao (pg_carrinho p) in
      let p := set_chamadas p (pg_chamadas p ++ [GerarQrPix JNull total]) in
      let erro := mostrarToast (TError, "erro_ao_gerar_qr_code") in
      match qr with
      | FResp _ (Some res) =>
          match jget res "sucesso" with
          | None => erro p
          | Some s =>
              if truthy s then
                match mostrarPixModalLeniente KCarrinho res p with
                | (p', inl _) => p'
                | (p', inr _) => erro p'
                end
              else mostrarToast (TError, "erro_do_servidor") p
          end
      | _ => erro p
      end
  end.

Local Close Scope granpix_scope.

(** The end of [gerarPixCarroAtivoDividido()] after a QR code was
    produced (script.js 4076-4104): the [window] fields read by the
    poller's approval, then (in the [setTimeout] of 100 ms, whose DOM
    checks are not modelled) the modal and the poller. The transaction
    is recorded as [transacaoPixAtualDividido] only. *)
Definition iniciarDividido (tid : string) (pecasCarro : list peca) (carroAtivo : jv)
    (pecasArmazem : list peca) (p : page) : page :=
  let p := set_transacao p (pg_transacaoPixAtual p) (Some tid) in
  let p := set_dividido p pecasCarro (jget_opt carroAtivo "id") pecasArmazem in
  (setInterval KDividido tid (set_modal (set_pixStatus p PsAguardando) true)).1.

(** One firing of a lenient interval: [tentativas++] and the query, with
    no check before it. *)
Definition tick (h : nat) (p : page) : page :=
  match pg_intervals p !! h, pg_closures p !! h with
  | Some k, Some c =>
      if leniente k
      then fetch (ReqStatus h (cl_tid c)) (TkStatus h) (bump_tentativas h p)
      else p
  | _, _ => p
  end.

(** [dados.status === 'aprovado' || ... || dados.pago === true]; the two
    stage pollers read [dados.transacao?.status || dados.status] and the
    same for [pago]. [None] is the [TypeError] of a [null] body. *)
Definition aprovado (k : poller_kind) (dados : jv) : option bool :=
  st ← jget dados "status";
  pg ← jget dados "pago";
  let '(status, pago) :=
    match k with
    | KRegularizacao | KInscricao =>
        let tr := default JUndef (jget dados "transacao") in
        (js_or (jget_opt tr "status") st, js_or (jget_opt tr "pago") pg)
    | _ => (st, pg)
    end in
  Some (js_eq_str status "aprovado" || js_eq_str status "aprovada" ||
        js_eq_str status "confirmada" || js_is_true pago).

Definition parar_com (h : nat) (t : toast) (p : page) : page :=
  mostrarToast t (clearInterval h p).

(** The answer to a query of the lenient interval [h] (script.js
    4127-4182, 4496-4570, 4616-4675, 4721-4780). [tentativas] is read
    when the answer arrives. The non-OK branch times out at 120
    attempts for every kind; the [catch] and the "not approved" branch
    do so except for the split purchase, which never times out there. *)
Definition on_status (h : nat) (r : fetch_result) (p : page) : page :=
  match pg_closures p !! h with
  | None => p
  | Some c =>
      let k := cl_kind c in
      let fim := bool_decide (maxTentativas <= cl_tentativas c) in
      let falha :=
        match k with
        | KDividido => p
        | _ => if fim then parar_com h (TError, "erro_ao_verificar_pagamento") p else p
        end in
      match r with
      | FNetErr | FResp true None => falha
      | FResp false _ => if fim then parar_com h (TWarning, "timeout_da_transacao") p else p
      | FResp true (Some dados) =>
          match aprovado k dados with
          | None => falha
          | Some true => setTimeout (TkFecharLeniente h) (set_pixStatus (clearInterval h p) PsConfirmado)
          | Some false =>
              match k with
              | KDividido => p
              | _ => if fim then parar_com h (TWarning, "timeout_da_transacao") p else p
              end
          end
      end
  end.

(** The [setTimeout] after an approval. For the cart (script.js
    4520-4553): toast, [limparCarrinho()], then the unguarded call of
    [atualizarPainelCarrinho()], which no file of the repository
    defines: the reloads after it never run. For the stage payments
    (4645-4662, 4750-4767): toast; [carregarEtapasEquipe] is called only
    if it is a function, and the repository defines none. For the split
    purchase (4149-4177): the purchase loops for the active car and the
    warehouse, the cart emptied, the toast. *)
Definition fechar (h : nat) (p : page) : page :=
  match pg_closures p !! h with
  | None => p
  | Some c =>
      let p := set_modal p false in
      match cl_kind c with
      | KCarrinho =>
          set_carts (mostrarToast (TSuccess, "carrinho_processado_com_sucesso") p) [] (pg_armazem p)
      | KRegularizacao => mostrarToast (TSuccess, "regularizacao_confirmada") p
      | KInscricao => mostrarToast (TSuccess, "inscricao_confirmada") p
      | KDividido =>
          let pecasCarro := pg_pecasCarroPixDividido p in
          let hist := match pecasCarro with
                      | [] => pg_chamadas p
                      | _ => processarPecasCarroDividido (pg_chamadas p) pecasCarro
                               (pg_carroAtivoDividido p) (pg_transacaoPixAtualDividido p)
                      end in
          let hist := match pg_pecasArmazemPendente p with
                      | [] => hist
                      | arm => processarPecasArmazemDividido hist arm
                      end in
          mostrarToast (TSuccess, "compra_realizada_com_contagem")
            (set_carts (set_chamadas p hist) [] (pg_armazem p))
      | KMonitor => p
      end
  end.

(** ** The page's event loop with every payment flow *)
Inductive event :=
| EvAdicionarAoCarrinho (pecaId nome : string) (preco : Q) (compat tipo : string)
| EvMostrarModalPix (d : Monitor.dados_pix)
| EvMostrarLeniente (k : poller_kind) (dados : jv)
| EvGerarPixCarroAtivo (cfg : option Q) (qr : fetch_result)
| EvIniciarDividido (tid : string) (pecasCarro : list peca) (carroAtivo : jv) (pecasArmazem : list peca)
| EvTick (h : nat)
| EvResolve (i : nat) (r : fetch_result)
| EvFire (i : nat)
| EvConfirmarManual.

(** A timer runs the callback of its own kind; an answer goes to the
    handler of the closure that awaits it. *)
Definition step (p : page) (e : event) : page :=
  match e with
  | EvAdicionarAoCarrinho id nome preco compat tipo =>
      let '(c, t) := adicionarAoCarrinho (pg_carrinho p) id nome preco compat tipo in
      let p := set_carts p c (pg_armazem p) in
      match t with Some t => mostrarToast t p | None => p end
  | EvMostrarModalPix d => Monitor.step p (Monitor.EvMostrarModalPix d)
  | EvMostrarLeniente k dados => (mostrarPixModalLeniente k dados p).1
  | EvGerarPixCarroAtivo c qr => gerarPixCarroAtivo c qr p
  | EvIniciarDividido tid pc carro pa => iniciarDividido tid pc carro pa p
  | EvTick h =>
      match pg_intervals p !! h with
      | Some KMonitor => Monitor.tick h p
      | _ => tick h p
      end
  | EvResolve i r =>
      match take_task i p with
      | Some (TkStatus h, p') =>
          match pg_closures p' !! h with
          | Some c => if leniente (cl_kind c) then on_status h r p' else Monitor.on_status h r p'
          | None => p'
          end
      | _ => Monitor.step p (Monitor.EvResolve i r)
      end
  | EvFire i =>
      match take_task i p with
      | Some (TkFecharLeniente h, p') => fechar h p'
      | _ => Monitor.step p (Monitor.EvFire i)
      end
  | EvConfirmarManual => Monitor.step p Monitor.EvConfirmarManual
  end.

Definition run (p : page) (evs : list event) : page := foldl step p evs.

(** ** Sessions whose every answer is "pending" *)

(** One round: the interval fires, then its query (the last pending
    continuation, at index [n]) is answered [{status: "pendente"}]. *)
Definition ronda (h n : nat) : list event := [EvTick h; EvResolve n Monitor.resp_pendente].

Definition aguardando (h : nat) (k : poller_kind) (tid : string) (t n : nat) (p : page) : Prop :=
  pg_intervals p !! h = Some k /\ pg_closures p !! h = Some (mk_closure k tid t) /\
  length (pg_pending p) = n.

(** The page after a query of [h] was issued and taken off the loop. *)
Definition consultado (h : nat) (tid : string) (p : page) : page :=
  set_pending (fetch (ReqStatus h tid) (TkStatus h) (bump_tentativas h p)) (pg_pending p).

Lemma run_app_pagina p evs1 evs2 : run p (evs1 ++ evs2) = run (run p evs1) evs2.
Proof. unfold run. apply foldl_app. Qed.

Lemma consultado_closure h k tid t p :
  pg_closures p !! h = Some (mk_closure k tid t) ->
  pg_closures (consultado h tid p) !! h = Some (mk_closure k tid (S t)).
Proof. intros Hc. simpl. rewrite Monitor.bump_lookup, bool_decide_eq_true_2, Hc by done. reflexivity. Qed.

Lemma aprovado_pendente k : aprovado k (obj [("status", JStr "pendente")]) = Some false.
Proof. by destruct k. Qed.

Lemma ronda_leniente h k tid t n p :
  aguardando h k tid t n p -> leniente k = true ->
  run p (ronda h n) =
    let q := consultado h tid p in
    if bool_decide (k <> KDividido) && bool_decide (maxTentativas <= S t)
    then parar_com h (TWarning, "timeout_da_transacao") q else q.
Proof.
  intros (Hi & Hc & Hn) Hk.
  assert (E1 : step p (EvTick h) = fetch (ReqStatus h tid) (TkStatus h) (bump_tentativas h p)).
  { simpl. rewrite Hi. destruct k; try done; unfold tick; rewrite Hi, Hc; reflexivity. }
  set (q0 := fetch (ReqStatus h tid) (TkStatus h) (bump_tentativas h p)) in E1.
  assert (E2 : take_task n q0 = Some (TkStatus h, consultado h tid p)).
  { unfold take_task. simpl. rewrite lookup_app_r by lia. rewrite Hn, Nat.sub_diag. simpl.
    by rewrite <- Hn, Monitor.delete_last. }
  change (run p (ronda h n)) with (step (step p (EvTick h)) (EvResolve n Monitor.resp_pendente)).
  rewrite E1. simpl. rewrite E2, (consultado_closure h k tid t p Hc). simpl. rewrite Hk.
  unfold on_status. rewrite (consultado_closure h k tid t p Hc). simpl.
  rewrite aprovado_pendente. by destruct k.
Qed.

Lemma consultado_aguardando h k tid t n p :
  aguardando h k tid t n p ->
  aguardando h k tid (S t) n (consultado h tid p) /\
  status_requests h (consultado h tid p) = S (status_requests h p) /\
  pg_toasts (consultado h tid p) = pg_toasts p.
Proof.
  intros (Hi & Hc & Hn). split; [split_and!; [exact Hi|by apply consultado_closure|exact Hn]|split; [|done]].
  unfold status_requests. simpl. rewrite List.filter_app, length_app. simpl.
  rewrite bool_decide_eq_true_2 by done. simpl. lia.
Qed.

Lemma rondas_leniente h k tid t n m p :
  aguardando h k tid t n p -> leniente k = true -> (k = KDividido \/ t + m < maxTentativas) ->
  let p' := run p (concat (replicate m (ronda h n))) in
  aguardando h k tid (t + m) n p' /\ status_requests h p' = status_requests h p + m /\
  pg_toasts p' = pg_toasts p.
Proof.
  revert t p. induction m as [|m IH]; intros t p Ha Hk Hm; cbn [replicate concat]; cbv zeta.
  - change (run p []) with p. rewrite Nat.add_0_r. by split_and!; [|lia|].
  - rewrite run_app_pagina, (ronda_leniente h k tid t n p Ha Hk).
    destruct (consultado_aguardando h k tid t n p Ha) as (Ha' & Hs & Ht).
    assert (Hno : (bool_decide (k <> KDividido) && bool_decide (maxTentativas <= S t)) = false).
    { destruct Hm as [->|Hm]; [done|]. rewrite (bool_decide_eq_false_2 (maxTentativas <= S t)) by lia.
      apply andb_false_r. }
    rewrite Hno. cbv beta iota zeta. destruct (IH (S t) _ Ha' Hk ltac:(destruct Hm; [by left|right; lia])) as (Ha'' & Hs' & Ht').
    rewrite Nat.add_succ_r. split_and!; [done|lia|congruence].
Qed.

(** ** Properties of the lenient pollers *)

(** C10: the split-purchase poller never times out while the server
    answers "pending": after any number [m] of rounds, 120 or more
    included, its interval is still live and has issued [m] queries. *)
Theorem dividido_nunca_expira p h tid :
  pg_intervals p !! h = Some KDividido -> pg_closures p !! h = Some (mk_closure KDividido tid 0) ->
  forall m, let p' := run p (concat (replicate m (ronda h (length (pg_pending p))))) in
  pg_intervals p' !! h = Some KDividido /\ status_requests h p' = status_requests h p + m.
Proof.
  intros Hi Hc m. cbv zeta.
  destruct (rondas_leniente h KDividido tid 0 (length (pg_pending p)) m p) as ((Hi' & _) & Hs & _);
    [by split_and!|done|by left|]. by split.
Qed.

Lemma ronda_final h k tid n p :
  k <> KDividido -> leniente k = true -> aguardando h k tid (pred maxTentativas) n p ->
  let p' := run p (ronda h n) in
  pg_intervals p' !! h = None /\ status_requests h p' = S (status_requests h p) /\
  pg_toasts p' = pg_toasts p ++ [(TWarning, "timeout_da_transacao")].
Proof.
  intros Hk Hl Ha. cbv zeta. rewrite (ronda_leniente h k tid _ n p Ha Hl).
  rewrite bool_decide_eq_true_2 by done.
  rewrite bool_decide_eq_true_2 by (unfold maxTentativas; simpl; lia). cbn [andb].
  destruct (consultado_aguardando h k tid _ n p Ha) as (_ & Hs & Ht).
  split_and!; [apply lookup_delete_eq|exact Hs|].
  transitivity (pg_toasts (consultado h tid p) ++ [(TWarning, "timeout_da_transacao")]);
    [reflexivity|by rewrite Ht].
Qed.

(** C37: the cart and stage pollers, answered "pending" every time, issue
    a 120th query and time out on its answer: the interval is live after
    119 rounds and stopped after 120, with 120 queries and one timeout
    toast. *)
Theorem leniente_expira_na_resposta_120 p h k tid :
  k <> KDividido -> leniente k = true ->
  pg_intervals p !! h = Some k -> pg_closures p !! h = Some (mk_closure k tid 0) ->
  let n := length (pg_pending p) in
  let p119 := run p (concat (replicate 119 (ronda h n))) in
  let p' := run p (concat (replicate 120 (ronda h n))) in
  pg_intervals p119 !! h = Some k /\
  pg_intervals p' !! h = None /\ status_requests h p' = status_requests h p + 120 /\
  pg_toasts p' = pg_toasts p ++ [(TWarning, "timeout_da_transacao")].
Proof.
  intros Hk Hl Hi Hc. cbv zeta.
  destruct (rondas_leniente h k tid 0 (length (pg_pending p)) 119 p) as (Ha & Hs & Ht);
    [by split_and!|done|right; unfold maxTentativas; lia|].
  set (n := length (pg_pending p)) in *. set (p119 := run p (concat (replicate 119 (ronda h n)))) in *.
  assert (E : run p (concat (replicate 120 (ronda h n))) = run p119 (ronda h n)).
  { unfold p119. rewrite <- run_app_pagina.
    rewrite (replicate_S_end 119 (ronda h n)), concat_app. cbn [concat]. by rewrite app_nil_r. }
  rewrite E.
  destruct (ronda_final h k tid _ _ Hk Hl Ha) as (F1 & F2 & F3).
  split_and!; [apply Ha|exact F1|rewrite F2, Hs; lia|by rewrite F3, Ht].
Qed.

(** C38: a refusal or a cancellation is not terminal for the lenient
    pollers: before the 120th attempt such an answer changes nothing at
    all, and the interval keeps polling. *)
Theorem recusa_ignorada_leniente p h c s :
  pg_closures p !! h = Some c -> leniente (cl_kind c) = true -> cl_tentativas c < maxTentativas ->
  s = "recusado" \/ s = "cancelado" ->
  on_status h (FResp true (Some (obj [("status", JStr s)]))) p = p.
Proof.
  intros Hc Hl Ht Hs. unfold on_status. rewrite Hc.
  rewrite bool_decide_eq_false_2 by lia.
  destruct Hs as [->| ->]; destruct (cl_kind c); done.
Qed.

(** opening a lenient payment modal never stops an earlier poller
    and does not register the new one in [pixPollings]: a second payment
    leaves the first one polling. *)
Theorem leniente_nao_cancela_anteriores k dados p h :
  h < pg_next_handle p ->
  pg_intervals (mostrarPixModalLeniente k dados p).1 !! h = pg_intervals p !! h /\
  pg_pixPollings (mostrarPixModalLeniente k dados p).1 = pg_pixPollings p.
Proof.
  intros Hh. unfold mostrarPixModalLeniente, SE.throw, SE.ret, SE.modify.
  repeat case_match; simpl; split; try done; by rewrite lookup_insert_ne by lia.
Qed.

(** the approval of a cart payment posts no purchase: after the
    [setTimeout] the cart is emptied and a success toast shown, but no
    request is issued and no data is reloaded. *)
Theorem carrinho_aprovado_nao_compra p h c :
  pg_closures p !! h = Some c -> cl_kind c = KCarrinho ->
  let p' := fechar h p in
  pg_chamadas p' = pg_chamadas p /\ pg_requests p' = pg_requests p /\
  pg_reloads p' = pg_reloads p /\ pg_carrinho p' = [] /\
  pg_toasts p' = pg_toasts p ++ [(TSuccess, "carrinho_processado_com_sucesso")].
Proof. intros Hc Hk. unfold fechar. rewrite Hc, Hk. split_and!; reflexivity. Qed.

(** the approval of a split purchase posts one purchase per piece for
    the active car, then one per piece for the warehouse, and announces
    success whatever the server answers. *)
Theorem dividido_aprovado_compra p h c :
  pg_closures p !! h = Some c -> cl_kind c = KDividido ->
  let p' := fechar h p in
  pg_chamadas p' = pg_chamadas p ++
    ((fun q => ProcessarCompraPix (pc_id q) (pg_carroAtivoDividido p) (pg_transacaoPixAtualDividido p))
       <$> pg_pecasCarroPixDividido p) ++ (compra <$> pg_pecasArmazemPendente p) /\
  pg_carrinho p' = [] /\
  pg_toasts p' = pg_toasts p ++ [(TSuccess, "compra_realizada_com_contagem")].
Proof.
  intros Hc Hk. unfold fechar. rewrite Hc, Hk. simpl. split_and!; [|done|done].
  destruct (pg_pecasCarroPixDividido p) as [|q qs], (pg_pecasArmazemPendente p) as [|a as_];
    rewrite ?processarPecasCarroDividido_spec, ?processarPecasArmazemDividido_spec;
    simpl; rewrite <-?app_assoc; simpl; rewrite ?app_nil_r; done.
Qed.

(** [gerarPixCarroAtivo] on a non-empty cart and a QR code granted
    for the string id [tid] posts one [gerar-qr-pix] for the commission
    times the pieces plus 1%, with no car; it makes [tid] the current
    transaction, starts a cart poller on a fresh handle without
    registering it, leaves the split-purchase id and the cart as they
    were, and buys nothing. *)
Theorem gerar_carrinho_inicia_poller p comissao res tid :
  pg_carrinho p <> [] -> jget res "sucesso" = Some (JBool true) ->
  jget_opt res "transacao_id" = JStr tid -> tid <> "" ->
  toFixed_ok (jget_opt res "valor_item") = true -> toFixed_ok (jget_opt res "taxa") = true ->
  toFixed_ok (jget_opt res "valor_total") = true ->
  let p' := gerarPixCarroAtivo (Some comissao) (FResp true (Some res)) p in
  pg_chamadas p' = pg_chamadas p ++ [GerarQrPix JNull (valorPix comissao (pg_carrinho p)).2] /\
  ((valorPix comissao (pg_carrinho p)).2 == comissao * quantidade_pix (pg_carrinho p) * (101 # 100))%Q /\
  pg_intervals p' !! pg_next_handle p = Some KCarrinho /\ pg_pixPollings p' = pg_pixPollings p /\
  pg_transacaoPixAtual p' = Some tid /\
  pg_transacaoPixAtualDividido p' = pg_transacaoPixAtualDividido p /\
  pg_carrinho p' = pg_carrinho p.
Proof.
  intros Hc Hs Ht Hne H1 H2 H3. cbv zeta. unfold gerarPixCarroAtivo.
  destruct (pg_carrinho p) as [|x xs] eqn:Ec; [done|].
  pose proof (valorPix_total comissao (x :: xs)) as Hv.
  destruct (valorPix _ _) as [[??] tot]. cbn [snd] in *. rewrite Hs. simpl truthy. cbv iota.
  unfold mostrarPixModalLeniente, SE.modify.
  assert (Hr : truthy res = true) by (destruct res; simpl in Hs; try discriminate; done).
  rewrite Hr, Ht, H1, H2, H3. simpl. rewrite bool_decide_eq_false_2 by done. simpl.
  split_and!; try done. by rewrite lookup_insert_eq.
Qed.

(** ** Concrete runs of the whole page *)

Definition resp_aprovado : fetch_result := Monitor.resp_aprovado.

(** two queries of a split-purchase poller are in flight and both
    answer "approved"; each schedules the approval's [setTimeout], so
    the active car's piece and the warehouse piece are each purchased
    twice. *)
Theorem dividido_aprovacao_dupla_compra_duas_vezes :
  pg_chamadas (run page_init
    [EvIniciarDividido "D" [motor] carro_ativo [freio]; EvTick 1; EvTick 1;
     EvResolve 0 resp_aprovado; EvResolve 0 resp_aprovado; EvFire 0; EvFire 0]) =
  [ProcessarCompraPix "p1" (JStr "c1") (Some "D"); ComprarPecaArmazem "p3";
   ProcessarCompraPix "p1" (JStr "c1") (Some "D"); ComprarPecaArmazem "p3"].
Proof. vm_compute. reflexivity. Qed.

Definition qr_carrinho : fetch_result :=
  FResp true (Some (obj [("sucesso", JBool true); ("transacao_id", JStr "C");
                         ("valor_item", JNum 10); ("taxa", JNum (1 # 10)); ("valor_total", JNum (101 # 10))])).

(** after a split purchase ["D"], a cart payment ["C"] becomes the
    current transaction, but the manual confirmation prefers
    [transacaoPixAtualDividido], which the cart modal does not update:
    it confirms ["D"] again and never ["C"]. *)
Theorem confirmacao_manual_confirma_dividido_antigo :
  let p := run page_init
    [EvAdicionarAoCarrinho "p1" "Motor" 100%Q "" "motor";
     EvIniciarDividido "D" [motor] carro_ativo [];
     EvGerarPixCarroAtivo (Some 10%Q) qr_carrinho;
     EvConfirmarManual] in
  pg_transacaoPixAtual p = Some "C" /\ confirm_requests p = [ReqConfirmar (JStr "D")].
Proof. vm_compute. split; reflexivity. Qed.

(** ** Witnesses *)

Definition pagina_dividido : page := run page_init [EvIniciarDividido "D" [motor] carro_ativo [freio]].
Definition pagina_carrinho : page :=
  run page_init [EvAdicionarAoCarrinho "p1" "Motor" 100%Q "" "motor"; EvGerarPixCarroAtivo (Some 10%Q) qr_carrinho].

Lemma pagina_dividido_intervalo : pg_intervals pagina_dividido !! 1 = Some KDividido.
Proof. vm_compute. reflexivity. Qed.
Lemma pagina_dividido_closure : pg_closures pagina_dividido !! 1 = Some (mk_closure KDividido "D" 0).
Proof. vm_compute. reflexivity. Qed.
Lemma pagina_carrinho_intervalo : pg_intervals pagina_carrinho !! 1 = Some KCarrinho.
Proof. vm_compute. reflexivity. Qed.
Lemma pagina_carrinho_closure : pg_closures pagina_carrinho !! 1 = Some (mk_closure KCarrinho "C" 0).
Proof. vm_compute. reflexivity. Qed.

Lemma dividido_nunca_expira_witness :
  pg_intervals pagina_dividido !! 1 = Some KDividido /\
  pg_intervals (run pagina_dividido (concat (replicate 200 (ronda 1 (length (pg_pending pagina_dividido)))))) !! 1
    = Some KDividido.
Proof.
  split; [exact pagina_dividido_intervalo|].
  exact (proj1 (dividido_nunca_expira pagina_dividido 1 "D" pagina_dividido_intervalo
                  pagina_dividido_closure 200)).
Defined.

Lemma leniente_expira_na_resposta_120_witness :
  pg_intervals pagina_carrinho !! 1 = Some KCarrinho /\
  pg_intervals (run pagina_carrinho (concat (replicate 120 (ronda 1 (length (pg_pending pagina_carrinho)))))) !! 1
    = None.
Proof.
  split; [exact pagina_carrinho_intervalo|].
  exact (proj1 (proj2 (leniente_expira_na_resposta_120 pagina_carrinho 1 KCarrinho "C"
                         ltac:(discriminate) eq_refl pagina_carrinho_intervalo pagina_carrinho_closure))).
Defined.

Lemma recusa_ignorada_leniente_witness :
  pg_closures pagina_carrinho !! 1 = Some (mk_closure KCarrinho "C" 0) /\
  on_status 1 (FResp true (Some (obj [("status", JStr "recusado")]))) pagina_carrinho = pagina_carrinho.
Proof.
  split; [exact pagina_carrinho_closure|].
  apply (recusa_ignorada_leniente pagina_carrinho 1 (mk_closure KCarrinho "C" 0) "recusado"
           pagina_carrinho_closure eq_refl ltac:(unfold maxTentativas; simpl; lia) (or_introl eq_refl)).
Defined.

Definition dados_regularizacao : jv :=
  obj [("transacao_id", JStr "R"); ("valor_item", JNum 50); ("taxa", JNum (1 # 2)); ("valor_total", JNum (101 # 2))].

Lemma leniente_nao_cancela_anteriores_witness :
  1 < pg_next_handle pagina_carrinho /\
  pg_intervals (mostrarPixModalLeniente KRegularizacao dados_regularizacao pagina_carrinho).1 !! 1 = Some KCarrinho.
Proof.
  assert (Hh : 1 < pg_next_handle pagina_carrinho) by (vm_compute; lia).
  split; [exact Hh|].
  rewrite (proj1 (leniente_nao_cancela_anteriores KRegularizacao dados_regularizacao pagina_carrinho 1 Hh)).
  exact pagina_carrinho_intervalo.
Defined.

Lemma carrinho_aprovado_nao_compra_witness :
  pg_closures pagina_carrinho !! 1 = Some (mk_closure KCarrinho "C" 0) /\
  pg_carrinho (fechar 1 pagina_carrinho) = [] /\
  pg_chamadas (fechar 1 pagina_carrinho) = pg_chamadas pagina_carrinho.
Proof.
  destruct (carrinho_aprovado_nao_compra pagina_carrinho 1 _ pagina_carrinho_closure eq_refl)
    as (H1 & _ & _ & H4 & _).
  split_and!; [exact pagina_carrinho_closure|exact H4|exact H1].
Defined.

Lemma dividido_aprovado_compra_witness :
  pg_closures pagina_dividido !! 1 = Some (mk_closure KDividido "D" 0) /\
  pg_toasts (fechar 1 pagina_dividido) = pg_toasts pagina_dividido ++ [(TSuccess, "compra_realizada_com_contagem")].
Proof.
  split; [exact pagina_dividido_closure|].
  exact (proj2 (proj2 (dividido_aprovado_compra pagina_dividido 1 _ pagina_dividido_closure eq_refl))).
Defined.

Definition pagina_com_peca : page := run page_init [EvAdicionarAoCarrinho "p1" "Motor" 100%Q "" "motor"].
Definition resposta_qr_carrinho : jv :=
  obj [("sucesso", JBool true); ("transacao_id", JStr "C");
       ("valor_item", JNum 10); ("taxa", JNum (1 # 10)); ("valor_total", JNum (101 # 10))].

Lemma gerar_carrinho_inicia_poller_witness :
  pg_carrinho pagina_com_peca <> [] /\
  pg_transacaoPixAtual (gerarPixCarroAtivo (Some 10%Q) (FResp true (Some resposta_qr_carrinho)) pagina_com_peca)
    = Some "C".
Proof.
  assert (Hc : pg_carrinho pagina_com_peca <> []) by (vm_compute; discriminate).
  split; [exact Hc|].
  exact (proj1 (proj2 (proj2 (proj2 (proj2 (gerar_carrinho_inicia_poller pagina_com_peca 10%Q
           resposta_qr_carrinho "C" Hc eq_refl eq_refl ltac:(discriminate) eq_refl eq_refl eq_refl)))))).
Defined.

End Lenient.
