(* ===== verification/Install.v ===== *)
(** * Installing warehouse pieces on the team's cars

    The warehouse ([garagemAtual.armazem]) holds pieces the team owns but
    has not installed. [src/static/script.js] installs them along four
    paths, all modelled here on the [page] of [Page]:
    - one piece at a time: [abrirModalInstalarPecaArmazem] (2205-2260)
      stores [pecaSelecionadaArmazem] and lists the cars;
      [instalarPecaDoArmazem] (2262-2336) asks the server for an install
      request and opens the PIX modal of [Monitor];
    - the warehouse cart ([WarehouseCart]): [processarCarrinhoArmazemAtivo]
      (2771-2845) charges the unpaid pieces by PIX or, when all are paid,
      creates the install requests at once;
      [processarCarrinhoArmazemRepouso] (2847-2915) lists the resting
      cars and [criarSolicitacoesInstalacaoArmazem] (2917-2955) creates
      the requests and empties the cart;
    - the selection modal ([AddModal]): [processarPecasParaAtivoModal]
      (3416-3470) charges the pieces for the active car,
      [processarPecasParaRepousoModal] (3472-3509) groups the pieces for
      resting cars by car and calls [instalarPecasRepouso] (3511-3551)
      once per car;
    - [criarSolicitacoesModalPecas] (3553-3601), which nothing calls.

    Each [POST] is appended to [pg_chamadas] as [Post url body], with the
    object passed to [JSON.stringify] as its body, and answered by the
    [Servidor] of [Reconcile]. The awaits of one handler run without
    interleaving with other events. *)
From S2P Require Import Prelude Js ShopCart WarehouseCart Page Monitor Reconcile.
From stdpp Require Import pretty.
Set Warnings "-register-all".
Local Close Scope Q_scope.

Module Instalacao.

Import WarehouseCart Monitor Reconcile.

(** [pecaSelecionadaArmazem = {nome, tipo, idx, preco}]. *)
Record selecao := mk_selecao {
  sel_nome : jv;
  sel_tipo : jv;
  sel_idx : jv;
  sel_preco : jv
}.

(** The page with the global [pecaSelecionadaArmazem] and the car
    buttons of [#modalInstalarArmazem] ([None] while it is not shown);
    each button holds the [carro.id] its [onclick] passes on. *)
Record estado := mk_estado {
  in_selecao : option selecao;
  in_botoes : option (list jv);
  in_page : page
}.

(** A piece chosen in the selection modal, as [confirmarAdicaoPecasArmazem]
    builds it: [{id, nome, tipo, preco, pix_id, quantidade: 1,
    destino_tipo, destino_carro_id}]. *)
Record peca_modal := mk_peca_modal {
  pm_id : jv;
  pm_nome : jv;
  pm_tipo : jv;
  pm_preco : jv;
  pm_pix_id : jv;
  pm_quantidade : jv;
  pm_destino_tipo : jv;
  pm_destino_carro_id : jv
}.

Definition pm_json (p : peca_modal) : jv :=
  obj [("id", pm_id p); ("nome", pm_nome p); ("tipo", pm_tipo p); ("preco", pm_preco p);
       ("pix_id", pm_pix_id p); ("quantidade", pm_quantidade p);
       ("destino_tipo", pm_destino_tipo p); ("destino_carro_id", pm_destino_carro_id p)].

(** [p.pix_id = resultado.pix_id]. *)
Definition com_pix_id (v : jv) (p : peca_modal) : peca_modal :=
  mk_peca_modal (pm_id p) (pm_nome p) (pm_tipo p) (pm_preco p) v (pm_quantidade p)
    (pm_destino_tipo p) (pm_destino_carro_id p).

(** The bodies of the requests: [{nome, tipo, quantidade, pix_id}] for a
    cart entry, and the two shapes the modal sends. *)
Definition item_json (p : item) : jv :=
  obj [("nome", JStr (wi_nome p)); ("tipo", JStr (wi_tipo p));
       ("quantidade", JNum (inject_Z (wi_quantidade p))); ("pix_id", wi_pix_id p)].

Definition pm_json_ativo (p : peca_modal) : jv :=
  obj [("nome", pm_nome p); ("tipo", pm_tipo p);
       ("quantidade", js_or (pm_quantidade p) (JNum 1)); ("id", pm_id p)].

Definition pm_json_repouso (p : peca_modal) : jv :=
  obj [("nome", pm_nome p); ("tipo", pm_tipo p); ("pix_id", pm_pix_id p)].

Definition pm_json_solicitacao (p : peca_modal) : jv :=
  obj [("nome", pm_nome p); ("tipo", pm_tipo p);
       ("quantidade", pm_quantidade p); ("pix_id", pm_pix_id p)].

(** The bodies of [criar-multiplas-solicitacoes-armazem] and of
    [instalar-multiplas-pecas-no-carro-ativo] for the warehouse cart. *)
Definition corpo_solicitacoes (carroId : jv) (pecas : list item) (comPix : bool) : jv :=
  obj [("carro_id", carroId); ("pecas", JArr (item_json <$> pecas)); ("com_pix", JBool comPix)].

Definition corpo_ativo (carroId : jv) (pecas : list item) : jv :=
  obj [("carro_id", carroId); ("pecas", JArr (item_json <$> pecas))].

(** The URLs. *)
Definition url_solicitar : string := "/api/garagem/solicitar-instalacao-armazem".
Definition url_ativo : string := "/api/instalar-multiplas-pecas-no-carro-ativo".
Definition url_solicitacoes : string := "/api/garagem/criar-multiplas-solicitacoes-armazem".
Definition url_repouso : string := "/api/garagem/instalar-multiplas-pecas-armazem-repouso".

(** [abrirModalInstalarPecaArmazem(pecaNome, pecaTipo, idx, preco)]
    (script.js 2205-2260). [garagem] is [window.garagemAtual]. The
    buttons are rendered reading [carro.marca], which throws on a [null]
    entry: the exception leaves the selection written and the modal not
    shown. [carros || []] on a truthy value with no [length] renders no
    button, and a string with characters throws at [forEach]. The
    listeners that pause the auto-refresh are those of [AutoRefresh]. *)
Definition abrirModalInstalarPecaArmazem (garagem nome tipo idx preco : jv) (e : estado) : estado :=
  let carros := jget_opt garagem "carros" in
  if negb (truthy garagem) || negb (truthy carros)
  then mk_estado (in_selecao e) (in_botoes e) (mostrarToast (TInfo, "aguarde_a_garagem") (in_page e))
  else
    let sel := Some (mk_selecao nome tipo idx preco) in
    match carros with
    | JArr cs =>
        if forallb (fun c => bool_decide (is_Some (jget c "marca"))) cs
        then mk_estado sel (Some ((fun c => jget_opt c "id") <$> cs)) (in_page e)
        else mk_estado sel None (in_page e)
    | JStr _ => mk_estado sel None (in_page e)
    | _ => mk_estado sel (Some []) (in_page e)
    end.

Section Rede.
Context `{Servidor}.

(** [await fetch(url, {method: 'POST', body: JSON.stringify(body)})]:
    the call is logged and answered by the server. *)
Definition pedir (url : string) (body : jv) (p : page) : page * fetch_result :=
  (set_chamadas p (pg_chamadas p ++ [Post url body]), responder (pg_chamadas p) (Post url body)).

(** [const resultado = await resp.json(); if (!resultado.sucesso) ...]:
    the parsed body on a success, [None] when the server refused or the
    [try] caught an exception. *)
Definition resultado_ok (r : fetch_result) : option jv :=
  match r with
  | FResp _ (Some res) =>
      match jget res "sucesso" with
      | Some s => if truthy s then Some res else None
      | None => None
      end
  | _ => None
  end.

(** The end of the PIX paths: [mostrarModalPix(dadosPix)], whose
    exception is caught by the caller's [catch] with a toast. *)
Definition abrir_pix (d : dados_pix) (p : page) : page :=
  match Monitor.mostrarModalPix d p with
  | (p', inl _) => p'
  | (p', inr _) => mostrarToast (TError, "erro") p'
  end.

(** [instalarPecaDoArmazem(carroId)] (script.js 2262-2336): the
    install request for the selected piece, then, on a success with a QR
    code, [window.compraPendentePix] for [processarCompraAposPagamento]
    and the PIX modal; the install modal is hidden once the PIX modal is
    open. The transaction id keys the monitor as [String(transacao_id)]. *)
Definition instalarPecaDoArmazem (carroId : jv) (e : estado) : estado :=
  match in_selecao e with
  | None => mk_estado None (in_botoes e) (mostrarToast (TError, "peca_nao_selecionada") (in_page e))
  | Some s =>
      let p := mostrarToast (TInfo, "gerando_qrcode") (in_page e) in
      let '(p, r) := pedir url_solicitar
                       (obj [("peca_nome", sel_nome s); ("peca_tipo", sel_tipo s); ("carro_id", carroId)]) p in
      match resultado_ok r with
      | None => mk_estado (Some s) (in_botoes e) (mostrarToast (TError, "erro") p)
      | Some res =>
          let tid := jget_opt res "transacao_id" in
          let qr := jget_opt res "qr_code_url" in
          if negb (truthy qr)
          then mk_estado (Some s) (in_botoes e) (mostrarToast (TError, "erro_qrcode") p)
          else
            let p := set_compra p (obj [("transacao_id", tid); ("tipo", JStr "instalacao_armazem");
                                        ("item_id", jget_opt res "peca_loja_id"); ("carro_id", carroId)]) in
            let d := mk_dados_pix (js_String tid) (sel_nome s) (jget_opt res "valor_item")
                       (jget_opt res "valor_total") (jget_opt res "valor_taxa") qr
                       (JStr "instalacao_armazem") carroId JUndef in
            match Monitor.mostrarModalPix d p with
            | (p', inl _) => mk_estado (Some s) None p'
            | (p', inr _) => mk_estado (Some s) (in_botoes e) (mostrarToast (TError, "erro") p')
            end
      end
  end.

(** [criarSolicitacoesInstalacaoArmazem(carroId, pecas, comPix)]
    (script.js 2917-2955): one request for all the pieces; a success
    empties the warehouse cart silently and reloads the garage. *)
Definition criarSolicitacoesInstalacaoArmazem (carroId : jv) (pecas : list item) (comPix : bool)
    (p : page) : page :=
  let p := mostrarToast (TInfo, "criando_solicitacoes") p in
  let '(p, r) := pedir url_solicitacoes (corpo_solicitacoes carroId pecas comPix) p in
  match resultado_ok r with
  | None => mostrarToast (TError, "erro") p
  | Some _ =>
      let p := mostrarToast (TSuccess, "solicitacoes_criadas") p in
      recarregar [RlGaragem] (set_carts p (pg_carrinho p) (limparCarrinhoArmazem (pg_armazem p) true).1)
  end.

(** [processarCarrinhoArmazemAtivo()] (script.js 2771-2845), on the
    decision [WarehouseCart.processarCarrinhoArmazem] takes: every piece
    paid creates the requests directly; otherwise the unpaid pieces are
    charged by PIX, with the whole cart recorded in
    [compraPendentePix.pecas] (which nothing reads). *)
Definition processarCarrinhoArmazemAtivo (carroId : jv) (pagar : list item) (p : page) : page :=
  let l := carrinhoArmazem (pg_armazem p) in
  match pagar with
  | [] => criarSolicitacoesInstalacaoArmazem carroId l true (mostrarToast (TInfo, "pecas_ja_pagas") p)
  | _ =>
      let p := mostrarToast (TInfo, "gerando_pix") p in
      let '(p, r) := pedir url_ativo (corpo_ativo carroId pagar) p in
      match resultado_ok r with
      | None => mostrarToast (TError, "erro") p
      | Some res =>
          let tid := jget_opt res "transacao_id" in
          let p := set_compra p (obj [("transacao_id", tid); ("tipo", JStr "multiplas_pecas_armazem_ativo");
                                      ("carro_id", carroId); ("pecas", JArr (item_json <$> l))]) in
          abrir_pix (mk_dados_pix (js_String tid)
                       (JStr (pretty (length pagar) +:+ " peça(s) do armazém"))
                       (jget_opt res "valor_item") (jget_opt res "valor_total")
                       (jget_opt res "valor_taxa") (jget_opt res "qr_code_url")
                       (JStr "multiplas_pecas_armazem_ativo") carroId JUndef) p
      end
  end.

(** [processarCarrinhoArmazemRepouso()] (script.js 2847-2915): the
    resting cars of [window.garagemAtual] as buttons of
    [#modalSelecionarCarroRepouso]. [!c.carro_ativo] throws on a [null]
    car, caught with a toast. *)
Definition processarCarrinhoArmazemRepouso (garagem : jv) (p : page) : page * option (list jv) :=
  let carros := match jget_opt garagem "carros" with JArr cs => cs | _ => [] end in
  if negb (truthy garagem) || bool_decide (carros = [])
  then (mostrarToast (TInfo, "aguarde_a_garagem") p, None)
  else if negb (forallb (fun c => bool_decide (is_Some (jget c "carro_ativo"))) carros)
  then (mostrarToast (TError, "erro") p, None)
  else match List.filter (fun c => negb (truthy (jget_opt c "carro_ativo"))) carros with
       | [] => (mostrarToast (TWarning, "nenhum_carro_em_repouso") p, None)
       | rs => (p, Some ((fun c => jget_opt c "id") <$> rs))
       end.

(** The [onclick] of a resting car's button: the requests for the cart
    as it is when the button is clicked, without PIX. *)
Definition selecionarCarroRepouso (carroId : jv) (p : page) : page :=
  criarSolicitacoesInstalacaoArmazem carroId (carrinhoArmazem (pg_armazem p)) false p.

(** [processarCarrinhoArmazem()] (script.js 2747-2769) carried out: the
    decision of [WarehouseCart.processarCarrinhoArmazem] on the page's
    cart and team, then its network part. *)
Definition processarCarrinhoArmazem (garagem : jv) (p : page) : page * option (list jv) :=
  match WarehouseCart.processarCarrinhoArmazem (pg_equipeAtual p) (pg_armazem p) with
  | PlanoAviso t => (mostrarToast t p, None)
  | PlanoRepouso => processarCarrinhoArmazemRepouso garagem p
  | PlanoSolicitacoesSemPix carroId _ => (processarCarrinhoArmazemAtivo carroId [] p, None)
  | PlanoPix carroId pagar => (processarCarrinhoArmazemAtivo carroId pagar p, None)
  end.

(** [processarPecasParaAtivoModal(pecas)] (script.js 3416-3470): one
    PIX for the pieces chosen for the active car; the pieces get the
    [pix_id] of the answer and are recorded in [compraPendentePix]. *)
Definition processarPecasParaAtivoModal (pecas : list peca_modal) (p : page) : page :=
  let e := pg_equipeAtual p in
  let carro := jget_opt e "carro_ativo" in
  if negb (truthy e) || negb (truthy carro)
  then mostrarToast (TWarning, "sem_carro_ativo") p
  else
    let carroId := jget_opt carro "id" in
    let p := mostrarToast (TInfo, "gerando_pix") p in
    let '(p, r) := pedir url_ativo (obj [("carro_id", carroId); ("pecas", JArr (pm_json_ativo <$> pecas))]) p in
    match resultado_ok r with
    | None => mostrarToast (TError, "erro") p
    | Some res =>
        let pecas' := com_pix_id (jget_opt res "pix_id") <$> pecas in
        let tid := jget_opt res "transacao_id" in
        let p := set_compra p (obj [("transacao_id", tid); ("tipo", JStr "multiplas_pecas_armazem_ativo_modal");
                                    ("carro_id", carroId); ("pecas", JArr (pm_json <$> pecas'))]) in
        abrir_pix (mk_dados_pix (js_String tid)
                     (js_or (jget_opt res "item_nome") (JStr (pretty (length pecas) +:+ " peça(s) → Carro Ativo")))
                     (jget_opt res "valor_item") (jget_opt res "valor_total")
                     (jget_opt res "valor_taxa") (jget_opt res "qr_code_url")
                     (JStr "multiplas_pecas_armazem_ativo_modal") carroId JUndef) p
    end.

(** [instalarPecasRepouso(carroId, pecas)] (script.js 3511-3551). *)
Definition instalarPecasRepouso (carroId : jv) (pecas : list peca_modal) (p : page) : page :=
  let '(p, r) := pedir url_repouso (obj [("carro_id", carroId); ("pecas", JArr (pm_json_repouso <$> pecas))]) p in
  match resultado_ok r with
  | None => mostrarToast (TError, "erro") p
  | Some _ => recarregar [RlGaragem] (mostrarToast (TSuccess, "pecas_instaladas") p)
  end.

(** [porCarro]: the pieces grouped under [String(destino_carro_id)]. *)
Definition porCarro (pecas : list peca_modal) : list (string * list peca_modal) :=
  agrupar (fun pc => js_String (pm_destino_carro_id pc)) pecas.

(** [processarPecasParaRepousoModal(pecas)] (script.js 3472-3509): every
    piece must name its car; then one [instalarPecasRepouso] per group of
    [porCarro], in the order of [Object.entries], each awaited, with the
    key (a string) as [carroId]. *)
Definition processarPecasParaRepousoModal (pecas : list peca_modal) (p : page) : page :=
  match List.find (fun pc => negb (truthy (pm_destino_carro_id pc))) pecas with
  | Some _ => mostrarToast (TWarning, "selecione_um_carro_em_repouso") p
  | None =>
      foldl (fun p kg => instalarPecasRepouso (JStr kg.1) kg.2 p)
        (mostrarToast (TInfo, "instalando_pecas") p) (entries (porCarro pecas))
  end.

(** [criarSolicitacoesModalPecas(carroId, pecas, comPix)] (script.js
    3553-3601), which no code calls: as [criarSolicitacoesInstalacaoArmazem]
    but with no toast first and no cart emptied. *)
Definition criarSolicitacoesModalPecas (carroId : jv) (pecas : list peca_modal) (comPix : bool)
    (p : page) : page :=
  let '(p, r) := pedir url_solicitacoes
                   (obj [("carro_id", carroId); ("pecas", JArr (pm_json_solicitacao <$> pecas));
                         ("com_pix", JBool comPix)]) p in
  match resultado_ok r with
  | None => mostrarToast (TError, "erro") p
  | Some _ => recarregar [RlGaragem] (mostrarToast (TSuccess, "solicitacoes_criadas") p)
  end.

(** The object of the shop cart that [confirmarDistribuicaoPecas] hands
    to [processarPecasParaAtivoModal]: [{id, nome, preco, compatibilidade,
    tipo, quantidade}], read there through [nome], [tipo], [quantidade]
    and [id]; it has no [pix_id] and no destination. *)
Definition peca_do_carrinho (pc : ShopCart.peca) : peca_modal :=
  mk_peca_modal (JStr (ShopCart.pc_id pc)) (JStr (ShopCart.pc_nome pc)) (JStr (ShopCart.pc_tipo pc))
    (JNum (ShopCart.pc_preco pc)) JUndef (JNum (ShopCart.pc_quantidade pc)) JUndef JUndef.

(** [await enviarCarrinhoParaArmazemDividido()] on the page: the purchase
    loop, [carrinho = []] and the final toast. *)
Definition enviar_dividido (arm : list ShopCart.peca) (p : page) : page :=
  let '(cs, c, t) := enviarCarrinhoParaArmazemDividido arm in
  mostrarToast t (set_carts (set_chamadas p (pg_chamadas p ++ cs))
                            (default (pg_carrinho p) c) (pg_armazem p)).

(** [confirmarDistribuicaoPecas()] (script.js 3922-3956) carried out: the
    duplicate check and the split of [ShopCart.confirmarDistribuicaoPecas],
    then the PIX of the pieces for the active car, awaited, then the
    purchase of the pieces for the warehouse. *)
Definition confirmarDistribuicaoPecas (d : gmap string ShopCart.destino) (p : page) : page :=
  match ShopCart.confirmarDistribuicaoPecas (pg_carrinho p) d with
  | ShopCart.DistBloqueada t => mostrarToast t p
  | ShopCart.DistSeparada atv arm =>
      let p := if bool_decide (atv = []) then p
               else processarPecasParaAtivoModal (peca_do_carrinho <$> atv) p in
      if bool_decide (arm = []) then p else enviar_dividido arm p
  end.

End Rede.

(** The request [instalarPecasRepouso] sends for one group of [porCarro]. *)
Definition pedido_repouso (kg : string * list peca_modal) : chamada :=
  Post url_repouso (obj [("carro_id", JStr kg.1); ("pecas", JArr (pm_json_repouso <$> kg.2))]).

(** ** Lemmas *)

(** What the PIX modal leaves alone. *)
Definition preserva (p q : page) : Prop :=
  pg_chamadas q = pg_chamadas p /\ pg_armazem q = pg_armazem p /\ pg_reloads q = pg_reloads p /\
  pg_carrinho q = pg_carrinho p.

Lemma preserva_refl p : preserva p p.
Proof. done. Qed.

Lemma preserva_trans p q r : preserva p q -> preserva q r -> preserva p r.
Proof. intros (A & B & C & D) (E & F & G & H). split_and!; congruence. Qed.

Lemma pararPollingAnterior_preserva p :
  preserva p (pararPollingAnterior p) /\ pg_compraPendentePix (pararPollingAnterior p) = pg_compraPendentePix p.
Proof. unfold pararPollingAnterior. by repeat case_match. Qed.

Lemma monitorar_preserva tid p :
  preserva p (monitorarTransacaoPix tid p) /\
  pg_compraPendentePix (monitorarTransacaoPix tid p) = pg_compraPendentePix p.
Proof. unfold monitorarTransacaoPix. by destruct (pg_pixPollings p !! tid). Qed.

(** The PIX modal leaves the calls, the warehouse cart and the reloads
    alone, whether it throws or not, and keeps a purchase record that
    already has a [tipo]. *)
Lemma mostrar_preserva d p :
  preserva p (mostrarModalPix d p).1 /\
  (truthy (pg_compraPendentePix p) = true -> truthy (jget_opt (pg_compraPendentePix p) "tipo") = true ->
   pg_compraPendentePix (mostrarModalPix d p).1 = pg_compraPendentePix p).
Proof.
  unfold mostrarModalPix, SE.bind, SE.modify, SE.of_option, SE.ret, SE.throw.
  destruct (pararPollingAnterior_preserva p) as [Hp Hc].
  destruct (js_number (dp_valor_item d)), (js_number (dp_valor_total d)), (js_number (dp_taxa d));
    cbn [fst]; try by split.
  match goal with |- context [monitorarTransacaoPix ?t ?x] =>
    destruct (monitorar_preserva t x) as [Hm Hmc] end.
  split.
  - eapply preserva_trans; [exact Hp|]. eapply preserva_trans; [|exact Hm].
    unfold preserva. cbn. by destruct (negb _ || negb _).
  - intros H1 H2. rewrite Hmc. cbn [pg_compraPendentePix set_modal set_pixStatus set_transacao].
    rewrite Hc, H1, H2. done.
Qed.

Lemma abrir_pix_preserva `{Servidor} d p : preserva p (abrir_pix d p).
Proof.
  unfold abrir_pix. destruct (mostrar_preserva d p) as [Hp _].
  destruct (mostrarModalPix d p) as [q [?|?]]; [done|]. exact Hp.
Qed.

Lemma toast_chamadas t p : pg_chamadas (mostrarToast t p) = pg_chamadas p.
Proof. done. Qed.

Section Props.
Context `{Servidor}.

Lemma pedir_chamadas url body p :
  pg_chamadas (pedir url body p).1 = pg_chamadas p ++ [Post url body].
Proof. done. Qed.

(** a granted install request with a QR code records the install as
    [compraPendentePix] (with the car and the piece of the store), makes
    its transaction the current one with a monitor polling it, and hides
    the install modal; the server is called once. *)
Theorem instalar_registra_compra s botoes p carroId res tid vi vt tx :
  let corpo := obj [("peca_nome", sel_nome s); ("peca_tipo", sel_tipo s); ("carro_id", carroId)] in
  resultado_ok (responder (pg_chamadas p) (Post url_solicitar corpo)) = Some res ->
  truthy (jget_opt res "qr_code_url") = true ->
  jget_opt res "transacao_id" = JStr tid ->
  js_number (jget_opt res "valor_item") = Some vi ->
  js_number (jget_opt res "valor_total") = Some vt ->
  js_number (jget_opt res "valor_taxa") = Some tx ->
  let e' := instalarPecaDoArmazem carroId (mk_estado (Some s) botoes p) in
  pg_chamadas (in_page e') = pg_chamadas p ++ [Post url_solicitar corpo] /\
  pg_compraPendentePix (in_page e') =
    obj [("transacao_id", JStr tid); ("tipo", JStr "instalacao_armazem");
         ("item_id", jget_opt res "peca_loja_id"); ("carro_id", carroId)] /\
  pg_transacaoPixAtual (in_page e') = Some tid /\
  pg_pixPollings (in_page e') !! tid = Some (pg_next_handle p) /\
  pg_intervals (in_page e') !! pg_next_handle p = Some KMonitor /\
  in_selecao e' = Some s /\ in_botoes e' = None.
Proof.
  intros corpo Hr Hqr Htid Hvi Hvt Htx e'. subst e'.
  unfold instalarPecaDoArmazem. cbn [in_selecao in_botoes in_page].
  unfold pedir. rewrite !toast_chamadas. cbv zeta. cbn [fst snd]. subst corpo.
  rewrite Hr, Hqr, Htid. cbn [negb].
  lazymatch goal with |- context [mostrarModalPix ?d ?q] => set (D := d); set (Q := q) end.
  destruct (mostrar_registra D Q vi vt tx) as (Hok & Hpp & Hiv & Hta & Hch); try done.
  destruct (mostrar_preserva D Q) as [_ Hc]. specialize (Hc eq_refl eq_refl).
  destruct (mostrarModalPix D Q) as [q' [[]|err]]; cbn [fst snd] in *; [|discriminate].
  subst Q D. cbn [pg_next_handle pg_chamadas pg_compraPendentePix set_compra set_chamadas mostrarToast set_log
    dp_transacao_id js_String] in *.
  cbn [in_page in_selecao in_botoes]. rewrite Hpp, Hiv, Hta, Hch, Hc. by split_and!.
Qed.

Lemma instalarPecasRepouso_chamadas carroId pecas p :
  pg_chamadas (instalarPecasRepouso carroId pecas p) =
  pg_chamadas p ++ [Post url_repouso (obj [("carro_id", carroId); ("pecas", JArr (pm_json_repouso <$> pecas))])].
Proof. unfold instalarPecasRepouso, pedir. cbn [fst snd]. by destruct resultado_ok. Qed.

Lemma instalar_grupos_chamadas gs p :
  pg_chamadas (foldl (fun p kg => instalarPecasRepouso (JStr kg.1) kg.2 p) p gs) =
  pg_chamadas p ++ (pedido_repouso <$> gs).
Proof.
  revert p. induction gs as [|kg gs IH]; intros p; simpl; [by rewrite app_nil_r|].
  rewrite IH, instalarPecasRepouso_chamadas. by rewrite <-app_assoc.
Qed.

(** when every piece chosen for a resting car names its car, the
    modal sends one install request per car, in the order in which
    [Object.entries] lists the cars, with the car's key (a string) as
    [carro_id]; each piece is sent exactly once, in the request of its
    own car. *)
Theorem repouso_um_pedido_por_carro pecas p :
  Forall (fun pc => truthy (pm_destino_carro_id pc) = true) pecas ->
  let gs := entries (porCarro pecas) in
  pg_chamadas (processarPecasParaRepousoModal pecas p) = pg_chamadas p ++ (pedido_repouso <$> gs) /\
  NoDup (fst <$> gs) /\
  Forall (fun kg => Forall (fun pc => js_String (pm_destino_carro_id pc) = kg.1) kg.2) gs /\
  concat (snd <$> gs) ≡ₚ pecas.
Proof.
  intros Hf gs. unfold processarPecasParaRepousoModal.
  rewrite find_Forall_none by (eapply Forall_impl; [done|]; intros pc ->; done).
  rewrite instalar_grupos_chamadas, toast_chamadas.
  destruct (entries_agrupar (fun pc => js_String (pm_destino_carro_id pc)) pecas) as (? & ? & ?).
  by split_and!.
Qed.

(** A piece with no car stops the modal before any request. *)
Lemma repouso_sem_carro pecas p pc :
  pc ∈ pecas -> truthy (pm_destino_carro_id pc) = false ->
  processarPecasParaRepousoModal pecas p = mostrarToast (TWarning, "selecione_um_carro_em_repouso") p.
Proof.
  intros Hin Hpc. unfold processarPecasParaRepousoModal.
  destruct (List.find _ pecas) eqn:E; [done|].
  exfalso. apply list_elem_of_In in Hin. pose proof (find_none _ _ E pc Hin) as Hn.
  simpl in Hn. rewrite Hpc in Hn. discriminate.
Qed.

Lemma criar_chamadas carroId pecas comPix p :
  pg_chamadas (criarSolicitacoesInstalacaoArmazem carroId pecas comPix p) =
  pg_chamadas p ++ [Post url_solicitacoes (corpo_solicitacoes carroId pecas comPix)].
Proof. unfold criarSolicitacoesInstalacaoArmazem, pedir. cbn [fst snd]. by destruct resultado_ok. Qed.

(** [criarSolicitacoesInstalacaoArmazem] sends the pieces in one
    request; when the server creates the requests the warehouse cart is
    emptied and the garage reloaded, and when it refuses or the call
    throws the cart and the garage are left as they were and the last
    toast is an error. *)
Theorem criar_solicitacoes_resultado carroId pecas comPix p :
  let p' := criarSolicitacoesInstalacaoArmazem carroId pecas comPix p in
  pg_chamadas p' = pg_chamadas p ++ [Post url_solicitacoes (corpo_solicitacoes carroId pecas comPix)] /\
  match resultado_ok (responder (pg_chamadas p) (Post url_solicitacoes (corpo_solicitacoes carroId pecas comPix))) with
  | Some _ => pg_armazem p' = WarehouseCart.vazio /\ pg_reloads p' = pg_reloads p ++ [RlGaragem]
  | None => pg_armazem p' = pg_armazem p /\ pg_reloads p' = pg_reloads p /\
            last (pg_toasts p') = Some (TError, "erro")
  end.
Proof.
  intros p'. split; [apply criar_chamadas|]. subst p'.
  unfold criarSolicitacoesInstalacaoArmazem, pedir. cbn [fst snd]. rewrite toast_chamadas.
  destruct resultado_ok; cbn; [done|]. by rewrite last_snoc.
Qed.

(** The warehouse cart sent to the active car: when some piece is
    unpaid, only the unpaid pieces are sent, to the PIX endpoint, and the
    cart stays as it is until the payment is processed; when every piece
    is paid, the whole cart goes to the request endpoint with
    [com_pix: true]. *)
Theorem carrinho_ativo_envia garagem p l :
  pg_armazem p = mk_cart l (Some DAtivo) -> l <> [] ->
  truthy (pg_equipeAtual p) = true -> truthy (jget_opt (pg_equipeAtual p) "carro_ativo") = true ->
  let carroId := jget_opt (jget_opt (pg_equipeAtual p) "carro_ativo") "id" in
  let p' := (processarCarrinhoArmazem garagem p).1 in
  match List.filter cobrado l with
  | [] => pg_chamadas p' = pg_chamadas p ++ [Post url_solicitacoes (corpo_solicitacoes carroId l true)]
  | pagar => pg_chamadas p' = pg_chamadas p ++ [Post url_ativo (corpo_ativo carroId pagar)] /\
             pg_armazem p' = pg_armazem p
  end.
Proof.
  intros Ha Hl He Hc carroId p'. subst p'.
  unfold processarCarrinhoArmazem, WarehouseCart.processarCarrinhoArmazem. rewrite Ha. cbn [carrinhoArmazem destinoCarrinhoArmazem].
  destruct l as [|x l]; [done|]. rewrite He, Hc. cbn [negb orb].
  fold carroId. destruct (List.filter cobrado (x :: l)) as [|y ys] eqn:Ef; cbn [fst].
  - unfold processarCarrinhoArmazemAtivo. rewrite criar_chamadas, Ha. done.
  - unfold processarCarrinhoArmazemAtivo, pedir. rewrite !toast_chamadas. cbn [fst snd].
    destruct resultado_ok; [|done].
    match goal with |- context [abrir_pix ?d ?q] => destruct (abrir_pix_preserva d q) as (A & B & _) end.
    by rewrite A, B.
Qed.

(** [processarPecasParaAtivoModal] keeps the shop cart and posts at most
    one request, to the active-car endpoint. *)
Lemma ativo_modal_efeito pecas p :
  let q := processarPecasParaAtivoModal pecas p in
  pg_carrinho q = pg_carrinho p /\
  (pg_chamadas q = pg_chamadas p \/ exists body, pg_chamadas q = pg_chamadas p ++ [Post url_ativo body]).
Proof.
  unfold processarPecasParaAtivoModal. destruct (negb _ || negb _); [by split; [|left]|].
  unfold pedir. cbn [fst snd]. destruct resultado_ok.
  - match goal with |- context [abrir_pix ?d ?q] => destruct (abrir_pix_preserva d q) as (A & _ & _ & D) end.
    rewrite A, D. split; [done|]. right. eexists. done.
  - split; [done|]. right. eexists. done.
Qed.

(** C14: a distribution that passes the duplicate check posts at most one
    request for the pieces of the active car, then buys every piece of the
    warehouse with one POST each, in the cart's order; the shop cart is
    emptied exactly when some piece went to the warehouse, so pieces sent
    to the active car alone stay in the cart after their PIX is opened. *)
Theorem confirmar_distribuicao_carrinho d p :
  (ShopCart.verificarPecasDuplicadasNoCarroAtivo (pg_carrinho p) d).1 = false ->
  let arm := List.filter (ShopCart.is_dest d ShopCart.Armazem) (pg_carrinho p) in
  let atv := List.filter (ShopCart.is_dest d ShopCart.CarroAtivo) (pg_carrinho p) in
  let q := confirmarDistribuicaoPecas d p in
  pg_carrinho q = (if bool_decide (arm = []) then pg_carrinho p else []) /\
  exists mid, pg_chamadas q = pg_chamadas p ++ mid ++ (compra <$> arm) /\
    (mid = [] \/ exists body, atv <> [] /\ mid = [Post url_ativo body]).
Proof.
  intros Hd arm atv q. subst q. unfold confirmarDistribuicaoPecas, ShopCart.confirmarDistribuicaoPecas.
  rewrite Hd. fold arm atv.
  assert (Hm : exists mid, let q := if bool_decide (atv = []) then p
                                    else processarPecasParaAtivoModal (peca_do_carrinho <$> atv) p in
            pg_carrinho q = pg_carrinho p /\ pg_chamadas q = pg_chamadas p ++ mid /\
            (mid = [] \/ exists body, atv <> [] /\ mid = [Post url_ativo body])).
  { case_bool_decide as Ha; [exists []; rewrite app_nil_r; by split_and!; [| |left]|].
    destruct (ativo_modal_efeito (peca_do_carrinho <$> atv) p) as [Hc [Hn|[body Hb]]].
    - exists []. rewrite app_nil_r. by split_and!; [| |left].
    - exists [Post url_ativo body]. split_and!; [done|done|]. right. by exists body. }
  destruct Hm as [mid (Hc & Hn & Hmid)].
  set (q0 := if bool_decide (atv = []) then _ else _) in *.
  destruct (decide (arm = [])) as [Hr|Hr].
  - rewrite (bool_decide_eq_true_2 _ Hr). split; [done|]. exists mid. by rewrite Hr, app_nil_r.
  - rewrite (bool_decide_eq_false_2 _ Hr). unfold enviar_dividido, enviarCarrinhoParaArmazemDividido.
    destruct arm as [|x xs] eqn:Ea; [done|]. rewrite <-Ea.
    cbn [mostrarToast set_log set_carts set_chamadas pg_carrinho pg_chamadas default].
    split; [done|]. exists mid. rewrite Hn, processarPecasArmazemDividido_spec, app_nil_l, Ea.
    by rewrite <-app_assoc.
Qed.

End Props.
(** ** Concrete runs *)

(** The server's answer to a request that opens a PIX: transaction ["T"]. *)
Definition resp_pix : fetch_result :=
  FResp true (Some (obj [("sucesso", JBool true); ("transacao_id", JStr "T"); ("pix_id", JNum 9);
                         ("qr_code_url", JStr "qr"); ("valor_item", JNum 10);
                         ("valor_total", JNum (1010 # 100)); ("valor_taxa", JNum (10 # 100));
                         ("peca_loja_id", JNum 4)])).

Definition servidor_pix : Servidor := {| responder := fun _ _ => resp_pix |}.

Definition motor_sel : selecao := mk_selecao (JStr "Motor") (JStr "motor") (JNum 0) (JNum 10).

Definition peca_repouso (nome : string) (carro : Z) : peca_modal :=
  mk_peca_modal (JNum 1) (JStr nome) (JStr "motor") (JNum 10) JNull (JNum 1) (JStr "repouso") (JNum (inject_Z carro)).

(** Three pieces chosen for cars 12, 3 and 12, in this order. *)
Definition tres_repouso : list peca_modal :=
  [peca_repouso "A" 12; peca_repouso "B" 3; peca_repouso "C" 12].

Definition guardada_paga : item := mk_item "Turbo" "turbo" (JNum 2) 30 (JNum 77) 1.
Definition guardada_nova : item := mk_item "Freio" "freio" (JNum 3) 20 JNull 1.

(** A team with an active car 5 and a warehouse cart for it. *)
Definition pagina_armazem : page :=
  set_carts (set_equipe page_init (obj [("carro_ativo", obj [("id", JNum 5)])])) []
    (mk_cart [guardada_paga; guardada_nova] (Some DAtivo)).

Lemma instalar_registra_compra_witness :
  resultado_ok resp_pix = Some (match resp_pix with FResp _ (Some r) => r | _ => JNull end) /\
  pg_compraPendentePix (in_page (@instalarPecaDoArmazem servidor_pix (JNum 5) (mk_estado (Some motor_sel) None page_init))) =
    obj [("transacao_id", JStr "T"); ("tipo", JStr "instalacao_armazem"); ("item_id", JNum 4); ("carro_id", JNum 5)].
Proof.
  split; [reflexivity|].
  apply (@instalar_registra_compra servidor_pix motor_sel None page_init (JNum 5)
           (match resp_pix with FResp _ (Some r) => r | _ => JNull end) "T" 10 (1010 # 100) (10 # 100));
    reflexivity.
Defined.

Lemma repouso_um_pedido_por_carro_witness :
  pg_chamadas (@processarPecasParaRepousoModal aceita_tudo tres_repouso page_init) =
    pedido_repouso <$> entries (porCarro tres_repouso).
Proof.
  apply (@repouso_um_pedido_por_carro aceita_tudo tres_repouso page_init).
  repeat constructor.
Defined.

Lemma carrinho_ativo_envia_witness :
  pg_chamadas (@processarCarrinhoArmazem servidor_pix JNull pagina_armazem).1 =
    [Post url_ativo (corpo_ativo (JNum 5) [guardada_nova])] /\
  pg_armazem (@processarCarrinhoArmazem servidor_pix JNull pagina_armazem).1 = pg_armazem pagina_armazem.
Proof.
  apply (@carrinho_ativo_envia servidor_pix JNull pagina_armazem [guardada_paga; guardada_nova]);
    [reflexivity|discriminate|reflexivity|reflexivity].
Defined.

(** A shop cart of two pieces, the engine for the active car and the
    turbo for the warehouse, on a team whose active car is 5. *)
Definition carrinho_dividido : list ShopCart.peca :=
  [ShopCart.mk_peca "1" "Motor" 100 "" "motor" 1; ShopCart.mk_peca "2" "Turbo" 50 "" "turbo" 1].

Definition destinos_dividido : gmap string ShopCart.destino :=
  <["1" := ShopCart.CarroAtivo]> (<["2" := ShopCart.Armazem]> ∅).

Definition pagina_loja : page :=
  set_carts (set_equipe page_init (obj [("carro_ativo", obj [("id", JNum 5)])])) carrinho_dividido
    WarehouseCart.vazio.

Lemma confirmar_distribuicao_carrinho_witness :
  (ShopCart.verificarPecasDuplicadasNoCarroAtivo (pg_carrinho pagina_loja) destinos_dividido).1 = false /\
  pg_carrinho (@confirmarDistribuicaoPecas servidor_pix destinos_dividido pagina_loja) = [].
Proof.
  split; [vm_compute; reflexivity|].
  exact (proj1 (@confirmar_distribuicao_carrinho servidor_pix destinos_dividido pagina_loja eq_refl)).
Defined.

(** The groups of [porCarro] are sent in the order of
    [Object.entries], which puts the integer keys first in increasing
    order: car 3 is served before car 12 though 12 was chosen first, and
    each request carries the car's id as the string key, not the number
    the piece held. *)
Example repouso_ordem_numerica :
  pg_chamadas (@processarPecasParaRepousoModal aceita_tudo tres_repouso page_init) =
    [Post url_repouso (obj [("carro_id", JStr "3"); ("pecas", JArr [pm_json_repouso (peca_repouso "B" 3)])]);
     Post url_repouso (obj [("carro_id", JStr "12");
                            ("pecas", JArr [pm_json_repouso (peca_repouso "A" 12); pm_json_repouso (peca_repouso "C" 12)])])].
Proof. vm_compute. reflexivity. Qed.

(** paying the PIX of pieces chosen in the selection modal for the
    active car empties the warehouse cart, whose pieces were neither
    chosen nor charged: [processarCompraAposPagamento] clears the cart
    for the type [multiplas_pecas_armazem_ativo_modal] too. *)
Example pagamento_modal_esvazia_carrinho :
  let p := @processarPecasParaAtivoModal servidor_pix [peca_repouso "A" 5] pagina_armazem in
  carrinhoArmazem (pg_armazem p) = [guardada_paga; guardada_nova] /\
  carrinhoArmazem (pg_armazem (Monitor.run p [Monitor.EvTick 1; Monitor.EvResolve 0 resp_aprovado;
                                              Monitor.EvResolve 0 resp_ok])) = [].
Proof. vm_compute. split; reflexivity. Qed.

End Instalacao.
