(* ===== verification/AutoRefresh.v ===== *)
(** * The auto-refresh timers

    [src/static/script.js] (37-151) reloads the page's data on two
    intervals: [intervaloAutoRefresh] (every 5 s, the data of the active
    tab of [/dashboard]) and [intervaloSolicitacoes] (every 3 s, the
    pending requests). [iniciarAutoRefresh] clears the handle it holds
    before creating a new interval; [pararAutoRefresh] clears both but
    keeps the stale handles. The intervals are paused while a modal is
    shown and resumed when it is hidden, through the listeners of
    [configurarListenersModals] and through the pair of listeners that
    [abrirModalInstalarPecaArmazem] (2244-2256) adds to its modal at
    every opening; the tab's visibility stops and restarts them.

    The state holds the browser's live intervals with their kind, the
    two global handles, what the callbacks read ([document.hidden],
    [temModalAberto()], the path, [obterAbaAtiva()]), the number of
    listener pairs of each modal, and the log of data loads. A modal
    counts as shown from its [show.bs.modal] to its [hidden.bs.modal]. *)
From S2P Require Import Prelude.
Set Warnings "-register-all".
Local Close Scope Q_scope.

Module AutoRefresh.

Inductive tipo := Geral | Solicitacoes.

#[export] Instance tipo_eq_dec : EqDecision tipo.
Proof. solve_decision. Defined.

(** The loads the callbacks start: [carregarGaragem],
    [recarregarDadosEquipe], [carregarCarrosLoja], [carregarPecasLoja],
    [carregarPecasAguardando], [carregarCarrosAguardando]. *)
Inductive carga := CGaragem | CDadosEquipe | CCarrosLoja | CPecasLoja | CPecasAguardando | CCarrosAguardando.

Record estado := mk_estado {
  ar_next : nat;
  ar_timers : gmap nat tipo;
  intervaloAutoRefresh : option nat;
  intervaloSolicitacoes : option nat;
  ar_hidden : bool;
  ar_abertos : gset string;
  ar_path : string;
  ar_aba : option string;
  ar_ouvintes : gmap string nat;
  ar_cargas : list carga
}.

(** A page just loaded at [path]: no timer, handles [null]; browsers
    number intervals from 1, so a handle is never falsy. *)
Definition inicial (path : string) (aba : option string) : estado :=
  mk_estado 1 ∅ None None false ∅ path aba ∅ [].

Definition set_timers (e : estado) (n : nat) (t : gmap nat tipo) : estado :=
  mk_estado n t (intervaloAutoRefresh e) (intervaloSolicitacoes e) (ar_hidden e) (ar_abertos e)
    (ar_path e) (ar_aba e) (ar_ouvintes e) (ar_cargas e).

Definition set_handle (k : tipo) (h : option nat) (e : estado) : estado :=
  match k with
  | Geral => mk_estado (ar_next e) (ar_timers e) h (intervaloSolicitacoes e) (ar_hidden e)
               (ar_abertos e) (ar_path e) (ar_aba e) (ar_ouvintes e) (ar_cargas e)
  | Solicitacoes => mk_estado (ar_next e) (ar_timers e) (intervaloAutoRefresh e) h (ar_hidden e)
               (ar_abertos e) (ar_path e) (ar_aba e) (ar_ouvintes e) (ar_cargas e)
  end.

Definition handle (k : tipo) (e : estado) : option nat :=
  match k with Geral => intervaloAutoRefresh e | Solicitacoes => intervaloSolicitacoes e end.

Definition set_visao (hidden : bool) (abertos : gset string) (e : estado) : estado :=
  mk_estado (ar_next e) (ar_timers e) (intervaloAutoRefresh e) (intervaloSolicitacoes e) hidden abertos
    (ar_path e) (ar_aba e) (ar_ouvintes e) (ar_cargas e).

(** [temModalAberto()]: some modal is shown. *)
Definition temModalAberto (e : estado) : bool := bool_decide (ar_abertos e ≠ ∅).

Definition set_ouvintes (o : gmap string nat) (e : estado) : estado :=
  mk_estado (ar_next e) (ar_timers e) (intervaloAutoRefresh e) (intervaloSolicitacoes e) (ar_hidden e)
    (ar_abertos e) (ar_path e) (ar_aba e) o (ar_cargas e).

Definition carregar (cs : list carga) (e : estado) : estado :=
  mk_estado (ar_next e) (ar_timers e) (intervaloAutoRefresh e) (intervaloSolicitacoes e) (ar_hidden e)
    (ar_abertos e) (ar_path e) (ar_aba e) (ar_ouvintes e) (ar_cargas e ++ cs).

Definition setInterval (k : tipo) (e : estado) : estado * nat :=
  (set_timers e (S (ar_next e)) (<[ar_next e := k]> (ar_timers e)), ar_next e).

Definition clearInterval (h : nat) (e : estado) : estado :=
  set_timers e (ar_next e) (delete h (ar_timers e)).

(** [if (intervalo) clearInterval(intervalo); intervalo = setInterval(...)]. *)
Definition reiniciar (k : tipo) (e : estado) : estado :=
  let e := match handle k e with Some h => clearInterval h e | None => e end in
  let '(e, h) := setInterval k e in
  set_handle k (Some h) e.

(** [iniciarAutoRefresh()] (script.js 56-112). *)
Definition iniciarAutoRefresh (e : estado) : estado :=
  reiniciar Solicitacoes (reiniciar Geral e).

(** [pararAutoRefresh()] (script.js 114-118): the handles are kept. *)
Definition pararAutoRefresh (e : estado) : estado :=
  let e := match intervaloAutoRefresh e with Some h => clearInterval h e | None => e end in
  match intervaloSolicitacoes e with Some h => clearInterval h e | None => e end.

(** The callback of [intervaloAutoRefresh] (script.js 60-88). *)
Definition cargas_aba (aba : option string) : list carga :=
  match aba with
  | None => []
  | Some a =>
      if bool_decide (a = "garagem-tab") then [CGaragem; CDadosEquipe]
      else if bool_decide (a = "carros-tab") then [CCarrosLoja; CDadosEquipe]
      else if bool_decide (a = "pecas-tab") then [CPecasLoja; CDadosEquipe]
      else [CDadosEquipe]
  end.

(** The callback of [intervaloSolicitacoes] (script.js 91-110). *)
Definition cargas_solicitacoes (path : string) : list carga :=
  (if bool_decide (path = "/dashboard") then [CPecasAguardando; CCarrosAguardando] else []) ++
  (if bool_decide (path = "/solicitacoes-pecas") then [CPecasAguardando] else []) ++
  (if bool_decide (path = "/solicitacoes-carros") then [CCarrosAguardando] else []).

(** One firing of interval [h]: nothing while the tab is hidden or a
    modal is shown. *)
Definition tick (h : nat) (e : estado) : estado :=
  match ar_timers e !! h with
  | None => e
  | Some k =>
      if ar_hidden e || temModalAberto e then e
      else match k with
           | Geral => if bool_decide (ar_path e = "/dashboard") then carregar (cargas_aba (ar_aba e)) e else e
           | Solicitacoes => carregar (cargas_solicitacoes (ar_path e)) e
           end
  end.

(** [configurarListenersModals()] (script.js 121-137): one pair of
    listeners on each modal of the document. *)
Definition configurarListenersModals (modais : list string) (e : estado) : estado :=
  set_ouvintes (foldl (fun o m => <[m := S (default 0 (o !! m))]> o) (ar_ouvintes e) modais) e.

(** [DOMContentLoaded] (script.js 154-170): on the three pages with
    pending requests, the listeners and the first start. *)
Definition carregarPagina (modais : list string) (e : estado) : estado :=
  if bool_decide (ar_path e ∈ ["/dashboard"; "/solicitacoes-pecas"; "/solicitacoes-carros"])
  then iniciarAutoRefresh (configurarListenersModals modais e)
  else e.

(** [visibilitychange] (script.js 140-150). *)
Definition visibilidade (hidden : bool) (e : estado) : estado :=
  let e := set_visao hidden (ar_abertos e) e in
  if hidden then pararAutoRefresh e
  else if bool_decide (ar_path e ∈ ["/dashboard"; "/solicitacoes-pecas"; "/solicitacoes-carros"; "/admin"])
  then iniciarAutoRefresh e
  else e.

(** The listener pair [abrirModalInstalarPecaArmazem] adds at each
    opening (script.js 2244-2256); its [show] listener does what
    [pararAutoRefresh] does. *)
Definition abrirModalInstalar (e : estado) : estado :=
  let o := ar_ouvintes e in
  set_ouvintes (<[ "modalInstalarArmazem" := S (default 0 (o !! "modalInstalarArmazem")) ]> o) e.

(** [show.bs.modal] and [hidden.bs.modal] on modal [m]: each listener
    pair of [m] runs once. *)
Definition mostrarModal (m : string) (e : estado) : estado :=
  Nat.iter (default 0 (ar_ouvintes e !! m)) pararAutoRefresh (set_visao (ar_hidden e) ({[m]} ∪ ar_abertos e) e).

Definition esconderModal (m : string) (e : estado) : estado :=
  Nat.iter (default 0 (ar_ouvintes e !! m)) iniciarAutoRefresh (set_visao (ar_hidden e) (ar_abertos e ∖ {[m]}) e).

Inductive evento :=
| EvCarregar (modais : list string)
| EvTick (h : nat)
| EvVisibilidade (hidden : bool)
| EvAbrirModalInstalar
| EvMostrarModal (m : string)
| EvEsconderModal (m : string).

Definition step (e : estado) (ev : evento) : estado :=
  match ev with
  | EvCarregar ms => carregarPagina ms e
  | EvTick h => tick h e
  | EvVisibilidade b => visibilidade b e
  | EvAbrirModalInstalar => abrirModalInstalar e
  | EvMostrarModal m => mostrarModal m e
  | EvEsconderModal m => esconderModal m e
  end.

Definition run (e : estado) (evs : list evento) : estado := foldl step e evs.

(** ** The timer invariant: every live interval is the one its global
    handle names, and the handles are below the next fresh handle. *)
Definition inv (e : estado) : Prop :=
  (forall h k, ar_timers e !! h = Some k -> handle k e = Some h) /\
  (forall k h, handle k e = Some h -> h < ar_next e).

Lemma inv_inicial path aba : inv (inicial path aba).
Proof. split; [intros h k; cbn; by rewrite lookup_empty|by intros [] h]. Qed.

Lemma clearInterval_handle h k e : handle k (clearInterval h e) = handle k e.
Proof. by destruct k. Qed.

Lemma clearInterval_inv h e : inv e -> inv (clearInterval h e).
Proof.
  intros [Hi Hb]. split.
  - intros h' k. unfold clearInterval, set_timers. cbn.
    rewrite lookup_delete_Some. intros [_ Hk]. by apply (Hi h' k).
  - intros k h'. rewrite clearInterval_handle. apply Hb.
Qed.

Lemma reiniciar_inv k e : inv e -> inv (reiniciar k e).
Proof.
  intros Hi. unfold reiniciar.
  set (e1 := match handle k e with Some h => clearInterval h e | None => e end).
  assert (Hstale : forall h, ar_timers e1 !! h <> Some k).
  { intros h Hh. subst e1. destruct (handle k e) as [h0|] eqn:E.
    - unfold clearInterval, set_timers in Hh. cbn in Hh.
      apply lookup_delete_Some in Hh as [Hne Hh]. apply (proj1 Hi) in Hh. congruence.
    - apply (proj1 Hi) in Hh. congruence. }
  assert (Hi1 : inv e1) by (subst e1; destruct (handle k e); [by apply clearInterval_inv|done]).
  destruct Hi1 as [Hi1 Hb1]. split.
  - intros h k'. destruct k, k'; cbn;
      (destruct (decide (h = ar_next e1)) as [->|Hne];
       [rewrite lookup_insert_eq; congruence
       |rewrite lookup_insert_ne by done; intros Hh;
        first [by destruct (Hstale h Hh) | by apply (Hi1 h _ Hh)]]).
  - intros k' h. destruct k, k'; cbn; intros Hh; try (injection Hh as <-; lia).
    + specialize (Hb1 Solicitacoes h Hh). lia.
    + specialize (Hb1 Geral h Hh). lia.
Qed.

Lemma iniciar_inv e : inv e -> inv (iniciarAutoRefresh e).
Proof. intros. by apply reiniciar_inv, reiniciar_inv. Qed.

Lemma parar_inv e : inv e -> inv (pararAutoRefresh e).
Proof.
  intros Hi. unfold pararAutoRefresh.
  destruct (intervaloAutoRefresh e) as [h|]; [apply (clearInterval_inv h) in Hi|];
  (destruct (intervaloSolicitacoes _); [by apply clearInterval_inv|done]).
Qed.

Lemma iter_inv (f : estado -> estado) n e :
  (forall e, inv e -> inv (f e)) -> inv e -> inv (Nat.iter n f e).
Proof. intros Hf. induction n; simpl; auto. Qed.


Lemma ar_step_inv e ev : inv e -> inv (step e ev).
Proof.
  intros Hi. destruct ev; cbn.
  - unfold carregarPagina. case_bool_decide; [|done]. by apply iniciar_inv.
  - unfold tick. repeat case_match; try done.
  - unfold visibilidade. destruct hidden; [by apply parar_inv|]. case_bool_decide; [|done].
    by apply iniciar_inv.
  - done.
  - apply iter_inv; [exact parar_inv|exact Hi].
  - apply iter_inv; [exact iniciar_inv|exact Hi].
Qed.

Lemma run_inv e evs : inv e -> inv (run e evs).
Proof. revert e. induction evs as [|ev evs IH]; intros e Hi; [done|]. apply IH, ar_step_inv, Hi. Qed.

(** ** Pausing and resuming *)

Lemma parar_lookup e h k :
  ar_timers (pararAutoRefresh e) !! h = Some k ->
  ar_timers e !! h = Some k /\ intervaloAutoRefresh e <> Some h /\ intervaloSolicitacoes e <> Some h.
Proof.
  unfold pararAutoRefresh.
  destruct (intervaloAutoRefresh e); cbn [intervaloSolicitacoes clearInterval set_timers];
    destruct (intervaloSolicitacoes e); cbn; intros H;
    repeat match goal with H : delete _ _ !! _ = Some _ |- _ =>
      apply lookup_delete_Some in H as [? H] end;
    split_and!; congruence.
Qed.

Lemma parar_vazio e : inv e -> ar_timers (pararAutoRefresh e) = ∅.
Proof.
  intros [Hi _]. apply map_empty. intros h.
  destruct (ar_timers (pararAutoRefresh e) !! h) as [k|] eqn:E; [exfalso|done].
  apply parar_lookup in E as (E & Ha & Hs). apply Hi in E. by destruct k.
Qed.

Lemma reiniciar_handle k e :
  handle k (reiniciar k e) = Some (ar_next e) /\ ar_timers (reiniciar k e) !! ar_next e = Some k /\
  ar_next (reiniciar k e) = S (ar_next e).
Proof.
  unfold reiniciar. destruct (handle k e); destruct k; cbn; by rewrite lookup_insert_eq.
Qed.

Lemma reiniciar_outro k k' e : k' <> k -> handle k' (reiniciar k e) = handle k' e.
Proof. unfold reiniciar. intros Hk. destruct (handle k e), k, k'; cbn; congruence. Qed.

Lemma reiniciar_lookup k e h :
  h <> ar_next e -> handle k e <> Some h -> ar_timers (reiniciar k e) !! h = ar_timers e !! h.
Proof.
  unfold reiniciar. intros Hn Hh. destruct (handle k e) as [h0|]; destruct k; cbn;
    rewrite lookup_insert_ne by congruence; rewrite ?lookup_delete_ne by congruence; done.
Qed.

Lemma iniciar_ativa e :
  inv e ->
  let e' := iniciarAutoRefresh e in
  intervaloAutoRefresh e' = Some (ar_next e) /\ ar_timers e' !! ar_next e = Some Geral /\
  intervaloSolicitacoes e' = Some (S (ar_next e)) /\ ar_timers e' !! S (ar_next e) = Some Solicitacoes.
Proof.
  intros [_ Hb] e'. subst e'. unfold iniciarAutoRefresh.
  destruct (reiniciar_handle Geral e) as (A1 & B1 & C1).
  destruct (reiniciar_handle Solicitacoes (reiniciar Geral e)) as (A2 & B2 & C2).
  rewrite C1 in A2, B2.
  assert (Hs : handle Solicitacoes (reiniciar Geral e) <> Some (ar_next e)).
  { rewrite reiniciar_outro by done. intros Hh. apply Hb in Hh. lia. }
  split_and!; [|by rewrite reiniciar_lookup by (lia || done)|done|done].
  change (handle Geral (reiniciar Solicitacoes (reiniciar Geral e)) = Some (ar_next e)).
  by rewrite reiniciar_outro.
Qed.

Lemma iniciar_abertos e : ar_abertos (iniciarAutoRefresh e) = ar_abertos e.
Proof.
  unfold iniciarAutoRefresh, reiniciar.
  destruct (handle Geral e); cbn [handle set_handle ar_abertos clearInterval set_timers setInterval];
    by destruct (intervaloSolicitacoes _).
Qed.

Lemma iter_S_l (f : estado -> estado) n e : Nat.iter (S n) f e = f (Nat.iter n f e).
Proof. done. Qed.

(** C9: in every state the page reaches, whatever the events (page
    loads, firings, visibility changes, modals opened and closed any
    number of times, with any number of listeners), at most one
    auto-refresh interval of each kind is live. *)
Theorem um_intervalo_por_tipo path aba evs h1 h2 k :
  ar_timers (run (inicial path aba) evs) !! h1 = Some k ->
  ar_timers (run (inicial path aba) evs) !! h2 = Some k -> h1 = h2.
Proof.
  destruct (run_inv _ evs (inv_inicial path aba)) as [Hi _].
  intros H1%Hi H2%Hi. congruence.
Qed.

(** In any reached state, showing a modal that has listeners stops
    every auto-refresh interval, so nothing is reloaded behind the
    modal. *)
Theorem mostrar_modal_pausa path aba evs m n :
  let e := run (inicial path aba) evs in
  ar_ouvintes e !! m = Some (S n) -> ar_timers (mostrarModal m e) = ∅.
Proof.
  intros e Hm. pose proof (run_inv _ evs (inv_inicial path aba)) as Hi. fold e in Hi. unfold mostrarModal. rewrite Hm. cbn [default id]. rewrite iter_S_l.
  apply parar_vazio, iter_inv; [exact parar_inv|exact Hi].
Qed.

(** In any reached state, hiding a modal that has listeners leaves
    both intervals running, each under its global handle, and the modal
    no longer counts as shown. *)
Theorem esconder_modal_retoma path aba evs m n :
  let e := run (inicial path aba) evs in
  ar_ouvintes e !! m = Some (S n) ->
  let e' := esconderModal m e in
  (exists h, intervaloAutoRefresh e' = Some h /\ ar_timers e' !! h = Some Geral) /\
  (exists h, intervaloSolicitacoes e' = Some h /\ ar_timers e' !! h = Some Solicitacoes) /\
  m ∉ ar_abertos e'.
Proof.
  intros e Hm e'. pose proof (run_inv _ evs (inv_inicial path aba)) as Hi. fold e in Hi.
  subst e'. unfold esconderModal. rewrite Hm. cbn [default id]. rewrite iter_S_l.
  set (x := Nat.iter n iniciarAutoRefresh _).
  assert (Hx : inv x) by (apply iter_inv; [exact iniciar_inv|exact Hi]).
  destruct (iniciar_ativa x Hx) as (A & B & C & D).
  split_and!; [by eexists|by eexists|].
  assert (Hab : forall j y, ar_abertos (Nat.iter j iniciarAutoRefresh y) = ar_abertos y).
  { intros j y. induction j; [done|]. by rewrite iter_S_l, iniciar_abertos. }
  subst x. rewrite iniciar_abertos, Hab. cbn. set_solver.
Qed.


(** ** Concrete runs *)

(** The dashboard loaded with the install modal, which is then opened
    twice: three listener pairs on it. *)
Definition eventos_instalar : list evento :=
  [EvCarregar ["modalInstalarArmazem"; "modalPix"]; EvAbrirModalInstalar; EvAbrirModalInstalar].

Lemma um_intervalo_por_tipo_witness :
  ar_timers (run (inicial "/dashboard" (Some "garagem-tab")) eventos_instalar) !! 1 = Some Geral /\ 1 = 1.
Proof.
  assert (H1 : ar_timers (run (inicial "/dashboard" (Some "garagem-tab")) eventos_instalar) !! 1 = Some Geral)
    by (vm_compute; reflexivity).
  split; [exact H1|].
  apply (um_intervalo_por_tipo "/dashboard" (Some "garagem-tab") eventos_instalar 1 1 Geral H1 H1).
Defined.

Lemma mostrar_modal_pausa_witness :
  ar_timers (mostrarModal "modalInstalarArmazem" (run (inicial "/dashboard" (Some "garagem-tab")) eventos_instalar)) = ∅.
Proof.
  apply (mostrar_modal_pausa "/dashboard" (Some "garagem-tab") eventos_instalar "modalInstalarArmazem" 2).
  vm_compute. reflexivity.
Defined.

Lemma esconder_modal_retoma_witness :
  exists h, intervaloAutoRefresh (esconderModal "modalInstalarArmazem"
              (run (inicial "/dashboard" (Some "garagem-tab")) eventos_instalar)) = Some h /\
            ar_timers (esconderModal "modalInstalarArmazem"
              (run (inicial "/dashboard" (Some "garagem-tab")) eventos_instalar)) !! h = Some Geral.
Proof.
  apply (esconder_modal_retoma "/dashboard" (Some "garagem-tab") eventos_instalar "modalInstalarArmazem" 2).
  vm_compute. reflexivity.
Defined.

(** Every opening of the install modal adds a listener pair that is
    never removed: after two openings, hiding the modal starts the
    auto-refresh three times, creating six intervals of which four are
    cleared at once; the handles advance from 3 to 9. *)
Example ouvintes_acumulam :
  let e := run (inicial "/dashboard" (Some "garagem-tab")) eventos_instalar in
  ar_ouvintes e !! "modalInstalarArmazem" = Some 3 /\
  ar_next (esconderModal "modalInstalarArmazem" (mostrarModal "modalInstalarArmazem" e)) = 9 /\
  map_size (ar_timers (esconderModal "modalInstalarArmazem" (mostrarModal "modalInstalarArmazem" e))) = 2.
Proof. vm_compute. split_and!; reflexivity. Qed.

(** On the dashboard with the garage tab active and no modal shown,
    the general interval reloads the garage and the team, and the
    request interval the pending pieces and cars; nothing is loaded while
    a modal is shown. *)
Example cargas_dashboard :
  let e := run (inicial "/dashboard" (Some "garagem-tab")) [EvCarregar []] in
  ar_cargas (run e [EvTick 1; EvTick 2]) = [CGaragem; CDadosEquipe; CPecasAguardando; CCarrosAguardando] /\
  ar_cargas (run e [EvMostrarModal "m"; EvTick 1; EvTick 2]) = [].
Proof. vm_compute. split; reflexivity. Qed.

End AutoRefresh.

(** * Lazy loading by tab

    [carregarDadosPorAba] (script.js 248-297) loads the data a tab needs
    the first time it is shown, recording each load in the flags of
    [dadosCarregados] (232-237); [configurarCarregamentoLazy] (298-310)
    loads the garage tab at start and then runs it at each
    [shown.bs.tab] with the tab's id. Nothing resets the flags. *)
Module Lazy.

Import AutoRefresh.

Record carregados := mk_carregados {
  dc_garagem : bool;
  dc_carrosLoja : bool;
  dc_pecasLoja : bool;
  dc_equipe : bool
}.

Definition nada : carregados := mk_carregados false false false false.

(** The flag of a load, [false] for the loads not guarded by one. *)
Definition carregado (d : carregados) (c : carga) : bool :=
  match c with
  | CGaragem => dc_garagem d
  | CCarrosLoja => dc_carrosLoja d
  | CPecasLoja => dc_pecasLoja d
  | CDadosEquipe => dc_equipe d
  | _ => false
  end.

Definition marcar (c : carga) (d : carregados) : carregados :=
  match c with
  | CGaragem => mk_carregados true (dc_carrosLoja d) (dc_pecasLoja d) (dc_equipe d)
  | CCarrosLoja => mk_carregados (dc_garagem d) true (dc_pecasLoja d) (dc_equipe d)
  | CPecasLoja => mk_carregados (dc_garagem d) (dc_carrosLoja d) true (dc_equipe d)
  | CDadosEquipe => mk_carregados (dc_garagem d) (dc_carrosLoja d) (dc_pecasLoja d) true
  | _ => d
  end.

(** [if (!dadosCarregados.x) { carregarX(); dadosCarregados.x = true; }]. *)
Definition carregar_se (c : carga) (s : carregados * list carga) : carregados * list carga :=
  if carregado s.1 c then s else (marcar c s.1, s.2 ++ [c]).

(** [carregarDadosPorAba(aba)], [aba] being [abaId || obterAbaAtiva()]. *)
Definition carregarDadosPorAba (aba : option string) (s : carregados * list carga) : carregados * list carga :=
  match aba with
  | None => s
  | Some a =>
      if bool_decide (a = "") then s
      else if bool_decide (a = "garagem-tab") then carregar_se CDadosEquipe (carregar_se CGaragem s)
      else if bool_decide (a = "carros-tab") then carregar_se CDadosEquipe (carregar_se CCarrosLoja s)
      else if bool_decide (a = "pecas-tab") then carregar_se CDadosEquipe (carregar_se CPecasLoja s)
      else carregar_se CDadosEquipe s
  end.

(** [configurarCarregamentoLazy()] followed by the tabs shown, each
    given by its id. *)
Definition configurarCarregamentoLazy (abas : list (option string)) : carregados * list carga :=
  foldl (fun s a => carregarDadosPorAba a s) (carregarDadosPorAba (Some "garagem-tab") (nada, [])) abas.

Definition inv (s : carregados * list carga) : Prop :=
  NoDup s.2 /\ forall c, c ∈ s.2 <-> carregado s.1 c = true.

Lemma carregado_marcar c c' d : carregado (marcar c d) c' = true <-> c' = c /\ carregado (marcar c d) c = true \/ carregado d c' = true.
Proof. destruct c, c', d as [[] [] [] []]; cbn; intuition congruence. Qed.

Lemma carregar_se_inv c s :
  (carregado (marcar c s.1) c = true) -> inv s -> inv (carregar_se c s).
Proof.
  intros Hm [Hnd Hin]. unfold carregar_se. destruct (carregado s.1 c) eqn:Hc; [done|].
  split; cbn.
  - apply NoDup_app. split_and!; [done| |by apply NoDup_singleton].
    intros x Hx ->%list_elem_of_singleton. apply Hin in Hx. congruence.
  - intros c'. rewrite elem_of_app, list_elem_of_singleton, Hin, carregado_marcar. intuition congruence.
Qed.

Lemma carregarDadosPorAba_inv a s : inv s -> inv (carregarDadosPorAba a s).
Proof.
  intros Hi. destruct a as [a|]; [|done]. cbn.
  repeat case_bool_decide; try done;
    repeat (apply carregar_se_inv; [reflexivity|]); done.
Qed.

(** whatever tabs are shown, in whatever order and how often, each
    of the garage, the shop's cars, the shop's pieces and the team is
    loaded at most once, and a flag is set exactly for what was loaded. *)
Theorem carregamento_unico abas :
  let s := configurarCarregamentoLazy abas in
  NoDup s.2 /\ forall c, c ∈ s.2 <-> carregado s.1 c = true.
Proof.
  unfold configurarCarregamentoLazy.
  assert (H0 : inv (nada, [])) by (split; [constructor|intros []; cbn; split; by try inversion 1]).
  pose proof (carregarDadosPorAba_inv (Some "garagem-tab") _ H0) as H1.
  revert H1. generalize (carregarDadosPorAba (Some "garagem-tab") (nada, [])).
  induction abas as [|a abas IH]; intros s Hs; [exact Hs|]. apply IH, carregarDadosPorAba_inv, Hs.
Qed.

End Lazy.
