(* ===== verification/AddModal.v ===== *)
(** * The selection modal of the warehouse ([selecaoAdicaoPecas])

    [abrirModalAdicionarPecasArmazem] (script.js 2959-3132) lists the
    pieces of the warehouse; the choices made in it live in the global
    object [window.selecaoAdicaoPecas], keyed by [peca.id] or, for a piece
    with no id, by ["nome-tipo"]. The checkbox, the destination and the
    car of each piece write that object
    ([atualizarSelecaoPecasArmazem], [atualizarDestinoPecasArmazem],
    [atualizarCarroDestino], 3134-3302), [atualizarResumoAdicaoPecas]
    (3304-3347) prints the count and the estimated PIX, and
    [confirmarAdicaoPecasArmazem] (3349-3414) validates the choices,
    sends them through the two paths of [Install] and resets the object.
    The install price comes from [obterPrecoInstalacaoWarehouse]
    (430-453), whose answer arrives on its own.

    The object is an association list in insertion order; its entries
    are enumerated as [Object.entries] does ([Js.entries]). The
    compatibility filter of the car lists only greys options out and is
    not modelled. *)
From S2P Require Import Prelude Js ShopCart WarehouseCart Page Monitor Reconcile Install.
Set Warnings "-register-all".
Local Close Scope Q_scope.

Module AddModal.

Import Reconcile Instalacao.

(** [{selecionada, quantidade, destino_tipo, destino_carro_id, peca}]. *)
Record sel := mk_sel {
  s_selecionada : bool;
  s_quantidade : jv;
  s_destino_tipo : jv;
  s_destino_carro_id : jv;
  s_peca : jv
}.

(** [selecaoAdicaoPecas] ([None] while [undefined]); the keys of the
    pieces and the values of the car options rendered by the last
    opening; whether the modal is shown; [precoInstalacaoWarehouse]
    ([None] for [NaN]); the page. *)
Record estado := mk_estado {
  selecaoAdicaoPecas : option (list (string * sel));
  ad_chaves : list string;
  ad_opcoes : list string;
  ad_aberto : bool;
  precoInstalacaoWarehouse : option Q;
  ad_page : page
}.

Definition inicial (p : page) : estado := mk_estado None [] [] false (Some 10%Q) p.

(** [obj[k]] and [obj[k] = v] on the selection object. *)
Definition sel_get (o : list (string * sel)) (k : string) : option sel :=
  snd <$> List.find (fun kv => bool_decide (kv.1 = k)) o.

Fixpoint sel_set (o : list (string * sel)) (k : string) (v : sel) : list (string * sel) :=
  match o with
  | [] => [(k, v)]
  | (k', v') :: o' => if bool_decide (k' = k) then (k', v) :: o' else (k', v') :: sel_set o' k v
  end.

Definition set_selecao (o : option (list (string * sel))) (e : estado) : estado :=
  mk_estado o (ad_chaves e) (ad_opcoes e) (ad_aberto e) (precoInstalacaoWarehouse e) (ad_page e).

Definition set_page (p : page) (e : estado) : estado :=
  mk_estado (selecaoAdicaoPecas e) (ad_chaves e) (ad_opcoes e) (ad_aberto e) (precoInstalacaoWarehouse e) p.

Definition toast (t : toast) (e : estado) : estado := set_page (mostrarToast t (ad_page e)) e.

(** [const pecaKey = peca.id || `${peca.nome}-${peca.tipo}`], used as a
    property name. *)
Definition pecaKey (peca : jv) : string :=
  js_String (js_or (jget_opt peca "id")
                   (JStr (js_String (jget_opt peca "nome") +:+ "-" +:+ js_String (jget_opt peca "tipo")))).

Definition sel_nova (peca : jv) : sel := mk_sel false (JNum 1) (JStr "ativo") JNull peca.

(** The [forEach] over the warehouse pieces: [peca.durabilidade_percentual]
    throws on a [null] piece before its entry is created, and rendering
    the car options throws on a [null] car after it. The flag is [false]
    when the loop threw. *)
Fixpoint registrar (carrosOk : bool) (ps : list jv) (o : list (string * sel)) : list (string * sel) * bool :=
  match ps with
  | [] => (o, true)
  | p :: ps' =>
      if negb (bool_decide (is_Some (jget p "durabilidade_percentual"))) then (o, false)
      else
        let k := pecaKey p in
        let o := if bool_decide (is_Some (sel_get o k)) then o else sel_set o k (sel_nova p) in
        if carrosOk then registrar carrosOk ps' o else (o, false)
  end.

Definition carros_de (garagem : jv) : list jv :=
  match jget_opt garagem "carros" with JArr cs => cs | _ => [] end.

(** [abrirModalAdicionarPecasArmazem()] (script.js 2959-3132), with
    [garagem] for [window.garagemAtual]. The selection object is created
    if missing and then kept: entries of earlier openings survive. An
    exception of the loop is not caught: the entries created so far stay
    and the modal is not shown. *)
Definition abrirModalAdicionarPecasArmazem (garagem : jv) (e : estado) : estado :=
  let armazem := jget_opt garagem "armazem" in
  if negb (truthy garagem) || negb (truthy armazem)
  then toast (TInfo, "aguarde_o_armazem") e
  else
    match js_or (jget_opt armazem "pecas_guardadas") (JArr []) with
    | JArr [] => toast (TWarning, "nenhuma_peca_no_armazem") e
    | JArr ps =>
        let o := default [] (selecaoAdicaoPecas e) in
        let carros := carros_de garagem in
        let carrosOk := forallb (fun c => bool_decide (is_Some (jget c "carro_ativo"))) carros in
        match registrar carrosOk ps o with
        | (o, true) =>
            mk_estado (Some o) (pecaKey <$> ps) ((fun c => js_String (jget_opt c "id")) <$> carros) true
              (precoInstalacaoWarehouse e) (ad_page e)
        | (o, false) => set_selecao (Some o) e
        end
    | _ => set_selecao (Some (default [] (selecaoAdicaoPecas e))) e
    end.

(** [obterPrecoInstalacaoWarehouse()] (script.js 432-453) when its
    answer [r] arrives: [parseFloat(config.valor || '10')] of the entry
    [preco_instalacao_warehouse]; a missing entry, a failed request or an
    exception keeps the price. *)
Definition obterPrecoInstalacaoWarehouse (r : fetch_result) (e : estado) : estado :=
  let manter := e in
  match r with
  | FResp true (Some res) =>
      match jget res "configuracoes" with
      | Some (JArr cs) =>
          match find_js (fun c => (fun ch => js_eq_str ch "preco_instalacao_warehouse") <$> jget c "chave") cs with
          | Some (Some c) =>
              mk_estado (selecaoAdicaoPecas e) (ad_chaves e) (ad_opcoes e) (ad_aberto e)
                (parseFloat (js_String (js_or (jget_opt c "valor") (JStr "10")))) (ad_page e)
          | _ => manter
          end
      | _ => manter
      end
  | _ => manter
  end.

(** [atualizarSelecaoPecasArmazem(pecaKey)] (script.js 3134-3164), with
    the checkbox's [checked]. *)
Definition atualizarSelecaoPecasArmazem (k : string) (checked : bool) (e : estado) : estado :=
  match selecaoAdicaoPecas e with
  | Some o =>
      match sel_get o k with
      | Some s => set_selecao (Some (sel_set o k (mk_sel checked (s_quantidade s) (s_destino_tipo s)
                                                    (s_destino_carro_id s) (s_peca s)))) e
      | None => e
      end
  | None => e
  end.

(** [window.garagemAtual?.carros?.find(c => String(c.id) === String(v))]:
    [None] when it throws (a [null] car, or [carros] that is neither an
    array nor nullish). *)
Definition achar_carro (garagem : jv) (v : string) : option (option jv) :=
  match jget_opt garagem "carros" with
  | JUndef | JNull => Some None
  | JArr cs => find_js (fun c => (fun id => bool_decide (js_String id = v)) <$> jget c "id") cs
  | _ => None
  end.

(** The cars a resting destination leaves enabled: every option whose
    car is not the active one, collected when the car exists. *)
Fixpoint habilitados (garagem : jv) (opcoes : list string) : option (list jv) :=
  match opcoes with
  | [] => Some []
  | v :: vs =>
      if bool_decide (v = "") then habilitados garagem vs
      else match achar_carro garagem v with
           | None => None
           | Some c =>
               let aqui := match c with
                           | Some carro => if truthy (jget_opt carro "carro_ativo") then [] else [jget_opt carro "id"]
                           | None => []
                           end in
               (fun r => aqui ++ r) <$> habilitados garagem vs
           end
  end.

Definition set_sel (k : string) (f : sel -> sel) (e : estado) : estado :=
  match selecaoAdicaoPecas e with
  | Some o => match sel_get o k with
              | Some s => set_selecao (Some (sel_set o k (f s))) e
              | None => e
              end
  | None => e
  end.

Definition com_destino (v : jv) (s : sel) : sel :=
  mk_sel (s_selecionada s) (s_quantidade s) v (s_destino_carro_id s) (s_peca s).

Definition com_carro (v : jv) (s : sel) : sel :=
  mk_sel (s_selecionada s) (s_quantidade s) (s_destino_tipo s) v (s_peca s).

(** [atualizarDestinoPecasArmazem(pecaKey, novoDestino)] (script.js
    3223-3293): the destination; for a resting destination of a rendered
    piece, the only enabled car is chosen automatically, by its [id] as
    the garage holds it. The lookup may throw after the destination is
    written. *)
Definition atualizarDestinoPecasArmazem (garagem : jv) (k : string) (novo : string) (e : estado) : estado :=
  match selecaoAdicaoPecas e with
  | Some o =>
      match sel_get o k with
      | Some _ =>
          let e := set_sel k (com_destino (JStr novo)) e in
          if bool_decide (k ∈ ad_chaves e) && bool_decide (novo = "repouso") then
            match habilitados garagem (ad_opcoes e) with
            | Some [unico] => set_sel k (com_carro unico) e
            | _ => e
            end
          else e
      | None => e
      end
  | None => e
  end.

(** [atualizarCarroDestino(pecaKey, carroId)] (script.js 3295-3302),
    with the [<select>]'s value. *)
Definition atualizarCarroDestino (k : string) (carroId : string) (e : estado) : estado :=
  set_sel k (com_carro (js_or (JStr carroId) JNull)) e.

(** The selected entries in the order of [Object.values]. *)
Definition selecionadas (o : list (string * sel)) : list sel :=
  List.filter s_selecionada (snd <$> entries o).

Definition cobrada (s : sel) : bool :=
  js_eq_str (s_destino_tipo s) "ativo" && negb (truthy (jget_opt (s_peca s) "pix_id")).

(** [atualizarResumoAdicaoPecas()] (script.js 3304-3347): the number of
    selected pieces and [valorTotalPix], one install price per unpaid
    piece for the active car ([None] is [NaN]). *)
Definition atualizarResumoAdicaoPecas (e : estado) : option (nat * option Q) :=
  match selecaoAdicaoPecas e with
  | None => None
  | Some o =>
      let ss := selecionadas o in
      Some (length ss,
            foldl (fun acc s => if cobrada s
                                then (a ← acc; p ← precoInstalacaoWarehouse e; Some (a + p)%Q)
                                else acc) (Some 0%Q) ss)
  end.

(** The object [confirmarAdicaoPecasArmazem] builds for a selected
    entry. *)
Definition peca_de (s : sel) : peca_modal :=
  let p := s_peca s in
  mk_peca_modal (jget_opt p "id") (jget_opt p "nome") (jget_opt p "tipo") (jget_opt p "preco")
    (jget_opt p "pix_id") (JNum 1) (s_destino_tipo s) (s_destino_carro_id s).

Definition invalida (pc : peca_modal) : bool :=
  negb (truthy (pm_destino_tipo pc)) ||
  (js_eq_str (pm_destino_tipo pc) "repouso" && negb (truthy (pm_destino_carro_id pc))).

Section Confirmar.
Context `{Servidor}.

(** [confirmarAdicaoPecasArmazem()] (script.js 3349-3414). The first
    piece with no destination, or for a resting car with no car, stops
    everything. Otherwise the modal is hidden, the pieces for the active
    car are charged, those for resting cars installed, and the selection
    reset; each path catches its own errors, so the reset always
    happens. *)
Definition confirmarAdicaoPecasArmazem (e : estado) : estado :=
  match selecaoAdicaoPecas e with
  | None => toast (TWarning, "nenhuma_selecao") e
  | Some o =>
      let pecas := peca_de <$> selecionadas o in
      if bool_decide (pecas = []) then toast (TWarning, "selecione_pelo_menos_uma_peca") e
      else match List.find invalida pecas with
           | Some pc =>
               if negb (truthy (pm_destino_tipo pc))
               then toast (TWarning, "selecione_um_destino") e
               else toast (TWarning, "selecione_um_carro_em_repouso") e
           | None =>
               let ativo := List.filter (fun pc => js_eq_str (pm_destino_tipo pc) "ativo") pecas in
               let repouso := List.filter (fun pc => js_eq_str (pm_destino_tipo pc) "repouso") pecas in
               let p := ad_page e in
               let p := if bool_decide (ativo = []) then p else processarPecasParaAtivoModal ativo p in
               let p := if bool_decide (repouso = []) then p else processarPecasParaRepousoModal repouso p in
               mk_estado (Some []) (ad_chaves e) (ad_opcoes e) false (precoInstalacaoWarehouse e) p
           end
  end.

End Confirmar.

(** ** The selection object *)

Lemma sel_get_set_eq o k v : sel_get (sel_set o k v) k = Some v.
Proof.
  unfold sel_get. induction o as [|[k' v'] o IH]; simpl.
  - by rewrite bool_decide_eq_true_2.
  - case_bool_decide; simpl; [by rewrite bool_decide_eq_true_2|].
    rewrite bool_decide_eq_false_2 by done. exact IH.
Qed.

Lemma sel_get_set_ne o k k' v : k <> k' -> sel_get (sel_set o k v) k' = sel_get o k'.
Proof.
  unfold sel_get. intros Hk. induction o as [|[k'' v'] o IH]; simpl.
  - by rewrite bool_decide_eq_false_2.
  - case_bool_decide as Hk''; simpl.
    + subst k''. rewrite !bool_decide_eq_false_2 by done. done.
    + case_bool_decide; [done|]. exact IH.
Qed.

(** The loop over well-formed pieces keeps every entry and creates one
    for each piece. *)
Lemma registrar_spec ps o :
  Forall (fun p => is_Some (jget p "durabilidade_percentual")) ps ->
  exists o', registrar true ps o = (o', true) /\
    (forall k s, sel_get o k = Some s -> sel_get o' k = Some s) /\
    Forall (fun p => is_Some (sel_get o' (pecaKey p))) ps.
Proof.
  revert o. induction ps as [|p ps IH]; intros o Hps; simpl.
  - exists o. by split_and!.
  - apply Forall_cons in Hps as [Hp Hps].
    rewrite bool_decide_eq_true_2 by done. cbn [negb].
    set (o1 := if bool_decide (is_Some (sel_get o (pecaKey p))) then o
               else sel_set o (pecaKey p) (sel_nova p)).
    assert (Hkeep : forall k s, sel_get o k = Some s -> sel_get o1 k = Some s).
    { intros k s Hk. subst o1. case_bool_decide as Hin; [done|].
      rewrite sel_get_set_ne; [done|]. intros <-. apply Hin. by eexists. }
    assert (Hnew : is_Some (sel_get o1 (pecaKey p))).
    { subst o1. case_bool_decide; [done|]. rewrite sel_get_set_eq. by eexists. }
    destruct (IH o1 Hps) as (o' & Hr & Hk' & Hf). exists o'. split_and!; [done| |].
    + intros k s Hk. by apply Hk', Hkeep.
    + constructor; [|done]. destruct Hnew as [s Hs]. eexists. by apply Hk'.
Qed.

(** A [find] with a witness in the list finds something. *)
Lemma find_witness {A} (f : A -> bool) l x :
  x ∈ l -> f x = true -> exists y, List.find f l = Some y.
Proof.
  intros Hx Hf. destruct (List.find f l) as [y|] eqn:E; [by exists y|].
  apply list_elem_of_In in Hx. pose proof (find_none _ _ E x Hx). congruence.
Qed.

(** The estimated PIX as a running sum. *)
Lemma foldl_resumo (p : Q) (ss : list sel) (a : Q) :
  exists b, foldl (fun acc s => if cobrada s then (x ← acc; y ← Some p; Some (x + y)%Q) else acc)
              (Some a) ss = Some b /\
            (b == a + inject_Z (Z.of_nat (length (List.filter cobrada ss))) * p)%Q.
Proof.
  revert a. induction ss as [|s ss IH]; intros a; simpl.
  - exists a. split; [done|]. simpl. ring.
  - destruct (cobrada s); simpl.
    + destruct (IH (a + p)%Q) as (b & Hb & Hq). exists b. split; [done|].
      rewrite Hq, Nat2Z.inj_succ, <-Z.add_1_l, inject_Z_plus. simpl. ring.
    + apply IH.
Qed.

Section Props.
Context `{Servidor}.

(** Opening the modal on a loaded warehouse shows it and keeps every
    choice made before, even for pieces no longer listed, while giving
    every listed piece an entry. *)
Theorem abrir_mantem_selecao garagem e ps :
  truthy garagem = true -> truthy (jget_opt garagem "armazem") = true ->
  jget_opt (jget_opt garagem "armazem") "pecas_guardadas" = JArr ps -> ps <> [] ->
  Forall (fun p => is_Some (jget p "durabilidade_percentual")) ps ->
  Forall (fun c => is_Some (jget c "carro_ativo")) (carros_de garagem) ->
  let e' := abrirModalAdicionarPecasArmazem garagem e in
  ad_aberto e' = true /\
  exists o', selecaoAdicaoPecas e' = Some o' /\
    (forall k s, sel_get (default [] (selecaoAdicaoPecas e)) k = Some s -> sel_get o' k = Some s) /\
    Forall (fun p => is_Some (sel_get o' (pecaKey p))) ps.
Proof.
  intros Hg Ha Hps Hne Hp Hc e'. subst e'. unfold abrirModalAdicionarPecasArmazem.
  rewrite Hg, Ha. cbn [negb orb]. rewrite Hps. unfold js_or. cbn [truthy].
  destruct ps as [|p0 ps0]; [done|].
  assert (Hok : forallb (fun c => bool_decide (is_Some (jget c "carro_ativo"))) (carros_de garagem) = true).
  { apply forallb_forall. intros c Hin. apply bool_decide_eq_true_2.
    rewrite Forall_forall in Hc. apply Hc. by apply list_elem_of_In. }
  rewrite Hok.
  destruct (registrar_spec (p0 :: ps0) (default [] (selecaoAdicaoPecas e)) Hp) as (o' & Hr & Hk & Hf).
  rewrite Hr. cbn. split; [done|]. by exists o'.
Qed.

(** the estimated PIX of the summary is the install price times the
    number of selected unpaid pieces for the active car. *)
Theorem resumo_valor e o p :
  selecaoAdicaoPecas e = Some o -> precoInstalacaoWarehouse e = Some p ->
  exists v, atualizarResumoAdicaoPecas e = Some (length (selecionadas o), Some v) /\
    (v == inject_Z (Z.of_nat (length (List.filter cobrada (selecionadas o)))) * p)%Q.
Proof.
  intros Ho Hp. unfold atualizarResumoAdicaoPecas. rewrite Ho, Hp.
  destruct (foldl_resumo p (selecionadas o) 0) as (b & Hb & Hq). exists b. split.
  - by rewrite Hb.
  - rewrite Hq. ring.
Qed.

(** A selected piece with no destination, or for a resting car with
    no car, stops the confirmation: nothing is sent, the modal stays as
    it is and the choices are kept. *)
Theorem confirmar_invalido_sem_efeito e o s :
  selecaoAdicaoPecas e = Some o -> s ∈ selecionadas o -> invalida (peca_de s) = true ->
  let e' := confirmarAdicaoPecasArmazem e in
  pg_chamadas (ad_page e') = pg_chamadas (ad_page e) /\ selecaoAdicaoPecas e' = Some o /\
  ad_aberto e' = ad_aberto e.
Proof.
  intros Ho Hs Hi e'. subst e'. unfold confirmarAdicaoPecasArmazem. rewrite Ho.
  rewrite bool_decide_eq_false_2 by (intros Hn; apply fmap_nil_inv in Hn; rewrite Hn in Hs; set_solver).
  destruct (find_witness invalida (peca_de <$> selecionadas o) (peca_de s)) as [pc ->];
    [by apply list_elem_of_fmap_2|done|].
  by destruct (negb _).
Qed.

(** when every selected piece goes to a resting car that is named,
    confirming sends one install per car for exactly those pieces,
    hides the modal and resets the choices. *)
Theorem confirmar_repouso e o :
  selecaoAdicaoPecas e = Some o -> selecionadas o <> [] ->
  Forall (fun s => s_destino_tipo s = JStr "repouso" /\ truthy (s_destino_carro_id s) = true) (selecionadas o) ->
  let e' := confirmarAdicaoPecasArmazem e in
  pg_chamadas (ad_page e') =
    pg_chamadas (ad_page e) ++ (pedido_repouso <$> entries (porCarro (peca_de <$> selecionadas o))) /\
  selecaoAdicaoPecas e' = Some [] /\ ad_aberto e' = false.
Proof.
  intros Ho Hne Hf e'. subst e'. unfold confirmarAdicaoPecasArmazem. rewrite Ho.
  set (pecas := peca_de <$> selecionadas o).
  assert (Hf' : Forall (fun pc => pm_destino_tipo pc = JStr "repouso" /\ truthy (pm_destino_carro_id pc) = true) pecas).
  { subst pecas. apply Forall_fmap. eapply Forall_impl; [exact Hf|]. done. }
  rewrite bool_decide_eq_false_2 by (subst pecas; by intros ?%fmap_nil_inv).
  rewrite find_Forall_none
    by (eapply Forall_impl; [exact Hf'|]; intros pc [Hd Hc]; unfold invalida; by rewrite Hd, Hc).
  rewrite (filter_Forall_false (fun pc => js_eq_str (pm_destino_tipo pc) "ativo") pecas)
    by (eapply Forall_impl; [exact Hf'|]; intros pc [Hd _]; cbv beta; by rewrite Hd).
  rewrite (filter_Forall_true (fun pc => js_eq_str (pm_destino_tipo pc) "repouso") pecas)
    by (eapply Forall_impl; [exact Hf'|]; intros pc [Hd _]; cbv beta; by rewrite Hd).
  rewrite (bool_decide_eq_true_2 (@nil peca_modal = [])) by done.
  rewrite bool_decide_eq_false_2 by (subst pecas; by intros ?%fmap_nil_inv).
  cbn [ad_page selecaoAdicaoPecas ad_aberto]. split_and!; [|done|done].
  unfold processarPecasParaRepousoModal.
  rewrite find_Forall_none by (eapply Forall_impl; [exact Hf'|]; intros pc [_ Hc]; by rewrite Hc).
  by rewrite instalar_grupos_chamadas, toast_chamadas.
Qed.

End Props.

(** ** Concrete runs *)

Definition peca_arm (id : Z) (nome tipo : string) (pix : jv) : jv :=
  obj [("id", JNum (inject_Z id)); ("nome", JStr nome); ("tipo", JStr tipo);
       ("durabilidade_percentual", JNum 90); ("pix_id", pix)].

Definition carro (id : Z) (ativo : bool) : jv :=
  obj [("id", JNum (inject_Z id)); ("carro_ativo", JBool ativo); ("marca", JStr "M")].

Definition garagem_com (pecas : list jv) : jv :=
  obj [("armazem", obj [("pecas_guardadas", JArr pecas)]); ("carros", JArr [carro 1 true; carro 2 false])].

Definition motor : jv := peca_arm 11 "Motor" "motor" JNull.
Definition turbo : jv := peca_arm 12 "Turbo" "turbo" (JNum 5).

(** The motor chosen for the resting car, which is picked automatically
    as the only resting one. *)
Definition escolhido : estado :=
  atualizarDestinoPecasArmazem (garagem_com [motor; turbo]) "11" "repouso"
    (atualizarSelecaoPecasArmazem "11" true
       (abrirModalAdicionarPecasArmazem (garagem_com [motor; turbo]) (inicial page_init))).

(** The modal closed without confirming; the motor leaves the warehouse
    and the modal is opened again. *)
Definition reaberto : estado := abrirModalAdicionarPecasArmazem (garagem_com [turbo]) escolhido.

Definition resp_preco : fetch_result :=
  FResp true (Some (obj [("configuracoes", JArr [obj [("chave", JStr "preco_instalacao_warehouse");
                                                        ("valor", JStr "12.50")]])])).

Lemma abrir_mantem_selecao_witness :
  ad_aberto (abrirModalAdicionarPecasArmazem (garagem_com [turbo]) escolhido) = true.
Proof.
  apply (abrir_mantem_selecao (garagem_com [turbo]) escolhido [turbo]);
    [reflexivity|reflexivity|reflexivity|discriminate|..];
    apply (bool_decide_unpack _); vm_compute; reflexivity.
Defined.

Lemma resumo_valor_witness :
  exists v, atualizarResumoAdicaoPecas
              (obterPrecoInstalacaoWarehouse resp_preco
                 (atualizarSelecaoPecasArmazem "11" true
                    (abrirModalAdicionarPecasArmazem (garagem_com [motor; turbo]) (inicial page_init)))) =
            Some (1, Some v) /\ (v == 1 * (25 # 2))%Q.
Proof.
  destruct (resumo_valor
              (obterPrecoInstalacaoWarehouse resp_preco
                 (atualizarSelecaoPecasArmazem "11" true
                    (abrirModalAdicionarPecasArmazem (garagem_com [motor; turbo]) (inicial page_init))))
              [("11", mk_sel true (JNum 1) (JStr "ativo") JNull motor);
               ("12", mk_sel false (JNum 1) (JStr "ativo") JNull turbo)]
              (25 # 2)) as (v & Hv & Hq); [vm_compute; reflexivity|vm_compute; reflexivity|].
  exists v. split; [exact Hv|]. rewrite Hq. reflexivity.
Defined.

Lemma confirmar_invalido_sem_efeito_witness :
  selecaoAdicaoPecas (@confirmarAdicaoPecasArmazem aceita_tudo (atualizarDestinoPecasArmazem (garagem_com [motor]) "11" "" (atualizarSelecaoPecasArmazem "11" true
       (abrirModalAdicionarPecasArmazem (garagem_com [motor]) (inicial page_init))))) =
    Some [("11", mk_sel true (JNum 1) (JStr "") JNull motor)].
Proof.
  apply (confirmar_invalido_sem_efeito (H := aceita_tudo) _ [("11", mk_sel true (JNum 1) (JStr "") JNull motor)]
           (mk_sel true (JNum 1) (JStr "") JNull motor)); [vm_compute; reflexivity|vm_compute; left|reflexivity].
Defined.

Lemma confirmar_repouso_witness :
  selecaoAdicaoPecas (@confirmarAdicaoPecasArmazem aceita_tudo reaberto) = Some [].
Proof.
  apply (confirmar_repouso (H := aceita_tudo) reaberto
           [("11", mk_sel true (JNum 1) (JStr "repouso") (JNum 2) motor);
            ("12", sel_nova turbo)]); [vm_compute; reflexivity|discriminate|vm_compute; repeat constructor].
Defined.

(** a choice survives the closing of the modal and the departure of
    its piece from the warehouse: after the motor was chosen for the
    resting car 2, the modal closed without confirming and the motor
    installed elsewhere, confirming the reopened modal, in which the
    motor is not even listed, installs it on car 2 again. *)
Example selecao_obsoleta_enviada :
  pg_chamadas (ad_page (@confirmarAdicaoPecasArmazem aceita_tudo reaberto)) =
    [Post url_repouso (obj [("carro_id", JStr "2");
                            ("pecas", JArr [obj [("nome", JStr "Motor"); ("tipo", JStr "motor");
                                                 ("pix_id", JNull)]])])] /\
  ad_chaves reaberto = ["12"].
Proof. vm_compute. split; reflexivity. Qed.

(** Two pieces with no id and the same name and type share one key:
    the modal keeps a single choice for both, bound to the first. *)
Example pecas_sem_id_colidem :
  let freio1 := obj [("nome", JStr "Freio"); ("tipo", JStr "freio"); ("durabilidade_percentual", JNum 90)] in
  let freio2 := obj [("nome", JStr "Freio"); ("tipo", JStr "freio"); ("durabilidade_percentual", JNum 40)] in
  selecaoAdicaoPecas (abrirModalAdicionarPecasArmazem (garagem_com [freio1; freio2]) (inicial page_init)) =
    Some [("Freio-freio", sel_nova freio1)].
Proof. vm_compute. reflexivity. Qed.

End AddModal.
