(* ===== verification/Remover.v ===== *)
(** * Taking a piece off a car

    [abrirModalRemoverPeca(carroId, tipoPeca, nomePeca)] (script.js
    4906-5032) records the piece in the global [pecaEmRemocao], enables
    the confirm button, reads the install price and the garage, and
    lists the other cars as destinations, greying out those the piece is
    not compatible with. [confirmarRemoverPeca()] (5034-5102) sends
    [POST /api/remover-peca-carro] once, with the button disabled until
    an error re-enables it; the answer arrives later, through a promise
    chain.

    The two requests of the opening are awaited inside it and answered
    by [cfg] and [garagem] ([None] when [fetch] or [json()] threw). The
    removal requests in flight are a list of continuations, each with the
    destination it sent, resolved in any order. *)
From S2P Require Import Prelude Js ShopCart Page.
Set Warnings "-register-all".
Local Close Scope Q_scope.

Module Remover.

(** [pecaEmRemocao = {carroId, tipoPeca, nomePeca}]. *)
Record remocao := mk_remocao { rm_carroId : jv; rm_tipoPeca : jv; rm_nomePeca : jv }.

(** An option of [#carroDestSelect]: its value and whether it is enabled. *)
Record opcao := mk_opcao { op_valor : string; op_habilitada : bool }.

(** The value shown in [#valorInstalacao]: [None] for "Erro ao carregar
    valor", [Some None] for [NaN]. *)
Record estado := mk_estado {
  pecaEmRemocao : option remocao;
  rm_desabilitado : bool;
  rm_valor : option (option Q);
  rm_opcoes : list opcao;
  rm_aberto : bool;
  rm_pendentes : list jv;
  rm_page : page
}.

Definition inicial (p : page) : estado := mk_estado None false (Some (Some 0%Q)) [] false [] p.

Definition url_remover : string := "/api/remover-peca-carro".

(** The price read from [/api/admin/configuracoes]:
    [parseFloat(config.valor || '0')], [0] with no such entry. *)
Definition ler_valor (cfg : option jv) : option (option Q) :=
  match cfg with
  | None => None
  | Some res =>
      match jget res "configuracoes" with
      | None => None
      | Some (JArr cs) =>
          match find_js (fun c => (fun ch => js_eq_str ch "preco_instalacao_warehouse") <$> jget c "chave") cs with
          | None => None
          | Some (Some c) => Some (parseFloat (js_String (js_or (jget_opt c "valor") (JStr "0"))))
          | Some None => Some (Some 0%Q)
          end
      | Some _ => Some (Some 0%Q)
      end
  end.

(** The compatibilities of the piece: those of the piece of type
    [tipoPeca] on the origin car, when it has an array of them; [None]
    when a lookup throws. *)
Definition compatibilidades (carros : list jv) (carroId tipoPeca : jv) : option (list jv) :=
  match find_js (fun c => (fun id => bool_decide (js_String id = js_String carroId)) <$> jget c "id") carros with
  | None => None
  | Some None => Some []
  | Some (Some origem) =>
      match jget_opt origem "pecas" with
      | JArr ps =>
          match find_js (fun p => (fun t => js_strict_eq t tipoPeca) <$> jget p "tipo") ps with
          | None => None
          | Some (Some peca) => match jget_opt peca "compatibilidades" with JArr cs => Some cs | _ => Some [] end
          | Some None => Some []
          end
      | _ => Some []
      end
  end.

(** [carro.pecas && carro.pecas.some(p => p.tipo === tipoPeca)], only
    for its exceptions. *)
Definition some_ok (carro : jv) : bool :=
  match jget_opt carro "pecas" with
  | JArr ps => forallb (fun p => bool_decide (is_Some (jget p "tipo"))) ps
  | JUndef | JNull | JBool false | JStr "" => true
  | JNum q => if Qeq_bool q 0 then true else false
  | _ => false
  end.

(** The [forEach] over the cars: the origin is skipped, every other car
    becomes an option, enabled when the piece is universal or lists the
    car's [parseInt] id ([includes] matches [NaN] with [NaN]). The flag
    is [false] when the loop threw. *)
Fixpoint montar_opcoes (universal : bool) (compat : list (option Z)) (carroId : jv) (cs : list jv)
    : list opcao * bool :=
  match cs with
  | [] => ([], true)
  | c :: cs' =>
      match jget c "id" with
      | None => ([], false)
      | Some id =>
          if bool_decide (js_String id = js_String carroId) then montar_opcoes universal compat carroId cs'
          else if negb (some_ok c) then ([], false)
          else
            let ok := universal || bool_decide (parseInt (js_String id) ∈ compat) in
            let '(os, fim) := montar_opcoes universal compat carroId cs' in
            (mk_opcao (js_String id) ok :: os, fim)
      end
  end.

(** [abrirModalRemoverPeca(carroId, tipoPeca, nomePeca)] (script.js
    4906-5032). [garagem.carros?.map(...)], logged first, throws on a
    [null] car and on [carros] that is not an array and not nullish; an
    exception while reading the garage leaves the options of the previous
    opening in place, unless it comes after the list was emptied. *)
Definition abrirModalRemoverPeca (carroId tipoPeca nomePeca : jv) (cfg garagem : option jv)
    (e : estado) : estado :=
  let valor := ler_valor cfg in
  let opcoes :=
    match garagem with
    | None => rm_opcoes e
    | Some g =>
        match jget g "carros" with
        | None => rm_opcoes e
        | Some (JUndef | JNull) => []
        | Some (JArr cs) =>
            if negb (forallb (fun c => bool_decide (is_Some (jget c "id"))) cs) then rm_opcoes e
            else match compatibilidades cs carroId tipoPeca with
                 | None => rm_opcoes e
                 | Some compat =>
                     (montar_opcoes (bool_decide (compat = [])) ((fun c => parseInt (js_String c)) <$> compat)
                        carroId cs).1
                 end
        | Some _ => rm_opcoes e
        end
    end in
  mk_estado (Some (mk_remocao carroId tipoPeca nomePeca)) false valor opcoes true (rm_pendentes e) (rm_page e).

(** [confirmarRemoverPeca()] (script.js 5034-5062), with the checked
    radio's value and the select's value. *)
Definition confirmarRemoverPeca (destino selecionado : string) (e : estado) : estado :=
  match pecaEmRemocao e with
  | None => e
  | Some r =>
      if rm_desabilitado e then e
      else if bool_decide (destino = "carro") && bool_decide (selecionado = "")
      then mk_estado (pecaEmRemocao e) false (rm_valor e) (rm_opcoes e) (rm_aberto e) (rm_pendentes e)
             (mostrarToast (TError, "selecione_um_carro_de_destino") (rm_page e))
      else
        let novo := if bool_decide (destino = "carro") then JStr selecionado else JNull in
        let corpo := obj [("carro_id", rm_carroId r); ("tipo_peca", rm_tipoPeca r); ("novo_carro_id", novo)] in
        let p := rm_page e in
        mk_estado (pecaEmRemocao e) true (rm_valor e) (rm_opcoes e) (rm_aberto e) (rm_pendentes e ++ [novo])
          (set_chamadas p (pg_chamadas p ++ [Post url_remover corpo]))
  end.

(** The [.then]/[.catch] chain of the [i]-th removal in flight (script.js
    5063-5101): an HTTP error, a body that is not JSON or a [null] body
    re-enable the button; an answer closes the modal and forgets the
    piece, whatever became of the request since. *)
Definition resposta (i : nat) (r : fetch_result) (e : estado) : estado :=
  match rm_pendentes e !! i with
  | None => e
  | Some novo =>
      let pend := delete i (rm_pendentes e) in
      let erro (e' : estado) :=
        mk_estado (pecaEmRemocao e') false (rm_valor e') (rm_opcoes e') (rm_aberto e') pend
          (mostrarToast (TError, "erro_ao_mover_peca") (rm_page e')) in
      match r with
      | FResp true (Some data) =>
          let e1 := mk_estado None (rm_desabilitado e) (rm_valor e) (rm_opcoes e) false pend (rm_page e) in
          match jget data "sucesso" with
          | None => erro e1
          | Some s =>
              if truthy s
              then mk_estado None (rm_desabilitado e) (rm_valor e) (rm_opcoes e) false pend
                     (recarregar [RlGaragem] (mostrarToast (TSuccess, "peca_movida") (rm_page e)))
              else mk_estado None (rm_desabilitado e) (rm_valor e) (rm_opcoes e) false pend
                     (mostrarToast (TError, "erro_ao_mover_peca") (rm_page e))
          end
      | _ => erro e
      end
  end.

Inductive evento :=
| EvAbrir (carroId tipoPeca nomePeca : jv) (cfg garagem : option jv)
| EvConfirmar (destino selecionado : string)
| EvResposta (i : nat) (r : fetch_result).

Definition step (e : estado) (ev : evento) : estado :=
  match ev with
  | EvAbrir c t n cfg g => abrirModalRemoverPeca c t n cfg g e
  | EvConfirmar d s => confirmarRemoverPeca d s e
  | EvResposta i r => resposta i r e
  end.

Definition run (e : estado) (evs : list evento) : estado := foldl step e evs.

(** ** Properties *)

Lemma confirmar_desabilitado d s e : rm_desabilitado e = true -> confirmarRemoverPeca d s e = e.
Proof. intros Hd. unfold confirmarRemoverPeca. destruct (pecaEmRemocao e); [by rewrite Hd|done]. Qed.

(** A confirmation either sends nothing or sends one request and
    disables the button. *)
Lemma confirmar_casos d s e :
  let e' := confirmarRemoverPeca d s e in
  pg_chamadas (rm_page e') = pg_chamadas (rm_page e) \/
  (length (pg_chamadas (rm_page e')) = S (length (pg_chamadas (rm_page e))) /\ rm_desabilitado e' = true).
Proof.
  unfold confirmarRemoverPeca. destruct (pecaEmRemocao e); [|by left].
  destruct (rm_desabilitado e); [by left|].
  destruct (bool_decide _ && bool_decide _); [by left|].
  right. cbn. rewrite length_app. cbn. split; [lia|done].
Qed.

Lemma confirmar_varios_desabilitado cs e :
  rm_desabilitado e = true -> run e ((fun ds => EvConfirmar ds.1 ds.2) <$> cs) = e.
Proof.
  intros Hd. induction cs as [|[d s] cs IH]; [done|]. cbn [fmap list_fmap run foldl step fst snd].
  rewrite confirmar_desabilitado by done. exact IH.
Qed.

(** however many times the confirm button is clicked before an
    answer arrives, at most one removal request is sent. *)
Theorem confirmar_uma_vez cs e :
  length (pg_chamadas (rm_page (run e ((fun ds => EvConfirmar ds.1 ds.2) <$> cs)))) <=
  S (length (pg_chamadas (rm_page e))).
Proof.
  revert e. induction cs as [|[d s] cs IH]; intros e; cbn [fmap list_fmap run foldl step fst snd]; [lia|].
  destruct (confirmar_casos d s e) as [Heq|[Hlen Hd]].
  - specialize (IH (confirmarRemoverPeca d s e)). unfold run in IH. rewrite Heq in IH. exact IH.
  - fold (run (confirmarRemoverPeca d s e) ((fun ds => EvConfirmar ds.1 ds.2) <$> cs)).
    rewrite confirmar_varios_desabilitado by done. lia.
Qed.

(** When the removal fails in the network, with an HTTP error or
    with a body that is not JSON, the piece stays selected and the button
    is enabled again, so the user can retry; the request leaves the list
    in flight. *)
Theorem falha_permite_repetir i r e novo :
  rm_pendentes e !! i = Some novo ->
  r = FNetErr \/ (exists b, r = FResp false b) \/ r = FResp true None ->
  let e' := resposta i r e in
  pecaEmRemocao e' = pecaEmRemocao e /\ rm_desabilitado e' = false /\
  rm_aberto e' = rm_aberto e /\ rm_pendentes e' = delete i (rm_pendentes e).
Proof.
  intros Hi Hr e'. subst e'. unfold resposta. rewrite Hi.
  destruct Hr as [->|[[b ->]| ->]]; by split_and!.
Qed.

Lemma montar_opcoes_spec u compat carroId cs o :
  o ∈ (montar_opcoes u compat carroId cs).1 ->
  op_valor o <> js_String carroId /\ (u = true -> op_habilitada o = true).
Proof.
  induction cs as [|c cs IH]; cbn; [by intros ?%not_elem_of_nil|].
  destruct (jget c "id") as [id|]; [|by intros ?%not_elem_of_nil].
  case_bool_decide as Hid; [exact IH|].
  destruct (negb (some_ok c)); [by intros ?%not_elem_of_nil|].
  destruct (montar_opcoes u compat carroId cs) as [os fim] eqn:E. cbn in *.
  intros [->|Ho]%elem_of_cons.
  - cbn. split; [done|]. by intros ->.
  - by apply IH.
Qed.

(** The origin car is never offered as a destination, and a
    universal piece (one with no compatibility list) leaves every other
    car enabled. *)
Theorem opcoes_sem_origem carroId tipo nome cfg g cs e o :
  jget g "carros" = Some (JArr cs) ->
  o ∈ rm_opcoes (abrirModalRemoverPeca carroId tipo nome cfg (Some g) e) ->
  o ∈ rm_opcoes e \/
  (op_valor o <> js_String carroId /\
   (compatibilidades cs carroId tipo = Some [] -> op_habilitada o = true)).
Proof.
  intros Hc. unfold abrirModalRemoverPeca. cbn [rm_opcoes]. rewrite Hc.
  destruct (negb _); [by left|].
  destruct (compatibilidades cs carroId tipo) as [compat|] eqn:E; [|by left].
  intros Ho. right. destruct (montar_opcoes_spec _ _ _ _ _ Ho) as [H1 H2]. split; [done|].
  intros [= ->]. by apply H2.
Qed.

(** ** Concrete runs *)

Definition carro_r (id : Z) (pecas : list jv) : jv :=
  obj [("id", JNum (inject_Z id)); ("marca", JStr "M"); ("pecas", JArr pecas)].

(** Car 1 carries an engine compatible with car 3 only; cars 2 and 3
    are the others. *)
Definition garagem_r : jv :=
  obj [("carros", JArr [carro_r 1 [obj [("tipo", JStr "motor"); ("compatibilidades", JArr [JStr "3"])]];
                       carro_r 2 []; carro_r 3 []])].

Definition aberto_r : estado :=
  abrirModalRemoverPeca (JNum 1) (JStr "motor") (JStr "Motor") None (Some garagem_r) (inicial page_init).

Lemma confirmar_uma_vez_witness :
  length (pg_chamadas (rm_page (run aberto_r [EvConfirmar "armazem" ""; EvConfirmar "armazem" ""]))) <= 1.
Proof. apply (confirmar_uma_vez [("armazem", ""); ("armazem", "")] aberto_r). Defined.

Lemma falha_permite_repetir_witness :
  rm_desabilitado (resposta 0 FNetErr (confirmarRemoverPeca "armazem" "" aberto_r)) = false.
Proof.
  apply (falha_permite_repetir 0 FNetErr (confirmarRemoverPeca "armazem" "" aberto_r) JNull);
    [reflexivity|left; reflexivity].
Defined.

Lemma opcoes_sem_origem_witness :
  mk_opcao "3" true ∈ rm_opcoes aberto_r /\
  (mk_opcao "3" true ∈ rm_opcoes (inicial page_init) \/
   (op_valor (mk_opcao "3" true) <> js_String (JNum 1) /\
    (compatibilidades [carro_r 1 [obj [("tipo", JStr "motor"); ("compatibilidades", JArr [JStr "3"])]];
                       carro_r 2 []; carro_r 3 []] (JNum 1) (JStr "motor") = Some [] ->
     op_habilitada (mk_opcao "3" true) = true))).
Proof.
  assert (Hin : mk_opcao "3" true ∈ rm_opcoes aberto_r) by (vm_compute; right; left).
  split; [exact Hin|].
  apply (opcoes_sem_origem (JNum 1) (JStr "motor") (JStr "Motor") None garagem_r); [reflexivity|exact Hin].
Defined.

(** An answer to an earlier removal closes the modal of a later one
    and forgets its piece: with a removal of car 1's engine in flight,
    the user opens and confirms the removal of car 2's gearbox; the first
    answer hides the modal and clears [pecaEmRemocao] while the second
    request is still pending. *)
Example resposta_antiga_fecha_nova :
  let e := run (inicial page_init)
             [EvAbrir (JNum 1) (JStr "motor") (JStr "Motor") None (Some garagem_r);
              EvConfirmar "armazem" "";
              EvAbrir (JNum 2) (JStr "cambio") (JStr "Cambio") None (Some garagem_r);
              EvConfirmar "armazem" "";
              EvResposta 0 (FResp true (Some (obj [("sucesso", JBool true)])))] in
  length (pg_chamadas (rm_page e)) = 2 /\ length (rm_pendentes e) = 1 /\
  pecaEmRemocao e = None /\ rm_aberto e = false.
Proof. vm_compute. split_and!; reflexivity. Qed.

End Remover.
