(* ===== verification/Notification.v ===== *)
(** * The live-event notification banner ([src/static/sistema_notificacao.js])

    Every page loads this script. When the script runs it asks the server
    whether the user is an admin ([verificarEIniciarNotificacao]). For
    other users it starts a 3-second interval ([iniciarSistemaNotificacao])
    whose callback ([verificarEtapaEmAndamento]) asks again whether the user
    is an admin and then whether today's stage is running. A running
    stage shows a red banner. The banner can be minimised to a floating
    button and restored from it, and its button opens the live screen
    ([abrirEventoEmAnda]), retrying for 5 seconds while that screen's
    script has not loaded yet.

    The state is the script's two globals ([notificacaoIntervalId],
    [etapaAtualEmAndamento]), the two DOM elements it creates (each with
    the identity the closures of its timeouts hold), the browser's live
    intervals and pending timeouts, and the requests still waiting for an
    answer. Every [await] is a point where other events may run: a
    request is a pending [tarefa], answered by an [EvResposta] event in
    any order, like the rest of the development's event loops. *)
From S2P Require Import Prelude Js ShopCart WarehouseCart Page.
Set Warnings "-register-all".
Local Close Scope Q_scope.

Module Notificacao.

(** What a live [setInterval] runs: the 3-second check, or the 100 ms
    retry of [abrirEventoEmAnda] with its [tentativas] counter. *)
Inductive intervalo :=
| IVerificar
| ITentativas (tentativas : nat).

(** The request an [await] is waiting for. *)
Inductive tarefa :=
| TkIniciar  (** [verificarEIniciarNotificacao]: GET /api/user/is-admin *)
| TkAdmin    (** [verificarEtapaEmAndamento]: GET /api/user/is-admin *)
| TkEtapa.   (** [verificarEtapaEmAndamento]: GET /api/admin/etapa-hoje *)

(** A pending [setTimeout] callback, holding the element it closes over. *)
Inductive timeout :=
| TORemover (banner : nat)    (** [removerNotificacaoEventoAoVivo], 500 ms *)
| TOMinimizar (banner : nat)  (** [minimizarNotificacao], 300 ms *)
| TORestaurar (botao : nat).  (** [restaurarNotificacao], 300 ms *)

#[export] Instance intervalo_eq_dec : EqDecision intervalo.
Proof. solve_decision. Defined.
#[export] Instance tarefa_eq_dec : EqDecision tarefa.
Proof. solve_decision. Defined.
#[export] Instance timeout_eq_dec : EqDecision timeout.
Proof. solve_decision. Defined.

Record estado := mk_estado {
  nt_next : nat;                         (** the next timer handle, from 1 *)
  nt_intervalos : gmap nat intervalo;    (** the live intervals *)
  notificacaoIntervalId : option nat;
  etapaAtualEmAndamento : jv;
  nt_elem : nat;                         (** the next DOM element *)
  nt_banner : option (nat * jv);         (** [#banner-evento-ao-vivo] and its stage *)
  nt_botao : option nat;                 (** [#botao-flutuante-evento] *)
  nt_estilos : bool;                     (** [#estilos-notificacao] *)
  nt_timeouts : list timeout;
  nt_tarefas : list tarefa;
  nt_path : string;                      (** [window.location.pathname] *)
  nt_funcao : bool;                      (** [typeof mostrarEventoAoVivo === 'function'] *)
  nt_chamadas : list jv;                 (** the calls [mostrarEventoAoVivo(x)] *)
  nt_href : option string;               (** [window.location.href = ...] *)
  nt_fetches : list string               (** the URLs requested, in order *)
}.

(** ** Field updates *)
Definition set_timers (s : estado) (n : nat) (iv : gmap nat intervalo) (id : option nat) : estado :=
  mk_estado n iv id (etapaAtualEmAndamento s) (nt_elem s) (nt_banner s) (nt_botao s) (nt_estilos s)
    (nt_timeouts s) (nt_tarefas s) (nt_path s) (nt_funcao s) (nt_chamadas s) (nt_href s) (nt_fetches s).

Definition set_etapa (s : estado) (v : jv) : estado :=
  mk_estado (nt_next s) (nt_intervalos s) (notificacaoIntervalId s) v (nt_elem s) (nt_banner s)
    (nt_botao s) (nt_estilos s) (nt_timeouts s) (nt_tarefas s) (nt_path s) (nt_funcao s)
    (nt_chamadas s) (nt_href s) (nt_fetches s).

Definition set_dom (s : estado) (el : nat) (b : option (nat * jv)) (bt : option nat) (st : bool) : estado :=
  mk_estado (nt_next s) (nt_intervalos s) (notificacaoIntervalId s) (etapaAtualEmAndamento s)
    el b bt st (nt_timeouts s) (nt_tarefas s) (nt_path s) (nt_funcao s) (nt_chamadas s)
    (nt_href s) (nt_fetches s).

Definition set_timeouts (s : estado) (x : list timeout) : estado :=
  mk_estado (nt_next s) (nt_intervalos s) (notificacaoIntervalId s) (etapaAtualEmAndamento s)
    (nt_elem s) (nt_banner s) (nt_botao s) (nt_estilos s) x (nt_tarefas s) (nt_path s)
    (nt_funcao s) (nt_chamadas s) (nt_href s) (nt_fetches s).

Definition set_tarefas (s : estado) (x : list tarefa) (f : list string) : estado :=
  mk_estado (nt_next s) (nt_intervalos s) (notificacaoIntervalId s) (etapaAtualEmAndamento s)
    (nt_elem s) (nt_banner s) (nt_botao s) (nt_estilos s) (nt_timeouts s) x (nt_path s)
    (nt_funcao s) (nt_chamadas s) (nt_href s) f.

Definition set_saida (s : estado) (fn : bool) (cs : list jv) (h : option string) : estado :=
  mk_estado (nt_next s) (nt_intervalos s) (notificacaoIntervalId s) (etapaAtualEmAndamento s)
    (nt_elem s) (nt_banner s) (nt_botao s) (nt_estilos s) (nt_timeouts s) (nt_tarefas s)
    (nt_path s) fn cs h (nt_fetches s).

(** ** Browser primitives *)

Definition url_is_admin : string := "/api/user/is-admin".
Definition url_etapa_hoje : string := "/api/admin/etapa-hoje".

(** [await fetch(url)]: the request is logged and its continuation waits. *)
Definition fetch (url : string) (k : tarefa) (s : estado) : estado :=
  set_tarefas s (nt_tarefas s ++ [k]) (nt_fetches s ++ [url]).

Definition setInterval (k : intervalo) (s : estado) : nat * estado :=
  (nt_next s, set_timers s (S (nt_next s)) (<[nt_next s := k]> (nt_intervalos s)) (notificacaoIntervalId s)).

Definition clearInterval (h : nat) (s : estado) : estado :=
  set_timers s (nt_next s) (delete h (nt_intervalos s)) (notificacaoIntervalId s).

Definition setTimeout (t : timeout) (s : estado) : estado :=
  set_timeouts s (nt_timeouts s ++ [t]).

(** [elemento.remove()] on the banner the closure holds: a no-op once
    that element has left the document. *)
Definition remover_banner (el : nat) (s : estado) : estado :=
  match nt_banner s with
  | Some (el', _) => if bool_decide (el' = el) then set_dom s (nt_elem s) None (nt_botao s) (nt_estilos s) else s
  | None => s
  end.

Definition remover_botao (el : nat) (s : estado) : estado :=
  match nt_botao s with
  | Some el' => if bool_decide (el' = el) then set_dom s (nt_elem s) (nt_banner s) None (nt_estilos s) else s
  | None => s
  end.

(** [mostrarEventoAoVivo(x)] of [qualificacao.js]: the call is logged. *)
Definition chamar (x : jv) (s : estado) : estado :=
  set_saida s (nt_funcao s) (nt_chamadas s ++ [x]) (nt_href s).

(** ** The functions of the script *)

(** [verificarEtapaEmAndamento()] up to its first [await]. *)
Definition verificarEtapaEmAndamento (s : estado) : estado := fetch url_is_admin TkAdmin s.

(** [adicionarEstilosAnimacao()] (lines 316-385): the [<style>] is added once. *)
Definition adicionarEstilosAnimacao (s : estado) : estado :=
  set_dom s (nt_elem s) (nt_banner s) (nt_botao s) true.

(** [mostrarNotificacaoEventoAoVivo(etapa)] (lines 89-159): nothing when
    a banner is already in the document. *)
Definition mostrarNotificacaoEventoAoVivo (etapa : jv) (s : estado) : estado :=
  match nt_banner s with
  | Some _ => s
  | None => adicionarEstilosAnimacao (set_dom s (S (nt_elem s)) (Some (nt_elem s, etapa)) (nt_botao s) (nt_estilos s))
  end.

(** [removerNotificacaoEventoAoVivo()] (lines 164-173): the banner slides
    up and is removed 500 ms later, with the floating button; with no
    banner nothing is done. *)
Definition removerNotificacaoEventoAoVivo (s : estado) : estado :=
  match nt_banner s with
  | Some (el, _) => setTimeout (TORemover el) s
  | None => s
  end.

(** [minimizarNotificacao()] (lines 178-187). *)
Definition minimizarNotificacao (s : estado) : estado :=
  match nt_banner s with
  | Some (el, _) => setTimeout (TOMinimizar el) s
  | None => s
  end.

(** [mostrarBotaoFlutante()] (lines 192-245). *)
Definition mostrarBotaoFlutante (s : estado) : estado :=
  match nt_botao s with
  | Some _ => s
  | None => adicionarEstilosAnimacao (set_dom s (S (nt_elem s)) (nt_banner s) (Some (nt_elem s)) (nt_estilos s))
  end.

(** [removerBotaoFlutante()] (lines 250-255). *)
Definition removerBotaoFlutante (s : estado) : estado :=
  set_dom s (nt_elem s) (nt_banner s) None (nt_estilos s).

(** [restaurarNotificacao()] (lines 260-272). *)
Definition restaurarNotificacao (s : estado) : estado :=
  match nt_botao s with
  | Some b => setTimeout (TORestaurar b) s
  | None => s
  end.

(** [pathname === '/admin' || pathname.startsWith('/admin')]. *)
Definition pagina_admin (path : string) : bool := String.prefix "/admin" path.

(** [abrirEventoEmAnda()] (lines 277-311): with the live screen's script
    loaded the call is immediate; otherwise a 100 ms interval retries. *)
Definition abrirEventoEmAnda (s : estado) : estado :=
  if negb (truthy (etapaAtualEmAndamento s)) then s
  else if pagina_admin (nt_path s) then s
  else if nt_funcao s then chamar (etapaAtualEmAndamento s) s
  else (setInterval (ITentativas 0) s).2.

(** The retry's callback: [tentativas++], then the call once the function
    exists, or the redirect on the 50th try. Both read the global
    [etapaAtualEmAndamento] as it is when the callback runs. *)
Definition tentativa (h n : nat) (s : estado) : estado :=
  let n' := S n in
  if nt_funcao s then chamar (etapaAtualEmAndamento s) (clearInterval h s)
  else if bool_decide (50 <= n') then
    let s := clearInterval h s in
    set_saida s (nt_funcao s) (nt_chamadas s) (Some ("/admin?etapa=" +:+ js_String (etapaAtualEmAndamento s)))
  else set_timers s (nt_next s) (<[h := ITentativas n']> (nt_intervalos s)) (notificacaoIntervalId s).

(** [iniciarSistemaNotificacao()] (lines 14-24). *)
Definition iniciarSistemaNotificacao (s : estado) : estado :=
  let s := verificarEtapaEmAndamento s in
  let '(h, s) := setInterval IVerificar s in
  set_timers s (nt_next s) (nt_intervalos s) (Some h).

(** [pararSistemaNotificacao()] (lines 421-429). *)
Definition pararSistemaNotificacao (s : estado) : estado :=
  let s := match notificacaoIntervalId s with
           | Some h => let s := clearInterval h s in set_timers s (nt_next s) (nt_intervalos s) None
           | None => s
           end in
  set_etapa (removerBotaoFlutante (removerNotificacaoEventoAoVivo s)) JNull.

(** [etapaAtualEmAndamento = null; removerNotificacaoEventoAoVivo()] when
    a stage was being shown. *)
Definition fim_etapa (s : estado) : estado :=
  if truthy (etapaAtualEmAndamento s) then removerNotificacaoEventoAoVivo (set_etapa s JNull) else s.

(** The first [await] of [verificarEtapaEmAndamento] answered (lines
    31-46): [isAdmin] keeps [false] when the request fails, the answer is
    not OK, its body is not JSON or is [null] (the inner [catch]). *)
Definition on_admin (r : fetch_result) (s : estado) : estado :=
  let isAdmin := match r with
                 | FResp true (Some d) => default (JBool false) (jget d "is_admin")
                 | _ => JBool false
                 end in
  if truthy isAdmin then s else fetch url_etapa_hoje TkEtapa s.

(** The second [await] answered (lines 48-80): a failed request, a body
    that is not JSON or is [null] end in the outer [catch]; a stage whose
    id is not the one shown replaces it. *)
Definition on_etapa (r : fetch_result) (s : estado) : estado :=
  match r with
  | FResp true (Some data) =>
      match jget data "sucesso" with
      | None => s
      | Some sucesso =>
          let etapa := jget_opt data "etapa" in
          if truthy sucesso && truthy etapa then
            if js_eq_str (jget_opt etapa "status") "em_andamento" then
              let id := jget_opt etapa "id" in
              if negb (truthy (etapaAtualEmAndamento s)) || negb (js_strict_eq (etapaAtualEmAndamento s) id)
              then mostrarNotificacaoEventoAoVivo etapa (set_etapa s id)
              else s
            else fim_etapa s
          else fim_etapa s
      end
  | _ => s
  end.

(** [verificarEIniciarNotificacao()] answered (lines 432-452): an error
    starts the system "por segurança". *)
Definition on_iniciar (r : fetch_result) (s : estado) : estado :=
  match r with
  | FResp true (Some d) =>
      match jget d "is_admin" with
      | Some v => if truthy v then s else iniciarSistemaNotificacao s
      | None => iniciarSistemaNotificacao s
      end
  | _ => iniciarSistemaNotificacao s
  end.

(** The page as the script leaves it when it has run: the admin check of
    [verificarEIniciarNotificacao] is waiting. *)
Definition inicial (path : string) (funcao : bool) : estado :=
  fetch url_is_admin TkIniciar (mk_estado 1 ∅ None JNull 0 None None false [] [] path funcao [] None []).

(** ** Events *)
Inductive evento :=
| EvResposta (i : nat) (r : fetch_result)  (** the [i]-th pending request is answered *)
| EvIntervalo (h : nat)                    (** interval [h] fires *)
| EvTimeout (i : nat)                      (** the [i]-th pending timeout fires *)
| EvEntrar                                 (** the banner's ENTRAR button *)
| EvMinimizar                              (** the banner's minimise button *)
| EvBotao                                  (** the floating button *)
| EvFuncao                                 (** [qualificacao.js] defines [mostrarEventoAoVivo] *)
| EvUnload.                                (** [window] unload *)

Definition responder (i : nat) (r : fetch_result) (s : estado) : estado :=
  match nt_tarefas s !! i with
  | None => s
  | Some k =>
      let s := set_tarefas s (delete i (nt_tarefas s)) (nt_fetches s) in
      match k with
      | TkIniciar => on_iniciar r s
      | TkAdmin => on_admin r s
      | TkEtapa => on_etapa r s
      end
  end.

Definition disparar_intervalo (h : nat) (s : estado) : estado :=
  match nt_intervalos s !! h with
  | Some IVerificar => verificarEtapaEmAndamento s
  | Some (ITentativas n) => tentativa h n s
  | None => s
  end.

(** The three [setTimeout] callbacks. *)
Definition disparar_timeout (i : nat) (s : estado) : estado :=
  match nt_timeouts s !! i with
  | None => s
  | Some t =>
      let s := set_timeouts s (delete i (nt_timeouts s)) in
      match t with
      | TORemover el => removerBotaoFlutante (remover_banner el s)
      | TOMinimizar el => mostrarBotaoFlutante (remover_banner el s)
      | TORestaurar b =>
          let s := remover_botao b s in
          if truthy (etapaAtualEmAndamento s) then verificarEtapaEmAndamento s else s
      end
  end.

(** The buttons exist only while their element is in the document; the
    floating button runs [restaurarNotificacao(); abrirEventoEmAnda();]. *)
Definition step (s : estado) (e : evento) : estado :=
  match e with
  | EvResposta i r => responder i r s
  | EvIntervalo h => disparar_intervalo h s
  | EvTimeout i => disparar_timeout i s
  | EvEntrar => if bool_decide (is_Some (nt_banner s)) then abrirEventoEmAnda s else s
  | EvMinimizar => if bool_decide (is_Some (nt_banner s)) then minimizarNotificacao s else s
  | EvBotao => if bool_decide (is_Some (nt_botao s)) then abrirEventoEmAnda (restaurarNotificacao s) else s
  | EvFuncao => set_saida s true (nt_chamadas s) (nt_href s)
  | EvUnload => pararSistemaNotificacao s
  end.

Definition run (s : estado) (evs : list evento) : estado := foldl step s evs.


(** ** The timer invariant *)

(** The pending admin checks of [verificarEIniciarNotificacao]. *)
Definition iniciais (l : list tarefa) : nat :=
  length (List.filter (fun k => bool_decide (k = TkIniciar)) l).

(** Every live interval has a handle below the next one; a 3-second check
    is live exactly under [notificacaoIntervalId]; none is live while the
    first admin check is pending, of which there is at most one; and a
    retry interval has made fewer than 50 tries. *)
Definition inv (s : estado) : Prop :=
  (forall h k, nt_intervalos s !! h = Some k -> h < nt_next s) /\
  (forall h, nt_intervalos s !! h = Some IVerificar <-> notificacaoIntervalId s = Some h) /\
  (0 < iniciais (nt_tarefas s) -> notificacaoIntervalId s = None) /\
  iniciais (nt_tarefas s) <= 1 /\
  (forall h n, nt_intervalos s !! h = Some (ITentativas n) -> n < 50).

(** What [inv] reads of a state. *)
Definition marcas (s : estado) : nat * gmap nat intervalo * option nat * nat :=
  (nt_next s, nt_intervalos s, notificacaoIntervalId s, iniciais (nt_tarefas s)).

Lemma inv_marcas s s' : marcas s' = marcas s -> inv s -> inv s'.
Proof.
  destruct s, s'. unfold marcas, inv; cbn. intros [= -> -> -> ->]. done.
Qed.

Lemma iniciais_app l l' : iniciais (l ++ l') = iniciais l + iniciais l'.
Proof. unfold iniciais. by rewrite List.filter_app, length_app. Qed.

Lemma iniciais_delete l i k :
  l !! i = Some k -> iniciais (delete i l) + (if bool_decide (k = TkIniciar) then 1 else 0) = iniciais l.
Proof.
  revert i. induction l as [|x l IH]; intros [|i] Hi; simplify_eq/=.
  - unfold iniciais. cbn. destruct (bool_decide (k = TkIniciar)); cbn; lia.
  - unfold iniciais in *. cbn. specialize (IH i Hi). destruct (bool_decide (x = TkIniciar)); cbn; lia.
Qed.

Lemma marcas_fetch u k s : k <> TkIniciar -> marcas (fetch u k s) = marcas s.
Proof.
  intros Hk. unfold marcas, fetch.
  cbn [set_tarefas nt_tarefas nt_next nt_intervalos notificacaoIntervalId].
  rewrite iniciais_app. unfold iniciais at 2. cbn. rewrite bool_decide_false by done. cbn. by rewrite Nat.add_0_r.
Qed.

(** The handlers that leave the timers and the first admin check alone. *)
Ltac marcas_tac :=
  repeat match goal with
         | |- context [marcas (fetch _ _ _)] => rewrite marcas_fetch by done
         | |- _ => progress case_match
         | |- _ => reflexivity
         end.

Lemma marcas_set_etapa s v : marcas (set_etapa s v) = marcas s.
Proof. done. Qed.

Lemma marcas_removerBotao s : marcas (removerBotaoFlutante s) = marcas s.
Proof. done. Qed.

Lemma marcas_mostrar e s : marcas (mostrarNotificacaoEventoAoVivo e s) = marcas s.
Proof. unfold mostrarNotificacaoEventoAoVivo. by case_match. Qed.

Lemma marcas_remover s : marcas (removerNotificacaoEventoAoVivo s) = marcas s.
Proof. unfold removerNotificacaoEventoAoVivo. by repeat case_match. Qed.

Lemma marcas_fim s : marcas (fim_etapa s) = marcas s.
Proof. unfold fim_etapa. case_match; [|done]. by rewrite marcas_remover. Qed.

Lemma marcas_on_admin r s : marcas (on_admin r s) = marcas s.
Proof. unfold on_admin. case_match; [done|]. by rewrite marcas_fetch. Qed.

Lemma marcas_on_etapa r s : marcas (on_etapa r s) = marcas s.
Proof.
  unfold on_etapa. repeat case_match; rewrite ?marcas_mostrar, ?marcas_fim; done.
Qed.

Lemma marcas_verificar s : marcas (verificarEtapaEmAndamento s) = marcas s.
Proof. by apply marcas_fetch. Qed.

#[local] Hint Resolve inv_marcas : core.

(** A fresh interval of the retry kind keeps the invariant. *)
Lemma setInterval_tentativas_inv s : inv s -> inv (setInterval (ITentativas 0) s).2.
Proof.
  intros (Hlt & Hv & Hi & H1 & Ht). unfold setInterval, set_timers; cbn. split_and!; cbn.
  - intros h k. rewrite lookup_insert_Some. intros [[<- _]|[_ Hh]]; [lia|]. specialize (Hlt _ _ Hh). lia.
  - intros h. rewrite lookup_insert_Some, <-Hv. split; [intros [[_ ?]|[_ ?]]; done|].
    intros Hh. right. split; [|done]. intros <-. specialize (Hlt _ _ Hh). lia.
  - done.
  - done.
  - intros h n. rewrite lookup_insert_Some. intros [[_ [= <-]]|[_ Hh]]; [lia|]. eauto.
Qed.

(** Clearing or bumping a retry interval keeps the invariant. *)
Lemma clear_tentativas_inv h n s :
  nt_intervalos s !! h = Some (ITentativas n) -> inv s -> inv (clearInterval h s).
Proof.
  intros Hh (Hlt & Hv & Hi & H1 & Ht). unfold clearInterval, set_timers; cbn. split_and!; cbn.
  - intros h' k. rewrite lookup_delete_Some. intros [_ ?]. eauto.
  - intros h'. rewrite lookup_delete_Some, <-Hv. split; [by intros [_ ?]|].
    intros Hv'. split; [|done]. intros <-. congruence.
  - done.
  - done.
  - intros h' m. rewrite lookup_delete_Some. intros [_ ?]. eauto.
Qed.

Lemma bump_tentativas_inv h n m s :
  nt_intervalos s !! h = Some (ITentativas n) -> m < 50 -> inv s ->
  inv (set_timers s (nt_next s) (<[h := ITentativas m]> (nt_intervalos s)) (notificacaoIntervalId s)).
Proof.
  intros Hh Hm (Hlt & Hv & Hi & H1 & Ht). unfold set_timers; cbn. split_and!; cbn.
  - intros h' k. rewrite lookup_insert_Some. intros [[<- _]|[_ ?]]; eauto.
  - intros h'. rewrite lookup_insert_Some, <-Hv. split; [intros [[_ ?]|[_ ?]]; done|].
    intros Hv'. right. split; [|done]. intros <-. congruence.
  - done.
  - done.
  - intros h' k. rewrite lookup_insert_Some. intros [[_ [= <-]]|[_ ?]]; eauto.
Qed.

Lemma abrir_inv s : inv s -> inv (abrirEventoEmAnda s).
Proof.
  intros Hs. unfold abrirEventoEmAnda. repeat case_match; eauto using setInterval_tentativas_inv.
Qed.

Lemma tentativa_inv h n s : nt_intervalos s !! h = Some (ITentativas n) -> inv s -> inv (tentativa h n s).
Proof.
  intros Hh Hs. unfold tentativa. case_match.
  - eapply inv_marcas; [|eapply clear_tentativas_inv; eauto]. done.
  - case_bool_decide.
    + eapply inv_marcas; [|eapply clear_tentativas_inv; eauto]. done.
    + eapply bump_tentativas_inv; eauto. lia.
Qed.

(** [iniciarSistemaNotificacao] once the first admin check is answered. *)
Lemma nt_iniciar_inv s :
  iniciais (nt_tarefas s) = 0 -> notificacaoIntervalId s = None -> inv s -> inv (iniciarSistemaNotificacao s).
Proof.
  intros H0 Hid Hs. unfold iniciarSistemaNotificacao.
  assert (Hv0 : inv (verificarEtapaEmAndamento s)) by (eapply inv_marcas; [apply marcas_verificar|done]).
  pose proof (marcas_verificar s) as E. unfold marcas in E.
  assert (Hn : iniciais (nt_tarefas (verificarEtapaEmAndamento s)) = 0) by congruence.
  assert (Hnone : notificacaoIntervalId (verificarEtapaEmAndamento s) = None) by congruence.
  set (s1 := verificarEtapaEmAndamento s) in *. clearbody s1.
  destruct Hv0 as (Hlt & Hv & Hi & H1 & Ht).
  unfold inv, setInterval, set_timers. cbn [nt_next nt_intervalos notificacaoIntervalId nt_tarefas fst snd].
  split_and!.
  - intros h k. rewrite lookup_insert_Some. intros [[<- _]|[_ Hh]]; [lia|]. specialize (Hlt _ _ Hh). lia.
  - intros h. rewrite lookup_insert_Some. split.
    + intros [[<- _]|[_ Hh]]; [done|]. apply Hv in Hh. congruence.
    + intros [= <-]. left. done.
  - rewrite Hn. lia.
  - lia.
  - intros h n. rewrite lookup_insert_Some. intros [[_ [=]]|[_ ?]]; eauto.
Qed.

(** [pararSistemaNotificacao] clears the 3-second check it names. *)
Lemma nt_parar_inv s : inv s -> inv (pararSistemaNotificacao s).
Proof.
  intros Hs. unfold pararSistemaNotificacao.
  eapply inv_marcas; [rewrite marcas_set_etapa, marcas_removerBotao, marcas_remover; reflexivity|].
  destruct (notificacaoIntervalId s) as [h|] eqn:Eh; [|done].
  destruct Hs as (Hlt & Hv & Hi & H1 & Ht).
  unfold inv, clearInterval, set_timers. cbn [nt_next nt_intervalos notificacaoIntervalId nt_tarefas].
  split_and!.
  - intros h' k. rewrite lookup_delete_Some. intros [_ ?]. eauto.
  - intros h'. rewrite lookup_delete_Some. split; [|done].
    intros [Hne Hh']. apply Hv in Hh'. congruence.
  - done.
  - done.
  - intros h' n. rewrite lookup_delete_Some. intros [_ ?]. eauto.
Qed.

Lemma parar_id s : notificacaoIntervalId (pararSistemaNotificacao s) = None.
Proof. unfold pararSistemaNotificacao, removerNotificacaoEventoAoVivo. by repeat case_match. Qed.

Lemma marcas_timeout i s : marcas (disparar_timeout i s) = marcas s.
Proof.
  unfold disparar_timeout. destruct (nt_timeouts s !! i) as [t|]; [|done].
  destruct t as [el|el|b]; cbn zeta.
  - unfold removerBotaoFlutante, remover_banner. by repeat case_match.
  - unfold mostrarBotaoFlutante, remover_banner. by repeat case_match.
  - case_match; rewrite ?marcas_verificar; unfold remover_botao; by repeat case_match.
Qed.

Lemma responder_inv i r s : inv s -> inv (responder i r s).
Proof.
  intros Hs. unfold responder. destruct (nt_tarefas s !! i) as [k|] eqn:Ek; [|done].
  pose proof (iniciais_delete _ _ _ Ek) as Hd.
  set (s1 := set_tarefas s (delete i (nt_tarefas s)) (nt_fetches s)).
  destruct Hs as (Hlt & Hv & Hi & H1 & Ht).
  assert (Hs1 : inv s1).
  { unfold inv, s1, set_tarefas. cbn [nt_next nt_intervalos notificacaoIntervalId nt_tarefas].
    split_and!; [done|done| |lia|done]. intros Hp. apply Hi. lia. }
  destruct k.
  - rewrite bool_decide_true in Hd by done.
    assert (H0 : iniciais (nt_tarefas s1) = 0) by (unfold s1, set_tarefas; cbn [nt_tarefas]; lia).
    assert (Hn : notificacaoIntervalId s1 = None) by (apply Hi; lia).
    unfold on_iniciar. repeat case_match; auto using nt_iniciar_inv.
  - eapply inv_marcas; [apply marcas_on_admin|exact Hs1].
  - eapply inv_marcas; [apply marcas_on_etapa|exact Hs1].
Qed.

Lemma nt_step_inv s e : inv s -> inv (step s e).
Proof.
  intros Hs. destruct e; cbn [step].
  - by apply responder_inv.
  - unfold disparar_intervalo. destruct (nt_intervalos s !! h) as [[|n]|] eqn:Eh; [| |done].
    + eapply inv_marcas; [apply marcas_verificar|done].
    + by apply tentativa_inv.
  - eapply inv_marcas; [apply marcas_timeout|done].
  - case_match; [by apply abrir_inv|done].
  - case_match; [|done]. eapply inv_marcas; [|exact Hs]. unfold minimizarNotificacao. by repeat case_match.
  - case_match; [|done]. apply abrir_inv. eapply inv_marcas; [|exact Hs].
    unfold restaurarNotificacao. by repeat case_match.
  - done.
  - by apply nt_parar_inv.
Qed.

Lemma nt_inv_inicial path funcao : inv (inicial path funcao).
Proof.
  unfold inv, inicial, fetch, set_tarefas. cbn [nt_next nt_intervalos notificacaoIntervalId nt_tarefas].
  split_and!.
  - intros h k. by rewrite lookup_empty.
  - intros h. by rewrite lookup_empty.
  - done.
  - unfold iniciais. cbn. rewrite bool_decide_true by done. cbn. lia.
  - intros h n. by rewrite lookup_empty.
Qed.

Lemma nt_run_inv s evs : inv s -> inv (run s evs).
Proof. revert s. induction evs as [|e evs IH]; intros s Hs; [done|]. apply IH, nt_step_inv, Hs. Qed.

(** C11: in every state the page reaches, whatever the answers, clicks,
    timers and their order, at most one 3-second check interval is live,
    and every retry interval of [abrirEventoEmAnda] has made fewer than 50
    tries. *)
Theorem um_intervalo_de_verificacao path funcao evs :
  let s := run (inicial path funcao) evs in
  (forall h h', nt_intervalos s !! h = Some IVerificar -> nt_intervalos s !! h' = Some IVerificar -> h = h') /\
  (forall h n, nt_intervalos s !! h = Some (ITentativas n) -> n < 50).
Proof.
  intros s. destruct (nt_run_inv _ evs (nt_inv_inicial path funcao)) as (_ & Hv & _ & _ & Ht).
  split; [|exact Ht]. intros h h' A B. apply Hv in A, B. congruence.
Qed.

(** leaving the page stops the 3-second check for good: after
    [pararSistemaNotificacao] no check interval is live. *)
Theorem unload_para_verificacao path funcao evs h :
  nt_intervalos (run (inicial path funcao) (evs ++ [EvUnload])) !! h <> Some IVerificar.
Proof.
  unfold run. rewrite foldl_app. cbn [foldl step]. fold (run (inicial path funcao) evs).
  pose proof (nt_parar_inv _ (nt_run_inv _ evs (nt_inv_inicial path funcao))) as (_ & Hv & _).
  rewrite Hv, parar_id. discriminate.
Qed.

(** ** The retry of [abrirEventoEmAnda] ends *)

Lemma set_timers_id s : set_timers s (nt_next s) (nt_intervalos s) (notificacaoIntervalId s) = s.
Proof. by destruct s. Qed.

Lemma disparar_tentativa h n s :
  nt_intervalos s !! h = Some (ITentativas n) -> disparar_intervalo h s = tentativa h n s.
Proof. unfold disparar_intervalo. by intros ->. Qed.

(** While [mostrarEventoAoVivo] is missing, [k] firings of a retry that
    has made [n] tries only count them. *)
Lemma iter_tentativas h n k s :
  nt_funcao s = false -> nt_intervalos s !! h = Some (ITentativas n) -> n + k < 50 ->
  Nat.iter k (disparar_intervalo h) s =
    set_timers s (nt_next s) (<[h := ITentativas (n + k)]> (nt_intervalos s)) (notificacaoIntervalId s).
Proof.
  intros Hf Hh. induction k as [|k IH]; intros Hk.
  - by rewrite Nat.add_0_r, insert_id, set_timers_id.
  - rewrite iter_succ_l, IH by lia.
    rewrite (disparar_tentativa h (n + k)) by exact (lookup_insert_eq _ _ _).
    unfold tentativa. change (nt_funcao (set_timers s ?a ?b ?c)) with (nt_funcao s).
    rewrite Hf, bool_decide_false by lia.
    unfold set_timers at 1. cbn [nt_next nt_intervalos notificacaoIntervalId set_timers].
    by rewrite insert_insert_eq, Nat.add_succ_r.
Qed.

(** Without [mostrarEventoAoVivo], the [50 - n] remaining firings of a
    retry end it with the redirect, which reads the stage as it is then. *)
Lemma tentativas_esgotadas h n s :
  nt_intervalos s !! h = Some (ITentativas n) -> n < 50 -> nt_funcao s = false ->
  let s' := Nat.iter (50 - n) (disparar_intervalo h) s in
  nt_intervalos s' !! h = None /\ nt_chamadas s' = nt_chamadas s /\
  nt_href s' = Some ("/admin?etapa=" +:+ js_String (etapaAtualEmAndamento s)).
Proof.
  intros Hh Hn Hf s'. subst s'. replace (50 - n) with (S (49 - n)) by lia.
  rewrite iter_succ_l, (iter_tentativas h n (49 - n) s Hf Hh) by lia.
  rewrite (disparar_tentativa h (n + (49 - n))) by exact (lookup_insert_eq _ _ _).
  unfold tentativa. change (nt_funcao (set_timers s ?a ?b ?c)) with (nt_funcao s).
  rewrite Hf, bool_decide_true by lia.
  unfold set_saida, clearInterval, set_timers. cbn [nt_intervalos nt_chamadas nt_href etapaAtualEmAndamento].
  by rewrite lookup_delete_eq.
Qed.

(** C12: a retry interval of [abrirEventoEmAnda] that has made [n < 50]
    tries is gone after [50 - n] more firings, having done exactly one
    thing: called [mostrarEventoAoVivo] with the current stage if the
    function exists, or else sent the browser to
    [/admin?etapa=<stage>]. *)
Theorem tentativas_terminam h n s :
  nt_intervalos s !! h = Some (ITentativas n) -> n < 50 ->
  let s' := Nat.iter (50 - n) (disparar_intervalo h) s in
  nt_intervalos s' !! h = None /\
  (if nt_funcao s
   then nt_chamadas s' = nt_chamadas s ++ [etapaAtualEmAndamento s] /\ nt_href s' = nt_href s
   else nt_chamadas s' = nt_chamadas s /\
        nt_href s' = Some ("/admin?etapa=" +:+ js_String (etapaAtualEmAndamento s))).
Proof.
  intros Hh Hn s'. subst s'. destruct (nt_funcao s) eqn:Hf.
  - replace (50 - n) with (S (49 - n)) by lia. rewrite iter_succ_r.
    assert (Hd : disparar_intervalo h s = chamar (etapaAtualEmAndamento s) (clearInterval h s)).
    { unfold disparar_intervalo, tentativa. by rewrite Hh, Hf. }
    rewrite Hd, iter_fixo.
    + cbn. by rewrite lookup_delete_eq.
    + unfold disparar_intervalo at 1. cbn. by rewrite lookup_delete_eq.
  - exact (tentativas_esgotadas h n s Hh Hn Hf).
Qed.

(** An answer that ends the stage recorded as running sets it to
    [null], and keeps the intervals and the live screen's function. *)
Lemma responder_fim_etapa i s data suc :
  nt_tarefas s !! i = Some TkEtapa -> truthy (etapaAtualEmAndamento s) = true ->
  jget data "sucesso" = Some suc ->
  js_eq_str (jget_opt (jget_opt data "etapa") "status") "em_andamento" = false ->
  let s1 := responder i (FResp true (Some data)) s in
  nt_intervalos s1 = nt_intervalos s /\ nt_funcao s1 = nt_funcao s /\ etapaAtualEmAndamento s1 = JNull.
Proof.
  intros Ht He Hs Hst s1. subst s1. unfold responder. rewrite Ht. cbn [on_etapa]. rewrite Hs.
  assert (Hfim : forall s', nt_intervalos s' = nt_intervalos s -> nt_funcao s' = nt_funcao s ->
            truthy (etapaAtualEmAndamento s') = true ->
            nt_intervalos (fim_etapa s') = nt_intervalos s /\ nt_funcao (fim_etapa s') = nt_funcao s /\
            etapaAtualEmAndamento (fim_etapa s') = JNull).
  { intros s' Hi Hf He'. unfold fim_etapa. rewrite He'. unfold removerNotificacaoEventoAoVivo.
    cbn [nt_banner set_etapa]. by destruct (nt_banner s') as [[]|]. }
  destruct (truthy suc && truthy _); [rewrite Hst|]; by apply Hfim.
Qed.

(** ** What a check does to the banner and the floating button *)

(** an answer never touches the floating button nor schedules a
    timeout while no banner is in the document: when the stage ends
    after the banner was minimised, [removerNotificacaoEventoAoVivo]
    finds no banner and the button, which only the banner's removal
    timeout takes away, stays on the page. *)
Theorem resposta_sem_banner_mantem_botao i r s :
  nt_banner s = None ->
  nt_botao (responder i r s) = nt_botao s /\ nt_timeouts (responder i r s) = nt_timeouts s.
Proof.
  intros Hb. unfold responder. destruct (nt_tarefas s !! i) as [[]|]; [| | |done].
  - unfold on_iniciar. by repeat case_match.
  - unfold on_admin. by repeat case_match.
  - unfold on_etapa, fim_etapa, removerNotificacaoEventoAoVivo, mostrarNotificacaoEventoAoVivo.
    cbn [set_etapa set_tarefas nt_banner]. rewrite Hb. by repeat case_match.
Qed.

(** C15: once a stage is recorded as running, an answer that reports the
    same stage still running does nothing but consume the request: the
    banner is not shown again, so after [restaurarNotificacao] has
    removed the floating button the user has neither until the stage
    changes. *)
Theorem mesma_etapa_sem_efeito i s data e :
  nt_tarefas s !! i = Some TkEtapa ->
  jget data "sucesso" = Some (JBool true) -> jget_opt data "etapa" = e -> truthy e = true ->
  js_eq_str (jget_opt e "status") "em_andamento" = true ->
  truthy (etapaAtualEmAndamento s) = true ->
  js_strict_eq (etapaAtualEmAndamento s) (jget_opt e "id") = true ->
  responder i (FResp true (Some data)) s = set_tarefas s (delete i (nt_tarefas s)) (nt_fetches s).
Proof.
  intros Hk Hs He Ht Hst Ha Heq. unfold responder. rewrite Hk. unfold on_etapa. rewrite Hs, He.
  cbn [truthy andb]. rewrite Ht, Hst. cbn [set_tarefas etapaAtualEmAndamento]. by rewrite Ha, Heq.
Qed.

(** ** An admin never sees the banner *)

Definition resposta_admin (r : fetch_result) : bool :=
  match r with
  | FResp true (Some d) => match jget d "is_admin" with Some v => truthy v | None => false end
  | _ => false
  end.

Definition evento_admin (e : evento) : bool :=
  match e with EvResposta _ r => resposta_admin r | _ => true end.

(** The page of a user the server calls an admin. *)
Definition quieto (s : estado) : Prop :=
  nt_banner s = None /\ nt_botao s = None /\ nt_intervalos s = ∅ /\ notificacaoIntervalId s = None /\
  nt_timeouts s = [] /\ Forall (eq TkIniciar) (nt_tarefas s) /\ Forall (eq url_is_admin) (nt_fetches s) /\
  etapaAtualEmAndamento s = JNull.

Lemma quieto_step s e : evento_admin e = true -> quieto s -> quieto (step s e).
Proof.
  intros He (Hb & Hbt & Hiv & Hid & Hto & Htk & Hf & Het).
  destruct e; cbn [step evento_admin] in *.
  - unfold responder. destruct (nt_tarefas s !! i) as [k|] eqn:Ek; [|done].
    assert (k = TkIniciar) as -> by (symmetry; eapply Forall_lookup_1; eauto).
    unfold on_iniciar, resposta_admin in *. destruct r as [|[] [d|]]; try done.
    destruct (jget d "is_admin") as [v|]; [|done]. rewrite He.
    unfold quieto; cbn. split_and!; try done. by apply Forall_delete.
  - unfold disparar_intervalo. by rewrite Hiv, lookup_empty.
  - unfold disparar_timeout. by rewrite Hto.
  - by rewrite Hb.
  - by rewrite Hb.
  - by rewrite Hbt.
  - done.
  - unfold pararSistemaNotificacao, removerNotificacaoEventoAoVivo. rewrite Hid, Hb. done.
Qed.

(** C13: when every answer to the admin check says the user is an admin,
    whatever else happens the banner and the floating button never
    appear, no interval is started and the stage is never asked for:
    every request the page sends is the admin check. *)
Theorem admin_nunca_notificado path funcao evs :
  forallb evento_admin evs = true ->
  let s := run (inicial path funcao) evs in
  nt_banner s = None /\ nt_botao s = None /\ nt_intervalos s = ∅ /\ Forall (eq url_is_admin) (nt_fetches s).
Proof.
  intros Hevs s. assert (Hq : quieto s).
  { subst s. assert (H0 : quieto (inicial path funcao)) by (repeat split; repeat constructor).
    revert H0 Hevs. generalize (inicial path funcao). induction evs as [|e evs IH]; intros x Hx He; [done|].
    apply andb_prop in He as [He1 He2]. apply IH; [|done]. by apply quieto_step. }
  destruct Hq as (? & ? & ? & _ & _ & _ & ? & _). done.
Qed.

(** ** Concrete runs

    A user who is not an admin opens a page of the league. Requests are
    answered in the order they were sent (index 0 of the pending list). *)
Definition nao_admin : fetch_result := FResp true (Some (obj [("is_admin", JBool false)])).
Definition eh_admin : fetch_result := FResp true (Some (obj [("is_admin", JBool true)])).

Definition etapa (id : Q) (status : string) : jv :=
  obj [("id", JNum id); ("nome", JStr "Etapa"); ("campeonato_nome", JStr "Copa"); ("status", JStr status)].

Definition resp_etapa (e : jv) : fetch_result :=
  FResp true (Some (obj [("sucesso", JBool true); ("etapa", e)])).

(** The system starts (interval 1) and its first check finds stage 7
    running: the banner is element 0. *)
Definition inicio : list evento :=
  [EvResposta 0 nao_admin; EvResposta 0 nao_admin; EvResposta 0 (resp_etapa (etapa 7 "em_andamento"))].

(** One firing of the 3-second check, answered. *)
Definition ciclo (r : fetch_result) : list evento :=
  [EvIntervalo 1; EvResposta 0 nao_admin; EvResposta 0 r].

Lemma mesma_etapa_sem_efeito_witness :
  let s := run (inicial "/" true) (inicio ++ [EvIntervalo 1; EvResposta 0 nao_admin]) in
  nt_tarefas s !! 0 = Some TkEtapa /\
  responder 0 (resp_etapa (etapa 7 "em_andamento")) s = set_tarefas s (delete 0 (nt_tarefas s)) (nt_fetches s).
Proof.
  intros s. split; [vm_compute; reflexivity|].
  apply (mesma_etapa_sem_efeito 0 s (obj [("sucesso", JBool true); ("etapa", etapa 7 "em_andamento")])
           (etapa 7 "em_andamento")); vm_compute; reflexivity.
Defined.

Lemma resposta_sem_banner_mantem_botao_witness :
  let s := run (inicial "/" false) (inicio ++ [EvMinimizar; EvTimeout 0; EvIntervalo 1; EvResposta 0 nao_admin]) in
  nt_banner s = None /\ nt_botao (responder 0 (resp_etapa (etapa 7 "finalizada")) s) = nt_botao s.
Proof.
  intros s. assert (Hb : nt_banner s = None) by (vm_compute; reflexivity).
  split; [exact Hb|]. exact (proj1 (resposta_sem_banner_mantem_botao 0 _ s Hb)).
Defined.

(** A state with a retry interval (handle 2) that has not tried yet. *)
Definition com_tentativa : estado := run (inicial "/" false) (inicio ++ [EvEntrar]).

Lemma tentativas_terminam_witness :
  nt_intervalos com_tentativa !! 2 = Some (ITentativas 0) /\ 0 < 50 /\
  nt_intervalos (Nat.iter 50 (disparar_intervalo 2) com_tentativa) !! 2 = None.
Proof.
  assert (Hh : nt_intervalos com_tentativa !! 2 = Some (ITentativas 0)) by (vm_compute; reflexivity).
  split_and!; [exact Hh|lia|]. exact (proj1 (tentativas_terminam 2 0 com_tentativa Hh ltac:(lia))).
Defined.

Lemma admin_nunca_notificado_witness :
  forallb evento_admin [EvResposta 0 eh_admin; EvIntervalo 1; EvBotao; EvUnload] = true /\
  nt_banner (run (inicial "/" true) [EvResposta 0 eh_admin; EvIntervalo 1; EvBotao; EvUnload]) = None.
Proof.
  split; [reflexivity|].
  exact (proj1 (admin_nunca_notificado "/" true [EvResposta 0 eh_admin; EvIntervalo 1; EvBotao; EvUnload] eq_refl)).
Defined.

(** the stage ends while the banner is minimised: the stage is
    cleared, but the floating button stays on the page with nothing
    pending that would remove it. *)
Example botao_sobrevive_ao_fim :
  let s := run (inicial "/" false) (inicio ++ [EvMinimizar; EvTimeout 0] ++ ciclo (resp_etapa (etapa 7 "finalizada"))) in
  etapaAtualEmAndamento s = JNull /\ nt_banner s = None /\ nt_botao s = Some 1 /\ nt_timeouts s = [].
Proof. vm_compute. repeat split. Qed.

(** restoring the minimised banner loses it: the floating button is
    removed and the check it triggers sees the same stage, so the page
    shows neither the banner nor the button while stage 7 is running. *)
Example restaurar_perde_banner :
  let s := run (inicial "/" true)
             (inicio ++ [EvMinimizar; EvTimeout 0; EvBotao; EvTimeout 0; EvResposta 0 nao_admin;
                         EvResposta 0 (resp_etapa (etapa 7 "em_andamento"))]) in
  etapaAtualEmAndamento s = JNum 7 /\ nt_banner s = None /\ nt_botao s = None /\ nt_tarefas s = [].
Proof. vm_compute. repeat split. Qed.

(** C16: the retry of [abrirEventoEmAnda] reads the stage only when it
    gives up: if an answer ends the stage while the live screen is
    still missing, the user is sent to [/admin?etapa=null] after the
    remaining tries, although the retry was started for a running
    stage. *)
Theorem redireciona_etapa_null h n i s data suc :
  nt_intervalos s !! h = Some (ITentativas n) -> n < 50 -> nt_funcao s = false ->
  truthy (etapaAtualEmAndamento s) = true ->
  nt_tarefas s !! i = Some TkEtapa -> jget data "sucesso" = Some suc ->
  js_eq_str (jget_opt (jget_opt data "etapa") "status") "em_andamento" = false ->
  nt_href (Nat.iter (50 - n) (disparar_intervalo h) (responder i (FResp true (Some data)) s)) =
    Some "/admin?etapa=null".
Proof.
  intros Hh Hn Hf He Ht Hs Hst.
  destruct (responder_fim_etapa i s data suc Ht He Hs Hst) as (Hi & Hf' & He').
  rewrite <-Hi in Hh. rewrite <-Hf' in Hf.
  destruct (tentativas_esgotadas h n _ Hh Hn Hf) as (_ & _ & ->). by rewrite He'.
Qed.

(** The retry running, and the check's request for the stage pending. *)
Definition retry_com_pedido : estado := run com_tentativa [EvIntervalo 1; EvResposta 0 nao_admin].

Definition fim_da_etapa : jv := obj [("sucesso", JBool true); ("etapa", etapa 7 "finalizada")].

Lemma redireciona_etapa_null_witness :
  nt_intervalos retry_com_pedido !! 2 = Some (ITentativas 0) /\ 0 < 50 /\
  nt_funcao retry_com_pedido = false /\ truthy (etapaAtualEmAndamento retry_com_pedido) = true /\
  nt_tarefas retry_com_pedido !! 0 = Some TkEtapa /\ jget fim_da_etapa "sucesso" = Some (JBool true) /\
  js_eq_str (jget_opt (jget_opt fim_da_etapa "etapa") "status") "em_andamento" = false /\
  nt_href (Nat.iter (50 - 0) (disparar_intervalo 2) (responder 0 (FResp true (Some fim_da_etapa)) retry_com_pedido)) =
    Some "/admin?etapa=null".
Proof.
  split; [vm_compute; reflexivity|]. split; [lia|].
  split; [vm_compute; reflexivity|]. split; [vm_compute; reflexivity|].
  split; [vm_compute; reflexivity|]. split; [reflexivity|]. split; [vm_compute; reflexivity|].
  apply (redireciona_etapa_null 2 0 0 retry_com_pedido fim_da_etapa (JBool true));
    [vm_compute; reflexivity|lia|vm_compute; reflexivity..].
Defined.

(** a new stage starting while the banner of the previous one is
    shown is recorded, but the banner keeps the old stage's name, since
    [mostrarNotificacaoEventoAoVivo] does nothing when a banner exists. *)
Example banner_da_etapa_antiga :
  let s := run (inicial "/" false) (inicio ++ ciclo (resp_etapa (etapa 8 "em_andamento"))) in
  etapaAtualEmAndamento s = JNum 8 /\ nt_banner s = Some (0, etapa 7 "em_andamento").
Proof. vm_compute. repeat split. Qed.

End Notificacao.
