(* ===== verification/Bracket.v ===== *)
(** * The places of a battle bracket ([calcularColocacoesBracket])

    [src/static/qualificacao.js] shows the battles of a stage as the
    bracket the server reads from Challonge: an array of phases, each
    with its [matches], each match with [player1], [player2],
    [player1_id], [player2_id] and [winner_id]. Under the bracket,
    [renderizarBracketChallonge] lists the places computed by
    [calcularColocacoesBracket] (lines 1864-1893): the winner and the
    loser of the last phase get places 1 and 2, and every earlier loser
    not yet placed gets the next place, from the last phase back to the
    first. The list is then sorted by place.

    The bracket is the JSON value the server sent ([jv]); reading a
    property of [null] or calling [forEach] on a value that is not an
    array throws a [TypeError], which the model returns as [None]. The
    [partMap] object is a map from [String(id)] to the player's name, and
    the [used] set a list of strings. [Array.prototype.sort] is stable, so
    it is modelled by the stable insertion sort [ordenar]. *)
From S2P Require Import Prelude Js.
Set Warnings "-register-all".
Local Close Scope Q_scope.

Module Bracket.

(** [{posicao, name}]. *)
Record colocacao := mk_colocacao {
  posicao : nat;
  name : jv
}.

(** [(fase.matches || [])], ready for [forEach]. *)
Definition partidas (fase : jv) : option (list jv) :=
  ms ← jget fase "matches";
  match js_or ms (JArr []) with JArr xs => Some xs | _ => None end.

(** [if (p.id) partMap[String(p.id)] = p.name || 'TBD']. *)
Definition registrar (pm : gmap string jv) (p : jv) : gmap string jv :=
  let id := jget_opt p "id" in
  if truthy id then <[js_String id := js_or (jget_opt p "name") (JStr "TBD")]> pm else pm.

(** [const p1 = m.player1 || {}; const p2 = m.player2 || {}] and the two
    registrations. *)
Definition registrar_partida (pm : gmap string jv) (m : jv) : option (gmap string jv) :=
  p1 ← jget m "player1";
  p2 ← jget m "player2";
  Some (registrar (registrar pm (js_or p1 (JObj []))) (js_or p2 (JObj []))).

(** The first loop (lines 1866-1873): [partMap] over every match. *)
Definition mapaParticipantes (fases : list jv) : option (gmap string jv) :=
  mfoldl (fun pm fase => ms ← partidas fase; mfoldl registrar_partida pm ms) ∅ fases.

(** [(ultimaFase.matches || []).some(m => !!m.winner_id)]: [some] stops
    at the first match with a winner. *)
Fixpoint algum_vencedor (ms : list jv) : option bool :=
  match ms with
  | [] => Some false
  | m :: ms' => w ← jget m "winner_id"; if truthy w then Some true else algum_vencedor ms'
  end.

(** [const ultimoTemVencedor = ultimaFase && ...] (lines 1874-1875). *)
Definition ultimoTemVencedor (fases : list jv) : option bool :=
  match last fases with
  | Some u => if truthy u then ms ← partidas u; algum_vencedor ms else Some false
  | None => Some false
  end.

(** [partMap[String(id)] || 'TBD']. *)
Definition nome (pm : gmap string jv) (id : jv) : jv :=
  js_or (default JUndef (pm !! js_String id)) (JStr "TBD").

(** [String(m.winner_id) === String(m.player1_id) ? m.player2_id : m.player1_id]. *)
Definition outro (w p1 p2 : jv) : jv :=
  if bool_decide (js_String w = js_String p1) then p2 else p1.

(** The callback on a match of the last phase (lines 1882-1885): no
    check against [used]. *)
Definition passo_final (pm : gmap string jv) (st : list colocacao * list string) (m : jv)
    : option (list colocacao * list string) :=
  w ← jget m "winner_id";
  p1 ← jget m "player1_id";
  p2 ← jget m "player2_id";
  let '(col, used) := st in
  let '(col, used) := if truthy w then (col ++ [mk_colocacao 1 (nome pm w)], used ++ [js_String w])
                      else (col, used) in
  let loserId := outro w p1 p2 in
  Some (if truthy loserId then (col ++ [mk_colocacao 2 (nome pm loserId)], used ++ [js_String loserId])
        else (col, used)).

(** The callback on a match of an earlier phase (lines 1886-1888): the
    loser takes the next place unless already placed. *)
Definition passo (pm : gmap string jv) (st : list colocacao * list string) (m : jv)
    : option (list colocacao * list string) :=
  w ← jget m "winner_id";
  p1 ← jget m "player1_id";
  p2 ← jget m "player2_id";
  let '(col, used) := st in
  let loserId := if truthy w then outro w p1 p2 else JNull in
  Some (if truthy loserId && negb (bool_decide (js_String loserId ∈ used))
        then (col ++ [mk_colocacao (S (length col)) (nome pm loserId)], used ++ [js_String loserId])
        else (col, used)).

(** [for (let i = bracket.length - 1; i >= 0; i--)] (lines 1878-1891). *)
Definition colocar (pm : gmap string jv) (fases : list jv) : option (list colocacao * list string) :=
  match rev fases with
  | [] => Some ([], [])
  | ultima :: anteriores =>
      ms ← partidas ultima;
      st ← mfoldl (passo_final pm) ([], []) ms;
      mfoldl (fun st fase => ms ← partidas fase; mfoldl (passo pm) st ms) st anteriores
  end.

(** [col.sort((a, b) => a.posicao - b.posicao)]: a stable sort, each
    element inserted after those with a place not above its own. *)
Fixpoint inserir (c : colocacao) (l : list colocacao) : list colocacao :=
  match l with
  | [] => [c]
  | d :: l' => if Nat.leb (posicao d) (posicao c) then d :: inserir c l' else c :: l
  end.

Definition ordenar (l : list colocacao) : list colocacao := foldl (fun acc c => inserir c acc) [] l.

(** [calcularColocacoesBracket(bracket)] (lines 1864-1893). A value that
    is not an array passes the guard only as an object whose [length] is
    [0]; any other one reaches [forEach] and throws. *)
Definition calcularColocacoesBracket (bracket : jv) : option (list colocacao) :=
  if negb (truthy bracket) then Some [] else
  match bracket with
  | JArr [] => Some []
  | JArr fases =>
      pm ← mapaParticipantes fases;
      tem ← ultimoTemVencedor fases;
      if negb tem then Some []
      else st ← colocar pm fases; Some (ordenar st.1)
  | JObj _ => if js_strict_eq (jget_opt bracket "length") (JNum 0) then Some [] else None
  | _ => None
  end.

(** ** When the computation throws *)

(** A match whose fields can be read, and a phase whose [matches] is
    missing or an array of such matches. *)
Definition partida_ok (m : jv) : bool := match m with JUndef | JNull => false | _ => true end.

Definition fase_ok (f : jv) : bool :=
  match partidas f with Some ms => forallb partida_ok ms | None => false end.

Lemma jget_ok m k : partida_ok m = true -> is_Some (jget m k).
Proof. destruct m; cbn; by eauto. Qed.

Lemma registrar_partida_None pm m : registrar_partida pm m = None <-> partida_ok m = false.
Proof. by destruct m. Qed.

Lemma fase_passo_None pm f :
  (ms ← partidas f; mfoldl registrar_partida pm ms) = None <-> fase_ok f = false.
Proof.
  unfold fase_ok. destruct (partidas f); cbn; [|done].
  apply mfoldl_None. intros. apply registrar_partida_None.
Qed.

Lemma mapaParticipantes_None fs : mapaParticipantes fs = None <-> forallb fase_ok fs = false.
Proof. apply mfoldl_None. intros. apply fase_passo_None. Qed.

Lemma fase_ok_partidas f :
  fase_ok f = true -> exists ms, partidas f = Some ms /\ forall m, m ∈ ms -> partida_ok m = true.
Proof.
  unfold fase_ok. destruct (partidas f) as [ms|]; [|done]. intros H. exists ms. split; [done|].
  intros m Hm. rewrite forallb_forall in H. apply H. by apply list_elem_of_In.
Qed.

Lemma algum_vencedor_ok ms : (forall m, m ∈ ms -> partida_ok m = true) -> is_Some (algum_vencedor ms).
Proof.
  induction ms as [|m ms IH]; intros Hms; cbn; [by eauto|].
  destruct (jget_ok m "winner_id") as [w ->]; [set_solver|]. cbn.
  destruct (truthy w); [by eauto|]. apply IH. set_solver.
Qed.

Lemma passo_final_ok pm st m : partida_ok m = true -> is_Some (passo_final pm st m).
Proof.
  intros Hm. unfold passo_final.
  destruct (jget_ok m "winner_id" Hm) as [? ->], (jget_ok m "player1_id" Hm) as [? ->],
    (jget_ok m "player2_id" Hm) as [? ->]. cbn. destruct st. by repeat case_match.
Qed.

Lemma passo_ok pm st m : partida_ok m = true -> is_Some (passo pm st m).
Proof.
  intros Hm. unfold passo.
  destruct (jget_ok m "winner_id" Hm) as [? ->], (jget_ok m "player1_id" Hm) as [? ->],
    (jget_ok m "player2_id" Hm) as [? ->]. cbn. destruct st. by eauto.
Qed.

Lemma fases_ok_elem fs f : forallb fase_ok fs = true -> f ∈ fs -> fase_ok f = true.
Proof. rewrite forallb_forall. intros H Hf. apply H. by apply list_elem_of_In. Qed.

Lemma ultimo_ok fs : forallb fase_ok fs = true -> is_Some (ultimoTemVencedor fs).
Proof.
  intros Hok. unfold ultimoTemVencedor. destruct (last fs) as [u|] eqn:Eu; [|by eauto].
  destruct (truthy u); [|by eauto].
  apply last_Some in Eu as [l' ->].
  destruct (fase_ok_partidas u) as (ms & -> & Hms); [apply (fases_ok_elem _ _ Hok); set_solver|].
  cbn. by apply algum_vencedor_ok.
Qed.

Lemma colocar_ok pm fs : forallb fase_ok fs = true -> is_Some (colocar pm fs).
Proof.
  intros Hok. unfold colocar. destruct (rev fs) as [|u ant] eqn:Er; [by eauto|].
  assert (Hin : forall f, f ∈ u :: ant -> fase_ok f = true).
  { intros f Hf. apply (fases_ok_elem _ _ Hok). rewrite <-Er in Hf. apply list_elem_of_In in Hf. apply list_elem_of_In, in_rev, Hf. }
  destruct (fase_ok_partidas u) as (ms & -> & Hms); [apply Hin; set_solver|]. cbn.
  destruct (mfoldl_Some (passo_final pm) ([], []) ms) as [st ->].
  { intros a x Hx. apply passo_final_ok, Hms, Hx. }
  cbn. apply mfoldl_Some. intros st' f Hf.
  destruct (fase_ok_partidas f) as (ms' & -> & Hms'); [apply Hin; set_solver|]. cbn.
  apply mfoldl_Some. intros a x Hx. apply passo_ok, Hms', Hx.
Qed.

(** C19: [calcularColocacoesBracket] throws on an array of phases
    exactly when a phase is [null], has a [matches] that is neither
    missing nor an array, or lists a match that is [null] or
    [undefined]; every other bracket gives a list of places. *)
Theorem colocacoes_erro fs :
  calcularColocacoesBracket (JArr fs) = None <-> forallb fase_ok fs = false.
Proof.
  destruct fs as [|f0 fs0]; [done|]. unfold calcularColocacoesBracket. cbn [truthy negb].
  set (fs := f0 :: fs0).
  change (match fs with [] => Some [] | _ :: _ => _ end) with
    (pm ← mapaParticipantes fs; tem ← ultimoTemVencedor fs;
     if negb tem then Some [] else st ← colocar pm fs; Some (ordenar st.1)).
  destruct (mapaParticipantes fs) as [pm|] eqn:Em; cbn;
    [|split; [intros _; exact (proj1 (mapaParticipantes_None fs) Em)|done]].
  assert (Hok : forallb fase_ok fs = true).
  { destruct (forallb fase_ok fs) eqn:E; [done|]. apply mapaParticipantes_None in E. congruence. }
  change (fase_ok f0 && forallb fase_ok fs0) with (forallb fase_ok fs). rewrite Hok. split; [|done].
  destruct (ultimo_ok fs Hok) as [tem ->], (colocar_ok pm fs Hok) as [st ->]. cbn.
  by destruct tem.
Qed.

(** ** The places of a bracket with a single decided final *)

(** The places are [1, 2, ..., n] in the order they were pushed. *)
Definition sem_lacunas (col : list colocacao) : Prop := posicao <$> col = seq 1 (length col).

Lemma sem_lacunas_snoc col c :
  sem_lacunas col -> posicao c = S (length col) -> sem_lacunas (col ++ [c]).
Proof.
  unfold sem_lacunas. intros H Hc. rewrite fmap_app, length_app, Nat.add_1_r, seq_S, H. cbn. by rewrite Hc.
Qed.

Lemma sem_lacunas_snoc_inv col c :
  sem_lacunas (col ++ [c]) -> sem_lacunas col /\ posicao c = S (length col).
Proof.
  unfold sem_lacunas. rewrite fmap_app, length_app, Nat.add_1_r, seq_S. cbn.
  intros H. apply app_inj_tail in H as [-> ->]. split; [done|lia].
Qed.

Lemma sem_lacunas_le col d : sem_lacunas col -> d ∈ col -> posicao d <= length col.
Proof.
  unfold sem_lacunas. intros H Hd. apply (list_elem_of_fmap_2 posicao) in Hd. rewrite H in Hd.
  apply list_elem_of_In, in_seq in Hd. lia.
Qed.

Lemma passo_sem_lacunas pm st m st' : sem_lacunas st.1 -> passo pm st m = Some st' -> sem_lacunas st'.1.
Proof.
  destruct st as [col used]. unfold passo. cbn. intros H.
  destruct (jget m "winner_id"), (jget m "player1_id"), (jget m "player2_id"); cbn; try discriminate.
  intros [= <-]. case_match; cbn; [|done]. by apply sem_lacunas_snoc.
Qed.

Lemma ordenar_snoc l c : ordenar (l ++ [c]) = inserir c (ordenar l).
Proof. unfold ordenar. by rewrite foldl_app. Qed.

Lemma inserir_fim c l : Forall (fun d => posicao d <= posicao c) l -> inserir c l = l ++ [c].
Proof.
  induction 1 as [|d l Hd _ IH]; [done|]. cbn. apply Nat.leb_le in Hd. by rewrite Hd, IH.
Qed.

(** Sorting places that are already [1, ..., n] changes nothing. *)
Lemma ordenar_sem_lacunas col : sem_lacunas col -> ordenar col = col.
Proof.
  induction col as [|c col IH] using rev_ind; [done|]. intros H.
  destruct (sem_lacunas_snoc_inv _ _ H) as [Hl Hc]. rewrite ordenar_snoc, IH by done.
  apply inserir_fim, Forall_forall. intros d Hd. pose proof (sem_lacunas_le _ _ Hl Hd). lia.
Qed.

Lemma partidas_truthy u m ms : partidas u = Some (m :: ms) -> truthy u = true.
Proof. destruct u; cbn; by try discriminate. Qed.

(** C20: when the last phase holds a single match and it has a winner,
    the places [calcularColocacoesBracket] returns are exactly
    [1, 2, ..., n], in this order: no two players share a place and no
    place is skipped. *)
Theorem colocacoes_sem_lacunas fs u m col :
  last fs = Some u -> partidas u = Some [m] -> truthy (jget_opt m "winner_id") = true ->
  calcularColocacoesBracket (JArr fs) = Some col -> posicao <$> col = seq 1 (length col).
Proof.
  intros Hl Hu Hw. destruct (proj1 (last_Some fs u) Hl) as [l' ->].
  assert (Hne : l' ++ [u] <> []) by (destruct l'; discriminate).
  unfold calcularColocacoesBracket. cbn [truthy negb].
  destruct (l' ++ [u]) as [|f0 fs0] eqn:Efs; [done|]. rewrite <-Efs.
  destruct (mapaParticipantes (l' ++ [u])) as [pm|]; cbn; [|discriminate].
  unfold ultimoTemVencedor. rewrite last_snoc, (partidas_truthy _ _ _ Hu), Hu. cbn.
  rewrite (jget_truthy_some _ _ Hw). cbn. rewrite Hw. cbn.
  unfold colocar. rewrite rev_app_distr. cbn [rev app]. rewrite Hu. cbn.
  destruct (passo_final pm ([], []) m) as [st0|] eqn:E0; cbn; [|discriminate].
  assert (H0 : sem_lacunas st0.1).
  { revert E0. unfold passo_final. rewrite (jget_truthy_some _ _ Hw). cbn.
    destruct (jget m "player1_id"), (jget m "player2_id"); cbn; try discriminate.
    rewrite Hw. intros [= <-]. by case_match. }
  destruct (mfoldl _ st0 (rev l')) as [st|] eqn:E; cbn; [|discriminate]. intros [= <-].
  assert (Hst : sem_lacunas st.1).
  { refine (mfoldl_ind (fun st => sem_lacunas st.1) _ st0 (rev l') st _ H0 E).
    intros f y y' _ Hy Hf. destruct (partidas f) as [ms|]; cbn in Hf; [|discriminate].
    refine (mfoldl_ind (fun st => sem_lacunas st.1) _ y ms y' _ Hy Hf).
    intros x z z' _ Hz Hp. by apply (passo_sem_lacunas pm z x). }
  by rewrite (ordenar_sem_lacunas _ Hst).
Qed.

(** ** Concrete brackets *)

Definition jogador (id : Q) (n : string) : jv := obj [("id", JNum id); ("name", JStr n)].

(** A match between players [a] and [b] won by [w]. *)
Definition partida (a b : Q * string) (w : Q) : jv :=
  obj [("player1", jogador a.1 a.2); ("player2", jogador b.1 b.2);
       ("player1_id", JNum a.1); ("player2_id", JNum b.1); ("winner_id", JNum w)].

Definition fase (ms : list jv) : jv := obj [("matches", JArr ms)].

Definition semis : jv := fase [partida (1%Q, "A") (2%Q, "B") 1; partida (3%Q, "C") (4%Q, "D") 3].
Definition final : jv := partida (1%Q, "A") (3%Q, "C") 1.

Lemma colocacoes_sem_lacunas_witness :
  last [semis; fase [final]] = Some (fase [final]) /\ partidas (fase [final]) = Some [final] /\
  calcularColocacoesBracket (JArr [semis; fase [final]]) =
    Some [mk_colocacao 1 (JStr "A"); mk_colocacao 2 (JStr "C"); mk_colocacao 3 (JStr "B");
          mk_colocacao 4 (JStr "D")] /\
  posicao <$> [mk_colocacao 1 (JStr "A"); mk_colocacao 2 (JStr "C"); mk_colocacao 3 (JStr "B");
               mk_colocacao 4 (JStr "D")] = seq 1 4.
Proof.
  split_and!; [reflexivity|reflexivity|vm_compute; reflexivity|].
  apply (colocacoes_sem_lacunas [semis; fase [final]] (fase [final]) final); vm_compute; reflexivity.
Defined.

(** a last phase with a match for third place (B against D, held
    in the same round as the final) gives two first places and two
    second places: the loop gives places 1 and 2 to every match of the
    last phase, so the third is listed as a winner. *)
Example terceiro_lugar_empata_com_campeao :
  calcularColocacoesBracket (JArr [semis; fase [final; partida (2%Q, "B") (4%Q, "D") 2]]) =
    Some [mk_colocacao 1 (JStr "A"); mk_colocacao 1 (JStr "B"); mk_colocacao 2 (JStr "C");
          mk_colocacao 2 (JStr "D")].
Proof. vm_compute. reflexivity. Qed.

End Bracket.
