(* ===== verification/LiveEvent.v ===== *)
(** * The live-event screen ([mostrarEventoAoVivo] of [src/static/qualificacao.js])

    [mostrarEventoAoVivo(etapaId)] (lines 1095-1224) loads the event of a
    stage ([carregarEvento], lines 1073-1093), registers the user's entry,
    opens a full-screen modal, and refreshes it every 2 seconds from an
    interval kept in the global [intervaloEventoAtual]. Closing the modal
    clears that interval and shows the floating button of the
    notification script ([mostrarBotaoFlutante] of
    [sistema_notificacao.js]), whose state this file shares: the page
    holds one [Notificacao.estado], and a call the notification script
    makes to [mostrarEventoAoVivo] starts this screen.

    As in [Notification], each [await] is a pending request answered by
    an event in any order, a modal is a DOM element with an identity its
    [hidden.bs.modal] listener holds, and an exception thrown by the
    [async] function ends it (the promise rejects, nobody catches it). *)
From S2P Require Import Prelude Js ShopCart WarehouseCart Page Notification.
Set Warnings "-register-all".
Local Close Scope Q_scope.

Module EventoAoVivo.
Import Notificacao.

(** [localStorage.getItem(k)]: a string or [null]. *)
Record usuario := mk_usuario {
  equipe_id : jv;
  equipe_nome : jv;
  piloto_id : jv;
  piloto_nome : jv
}.

(** The requests an [await] is waiting for. *)
Inductive tarefa :=
| TkCarregar (etapaId : jv)
    (** [mostrarEventoAoVivo] awaits [carregarEvento]: GET /api/etapas/{id}/evento *)
| TkEntrar (etapaId evento : jv) (tipo : string)
    (** [mostrarEventoAoVivo] awaits POST /api/etapas/{id}/entrar-evento *)
| TkAtualizar (etapaId : jv).
    (** the 2-second interval awaits [carregarEvento] *)

Record estado := mk_estado {
  ev_notif : Notificacao.estado;        (** the notification script's state *)
  intervaloEventoAtual : option nat;
  ev_ativo : bool;                      (** [eventos.ativo] *)
  ev_etapaId : jv;                      (** [eventos.etapaId] *)
  ev_dados : jv;                        (** [eventos.dados] *)
  ev_next : nat;                        (** the next interval handle *)
  ev_intervalos : gmap nat jv;          (** live refresh intervals and the stage they load *)
  ev_elem : nat;                        (** the next modal element *)
  ev_modais : list (nat * jv * bool);   (** [#modalEventoAoVivo] elements in the document, with
                                            their stage and whether their listener was added *)
  ev_tarefas : list tarefa;
  ev_usuario : usuario;
  ev_posts : list jv;                   (** bodies of POST entrar-evento *)
  ev_toasts : list toast;
  ev_renders : nat                      (** [renderizarPitsEvento] runs *)
}.

(** ** Field updates *)
Definition set_notif (s : estado) (n : Notificacao.estado) : estado :=
  mk_estado n (intervaloEventoAtual s) (ev_ativo s) (ev_etapaId s) (ev_dados s) (ev_next s)
    (ev_intervalos s) (ev_elem s) (ev_modais s) (ev_tarefas s) (ev_usuario s) (ev_posts s)
    (ev_toasts s) (ev_renders s).

Definition set_intervalos (s : estado) (id : option nat) (n : nat) (iv : gmap nat jv) : estado :=
  mk_estado (ev_notif s) id (ev_ativo s) (ev_etapaId s) (ev_dados s) n iv (ev_elem s)
    (ev_modais s) (ev_tarefas s) (ev_usuario s) (ev_posts s) (ev_toasts s) (ev_renders s).

Definition set_eventos (s : estado) (ativo : bool) (etapaId dados : jv) : estado :=
  mk_estado (ev_notif s) (intervaloEventoAtual s) ativo etapaId dados (ev_next s)
    (ev_intervalos s) (ev_elem s) (ev_modais s) (ev_tarefas s) (ev_usuario s) (ev_posts s)
    (ev_toasts s) (ev_renders s).

Definition set_modais (s : estado) (el : nat) (ms : list (nat * jv * bool)) : estado :=
  mk_estado (ev_notif s) (intervaloEventoAtual s) (ev_ativo s) (ev_etapaId s) (ev_dados s)
    (ev_next s) (ev_intervalos s) el ms (ev_tarefas s) (ev_usuario s) (ev_posts s)
    (ev_toasts s) (ev_renders s).

Definition set_tarefas (s : estado) (ts : list tarefa) (ps : list jv) : estado :=
  mk_estado (ev_notif s) (intervaloEventoAtual s) (ev_ativo s) (ev_etapaId s) (ev_dados s)
    (ev_next s) (ev_intervalos s) (ev_elem s) (ev_modais s) ts (ev_usuario s) ps
    (ev_toasts s) (ev_renders s).

Definition set_saida (s : estado) (ts : list toast) (r : nat) : estado :=
  mk_estado (ev_notif s) (intervaloEventoAtual s) (ev_ativo s) (ev_etapaId s) (ev_dados s)
    (ev_next s) (ev_intervalos s) (ev_elem s) (ev_modais s) (ev_tarefas s) (ev_usuario s)
    (ev_posts s) ts r.

Definition esperar (k : tarefa) (s : estado) : estado :=
  set_tarefas s (ev_tarefas s ++ [k]) (ev_posts s).

Definition clearInterval (h : nat) (s : estado) : estado :=
  set_intervalos s (intervaloEventoAtual s) (ev_next s) (delete h (ev_intervalos s)).

(** ** [carregarEvento(etapaId)] (lines 1073-1093) *)

(** The answer read: the body is parsed whatever the status; a
    rejection, a body that is not JSON or is [null] give [null]. The
    event found is also stored in [eventos.dados]. *)
Definition carregarEvento (r : fetch_result) (s : estado) : estado * jv :=
  match r with
  | FResp _ (Some data) =>
      match jget data "sucesso" with
      | Some sucesso =>
          let evento := jget_opt data "evento" in
          if truthy sucesso && truthy evento
          then (set_eventos s (ev_ativo s) (ev_etapaId s) evento, evento)
          else (s, JNull)
      | None => (s, JNull)
      end
  | _ => (s, JNull)
  end.

(** ** [mostrarEventoAoVivo(etapaId)] *)

(** The start (line 1099): [await carregarEvento(etapaId)]. *)
Definition mostrarEventoAoVivo (etapaId : jv) (s : estado) : estado := esperar (TkCarregar etapaId) s.

(** [usuarioTipo], [usuarioId], [usuarioNome] from [localStorage]
    (lines 1106-1122). *)
Definition quem (u : usuario) : string * jv * jv :=
  if truthy (equipe_id u) then ("equipe", equipe_id u, JStr ("Equipe " +:+ js_String (equipe_nome u)))
  else if truthy (piloto_id u) then ("piloto", piloto_id u, piloto_nome u)
  else ("admin", JStr "admin", JStr "Administrador").

(** After [carregarEvento] (lines 1100-1132): no event is an error toast;
    otherwise the entry is posted and awaited. *)
Definition apos_carregar (etapaId evento : jv) (s : estado) : estado :=
  if negb (truthy evento) then set_saida s (ev_toasts s ++ [(TError, "erro_ao_carregar_evento")]) (ev_renders s)
  else
    let '(tipo, id, nome) := quem (ev_usuario s) in
    set_tarefas s (ev_tarefas s ++ [TkEntrar etapaId evento tipo])
      (ev_posts s ++ [obj [("tipo", JStr tipo); ("id", id); ("nome", nome)]]).

(** The modal's markup reads [evento.etapa.campeonato_nome] and calls
    [evento.etapa.status.toUpperCase()]: it throws unless [etapa] is
    readable and its [status] is a string. *)
Definition markup_ok (evento : jv) : bool :=
  match jget evento "etapa" with
  | Some etapa => match jget etapa "campeonato_nome", jget_opt etapa "status" with
                  | Some _, JStr _ => true
                  | _, _ => false
                  end
  | None => false
  end.

(** [renderizarPitsEvento(equipes, ...)] (lines 1226-1350) reads
    [equipes.length], spreads [equipes] and reads fields of every team:
    it throws unless [equipes] is an array of values other than [null]
    and [undefined], or a string. *)
Definition render_ok (equipes : jv) : bool :=
  match equipes with
  | JArr xs => forallb (fun x => match x with JUndef | JNull => false | _ => true end) xs
  | JStr _ => true
  | _ => false
  end.

(** After the entry is posted (lines 1134-1223): the modal is built and
    shown, the pits rendered, then the previous interval is cleared, a new
    one started and the modal's [hidden.bs.modal] listener added. A
    rejected POST or a throw ends the function: a throw of the rendering
    leaves the modal shown with no refresh and no listener. *)
Definition apos_entrar (etapaId evento : jv) (r : fetch_result) (s : estado) : estado :=
  match r with
  | FNetErr => s
  | _ =>
      if negb (markup_ok evento) then s else
      let el := ev_elem s in
      if negb (render_ok (jget_opt evento "equipes"))
      then set_modais s (S el) (ev_modais s ++ [(el, etapaId, false)]) else
      let s := set_modais s (S el) (ev_modais s ++ [(el, etapaId, true)]) in
      let s := set_saida s (ev_toasts s) (S (ev_renders s)) in
      let s := set_eventos s true etapaId (ev_dados s) in
      let s := match intervaloEventoAtual s with Some h => clearInterval h s | None => s end in
      set_intervalos s (Some (ev_next s)) (S (ev_next s)) (<[ev_next s := etapaId]> (ev_intervalos s))
  end.

(** The 2-second callback's answer (lines 1205-1210). *)
Definition apos_atualizar (r : fetch_result) (s : estado) : estado :=
  let '(s, evento) := carregarEvento r s in
  if truthy evento && truthy (jget_opt evento "equipes") && render_ok (jget_opt evento "equipes")
  then set_saida s (ev_toasts s) (S (ev_renders s))
  else s.

(** The [hidden.bs.modal] listener of modal [el] (lines 1213-1223): the
    global interval is cleared but keeps its value, and the notification
    script's floating button is shown. *)
Definition com_ouvinte (el : nat) (m : nat * jv * bool) : bool := bool_decide (m.1.1 = el) && m.2.

Definition fechar (el : nat) (s : estado) : estado :=
  if negb (existsb (com_ouvinte el) (ev_modais s)) then s else
  let s := set_eventos s false (ev_etapaId s) (ev_dados s) in
  let s := match intervaloEventoAtual s with Some h => clearInterval h s | None => s end in
  let s := set_modais s (ev_elem s) (List.filter (fun m => negb (bool_decide (m.1.1 = el))) (ev_modais s)) in
  set_notif s (mostrarBotaoFlutante (ev_notif s)).

(** ** Events of the page *)
Inductive evento :=
| EvMostrar (etapaId : jv)           (** a direct call, e.g. from [entrarQualificacao] *)
| EvResposta (i : nat) (r : fetch_result)
| EvIntervalo (h : nat)
| EvFechar (el : nat)                (** modal [el] is closed *)
| EvNotif (e : Notificacao.evento).  (** an event of the notification script *)

Definition responder (i : nat) (r : fetch_result) (s : estado) : estado :=
  match ev_tarefas s !! i with
  | None => s
  | Some k =>
      let s := set_tarefas s (delete i (ev_tarefas s)) (ev_posts s) in
      match k with
      | TkCarregar etapaId => let '(s, ev) := carregarEvento r s in apos_carregar etapaId ev s
      | TkEntrar etapaId ev _ => apos_entrar etapaId ev r s
      | TkAtualizar _ => apos_atualizar r s
      end
  end.

(** A notification event, then the calls to [mostrarEventoAoVivo] it
    made, in order. *)
Definition notificar (e : Notificacao.evento) (s : estado) : estado :=
  let n := Notificacao.step (ev_notif s) e in
  let novas := drop (length (nt_chamadas (ev_notif s))) (nt_chamadas n) in
  foldl (fun s x => mostrarEventoAoVivo x s) (set_notif s n) novas.

Definition step (s : estado) (e : evento) : estado :=
  match e with
  | EvMostrar etapaId => mostrarEventoAoVivo etapaId s
  | EvResposta i r => responder i r s
  | EvIntervalo h =>
      match ev_intervalos s !! h with
      | Some etapaId => esperar (TkAtualizar etapaId) s
      | None => s
      end
  | EvFechar el => fechar el s
  | EvNotif e => notificar e s
  end.

Definition run (s : estado) (evs : list evento) : estado := foldl step s evs.

(** The page once both scripts have run. *)
Definition inicial (n : Notificacao.estado) (u : usuario) : estado :=
  mk_estado n None false JNull JNull 1 ∅ 0 [] [] u [] [] 0.

(** ** At most one refresh interval *)

(** A live refresh interval is the one [intervaloEventoAtual] names, and
    its handle is below the next one. *)
Definition inv (s : estado) : Prop :=
  (forall h e, ev_intervalos s !! h = Some e -> intervaloEventoAtual s = Some h) /\
  (forall h e, ev_intervalos s !! h = Some e -> h < ev_next s).

(** What [inv] reads. *)
Definition ivs (s : estado) : option nat * nat * gmap nat jv :=
  (intervaloEventoAtual s, ev_next s, ev_intervalos s).

Lemma inv_ivs s s' : ivs s' = ivs s -> inv s -> inv s'.
Proof. destruct s, s'. unfold ivs, inv. cbn. intros [= -> -> ->]. done. Qed.

Lemma ivs_carregar r s : ivs (carregarEvento r s).1 = ivs s.
Proof. unfold carregarEvento. by repeat case_match. Qed.

Lemma ivs_apos_carregar e ev s : ivs (apos_carregar e ev s) = ivs s.
Proof. unfold apos_carregar. by repeat case_match. Qed.

Lemma ivs_apos_atualizar r s : ivs (apos_atualizar r s) = ivs s.
Proof.
  unfold apos_atualizar. pose proof (ivs_carregar r s) as E.
  destruct (carregarEvento r s) as [s' ev]. by case_match.
Qed.

Lemma ivs_mostrar e s : ivs (mostrarEventoAoVivo e s) = ivs s.
Proof. done. Qed.

Lemma ivs_foldl_mostrar xs s0 : ivs (foldl (fun s x => mostrarEventoAoVivo x s) s0 xs) = ivs s0.
Proof. revert s0. induction xs as [|x xs IH]; intros s0; [done|]. cbn. by rewrite IH. Qed.

Lemma ivs_notificar e s : ivs (notificar e s) = ivs s.
Proof. unfold notificar. by rewrite ivs_foldl_mostrar. Qed.

(** Clearing every interval but the named one leaves none. *)
Lemma clear_vazio s h : inv s -> intervaloEventoAtual s = Some h -> ev_intervalos (clearInterval h s) = ∅.
Proof.
  intros [Hn _] Hh. cbn. apply map_eq. intros k. rewrite lookup_empty, lookup_delete_None.
  destruct (ev_intervalos s !! k) as [e|] eqn:E; [|by right]. left. apply Hn in E. congruence.
Qed.

Lemma sem_nome_vazio s : inv s -> intervaloEventoAtual s = None -> ev_intervalos s = ∅.
Proof.
  intros [Hn _] Hh. apply map_eq. intros k. rewrite lookup_empty.
  destruct (ev_intervalos s !! k) as [e|] eqn:E; [|done]. apply Hn in E. congruence.
Qed.

Lemma limpar_vazio s :
  inv s -> ev_intervalos (match intervaloEventoAtual s with Some h => clearInterval h s | None => s end) = ∅.
Proof. intros Hs. destruct (intervaloEventoAtual s) eqn:Ei; [by apply clear_vazio|by apply sem_nome_vazio]. Qed.

Lemma novo_intervalo_inv s e :
  ev_intervalos s = ∅ -> inv (set_intervalos s (Some (ev_next s)) (S (ev_next s)) (<[ev_next s := e]> (ev_intervalos s))).
Proof.
  intros Hv. rewrite Hv. split; cbn; intros h x; rewrite lookup_insert_Some, lookup_empty;
    (intros [[<- _]|[_ ?]]; [|discriminate]); [done|lia].
Qed.

Lemma apos_entrar_inv e ev r s : inv s -> inv (apos_entrar e ev r s).
Proof.
  intros Hs. unfold apos_entrar. destruct r as [|ok b]; [done|].
  destruct (markup_ok ev); cbn [negb]; [|done].
  destruct (render_ok _); cbn [negb]; [|by eapply inv_ivs; [|exact Hs]].
  apply novo_intervalo_inv, limpar_vazio. by eapply inv_ivs; [|exact Hs].
Qed.

Lemma fechar_inv el s : inv s -> inv (fechar el s).
Proof.
  intros Hs. unfold fechar. case_match; [done|]. cbn zeta.
  assert (Hv : ev_intervalos (match intervaloEventoAtual s with Some h => clearInterval h s | None => s end) = ∅)
    by (apply (limpar_vazio s Hs)).
  split; cbn; destruct (intervaloEventoAtual s); cbn in *; rewrite Hv; intros ??; by rewrite lookup_empty.
Qed.

Lemma ev_step_inv s e : inv s -> inv (step s e).
Proof.
  intros Hs. destruct e; cbn [step].
  - by eapply inv_ivs; [|exact Hs].
  - unfold responder. destruct (ev_tarefas s !! i) as [[]|]; [| | |done].
    + destruct (carregarEvento r _) as [s' ev] eqn:E. eapply inv_ivs; [|exact Hs].
      rewrite ivs_apos_carregar. change s' with (s', ev).1. rewrite <-E, ivs_carregar. done.
    + apply apos_entrar_inv. by eapply inv_ivs; [|exact Hs].
    + eapply inv_ivs; [|exact Hs]. by rewrite ivs_apos_atualizar.
  - case_match; by eapply inv_ivs; [|exact Hs].
  - by apply fechar_inv.
  - eapply inv_ivs; [|exact Hs]. apply ivs_notificar.
Qed.

Lemma ev_run_inv s evs : inv s -> inv (run s evs).
Proof. revert s. induction evs as [|e evs IH]; intros s Hs; [done|]. apply IH, ev_step_inv, Hs. Qed.

Lemma inv_inicial_ev n u : inv (inicial n u).
Proof. split; intros ??; cbn; by rewrite lookup_empty. Qed.

(** C17: whatever the page does (calls from the notification script or
    the qualification screen, answers in any order, modals closed),
    at most one 2-second refresh interval is live, and it is the one
    [intervaloEventoAtual] names. *)
Theorem um_intervalo_ao_vivo n u evs :
  let s := run (inicial n u) evs in
  forall h h' e e', ev_intervalos s !! h = Some e -> ev_intervalos s !! h' = Some e' ->
  h = h' /\ intervaloEventoAtual s = Some h.
Proof.
  intros s h h' e e' A B. destruct (ev_run_inv _ evs (inv_inicial_ev n u)) as [Hn _]. fold s in Hn.
  apply Hn in A, B. split; congruence.
Qed.

(** C18: closing any live-event modal stops every refresh: the listener
    clears the interval the global names, which is the one the latest
    modal started, so a modal opened later that is still shown is no
    longer refreshed. *)
Theorem fechar_para_atualizacao n u evs el :
  let s := run (inicial n u) evs in
  existsb (com_ouvinte el) (ev_modais s) = true -> ev_intervalos (step s (EvFechar el)) = ∅.
Proof.
  intros s Hel. pose proof (ev_run_inv _ evs (inv_inicial_ev n u)) as Hs. fold s in Hs.
  cbn [step]. unfold fechar. rewrite Hel. cbn zeta. cbn [ev_intervalos set_notif set_modais].
  apply limpar_vazio. by eapply inv_ivs; [|exact Hs].
Qed.

(** closing a live-event modal calls the notification script's
    [mostrarBotaoFlutante]: the floating button is on the page afterwards,
    whether or not a stage is running, and the banner is left as it was,
    so a user who entered from the banner sees both. *)
Theorem fechar_mostra_botao s el :
  existsb (com_ouvinte el) (ev_modais s) = true ->
  is_Some (nt_botao (ev_notif (fechar el s))) /\ nt_banner (ev_notif (fechar el s)) = nt_banner (ev_notif s).
Proof.
  intros Hel. unfold fechar. rewrite Hel. cbn zeta. cbn [ev_notif set_notif set_modais].
  assert (E : forall s0, ev_notif (match intervaloEventoAtual s0 with Some h => clearInterval h s0 | None => s0 end)
                         = ev_notif s0) by (intros s0; by destruct (intervaloEventoAtual s0)).
  rewrite E. cbn [ev_notif set_eventos]. unfold mostrarBotaoFlutante.
  destruct (nt_botao (ev_notif s)) eqn:Eb; cbn; (split; [rewrite ?Eb; eexists; reflexivity|reflexivity]).
Qed.

(** ** Concrete runs *)

Definition evento_7 : jv :=
  obj [("etapa", obj [("campeonato_nome", JStr "Copa"); ("status", JStr "em_andamento")]);
       ("equipes", JArr [])].

Definition resp_evento : fetch_result := FResp true (Some (obj [("sucesso", JBool true); ("evento", evento_7)])).
Definition resp_post : fetch_result := FResp true (Some (obj [])).

Definition equipe : usuario := mk_usuario (JStr "5") (JStr "Alfa") JNull JNull.

(** The notification script shows stage 7, with [qualificacao.js] loaded. *)
Definition com_banner : Notificacao.estado := Notificacao.run (Notificacao.inicial "/" true) inicio.

(** The stage opened twice, e.g. from the banner and from the
    qualification screen: modals 0 and 1, the second one refreshed. *)
Definition abre_duas_vezes : list evento :=
  [EvMostrar (JNum 7); EvMostrar (JNum 7); EvResposta 0 resp_evento; EvResposta 0 resp_evento;
   EvResposta 0 resp_post; EvResposta 0 resp_post].

Definition dois_modais : estado := run (inicial com_banner equipe) abre_duas_vezes.

Lemma um_intervalo_ao_vivo_witness :
  let s := run (inicial com_banner equipe) abre_duas_vezes in
  ev_intervalos s !! 2 = Some (JNum 7) /\ (2 = 2 /\ intervaloEventoAtual s = Some 2).
Proof.
  intros s.
  assert (H : ev_intervalos s !! 2 = Some (JNum 7)) by (vm_compute; reflexivity).
  split; [exact H|].
  exact (um_intervalo_ao_vivo com_banner equipe abre_duas_vezes 2 2 (JNum 7) (JNum 7) H H).
Defined.

Lemma fechar_para_atualizacao_witness :
  existsb (com_ouvinte 0) (ev_modais dois_modais) = true /\
  ev_intervalos (step dois_modais (EvFechar 0)) = ∅.
Proof.
  split; [vm_compute; reflexivity|].
  exact (fechar_para_atualizacao com_banner equipe abre_duas_vezes 0 ltac:(vm_compute; reflexivity)).
Defined.

(** The user presses ENTRAR on the banner: the notification script calls
    [mostrarEventoAoVivo(7)], the modal opens as element 0. *)
Definition entrou_pelo_banner : estado :=
  run (inicial com_banner equipe)
    [EvNotif Notificacao.EvEntrar; EvResposta 0 resp_evento; EvResposta 0 resp_post].

Lemma fechar_mostra_botao_witness :
  existsb (com_ouvinte 0) (ev_modais entrou_pelo_banner) = true /\
  is_Some (nt_botao (ev_notif (fechar 0 entrou_pelo_banner))).
Proof.
  assert (H : existsb (com_ouvinte 0) (ev_modais entrou_pelo_banner) = true) by (vm_compute; reflexivity).
  split; [exact H|]. exact (proj1 (fechar_mostra_botao entrou_pelo_banner 0 H)).
Defined.

(** after the first of two live modals is closed, the second is
    still shown with its listener, but nothing refreshes it. *)
Example segundo_modal_sem_atualizacao :
  let s := step dois_modais (EvFechar 0) in
  ev_modais s = [(1, JNum 7, true)] /\ ev_intervalos s = ∅ /\ intervaloEventoAtual s = Some 2.
Proof. vm_compute. repeat split. Qed.

(** entering from the banner and closing the modal leaves the
    banner and adds the floating button: both are on the page. *)
Example banner_e_botao :
  let s := step entrou_pelo_banner (EvFechar 0) in
  ev_posts s = [obj [("tipo", JStr "equipe"); ("id", JStr "5"); ("nome", JStr "Equipe Alfa")]] /\ is_Some (nt_banner (ev_notif s)) /\ nt_botao (ev_notif s) = Some 1.
Proof. vm_compute. repeat split; eauto. Qed.

End EventoAoVivo.
