(* ===== verification/Match.v ===== *)
(** * The battle match modal ([src/static/qualificacao.js], lines 1966-2231)

    A click on a match card of the bracket ([abrirModalPartidaBatalha])
    opens the modal [#modalPartidaBatalha] ([abrirModalPartida]). It
    loads the teams' pilots ([carregarPilotosNoModal]), which store the
    two team ids in the modal's [dataset] and then load the life of their
    pieces ([carregarVidaPecasModal]). A match without a winner offers
    two "wins" buttons ([reportarVencedorPartida]) and the button of a
    damage roll ([executarPassada]); the label says at most two rolls,
    counted in [dataset.passadaCount]. A match with a winner offers
    "undo" ([desfazerResultadoPartida]). A report or an undo that
    succeeds hides the modal and reloads the bracket
    ([recarregarBracketChallonge]).

    Every [await] is a pending request answered by an event, in any
    order. A modal is an element with an identity; the callbacks that
    look it up again with [document.getElementById] get the first
    element of the document with that id, whatever modal started them.
    Writes to a modal already removed from the document have no visible
    effect and are dropped. *)
From S2P Require Import Prelude Js ShopCart Page.
Set Warnings "-register-all".
Local Close Scope Q_scope.

Module Partida.

(** The buttons of a modal: "P1 wins", "P2 wins", the roll, "undo". *)
Inductive botao := BVence (k : nat) | BPassada | BDesfazer.

#[export] Instance botao_eq_dec : EqDecision botao.
Proof. solve_decision. Defined.

(** What [#modalP1Vida] and [#modalP2Vida] show. *)
Inductive vida := VSemEquipes | VErroCarregar | VErro | VPecas (pecas1 pecas2 : jv).

(** The texts the callbacks write into a modal. *)
Inductive texto :=
| TPilotos (nome1 piloto1 nome2 piloto2 : jv)   (** [#modalP1Piloto], [#modalP2Piloto] *)
| TVida (v : vida)
| TContagem (n : nat)                           (** [#passadaCount]: [(n/2)] *)
| TResultado (d : jv).                          (** [renderizarResultadoPassada(d)] *)

(** A [#modalPartidaBatalha] element. The [dataset] keeps strings; the
    roll count is written only as [String(n)] of a [nat] and read back
    with [parseInt], so it is kept as the [nat]. *)
Record modal := mk_modal {
  m_el : nat;                       (** the element *)
  m_etapaId : jv;                   (** [etapaId] of the closures and the [onclick]s *)
  m_matchId : jv;                   (** [${match.match_id}] *)
  m_round : jv;                     (** [${match.round || 1}] *)
  m_vencedores : list jv;           (** [${p1.id || 'null'}], [${p2.id || 'null'}] *)
  m_eq1Nome : string;               (** [dataset.eq1Nome] *)
  m_eq2Nome : string;
  m_equipe1Id : option string;      (** [dataset.equipe1Id], [None] while unset *)
  m_equipe2Id : option string;
  m_passadaCount : nat;             (** [dataset.passadaCount] *)
  m_botoes : list (botao * bool);   (** the buttons and their [disabled] *)
  m_textos : list texto
}.

(** [(equipe1_id, equipe2_id, equipe1_nome, equipe2_nome)] of a roll. *)
Definition dados := (string * string * string * string)%type.

(** The requests an [await] is waiting for. *)
Inductive tarefa :=
| TkPilotos (etapaId nome1 nome2 : jv)
    (** [carregarPilotosNoModal]: GET equipes-pilotos *)
| TkVida (el : nat) (etapaId id1 id2 : jv)
    (** [carregarVidaPecasModal]: GET pecas-batalha, with the
        [#modalP1Vida]/[#modalP2Vida] of modal [el] already looked up *)
| TkPassada (etapaId : jv) (d : dados) (btn : nat * botao) (modal : option nat) (count : nat)
    (** [executarPassada]: POST executar-passada *)
| TkReportar (etapaId : jv) (el k : nat)
    (** [reportarVencedorPartida]: POST challonge-match-report, from
        the button "wins" [k] of modal [el] *)
| TkDesfazer (etapaId : jv)
    (** [desfazerResultadoPartida]: POST challonge-match-reopen *)
| TkRecarregar (etapaId : jv) (depois : toast) (btn : option (nat * nat)).
    (** [await recarregarBracketChallonge(etapaId)], then the toast and
        the [finally] of the caller *)

Record estado := mk_estado {
  pt_modais : list modal;           (** the match modals in the document, in order *)
  pt_next : nat;                    (** the next element *)
  pt_tarefas : list tarefa;
  pt_posts : list (jv * string * jv);   (** POSTs: stage, route, body *)
  pt_toasts : list toast;
  pt_recargas : list jv;            (** brackets reloaded with success *)
  pt_passadas : list (option nat)   (** rolls the server executed ([d.sucesso]),
                                        by the [modal] of the click *)
}.

(** ** Field updates *)
Definition mod_equipes (m : modal) (a b : string) : modal :=
  mk_modal (m_el m) (m_etapaId m) (m_matchId m) (m_round m) (m_vencedores m) (m_eq1Nome m)
    (m_eq2Nome m) (Some a) (Some b) (m_passadaCount m) (m_botoes m) (m_textos m).

Definition mod_contagem (m : modal) (n : nat) : modal :=
  mk_modal (m_el m) (m_etapaId m) (m_matchId m) (m_round m) (m_vencedores m) (m_eq1Nome m)
    (m_eq2Nome m) (m_equipe1Id m) (m_equipe2Id m) n (m_botoes m) (m_textos m).

(** [btn.disabled = v] *)
Definition mod_botao (b : botao) (v : bool) (m : modal) : modal :=
  mk_modal (m_el m) (m_etapaId m) (m_matchId m) (m_round m) (m_vencedores m) (m_eq1Nome m)
    (m_eq2Nome m) (m_equipe1Id m) (m_equipe2Id m) (m_passadaCount m)
    ((fun bd => if bool_decide (bd.1 = b) then (b, v) else bd) <$> m_botoes m) (m_textos m).

Definition escrever (t : texto) (m : modal) : modal :=
  mk_modal (m_el m) (m_etapaId m) (m_matchId m) (m_round m) (m_vencedores m) (m_eq1Nome m)
    (m_eq2Nome m) (m_equipe1Id m) (m_equipe2Id m) (m_passadaCount m) (m_botoes m)
    (m_textos m ++ [t]).

Definition set_modais (s : estado) (ms : list modal) (n : nat) : estado :=
  mk_estado ms n (pt_tarefas s) (pt_posts s) (pt_toasts s) (pt_recargas s) (pt_passadas s).

Definition set_tarefas (s : estado) (ts : list tarefa) : estado :=
  mk_estado (pt_modais s) (pt_next s) ts (pt_posts s) (pt_toasts s) (pt_recargas s) (pt_passadas s).

Definition set_log (s : estado) (ps : list (jv * string * jv)) (ts : list toast) (rs : list jv) : estado :=
  mk_estado (pt_modais s) (pt_next s) (pt_tarefas s) ps ts rs (pt_passadas s).

Definition set_passadas (s : estado) (l : list (option nat)) : estado :=
  mk_estado (pt_modais s) (pt_next s) (pt_tarefas s) (pt_posts s) (pt_toasts s) (pt_recargas s) l.

(** ** The document and the page's primitives *)

(** [document.getElementById('modalPartidaBatalha')]: the first one. *)
Definition primeiro (s : estado) : option modal := head (pt_modais s).

(** The element [el], if it is still in the document. *)
Definition elem (el : nat) (s : estado) : option modal :=
  List.find (fun m => Nat.eqb (m_el m) el) (pt_modais s).

(** Only a match without a winner has [#passadaCount] and
    [#resultadoPassada]. *)
Definition com_passada (m : modal) : bool := existsb (fun bd => bool_decide (bd.1 = BPassada)) (m_botoes m).

(** A write into element [el]; nothing when it has been removed. *)
Definition mudar (el : nat) (f : modal -> modal) (s : estado) : estado :=
  set_modais s ((fun m => if Nat.eqb (m_el m) el then f m else m) <$> pt_modais s) (pt_next s).

(** [modalDiv.remove()] *)
Definition remover (el : nat) (s : estado) : estado :=
  set_modais s (List.filter (fun m => negb (Nat.eqb (m_el m) el)) (pt_modais s)) (pt_next s).

Definition desabilitar (btn : nat * botao) (v : bool) (s : estado) : estado :=
  mudar btn.1 (mod_botao btn.2 v) s.

(** A button that exists and is not [disabled]: a click reaches it. *)
Definition habilitado (el : nat) (b : botao) (s : estado) : bool :=
  match elem el s with
  | Some m => existsb (fun bd => bool_decide (bd.1 = b) && negb bd.2) (m_botoes m)
  | None => false
  end.

Definition esperar (k : tarefa) (s : estado) : estado := set_tarefas s (pt_tarefas s ++ [k]).

Definition post (etapaId : jv) (rota : string) (body : jv) (s : estado) : estado :=
  set_log s (pt_posts s ++ [(etapaId, rota, body)]) (pt_toasts s) (pt_recargas s).

Definition mostrarToast (t : toast) (s : estado) : estado :=
  set_log s (pt_posts s) (pt_toasts s ++ [t]) (pt_recargas s).

(** [bootstrap.Modal.getInstance(document.getElementById('modalPartidaBatalha')).hide()]:
    the first modal is hidden and its [hidden.bs.modal] listener removes
    it; with no modal, [getInstance(null)] is [null] and [.hide()] throws. *)
Definition ocultar (s : estado) : option estado :=
  match primeiro s with
  | Some m => Some (remover (m_el m) s)
  | None => None
  end.

(** ** Reading the answers *)

(** [!v || v.length === 0] *)
Definition vazio_js (v : jv) : bool :=
  match v with
  | JArr xs => bool_decide (xs = [])
  | JObj _ => js_strict_eq (jget_opt v "length") (JNum 0)
  | _ => negb (truthy v)
  end.

Definition str_de (v : jv) : option string := match v with JStr s => Some s | _ => None end.

(** [s.includes(sub)] *)
Fixpoint contem (s sub : string) : bool :=
  String.prefix sub s || match s with EmptyString => false | String _ s' => contem s' sub end.

(** The test of [data.equipes.find] (lines 2064-2065): [.trim()] throws
    unless both sides are strings. *)
Definition casa (nome e : jv) : option bool :=
  en ← jget e "equipe_nome";
  a ← str_de (js_or en (JStr ""));
  b ← str_de (js_or nome (JStr ""));
  Some (bool_decide (js_trim a = js_trim b) || (truthy nome && contem a (js_String nome))).

(** [formatarVidaPecas(pecas)] (lines 2108-2116) throws unless the list
    is empty or an array whose pieces are objects with a string for
    [tipo || nome || '?'] ([.replace]). *)
Definition peca_ok (p : jv) : bool :=
  match jget p "tipo", jget p "nome" with
  | Some t, Some n => match js_or t (js_or n (JStr "?")) with JStr _ => true | _ => false end
  | _, _ => false
  end.

Definition formatar_ok (pecas : jv) : bool :=
  vazio_js pecas || match pecas with JArr xs => forallb peca_ok xs | _ => false end.

(** [renderizarResultadoPassada(d)] (lines 2118-2146) throws on a
    launch that is not an object or whose [tipo] is not a string, and on
    a total that is not a number ([total.toFixed]): a [dano] that is a
    string or an object turns the sum into a string. *)
Definition lanc_ok (l : jv) : bool :=
  match jget l "tipo" with
  | Some t => match js_or t (JStr "?") with JStr _ => true | _ => false end
  | None => false
  end.

Definition dano_ok (x : jv) : bool :=
  match jget x "dano" with
  | Some v => match js_or v (JNum 0) with JNum _ | JBool _ => true | _ => false end
  | None => false
  end.

Definition resultado_ok (d : jv) : bool :=
  let ls := js_or (jget_opt d "lancamentos") (JArr []) in
  vazio_js ls ||
  match ls with
  | JArr xs => forallb lanc_ok xs &&
               match js_or (jget_opt d "detalhes") (JArr []) with
               | JArr ys => forallb dano_ok ys
               | _ => false
               end
  | _ => false
  end.

(** ** The functions of the modal *)

(** [carregarVidaPecasModal(etapaId, equipe1Id, equipe2Id)] up to its
    [await] (lines 2079-2090): the two elements of the first modal are
    looked up before the request. *)
Definition carregarVidaPecasModal (etapaId id1 id2 : jv) (s : estado) : estado :=
  match primeiro s with
  | None => s
  | Some m =>
      if negb (truthy id1) && negb (truthy id2)
      then mudar (m_el m) (escrever (TVida VSemEquipes)) s
      else esperar (TkVida (m_el m) etapaId id1 id2) s
  end.

(** Its answer (lines 2091-2105), written into the elements looked up
    before the request. *)
Definition apos_vida (el : nat) (r : fetch_result) (s : estado) : estado :=
  let v :=
    match r with
    | FResp _ (Some data) =>
        match jget data "sucesso" with
        | None => VErro
        | Some suc =>
            match jget_opt data "carros" with
            | JArr cs =>
                if negb (truthy suc) then VErroCarregar else
                let car k := js_or (default JUndef (cs !! k)) (obj [("pecas", JArr [])]) in
                let p1 := jget_opt (car 0) "pecas" in
                let p2 := jget_opt (car 1) "pecas" in
                if formatar_ok p1 && formatar_ok p2 then VPecas p1 p2 else VErro
            | _ => VErroCarregar
            end
        end
    | _ => VErro
    end in
  mudar el (escrever (TVida v)) s.

(** The answer of [carregarPilotosNoModal(etapaId, nome1, nome2)]
    (lines 2059-2077): the pilots are written into the first modal of
    the document, and so are the team ids, which then load the pieces'
    life. A throw (a [null] body, a team that is [null] or whose name is
    not a string) is caught and does nothing. *)
Definition apos_pilotos (etapaId nome1 nome2 : jv) (r : fetch_result) (s : estado) : estado :=
  match r with
  | FResp _ (Some data) =>
      match jget data "sucesso" with
      | None => s
      | Some suc =>
          match jget_opt data "equipes" with
          | JArr es =>
              if negb (truthy suc) then s else
              match find_js (casa nome1) es, find_js (casa nome2) es with
              | Some eq1, Some eq2 =>
                  let piloto e := js_or (jget_opt (default JUndef e) "piloto_nome") (JStr "-") in
                  let eid e := js_or (jget_opt (default JUndef e) "equipe_id") (JStr "") in
                  let s := match primeiro s with
                           | Some m => mudar (m_el m) (escrever (TPilotos (js_or nome1 (JStr "TBD"))
                                         (piloto eq1) (js_or nome2 (JStr "TBD")) (piloto eq2))) s
                           | None => s
                           end in
                  match primeiro s with
                  | Some m =>
                      let s := mudar (m_el m) (fun m => mod_equipes m (js_String (eid eq1)) (js_String (eid eq2))) s in
                      carregarVidaPecasModal etapaId (eid eq1) (eid eq2) s
                  | None => s
                  end
              | _, _ => s
              end
          | _ => s
          end
      end
  | _ => s
  end.

(** [abrirModalPartida(etapaId, match)] (lines 1973-2057). Without a
    winner, [(p.name || 'P1').substring(0, 15)] throws on a name that is
    not a string, before the modal is built. The modal is appended to
    the document with [dataset.passadaCount = '0'], then the pilots are
    requested. *)
Definition abrirModalPartida (etapaId partida : jv) (s : estado) : estado :=
  let p1 := js_or (jget_opt partida "player1") (JObj []) in
  let p2 := js_or (jget_opt partida "player2") (JObj []) in
  let temVencedor := truthy (jget_opt partida "winner_id") in
  let curto p d := match js_or (jget_opt p "name") (JStr d) with JStr _ => true | _ => false end in
  if negb temVencedor && negb (curto p1 "P1" && curto p2 "P2") then s else
  let el := pt_next s in
  let m := mk_modal el etapaId (jget_opt partida "match_id") (js_or (jget_opt partida "round") (JNum 1))
             [js_or (jget_opt p1 "id") JNull; js_or (jget_opt p2 "id") JNull]
             (js_String (js_or (jget_opt p1 "name") (JStr "")))
             (js_String (js_or (jget_opt p2 "name") (JStr "")))
             None None 0
             (if temVencedor then [(BDesfazer, false)]
              else [(BVence 0, false); (BVence 1, false); (BPassada, false)])
             [] in
  let s := set_modais s (pt_modais s ++ [m]) (S el) in
  esperar (TkPilotos etapaId (jget_opt p1 "name") (jget_opt p2 "name")) s.

(** [abrirModalPartidaBatalha(el)] (lines 1966-1971), on the card's
    [data-etapa-id] and parsed [data-match]. *)
Definition abrirModalPartidaBatalha (etapaId partida : jv) (s : estado) : estado :=
  match jget partida "match_id" with
  | Some mid => if truthy etapaId && truthy mid then abrirModalPartida etapaId partida s else s
  | None => s
  end.

(** [modal?.dataset?.passadaCount || '0'] of a modal. *)
Definition contagem (modal : option nat) (s : estado) : nat :=
  match modal ≫= fun el => elem el s with
  | Some m => m_passadaCount m
  | None => 0
  end.

(** The [dados] the click builds from the first modal's [dataset]. *)
Definition dados_de (o : option modal) : dados :=
  match o with
  | Some m => (default "" (m_equipe1Id m), default "" (m_equipe2Id m), m_eq1Nome m, m_eq2Nome m)
  | None => ("", "", "", "")
  end.

(** [payload]: each field only when it is not empty. *)
Definition payload (d : dados) : jv :=
  let '(a, b, c, e) := d in
  let campo k v := if bool_decide (v = "") then [] else [(k, JStr v)] in
  obj (campo "equipe1_id" a ++ campo "equipe2_id" b ++ campo "equipe1_nome" c ++ campo "equipe2_nome" e).

(** [executarPassada(etapaId, dados, btn, modal)] up to its [await]
    (lines 2148-2163). *)
Definition executarPassada (etapaId : jv) (d : dados) (btn : nat * botao) (modal : option nat)
    (s : estado) : estado :=
  let count := contagem modal s in
  if Nat.leb 2 count then s else
  let s := desabilitar btn true s in
  let s := post etapaId "executar-passada" (payload d) s in
  esperar (TkPassada etapaId d btn modal count) s.

(** The click listener of [#btnExecutarPassada] of modal [el]
    (lines 2044-2055): it reads the first modal of the document. *)
Definition clicarPassada (el : nat) (s : estado) : estado :=
  match elem el s with
  | None => s
  | Some me =>
      let modal := primeiro s in
      if Nat.leb 2 (contagem (m_el <$> modal) s) then s
      else executarPassada (m_etapaId me) (dados_de modal) (el, BPassada) (m_el <$> modal) s
  end.

(** [renderizarResultadoPassada(d)]: into the first modal that has the
    result box, or [None] when it throws. *)
Definition renderizarResultadoPassada (d : jv) (s : estado) : option estado :=
  match List.find com_passada (pt_modais s) with
  | None => Some s
  | Some m => if resultado_ok d then Some (mudar (m_el m) (escrever (TResultado d)) s) else None
  end.

(** The [finally] of [executarPassada]. *)
Definition fim_passada (btn : nat * botao) (modal : option nat) (s : estado) : estado :=
  if Nat.ltb (contagem modal s) 2 then desabilitar btn false s else s.

(** The answer of [executarPassada] (lines 2164-2181). *)
Definition apos_passada (etapaId : jv) (d : dados) (btn : nat * botao) (modal : option nat)
    (count : nat) (r : fetch_result) (s : estado) : estado :=
  let erro := mostrarToast (TError, "Erro ao executar passada") in
  fim_passada btn modal
  (match r with
   | FResp _ (Some resp) =>
       match jget resp "sucesso" with
       | None => erro s
       | Some suc =>
           if truthy suc then
             let novo := S count in
             let s := match modal with Some el => mudar el (fun m => mod_contagem m novo) s | None => s end in
             let s := set_passadas s (pt_passadas s ++ [modal]) in
             let s := match List.find com_passada (pt_modais s) with
                      | Some m => mudar (m_el m) (escrever (TContagem novo)) s
                      | None => s
                      end in
             let s := if Nat.leb 2 novo then desabilitar btn true s else s in
             let s := mostrarToast (TSuccess, "Passada executada! " +:+
                                    js_String (js_or (jget_opt resp "resumo") (JStr ""))) s in
             match renderizarResultadoPassada resp s with
             | Some s => let '(a, b, _, _) := d in carregarVidaPecasModal etapaId (JStr a) (JStr b) s
             | None => erro s
             end
           else mostrarToast (TError, "Erro: " +:+ js_String (js_or (jget_opt resp "erro") (JStr "Falha"))) s
       end
   | _ => erro s
   end).

(** [reportarVencedorPartida(etapaId, matchId, winnerId, this, round)]
    up to its [await] (lines 2184-2196). *)
Definition reportarVencedorPartida (etapaId matchId winnerId : jv) (el k : nat) (round : jv)
    (s : estado) : estado :=
  let s := desabilitar (el, BVence k) true s in
  let r := match round with JUndef | JNull => [] | _ => [("round", round)] end in
  let s := post etapaId "challonge-match-report"
             (obj ([("match_id", matchId); ("winner_id", winnerId); ("scores_csv", JStr "1-0")] ++ r)) s in
  esperar (TkReportar etapaId el k) s.

(** The answer of a report or an undo (lines 2197-2209, 2219-2230): on
    success the modal is hidden and the bracket reloaded; the toast and
    the [finally] wait for the reload. *)
Definition apos_resultado (etapaId : jv) (ok erro : toast) (btn : option (nat * nat))
    (r : fetch_result) (s : estado) : estado :=
  let fim s := match btn with Some (el, k) => desabilitar (el, BVence k) false s | None => s end in
  match r with
  | FResp _ (Some d) =>
      match jget d "sucesso" with
      | None => fim (mostrarToast erro s)
      | Some suc =>
          if truthy suc then
            match ocultar s with
            | Some s => esperar (TkRecarregar etapaId ok btn) s
            | None => fim (mostrarToast erro s)
            end
          else fim (mostrarToast (TError, "Erro: " +:+ js_String (js_or (jget_opt d "erro") (JStr "Falha"))) s)
      end
  | _ => fim (mostrarToast erro s)
  end.

(** [desfazerResultadoPartida(etapaId, matchId)] up to its [await]. *)
Definition desfazerResultadoPartida (etapaId matchId : jv) (s : estado) : estado :=
  esperar (TkDesfazer etapaId) (post etapaId "challonge-match-reopen" (obj [("match_id", matchId)]) s).

(** The answer of [recarregarBracketChallonge] (lines 2242-2253), then
    the rest of the caller. *)
Definition apos_recarregar (etapaId : jv) (t : toast) (btn : option (nat * nat))
    (r : fetch_result) (s : estado) : estado :=
  let s := match r with
           | FResp _ (Some data) =>
               match jget data "sucesso" with
               | Some suc => if truthy suc && truthy (jget_opt data "bracket")
                             then set_log s (pt_posts s) (pt_toasts s) (pt_recargas s ++ [etapaId]) else s
               | None => s
               end
           | _ => s
           end in
  let s := mostrarToast t s in
  match btn with Some (el, k) => desabilitar (el, BVence k) false s | None => s end.

(** ** Events of the page *)
Inductive evento :=
| EvAbrir (etapaId partida : jv)   (** a click on a match card *)
| EvPassada (el : nat)           (** a click on the roll button of modal [el] *)
| EvVence (el k : nat)           (** a click on "wins" [k] of modal [el] *)
| EvDesfazer (el : nat)
| EvFechar (el : nat)            (** modal [el] closed by the user *)
| EvResposta (i : nat) (r : fetch_result).

Definition responder (i : nat) (r : fetch_result) (s : estado) : estado :=
  match pt_tarefas s !! i with
  | None => s
  | Some k =>
      let s := set_tarefas s (delete i (pt_tarefas s)) in
      match k with
      | TkPilotos etapaId n1 n2 => apos_pilotos etapaId n1 n2 r s
      | TkVida el _ _ _ => apos_vida el r s
      | TkPassada etapaId d btn modal count => apos_passada etapaId d btn modal count r s
      | TkReportar etapaId el k =>
          apos_resultado etapaId (TSuccess, "Vencedor registrado!") (TError, "Erro ao registrar") (Some (el, k)) r s
      | TkDesfazer etapaId =>
          apos_resultado etapaId (TSuccess, "Resultado desfeito!") (TError, "Erro ao desfazer") None r s
      | TkRecarregar etapaId t btn => apos_recarregar etapaId t btn r s
      end
  end.

(** A click reaches a button that exists and is enabled; a card can be
    clicked only when no match modal is shown, since the modal element
    covers the page. *)
Definition step (s : estado) (e : evento) : estado :=
  match e with
  | EvAbrir etapaId partida =>
      match pt_modais s with [] => abrirModalPartidaBatalha etapaId partida s | _ => s end
  | EvPassada el => if habilitado el BPassada s then clicarPassada el s else s
  | EvVence el k =>
      match elem el s with
      | Some m => if habilitado el (BVence k) s
                  then reportarVencedorPartida (m_etapaId m) (m_matchId m)
                         (default JNull (m_vencedores m !! k)) el k (m_round m) s
                  else s
      | None => s
      end
  | EvDesfazer el =>
      match elem el s with
      | Some m => if habilitado el BDesfazer s then desfazerResultadoPartida (m_etapaId m) (m_matchId m) s else s
      | None => s
      end
  | EvFechar el => remover el s
  | EvResposta i r => responder i r s
  end.

Definition run (s : estado) (evs : list evento) : estado := foldl step s evs.

Definition inicial : estado := mk_estado [] 0 [] [] [] [] [].

(** ** At most two rolls per modal

    The promise of the label "Máx. 2 vezes": the rolls of one modal
    that the server executed, with the one in flight, are at most two.
    It holds because one match modal is shown at a time, the roll button
    is disabled while its request is in flight, and the count is written
    only by the answer of that request. *)

Definition eh_passada (k : tarefa) : bool := match k with TkPassada _ _ _ _ _ => true | _ => false end.
Definition alvo (k : tarefa) : option nat := match k with TkPassada _ _ _ o _ => o | _ => None end.
Definition eh (k : tarefa) : Prop := eh_passada k = true.

(** The rolls of modal [el] executed, and in flight. *)
Definition conta (el : nat) (ps : list (option nat)) : nat := length (filter (fun o => o = Some el) ps).
Definition voo (el : nat) (ts : list tarefa) : nat := length (filter (fun k => alvo k = Some el) ts).

(** No enabled roll button. *)
Definition travado (m : modal) : bool :=
  negb (existsb (fun bd => bool_decide (bd.1 = BPassada) && negb bd.2) (m_botoes m)).

(** What the invariant reads of a modal, and of the page. *)
Definition vis (m : modal) : nat * nat * bool := (m_el m, m_passadaCount m, travado m).

Definition marcas (s : estado) :=
  (vis <$> pt_modais s, pt_next s, filter eh (pt_tarefas s), pt_passadas s).

Definition inv_de (vs : list (nat * nat * bool)) (n : nat) (ts : list tarefa) (ps : list (option nat)) : Prop :=
  length vs <= 1 /\
  (forall v, v ∈ vs -> v.1.1 < n) /\
  (forall el, n <= el -> conta el ps = 0 /\ voo el ts = 0) /\
  (forall el, voo el ts <= 1 /\ conta el ps + voo el ts <= 2) /\
  (forall v, v ∈ vs -> v.1.2 = conta v.1.1 ps /\ (voo v.1.1 ts <> 0 -> v.2 = true)) /\
  (forall k, k ∈ ts -> match k with
     | TkPassada _ _ btn o c => exists el, o = Some el /\ btn = (el, BPassada) /\
                                forall v, v ∈ vs -> v.1.1 = el -> c = v.1.2
     | _ => True
     end).

Definition inv (s : estado) : Prop := let '(vs, n, ts, ps) := marcas s in inv_de vs n ts ps.

Lemma pt_inv_marcas s s' : marcas s' = marcas s -> inv s -> inv s'.
Proof. unfold inv. by intros ->. Qed.

Lemma voo_perm el ts ts' : ts ≡ₚ ts' -> voo el ts = voo el ts'.
Proof. unfold voo. by intros ->. Qed.

Lemma inv_de_perm vs n ts ts' ps : ts ≡ₚ ts' -> inv_de vs n ts ps -> inv_de vs n ts' ps.
Proof.
  intros Hp (H1 & H2 & H3 & H4 & H5 & H6). unfold inv_de.
  setoid_rewrite <- (voo_perm _ _ _ Hp).
  do 5 (split; [done|]). intros k Hk. apply H6. by rewrite Hp.
Qed.

(** Fewer modals, fewer tasks in flight. *)
Lemma inv_de_sub vs vs' n ts ps :
  (forall v, v ∈ vs' -> v ∈ vs) -> length vs' <= length vs -> inv_de vs n ts ps -> inv_de vs' n ts ps.
Proof.
  intros Hs Hl (H1 & H2 & H3 & H4 & H5 & H6). split; [lia|]. split; [by eauto|].
  do 3 (split; [by eauto|]). intros k Hk. specialize (H6 k Hk). destruct k; try done.
  destruct H6 as (el & ? & ? & Hc). eauto 10.
Qed.

Lemma voo_cons el k ts : voo el (k :: ts) = (if bool_decide (alvo k = Some el) then 1 else 0) + voo el ts.
Proof.
  unfold voo. rewrite filter_cons.
  case_decide; [rewrite bool_decide_true by done|rewrite bool_decide_false by done]; done.
Qed.

Lemma inv_de_tail vs n k ts ps : inv_de vs n (k :: ts) ps -> inv_de vs n ts ps.
Proof.
  intros (H1 & H2 & H3 & H4 & H5 & H6). split; [done|]. split; [done|].
  split; [intros el Hel; specialize (H3 el Hel); rewrite voo_cons in H3; lia|].
  split; [intros el; specialize (H4 el); rewrite voo_cons in H4; lia|].
  split; [|intros k' Hk'; apply H6; by right].
  intros v Hv. destruct (H5 v Hv) as [Ha Hb]. split; [done|]. intros Hn. apply Hb. rewrite voo_cons. lia.
Qed.

(** *** What each operation does to [marcas] *)

Lemma marcas_mudar el f s : (forall m, vis (f m) = vis m) -> marcas (mudar el f s) = marcas s.
Proof.
  intros Hf. destruct s. unfold marcas, mudar, set_modais. cbn. do 3 f_equal.
  rewrite <- list_fmap_compose. apply list_fmap_ext. intros i m _. cbn. by case_match.
Qed.

Lemma vis_vence k v m : vis (mod_botao (BVence k) v m) = vis m.
Proof.
  unfold vis, travado, mod_botao. cbn. do 2 f_equal.
  induction (m_botoes m) as [|[b w] l IH]; [done|]. cbn. rewrite IH.
  repeat case_bool_decide; simplify_eq; done.
Qed.

Lemma travado_passada m : travado (mod_botao BPassada true m) = true.
Proof.
  unfold travado, mod_botao. cbn. apply negb_true_iff, not_true_iff_false. rewrite existsb_exists.
  intros (bd & Hin & Hp). apply list_elem_of_In, list_elem_of_fmap in Hin as (bd' & -> & _).
  revert Hp. destruct (bool_decide (bd'.1 = BPassada)) eqn:E; cbn.
  - by rewrite andb_false_r.
  - by rewrite E.
Qed.

Lemma marcas_log s ps ts rs : marcas (set_log s ps ts rs) = marcas s.
Proof. by destruct s. Qed.

Lemma marcas_esperar k s : eh_passada k = false -> marcas (esperar k s) = marcas s.
Proof.
  intros Hk. destruct s. unfold marcas, esperar, set_tarefas. cbn. rewrite filter_app, filter_cons_False.
  - by rewrite app_nil_r.
  - unfold eh. by rewrite Hk.
Qed.

Lemma marcas_carregarVida e a b s : marcas (carregarVidaPecasModal e a b s) = marcas s.
Proof.
  unfold carregarVidaPecasModal. destruct (primeiro s); [|done].
  case_match; [by apply marcas_mudar|by apply marcas_esperar].
Qed.

Ltac marcas_ok :=
  repeat match goal with
  | |- marcas (mudar _ (mod_botao (BVence _) _) _) = _ => rewrite marcas_mudar; [|apply vis_vence]
  | |- marcas (mudar _ _ _) = _ => rewrite marcas_mudar; [|intros; reflexivity]
  | |- marcas (desabilitar (_, BVence _) _ _) = _ => unfold desabilitar; cbn [fst snd]
  | |- marcas (carregarVidaPecasModal _ _ _ _) = _ => rewrite marcas_carregarVida
  | |- marcas (mostrarToast _ _) = _ => unfold mostrarToast; rewrite marcas_log
  | |- marcas (post _ _ _ _) = _ => unfold post; rewrite marcas_log
  | |- marcas (set_log _ _ _ _) = _ => rewrite marcas_log
  | |- marcas (esperar _ _) = _ => rewrite marcas_esperar; [|reflexivity]
  end; try reflexivity.

Lemma marcas_apos_vida el r s : marcas (apos_vida el r s) = marcas s.
Proof. unfold apos_vida. marcas_ok. Qed.

Lemma marcas_apos_pilotos e n1 n2 r s : marcas (apos_pilotos e n1 n2 r s) = marcas s.
Proof. unfold apos_pilotos. repeat case_match; marcas_ok. Qed.

Lemma marcas_apos_recarregar e t b r s : marcas (apos_recarregar e t b r s) = marcas s.
Proof. unfold apos_recarregar. repeat case_match; marcas_ok. Qed.

Lemma marcas_reportar e m w el k rd s : marcas (reportarVencedorPartida e m w el k rd s) = marcas s.
Proof. unfold reportarVencedorPartida. marcas_ok. Qed.

Lemma marcas_desfazer e m s : marcas (desfazerResultadoPartida e m s) = marcas s.
Proof. unfold desfazerResultadoPartida. marcas_ok. Qed.

(** *** The invariant through each operation *)

Lemma voo_app el ts ts' : voo el (ts ++ ts') = voo el ts + voo el ts'.
Proof. unfold voo. by rewrite filter_app, length_app. Qed.

Lemma voo_pos el k ts : k ∈ ts -> alvo k = Some el -> voo el ts <> 0.
Proof.
  intros Hk Ha. unfold voo. assert (Hf : k ∈ filter (fun k => alvo k = Some el) ts)
    by (apply list_elem_of_filter; auto).
  destruct (filter _ ts); [by apply not_elem_of_nil in Hf|done].
Qed.

Lemma inv_remover el s : inv s -> inv (remover el s).
Proof.
  destruct s. unfold inv, marcas, remover, set_modais. cbn. apply inv_de_sub.
  - intros v Hv. apply list_elem_of_fmap in Hv as (m & -> & Hm).
    apply list_elem_of_fmap_2, list_elem_of_In. apply list_elem_of_In, filter_In in Hm. tauto.
  - rewrite !length_fmap. apply filter_length_le.
Qed.

Lemma inv_de_abrir n b ts ps : inv_de [] n ts ps -> inv_de [(n, 0, b)] (S n) ts ps.
Proof.
  intros (H1 & H2 & H3 & H4 & H5 & H6). split; [cbn; lia|].
  split; [intros v ->%list_elem_of_singleton; cbn; lia|].
  split; [intros el Hel; apply H3; lia|]. split; [done|].
  split; [intros v ->%list_elem_of_singleton; cbn; destruct (H3 n) as [-> ->]; auto|].
  intros k Hk. pose proof (H6 k Hk) as Hk'. destruct k; try done. destruct Hk' as (el & -> & -> & _).
  exists el. do 2 (split; [done|]). intros v ->%list_elem_of_singleton. cbn. intros <-.
  exfalso. apply (voo_pos n _ _ Hk); [done|]. by apply H3.
Qed.

Lemma inv_de_clique el c n ts ps e d :
  inv_de [(el, c, false)] n ts ps -> c < 2 ->
  inv_de [(el, c, true)] n (ts ++ [TkPassada e d (el, BPassada) (Some el) c]) ps.
Proof.
  intros (H1 & H2 & H3 & H4 & H5 & H6) Hc.
  destruct (H5 (el, c, false)) as [Hce Hv]; [by left|]. cbn in Hce, Hv.
  assert (Hel : el < n) by (apply (H2 (el, c, false)); by left).
  assert (H0 : voo el ts = 0) by (destruct (voo el ts); [done|]; by pose proof (Hv ltac:(lia))).
  assert (Hs : forall el', voo el' (ts ++ [TkPassada e d (el, BPassada) (Some el) c]) =
                 voo el' ts + if bool_decide (el = el') then 1 else 0).
  { intros el'. rewrite voo_app, voo_cons. cbn. by repeat case_bool_decide; simplify_eq. }
  split; [done|]. split; [intros v ->%list_elem_of_singleton; cbn; lia|].
  split; [intros el' Hel'; rewrite Hs, bool_decide_false by lia; rewrite Nat.add_0_r; auto|].
  split; [intros el'; rewrite Hs; specialize (H4 el'); case_bool_decide; subst; lia|].
  split; [intros v ->%list_elem_of_singleton; cbn; done|].
  intros k Hk. apply elem_of_app in Hk as [Hk|Hk%list_elem_of_singleton]; [|subst k].
  - specialize (H6 k Hk). destruct k; try done. destruct H6 as (el' & -> & -> & Hc').
    exists el'. do 2 (split; [done|]). intros v ->%list_elem_of_singleton. cbn. intros <-.
    apply (Hc' (el, c, false)); [by left|done].
  - exists el. do 2 (split; [done|]). by intros v ->%list_elem_of_singleton.
Qed.

Lemma elem_unico el s m : inv s -> elem el s = Some m -> pt_modais s = [m] /\ m_el m = el.
Proof.
  destruct s as [ms]. unfold inv, marcas, elem. cbn. intros [H1 _] Hf.
  apply find_some in Hf as [Hin Heq]. apply Nat.eqb_eq in Heq. split; [|done].
  rewrite length_fmap in H1. destruct ms as [|m' [|? ?]]; cbn in *; [done| |lia].
  by destruct Hin as [->|[]].
Qed.

Lemma contagem_elem el s m : elem el s = Some m -> contagem (Some el) s = m_passadaCount m.
Proof. intros H. unfold contagem. cbn. by rewrite H. Qed.

Lemma inv_clicar el s : inv s -> habilitado el BPassada s = true -> inv (clicarPassada el s).
Proof.
  intros Hi Hh. unfold habilitado in Hh. destruct (elem el s) as [m|] eqn:Hm; [|done].
  destruct (elem_unico _ _ _ Hi Hm) as [Hms <-].
  unfold clicarPassada. rewrite Hm. unfold primeiro. rewrite Hms. cbn [head fmap option_fmap option_map].
  rewrite (contagem_elem _ _ _ Hm). destruct (Nat.leb 2 _) eqn:Hc; [done|].
  unfold executarPassada. rewrite (contagem_elem _ _ _ Hm), Hc.
  assert (Ht : travado m = false) by (unfold travado; by rewrite Hh).
  apply Nat.leb_gt in Hc. destruct s as [ms n ts ps0 tt rr pp]; cbn in *; subst ms.
  unfold inv, marcas, vis in *. cbn in *. rewrite Nat.eqb_refl. cbn.
  rewrite filter_app, filter_cons_True by done. rewrite travado_passada. rewrite Ht in Hi.
  apply inv_de_clique; [done|lia].
Qed.
Lemma inv_de_fmap {A} (ms : list A) (f g : A -> nat * nat * bool) n ts ps :
  (forall m, m ∈ ms -> (g m).1 = (f m).1 /\ ((f m).2 = true -> voo (f m).1.1 ts <> 0 -> (g m).2 = true)) ->
  inv_de (f <$> ms) n ts ps -> inv_de (g <$> ms) n ts ps.
Proof.
  intros Hg (H1 & H2 & H3 & H4 & H5 & H6). rewrite length_fmap in H1.
  split; [by rewrite length_fmap|].
  split; [intros v (m & -> & Hm)%list_elem_of_fmap; destruct (Hg m Hm) as [-> _];
          apply H2, list_elem_of_fmap_2, Hm|].
  do 2 (split; [done|]).
  split.
  - intros v (m & -> & Hm)%list_elem_of_fmap. destruct (Hg m Hm) as [He Hb].
    destruct (H5 (f m)) as [Hc Ht]; [by apply list_elem_of_fmap_2|]. rewrite He. auto.
  - intros k Hk. specialize (H6 k Hk). destruct k; try done. destruct H6 as (el & -> & -> & Hc).
    exists el. do 2 (split; [done|]). intros v (m & -> & Hm)%list_elem_of_fmap.
    destruct (Hg m Hm) as [-> _]. apply Hc, list_elem_of_fmap_2, Hm.
Qed.

Lemma conta_snoc el el' ps : conta el (ps ++ [Some el']) = conta el ps + if bool_decide (el' = el) then 1 else 0.
Proof.
  unfold conta. rewrite filter_app, length_app. f_equal. rewrite filter_cons, filter_nil.
  case_decide; case_bool_decide; simplify_eq; done.
Qed.

Lemma inv_de_sucesso {A} (ms : list A) (f g : A -> nat * nat * bool) el c n ts ps :
  inv_de (f <$> ms) n ts ps -> el < n -> voo el ts = 0 -> conta el ps < 2 ->
  (forall m, m ∈ ms -> (f m).1.1 = el -> c = (f m).1.2) ->
  (forall m, m ∈ ms -> g m = if Nat.eqb (f m).1.1 el then ((f m).1.1, S c, (f m).2) else f m) ->
  inv_de (g <$> ms) n ts (ps ++ [Some el]).
Proof.
  intros (H1 & H2 & H3 & H4 & H5 & H6) Hn H0 Hc Hf Hg. rewrite length_fmap in H1.
  assert (Hfm : forall m, m ∈ ms -> (f m) ∈ f <$> ms) by (intros; by apply list_elem_of_fmap_2).
  split; [by rewrite length_fmap|].
  split; [intros v (m & -> & Hm)%list_elem_of_fmap; rewrite (Hg m Hm); case_match; cbn; by apply (H2 (f m)), Hfm|].
  split; [intros el' Hel'; rewrite conta_snoc, bool_decide_false by lia; rewrite Nat.add_0_r; auto|].
  split; [intros el'; rewrite conta_snoc; specialize (H4 el'); case_bool_decide; subst; lia|].
  split.
  - intros v (m & -> & Hm)%list_elem_of_fmap. rewrite (Hg m Hm), conta_snoc.
    destruct (H5 (f m) (Hfm m Hm)) as [Hc' Ht]. destruct (Nat.eqb_spec (f m).1.1 el) as [He|He]; cbn.
    + rewrite bool_decide_true by done. rewrite He. split; [|by rewrite H0].
      rewrite (Hf m Hm He), Hc', He. lia.
    + rewrite bool_decide_false by done. rewrite Nat.add_0_r. auto.
  - intros k Hk. pose proof (H6 k Hk) as Hk'. destruct k; try done. destruct Hk' as (el' & -> & -> & Hc').
    exists el'. do 2 (split; [done|]). intros v (m & -> & Hm)%list_elem_of_fmap. rewrite (Hg m Hm).
    destruct (Nat.eqb_spec (f m).1.1 el) as [He|He]; cbn.
    + intros <-. exfalso. by apply (voo_pos (f m).1.1 _ ts Hk); [rewrite He|rewrite He].
    + intros Hel. apply Hc'; [by apply Hfm|done].
Qed.

(** While the answer of a roll of [el] runs, no other roll of [el] is in flight. *)
Definition livre (el : nat) (s : estado) : Prop := inv s /\ voo el (filter eh (pt_tarefas s)) = 0.

Lemma livre_marcas el s s' : marcas s' = marcas s -> livre el s -> livre el s'.
Proof.
  intros Hm [Hi H0]. split; [by eapply pt_inv_marcas|]. unfold marcas in Hm. injection Hm as _ _ Ht _.
  by rewrite Ht.
Qed.

Lemma marcas_desabilitar el b v s :
  marcas (desabilitar (el, b) v s) =
  ((fun m => vis (if Nat.eqb (m_el m) el then mod_botao b v m else m)) <$> pt_modais s,
   pt_next s, filter eh (pt_tarefas s), pt_passadas s).
Proof. destruct s. unfold marcas, desabilitar, mudar. cbn. by rewrite <- list_fmap_compose. Qed.

Lemma livre_travar el el' s : livre el s -> livre el (desabilitar (el', BPassada) true s).
Proof.
  intros [Hi H0]. split; [|by destruct s]. unfold inv. rewrite marcas_desabilitar.
  unfold inv, marcas in Hi. revert Hi. apply inv_de_fmap. intros m _. unfold vis.
  case_match; cbn; [|done]. split; [done|]. by rewrite travado_passada.
Qed.

Lemma inv_fim el s : livre el s -> inv (fim_passada (el, BPassada) (Some el) s).
Proof.
  intros [Hi H0]. unfold fim_passada. case_match; [|done]. unfold inv. rewrite marcas_desabilitar.
  unfold inv, marcas in Hi. revert Hi. apply inv_de_fmap. intros m _. unfold vis.
  destruct (Nat.eqb_spec (m_el m) el) as [He|]; cbn; [|done]. rewrite He. split; [done|]. by intros _ [].
Qed.

Lemma marcas_renderizar d s s' : renderizarResultadoPassada d s = Some s' -> marcas s' = marcas s.
Proof. unfold renderizarResultadoPassada. repeat case_match; intros; simplify_eq; marcas_ok. Qed.

Lemma livre_sucesso el c s :
  livre el s -> conta el (pt_passadas s) < 2 -> el < pt_next s ->
  (forall m, m ∈ pt_modais s -> m_el m = el -> c = m_passadaCount m) ->
  livre el (set_passadas (mudar el (fun m => mod_contagem m (S c)) s) (pt_passadas s ++ [Some el])).
Proof.
  intros [Hi H0] Hc Hn Hm. split; [|by destruct s].
  destruct s. unfold inv, marcas, mudar, set_passadas, set_modais in *. cbn in *.
  rewrite <- list_fmap_compose. eapply inv_de_sucesso; [exact Hi|done|done|done| |].
  - intros m Hm' He. by apply Hm.
  - intros m _. unfold vis. cbn. by destruct (Nat.eqb (m_el m) el).
Qed.

Lemma inv_apos_passada e d el c r s :
  livre el s -> conta el (pt_passadas s) < 2 -> el < pt_next s ->
  (forall m, m ∈ pt_modais s -> m_el m = el -> c = m_passadaCount m) ->
  inv (apos_passada e d (el, BPassada) (Some el) c r s).
Proof.
  intros Hl Hc Hn Hm. unfold apos_passada. apply inv_fim. cbv zeta beta.
  destruct r as [|ok [resp|]]; [eapply livre_marcas; [marcas_ok|done]| |eapply livre_marcas; [marcas_ok|done]].
  destruct (jget resp "sucesso") as [suc|]; [|eapply livre_marcas; [marcas_ok|done]].
  destruct (truthy suc); [|eapply livre_marcas; [marcas_ok|done]].
  pose proof (livre_sucesso el c s Hl Hc Hn Hm) as H1.
  assert (E : pt_passadas (mudar el (fun m => mod_contagem m (S c)) s) = pt_passadas s) by (by destruct s).
  rewrite E.
  set (s1 := set_passadas (mudar el (fun m => mod_contagem m (S c)) s) (pt_passadas s ++ [Some el])) in *.
  assert (H2 : livre el (match List.find com_passada (pt_modais s1) with
                         | Some m => mudar (m_el m) (escrever (TContagem (S c))) s1
                         | None => s1 end))
    by (case_match; [eapply livre_marcas; [marcas_ok|done]|done]).
  set (s2 := match List.find com_passada (pt_modais s1) with
             | Some m => mudar (m_el m) (escrever (TContagem (S c))) s1 | None => s1 end) in *.
  assert (H3 : livre el (if Nat.leb 2 (S c) then desabilitar (el, BPassada) true s2 else s2))
    by (case_match; [by apply livre_travar|done]).
  set (s3 := if Nat.leb 2 (S c) then desabilitar (el, BPassada) true s2 else s2) in *.
  destruct (renderizarResultadoPassada resp _) eqn:Er.
  - destruct d as [[[a b] ?] ?]. eapply livre_marcas; [|exact H3].
    rewrite marcas_carregarVida, (marcas_renderizar _ _ _ Er). marcas_ok.
  - eapply livre_marcas; [marcas_ok|exact H3].
Qed.

Lemma filter_delete ts i k : ts !! i = Some k -> filter eh ts ≡ₚ filter eh (k :: delete i ts).
Proof. intros H. apply filter_Permutation, delete_Permutation, H. Qed.

Lemma inv_tirar s i k : inv s -> pt_tarefas s !! i = Some k -> eh_passada k = false ->
  inv (set_tarefas s (delete i (pt_tarefas s))).
Proof.
  destruct s. unfold inv, marcas, set_tarefas. cbn. intros Hi Hk He.
  eapply inv_de_perm; [|exact Hi]. rewrite (filter_delete _ _ _ Hk), filter_cons_False; [done|].
  unfold eh. by rewrite He.
Qed.

Lemma inv_tirar_passada s i e d btn o c : inv s -> pt_tarefas s !! i = Some (TkPassada e d btn o c) ->
  let s' := set_tarefas s (delete i (pt_tarefas s)) in
  exists el, o = Some el /\ btn = (el, BPassada) /\ livre el s' /\ conta el (pt_passadas s') < 2 /\
    el < pt_next s' /\ forall m, m ∈ pt_modais s' -> m_el m = el -> c = m_passadaCount m.
Proof.
  destruct s as [ms n ts ps0 tt rr ps]. unfold inv, marcas, set_tarefas, livre. cbn. intros Hi Hk.
  cbn. apply (inv_de_perm _ _ _ (TkPassada e d btn o c :: filter eh (delete i ts))) in Hi;
    [|rewrite (filter_delete _ _ _ Hk), filter_cons_True; done].
  pose proof Hi as (H1 & H2 & H3 & H4 & H5 & H6).
  destruct (H6 (TkPassada e d btn o c)) as (el & -> & -> & Hc); [by left|].
  assert (Hv := H4 el). rewrite voo_cons, bool_decide_true in Hv by done.
  exists el. do 2 (split; [done|]). split; [split; [by eapply inv_de_tail|unfold voo in Hv; lia]|].
  split; [unfold voo, conta in *; lia|]. split.
  - destruct (decide (n <= el)) as [Hle|]; [|lia]. destruct (H3 el Hle) as [_ Hvo].
    rewrite voo_cons, bool_decide_true in Hvo by done. lia.
  - intros m Hm <-. apply (Hc (vis m)); [by apply list_elem_of_fmap_2|done].
Qed.

Lemma inv_apos_resultado e ok er b r s : inv s -> inv (apos_resultado e ok er b r s).
Proof.
  intros Hi. unfold apos_resultado. cbv zeta beta.
  repeat case_match; subst;
    try solve [eapply pt_inv_marcas; [|exact Hi]; unfold desabilitar; cbn [fst snd]; marcas_ok].
  unfold ocultar in *. case_match; simplify_eq.
  eapply pt_inv_marcas; [marcas_ok|]. by apply inv_remover.
Qed.

Lemma inv_responder i r s : inv s -> inv (responder i r s).
Proof.
  intros Hi. unfold responder. destruct (pt_tarefas s !! i) as [k|] eqn:Hk; [|done].
  destruct k as [e n1 n2|el e a b|e d btn o c|e el k|e|e t b].
  5: { apply inv_apos_resultado. by eapply inv_tirar. }
  4: { apply inv_apos_resultado. by eapply inv_tirar. }
  3: { destruct (inv_tirar_passada _ _ _ _ _ _ _ Hi Hk) as (el & -> & -> & ?& ?& ?& ?).
       by apply inv_apos_passada. }
  all: eapply pt_inv_marcas; [|by eapply inv_tirar].
  - apply marcas_apos_pilotos.
  - apply marcas_apos_vida.
  - apply marcas_apos_recarregar.
Qed.

Lemma inv_abrir e p s : inv s -> pt_modais s = [] -> inv (abrirModalPartida e p s).
Proof.
  intros Hi Hv. unfold abrirModalPartida. case_match; [done|].
  destruct s. cbn in *. subst. unfold inv, marcas, esperar, set_modais, set_tarefas in *. cbn in *.
  rewrite filter_app, filter_cons_False, filter_nil, app_nil_r by done. by apply inv_de_abrir.
Qed.

Lemma inv_step s e : inv s -> inv (step s e).
Proof.
  intros Hi. destruct e as [e p|el|el k|el|el|i r]; cbn.
  - destruct (pt_modais s) eqn:Hv; [|done]. unfold abrirModalPartidaBatalha.
    repeat case_match; try done. by apply inv_abrir.
  - case_match; [by apply inv_clicar|done].
  - repeat case_match; try done. eapply pt_inv_marcas; [apply marcas_reportar|done].
  - repeat case_match; try done. eapply pt_inv_marcas; [apply marcas_desfazer|done].
  - by apply inv_remover.
  - by apply inv_responder.
Qed.

Lemma inv_run s evs : inv s -> inv (run s evs).
Proof. revert s. induction evs as [|e evs IH]; intros s Hs; [done|]. apply IH, inv_step, Hs. Qed.

Lemma pt_inv_inicial : inv inicial.
Proof.
  unfold inv, marcas, inicial. cbn. split; [cbn; lia|].
  split; [intros v Hv; by apply not_elem_of_nil in Hv|].
  split; [done|]. split; [intros; cbn; lia|].
  split; [intros v Hv; by apply not_elem_of_nil in Hv|].
  intros k Hk. by apply not_elem_of_nil in Hk.
Qed.

Lemma voo_filter el ts : voo el (filter eh ts) = voo el ts.
Proof.
  induction ts as [|k ts IH]; [done|]. rewrite filter_cons. case_decide as Hk.
  - by rewrite !voo_cons, IH.
  - rewrite voo_cons, IH, bool_decide_false; [done|]. destruct k; cbn; try done; by destruct Hk.
Qed.

(** C21: in every run of the page, whatever the clicks, closings and
    answers, the rolls of one match modal that the server executed,
    with the one in flight, are at most two, and at most one is in
    flight at a time. *)
Theorem no_maximo_duas_passadas evs el :
  let s := run inicial evs in
  conta el (pt_passadas s) + voo el (pt_tarefas s) <= 2 /\ voo el (pt_tarefas s) <= 1.
Proof.
  intros s. pose proof (inv_run inicial evs pt_inv_inicial) as Hi. fold s in Hi.
  unfold inv, marcas in Hi. destruct Hi as (_ & _ & _ & H4 & _). destruct (H4 el) as [Ha Hb].
  rewrite <- voo_filter. lia.
Qed.

(** C23: the answer of a report that succeeded hides the first match
    modal of the document and waits for the bracket to reload; when the
    user already closed the modal, [.hide()] throws on [null] and the
    page shows "Erro ao registrar" although the server recorded the
    winner, and the bracket is not reloaded. *)
Theorem reportar_sucesso s i e el k ok d suc :
  pt_tarefas s !! i = Some (TkReportar e el k) -> jget d "sucesso" = Some suc -> truthy suc = true ->
  let s' := responder i (FResp ok (Some d)) s in
  match pt_modais s with
  | [] => pt_toasts s' = pt_toasts s ++ [(TError, "Erro ao registrar")] /\
          pt_tarefas s' = delete i (pt_tarefas s)
  | m :: ms => pt_modais s' = List.filter (fun m' => negb (Nat.eqb (m_el m') (m_el m))) (m :: ms) /\
               pt_tarefas s' = delete i (pt_tarefas s) ++ [TkRecarregar e (TSuccess, "Vencedor registrado!") (Some (el, k))] /\
               pt_toasts s' = pt_toasts s
  end.
Proof.
  intros Hk Hs Ht. unfold responder. rewrite Hk. unfold apos_resultado. cbv zeta beta. rewrite Hs, Ht.
  unfold ocultar, primeiro. destruct s as [[|m ms] n ts ps tt rr pp]; cbn.
  - unfold desabilitar, mudar. by cbn.
  - by rewrite Nat.eqb_refl.
Qed.

(** ** Concrete runs *)

Definition eqp (n : string) (id : Q) (p : string) : jv :=
  obj [("equipe_nome", JStr n); ("equipe_id", JNum id); ("piloto_nome", JStr p)].
Definition resp_pilotos : fetch_result :=
  FResp true (Some (obj [("sucesso", JBool true);
    ("equipes", JArr [eqp "Alfa" 11 "Ana"; eqp "Beta" 12 "Bia"; eqp "Gama" 13 "Gil"; eqp "Delta" 14 "Dan"])])).
Definition jogador (id : Q) (n : string) : jv := obj [("id", JNum id); ("name", JStr n)].
Definition partidaA : jv := obj [("match_id", JNum 1); ("player1", jogador 101 "Alfa"); ("player2", jogador 102 "Beta")].
Definition partidaB : jv := obj [("match_id", JNum 2); ("player1", jogador 103 "Gama"); ("player2", jogador 104 "Delta")].
Definition resp_ok : fetch_result := FResp true (Some (obj [("sucesso", JBool true)])).

(** The pilots' answer writes into [document.getElementById('modalPartidaBatalha')]:
    the first modal keeps its place, names and count. *)
Lemma primeiro_mudar m f s :
  primeiro s = Some m -> m_el (f m) = m_el m -> primeiro (mudar (m_el m) f s) = Some (f m).
Proof.
  unfold primeiro, mudar, set_modais. destruct (pt_modais s) as [|m' ms]; [done|].
  intros [= ->] _. cbn. by rewrite Nat.eqb_refl.
Qed.

Lemma dados_carregarVida etapaId a b s :
  dados_de (primeiro (carregarVidaPecasModal etapaId a b s)) = dados_de (primeiro s).
Proof.
  unfold carregarVidaPecasModal. destruct (primeiro s) as [m|] eqn:E; [|by rewrite E].
  destruct (negb _ && negb _); [by rewrite (primeiro_mudar m _ s E)|].
  unfold esperar, set_tarefas, primeiro in *. cbn [pt_modais]. by rewrite E.
Qed.

(** C22: the answer of the pilots' request of a match, whenever it
    arrives, writes the team ids it finds for that match's names into
    the first modal of the page: a roll clicked there then posts the
    ids of those teams with the names of the match the modal shows,
    whatever match the modal was opened for. *)
Theorem pilotos_de_outra_partida etapaId nome1 nome2 ok data suc es e1 e2 m s :
  jget data "sucesso" = Some suc -> truthy suc = true -> jget_opt data "equipes" = JArr es ->
  find_js (casa nome1) es = Some e1 -> find_js (casa nome2) es = Some e2 -> primeiro s = Some m ->
  let eid e := js_String (js_or (jget_opt (default JUndef e) "equipe_id") (JStr "")) in
  dados_de (primeiro (apos_pilotos etapaId nome1 nome2 (FResp ok (Some data)) s)) =
    (eid e1, eid e2, m_eq1Nome m, m_eq2Nome m).
Proof.
  intros Hs Ht He H1 H2 Hm eid. unfold apos_pilotos. rewrite Hs, He, Ht, H1, H2. cbn [negb].
  rewrite Hm, (primeiro_mudar m _ s Hm) by done. cbv beta iota.
  rewrite dados_carregarVida.
  match goal with |- context [primeiro (mudar _ ?g (mudar _ ?f s))] =>
    rewrite (primeiro_mudar _ g _ (primeiro_mudar m f s Hm eq_refl)) by done end.
  done.
Qed.

(** The match of Alfa and Beta opened and closed before its pilots
    arrive, then the match of Gama and Delta opened, with its pilots. *)
Definition pilotos_tardios : estado :=
  run inicial [EvAbrir (JStr "7") partidaA; EvFechar 0; EvAbrir (JStr "7") partidaB; EvResposta 1 resp_pilotos].

Lemma pilotos_de_outra_partida_witness :
  match primeiro pilotos_tardios with
  | Some m =>
      m_eq1Nome m = "Gama" /\ m_eq2Nome m = "Delta" /\
      dados_de (primeiro (apos_pilotos (JStr "7") (JStr "Alfa") (JStr "Beta") resp_pilotos pilotos_tardios)) =
        ("11", "12", m_eq1Nome m, m_eq2Nome m)
  | None => False
  end.
Proof.
  destruct (primeiro pilotos_tardios) as [m|] eqn:E; [|vm_compute in E; discriminate E].
  split; [vm_compute in E; injection E as <-; reflexivity|].
  split; [vm_compute in E; injection E as <-; reflexivity|].
  unfold resp_pilotos.
  erewrite (pilotos_de_outra_partida (JStr "7") (JStr "Alfa") (JStr "Beta") true _ (JBool true));
    [|reflexivity|reflexivity|reflexivity|vm_compute; reflexivity|vm_compute; reflexivity|exact E].
  reflexivity.
Defined.

(** Closing the modal and opening the same match again starts a new
    count: four rolls are executed for one match. *)
Example reabrir_quatro_passadas :
  let s := run inicial [EvAbrir (JStr "7") partidaA; EvPassada 0; EvResposta 1 resp_ok;
                        EvPassada 0; EvResposta 1 resp_ok; EvPassada 0; EvFechar 0;
                        EvAbrir (JStr "7") partidaA; EvPassada 1; EvResposta 2 resp_ok;
                        EvPassada 1; EvResposta 2 resp_ok] in
  pt_passadas s = [Some 0; Some 0; Some 1; Some 1] /\
  (fun p => p.1.2) <$> pt_posts s = ["executar-passada"; "executar-passada"; "executar-passada"; "executar-passada"].
Proof. vm_compute. split; reflexivity. Qed.

(** The report of match 1 is sent, then the modal is closed. *)
Definition relatorio_pendente : estado := run inicial [EvAbrir (JStr "7") partidaA; EvVence 0 0; EvFechar 0].

Lemma reportar_sucesso_witness :
  pt_tarefas relatorio_pendente !! 1 = Some (TkReportar (JStr "7") 0 0) /\
  pt_toasts (responder 1 resp_ok relatorio_pendente) = pt_toasts relatorio_pendente ++ [(TError, "Erro ao registrar")] /\
  pt_tarefas (responder 1 resp_ok relatorio_pendente) = delete 1 (pt_tarefas relatorio_pendente).
Proof.
  assert (Hk : pt_tarefas relatorio_pendente !! 1 = Some (TkReportar (JStr "7") 0 0)) by (vm_compute; reflexivity).
  split; [exact Hk|].
  exact (reportar_sucesso relatorio_pendente 1 (JStr "7") 0 0 true (obj [("sucesso", JBool true)]) (JBool true)
           Hk eq_refl eq_refl).
Defined.

End Partida.
