(* ===== verification/CarPanel.v ===== *)
(** * The pieces panel of a car ([gerarHtmlPecas], [recuperarPecaVida])

    [gerarHtmlPecas(carro)] (src/static/script.js 1834-1973) builds the
    list of a car's pieces in the garage: the pieces are first put in an
    object by lower-cased type ([mapaPecas]: the differentials in an
    array, any other type keeps the last piece), then the five slots
    are shown in a fixed order, a piece with its life percentage, its
    colour and the "retífica" button, or "Sem ..." when the slot is
    empty. The button calls [recuperarPecaVida(pecaId, custoRetifica)]
    (4876-4901) with the cost computed here.

    The HTML is modelled by the list of entries it shows, in order; a
    [None] is an exception thrown while building it. *)
From S2P Require Import Prelude Js ShopCart Page.
Set Warnings "-register-all".
Local Close Scope Q_scope.

Module PainelPecas.

(** The badge colours [percentual > 75 ? 'success' : percentual > 50 ?
    'warning' : 'danger'] (the last two branches are both [danger]). *)
Inductive cor := Success | Warning | Danger.

#[export] Instance cor_eq_dec : EqDecision cor.
Proof. solve_decision. Defined.

(** A piece shown in slot [it_tipo]. [it_retifica] is the cost passed to
    the "retífica" button, when the button is shown. *)
Record item := mk_item {
  it_tipo : string;
  it_peca : jv;
  it_percentual : Q;
  it_cor : cor;
  it_retifica : option Q;
  it_upgrades : list jv       (** [peca.upgrades.map(u => u.nome)] *)
}.

Inductive entrada :=
| EPeca (i : item)
| ESem (tipo : string).       (** "⚠️ Sem ..." *)

Definition entrada_tipo (e : entrada) : string :=
  match e with EPeca i => it_tipo i | ESem t => t end.

(** [const ordemPecas = ['motor', 'cambio', 'suspensao', 'kit_angulo', 'diferencial']] *)
Definition ordemPecas : list string := ["motor"; "cambio"; "suspensao"; "kit_angulo"; "diferencial"].

(** [x < y] on numbers. *)
Definition qlt (x y : Q) : bool := negb (Qle_bool y x).

(** [durabilidadeAtual(peca)] (lines 1839-1845): a number is kept, any
    other value goes through [Number], and [NaN] gives 100. *)
Definition durabilidadeAtual (peca : jv) : option Q :=
  v ← jget peca "durabilidade_atual";
  match v with
  | JNum q => Some q
  | _ => Some (default 100%Q (js_Number v))
  end.

(** [mapaPecas]: the differentials in order, and the other types. *)
Record mapa := mk_mapa {
  mp_dif : list jv;
  mp : gmap string jv
}.

(** [(peca.tipo || '').toLowerCase()]: [.toLowerCase] throws on a
    type that is not a string. *)
Definition tipo_de (peca : jv) : option string :=
  t ← jget peca "tipo";
  match js_or t (JStr "") with JStr s => Some (minusculas s) | _ => None end.

(** The [forEach] callback of lines 1852-1860. *)
Definition registrar (m : mapa) (peca : jv) : option mapa :=
  tipo ← tipo_de peca;
  Some (if bool_decide (tipo = "diferencial") then mk_mapa (mp_dif m ++ [peca]) (mp m)
        else mk_mapa (mp_dif m) (<[tipo := peca]> (mp m))).

(** [if (carro.pecas && Array.isArray(carro.pecas)) carro.pecas.forEach(...)]. *)
Definition mapaPecas (carro : jv) : option mapa :=
  pecas ← jget carro "pecas";
  match pecas with
  | JArr ps => mfoldl registrar (mk_mapa [] ∅) ps
  | _ => Some (mk_mapa [] ∅)
  end.

(** [peca.upgrades.reduce((s, u) => s + (Number(u.preco) || 0), 0)],
    when [upgrades] is an array; [u.preco] throws on a [null]. *)
Definition somaUpgrades (peca : jv) : option Q :=
  match jget_opt peca "upgrades" with
  | JArr us => mfoldl (fun s u => pr ← jget u "preco"; Some (s + numero_or pr 0)%Q) 0%Q us
  | _ => Some 0%Q
  end.

Definition cor_de (p : Q) : cor :=
  if qlt 75 p then Success else if qlt 50 p then Warning else Danger.

(** A piece shown (lines 1882-1888 and 1928-1934): its percentage of
    [Number(peca.durabilidade_maxima) || 100], the colour, the cost of
    the retífica [((Number(peca.preco_loja) || 0) + somaUpgrades) / 2]
    and its button when the percentage is below 100. *)
Definition item_de (tipo : string) (peca : jv) : option item :=
  d ← durabilidadeAtual peca;
  let mx := numero_or (jget_opt peca "durabilidade_maxima") 100 in
  let pct := if qlt 0 mx then (d / mx * 100)%Q else 0%Q in
  soma ← somaUpgrades peca;
  let custo := ((numero_or (jget_opt peca "preco_loja") 0 + soma) / 2)%Q in
  let ups := match jget_opt peca "upgrades" with
             | JArr us => (fun u => jget_opt u "nome") <$> us
             | _ => []
             end in
  Some (mk_item tipo peca pct (cor_de pct) (if qlt pct 100 then Some custo else None) ups).

(** One slot of [ordemPecas.forEach] (lines 1864-1970): every
    differential, or the piece of the type, or "Sem ...". *)
Definition slot (m : mapa) (tipo : string) : option (list entrada) :=
  if bool_decide (tipo = "diferencial") then
    match mp_dif m with
    | [] => Some [ESem tipo]
    | difs => mapM (fun p => EPeca <$> item_de tipo p) difs
    end
  else
    match mp m !! tipo with
    | Some p => if truthy p then (fun i => [EPeca i]) <$> item_de tipo p else Some [ESem tipo]
    | None => Some [ESem tipo]
    end.

(** [gerarHtmlPecas(carro)]. The fallback of [htmlPecas || ...] is not
    modelled: five slots are always written (theorem [painel_slots]). *)
Definition gerarHtmlPecas (carro : jv) : option (list entrada) :=
  m ← mapaPecas carro;
  ess ← mapM (slot m) ordemPecas;
  Some (concat ess).

(** ** [recuperarPecaVida(pecaId, custoRetifica)]

    What the call does: the requests posted (their [peca_id] body), the
    toasts, and whether the garage is reloaded. [confirma] is the
    user's answer to [confirm(...)], [r] the answer to the POST. *)
Record efeito := mk_efeito {
  ef_posts : list jv;
  ef_toasts : list toast;
  ef_garagem : bool
}.

Definition recuperarPecaVida (pecaId custoRetifica : jv) (confirma : bool) (r : fetch_result) : efeito :=
  let custo := numero_or custoRetifica 0 in
  if Qle_bool custo 0 then mk_efeito [] [(TError, "Custo de retífica não definido")] false else
  if negb confirma then mk_efeito [] [] false else
  let body := obj [("peca_id", pecaId)] in
  let erro := mk_efeito [body] [(TError, "Erro ao fazer retífica")] false in
  match r with
  | FResp ok (Some data) =>
      if ok then
        match jget data "sucesso" with
        | Some suc =>
            if truthy suc then mk_efeito [body] [(TSuccess, "Retífica feita: peça em 100%!")] true
            else mk_efeito [body] [(TError, js_String (js_or (jget_opt data "erro") (JStr "Erro ao fazer retífica")))] false
        | None => erro
        end
      else
        match jget data "erro" with
        | Some e => mk_efeito [body] [(TError, js_String (js_or e (JStr "Erro ao fazer retífica")))] false
        | None => erro
        end
  | _ => erro
  end.

(** The click on the button of an item: [onclick="recuperarPecaVida('${peca.id}', ${custoRetifica})"]. *)
Definition clicar_retifica (i : item) (c : Q) (confirma : bool) (r : fetch_result) : efeito :=
  recuperarPecaVida (JStr (js_String (jget_opt (it_peca i) "id"))) (JNum c) confirma r.

(** ** The object [mapaPecas] against a reference

    The loop over the pieces is equivalent to reading the list
    directly: the differentials are the pieces of that type in order,
    and any other slot holds the last piece of its type. *)

Definition de_tipo (t : string) (p : jv) : Prop := tipo_de p = Some t.

#[export] Instance de_tipo_dec t p : Decision (de_tipo t p).
Proof. unfold de_tipo. apply _. Defined.

Lemma registrar_ref ps m :
  mfoldl registrar (mk_mapa [] ∅) ps = Some m ->
  mp_dif m = filter (de_tipo "diferencial") ps /\
  forall t, t <> "diferencial" -> mp m !! t = last (filter (de_tipo t) ps).
Proof.
  revert m. induction ps as [|p ps IH] using rev_ind; intros m H.
  - injection H as <-. split; [done|]. intros t _. cbn. by rewrite lookup_empty.
  - rewrite mfoldl_app in H. destruct (mfoldl registrar _ ps) as [m0|] eqn:E; [|done]. cbn in H.
    destruct (IH m0 eq_refl) as [H1 H2]. unfold registrar in H.
    destruct (tipo_de p) as [tp|] eqn:Et; [|done]. cbn in H. injection H as <-.
    rewrite !filter_app. case_bool_decide as Hd; cbn [mp_dif mp]; split.
    + rewrite H1, filter_cons_True, filter_nil; [done|]. by subst.
    + intros t Ht. rewrite filter_app, filter_cons_False, filter_nil, app_nil_r; [by apply H2|].
      unfold de_tipo. rewrite Et. intros [= ->]. by subst.
    + rewrite H1, filter_cons_False, filter_nil, app_nil_r; [done|]. unfold de_tipo. by rewrite Et; intros [= ?].
    + intros t Ht. rewrite filter_app. destruct (decide (tp = t)) as [<-|Hne].
      * rewrite lookup_insert_eq, filter_cons_True, filter_nil, last_snoc; [done|]. by unfold de_tipo.
      * rewrite lookup_insert_ne by done. rewrite filter_cons_False, filter_nil, app_nil_r; [by apply H2|].
        unfold de_tipo. rewrite Et. by intros [= ?].
Qed.

(** C25: [mapaPecas] is the reference reading of the car's pieces: the
    differentials in their order, and for every other type the last
    piece of that type (a second motor hides the first one). *)
Theorem mapa_referencia carro ps m :
  jget carro "pecas" = Some (JArr ps) -> mapaPecas carro = Some m ->
  mp_dif m = filter (de_tipo "diferencial") ps /\
  forall t, t <> "diferencial" -> mp m !! t = last (filter (de_tipo t) ps).
Proof. intros Hp. unfold mapaPecas. rewrite Hp. cbn. apply registrar_ref. Qed.

(** ** The slots shown *)

Lemma item_de_tipo t p i : item_de t p = Some i -> it_tipo i = t.
Proof.
  unfold item_de. destruct (durabilidadeAtual p); cbn; [|done].
  destruct (somaUpgrades p); cbn; [|done]. by intros [= <-].
Qed.

Lemma mapM_item_tipos t l es :
  mapM (fun p => EPeca <$> item_de t p) l = Some es -> entrada_tipo <$> es = replicate (length l) t.
Proof.
  intros H. apply mapM_Some_1 in H. induction H as [|p e l es He _ IH]; [done|].
  cbn. rewrite IH. destruct (item_de t p) as [i|] eqn:Ei; [|done]. injection He as <-.
  cbn. by rewrite (item_de_tipo _ _ _ Ei).
Qed.

Lemma slot_tipos m t es :
  slot m t = Some es ->
  entrada_tipo <$> es = if bool_decide (t = "diferencial") then replicate (Nat.max 1 (length (mp_dif m))) t else [t].
Proof.
  unfold slot. case_bool_decide as Hd.
  - destruct (mp_dif m) as [|p ps] eqn:Em; [by intros [= <-]|].
    intros H. by rewrite (mapM_item_tipos _ _ _ H).
  - destruct (mp m !! t) as [p|]; [|by intros [= <-]].
    destruct (truthy p); [|by intros [= <-]].
    destruct (item_de t p) as [i|] eqn:Ei; [|done]. intros [= <-]. cbn. by rewrite (item_de_tipo _ _ _ Ei).
Qed.

(** C24: the panel always shows the five slots in the order of
    [ordemPecas], each type once except the differential, shown once
    per differential piece and once when there is none. *)
Theorem painel_slots carro es :
  gerarHtmlPecas carro = Some es ->
  exists m, mapaPecas carro = Some m /\
    entrada_tipo <$> es = ["motor"; "cambio"; "suspensao"; "kit_angulo"] ++
                          replicate (Nat.max 1 (length (mp_dif m))) "diferencial".
Proof.
  unfold gerarHtmlPecas. intros H. destruct (mapaPecas carro) as [m|]; [|discriminate H].
  change (mapM (slot m) ordemPecas ≫= (fun ess => Some (concat ess)) = Some es) in H.
  exists m. split; [done|].
  destruct (mapM (slot m) ordemPecas) as [ess|] eqn:E; [|discriminate H]. injection H as <-.
  apply mapM_Some_1 in E. unfold ordemPecas in E.
  inversion E as [|? e1 ? r1 H1 E1]; subst. inversion E1 as [|? e2 ? r2 H2 E2]; subst.
  inversion E2 as [|? e3 ? r3 H3 E3]; subst. inversion E3 as [|? e4 ? r4 H4 E4]; subst.
  inversion E4 as [|? e5 ? r5 H5 E5]; subst. inversion E5; subst.
  apply slot_tipos in H1, H2, H3, H4, H5. cbn in *.
  rewrite !fmap_app, H1, H2, H3, H4, H5. by rewrite app_nil_r.
Qed.

(** ** The retífica button *)

Lemma item_de_spec t p i :
  item_de t p = Some i ->
  exists d soma, durabilidadeAtual p = Some d /\ somaUpgrades p = Some soma /\
    it_retifica i = (if qlt (it_percentual i) 100
                     then Some ((numero_or (jget_opt p "preco_loja") 0 + soma) / 2)%Q else None).
Proof.
  unfold item_de. destruct (durabilidadeAtual p) as [d|]; cbn; [|done].
  destruct (somaUpgrades p) as [soma|]; cbn; [|done]. intros [= <-]. by exists d, soma.
Qed.

Lemma numero_or_nao_positivo c : (c <= 0)%Q -> Qle_bool (numero_or (JNum c) 0) 0 = true.
Proof.
  intros Hc. unfold numero_or. cbn. apply Qle_bool_iff.
  destruct (Qeq_bool c 0); [apply Qle_refl|exact Hc].
Qed.

(** C26: a piece below 100% whose store price and upgrades add up to
    nothing (no [preco_loja], or [0]) is offered the retífica button,
    with the cost [(preco_loja + somaUpgrades) / 2] printed into its
    [onclick], and the click only shows "Custo de retífica não
    definido": no request is sent, whatever the user answers. *)
Theorem retifica_sem_custo t p i soma conf r :
  item_de t p = Some i -> somaUpgrades p = Some soma -> qlt (it_percentual i) 100 = true ->
  (numero_or (jget_opt p "preco_loja") 0 + soma <= 0)%Q ->
  let c := ((numero_or (jget_opt p "preco_loja") 0 + soma) / 2)%Q in
  it_retifica i = Some c /\
  clicar_retifica i c conf r = mk_efeito [] [(TError, "Custo de retífica não definido")] false.
Proof.
  intros Hi Hs Hq Hle c. destruct (item_de_spec _ _ _ Hi) as (d & soma' & _ & Hs' & Hr).
  rewrite Hs in Hs'. injection Hs' as <-. rewrite Hq in Hr. split; [done|].
  unfold clicar_retifica, recuperarPecaVida. rewrite numero_or_nao_positivo; [done|].
  apply Qle_shift_div_r; [done|]. lra.
Qed.

(** ** Cars of the garage, evaluated *)

Definition pc (id tipo : string) (d : jv) (pl : Q) : jv :=
  obj [("id", JStr id); ("tipo", JStr tipo); ("durabilidade_atual", d);
       ("durabilidade_maxima", JNum 100); ("preco_loja", JNum pl)].

(** A car with two motors (the first one at 80%, the second one with
    its life [null] and no price) and two differentials, one with a
    life that is not a number. *)
Definition carro_exemplo : jv :=
  obj [("pecas", JArr [pc "m1" "Motor" (JNum 80) 300; pc "m2" "motor" JNull 0;
                       pc "d1" "diferencial" (JStr "abc") 200; pc "d2" "Diferencial" (JNum 40) 200])].

Definition pecas_exemplo : list jv :=
  [pc "m1" "Motor" (JNum 80) 300; pc "m2" "motor" JNull 0;
   pc "d1" "diferencial" (JStr "abc") 200; pc "d2" "Diferencial" (JNum 40) 200].

Lemma mapa_referencia_witness :
  exists m, jget carro_exemplo "pecas" = Some (JArr pecas_exemplo) /\ mapaPecas carro_exemplo = Some m /\
    (mp_dif m = filter (de_tipo "diferencial") pecas_exemplo /\
     forall t, t <> "diferencial" -> mp m !! t = last (filter (de_tipo t) pecas_exemplo)).
Proof.
  destruct (mapaPecas carro_exemplo) as [m|] eqn:E; [|discriminate E].
  exists m. assert (Hp : jget carro_exemplo "pecas" = Some (JArr pecas_exemplo)) by reflexivity.
  split; [exact Hp|]. split; [reflexivity|]. exact (mapa_referencia carro_exemplo pecas_exemplo m Hp E).
Defined.

Lemma painel_slots_witness :
  exists es, gerarHtmlPecas carro_exemplo = Some es /\
    exists m, mapaPecas carro_exemplo = Some m /\
      entrada_tipo <$> es = ["motor"; "cambio"; "suspensao"; "kit_angulo"] ++
                            replicate (Nat.max 1 (length (mp_dif m))) "diferencial".
Proof.
  destruct (gerarHtmlPecas carro_exemplo) as [es|] eqn:E; [|discriminate E].
  exists es. split; [reflexivity|]. exact (painel_slots carro_exemplo es E).
Defined.

Definition item_exemplo : item :=
  mk_item "motor" (pc "m2" "motor" JNull 0) (0#100)%Q Danger (Some (0#2)%Q) [].

Lemma retifica_sem_custo_witness :
  item_de "motor" (pc "m2" "motor" JNull 0) = Some item_exemplo /\
  somaUpgrades (pc "m2" "motor" JNull 0) = Some 0%Q /\ qlt (it_percentual item_exemplo) 100 = true /\
  (numero_or (jget_opt (pc "m2" "motor" JNull 0) "preco_loja") 0 + 0 <= 0)%Q /\
  let c := ((numero_or (jget_opt (pc "m2" "motor" JNull 0) "preco_loja") 0 + 0) / 2)%Q in
  it_retifica item_exemplo = Some c /\
  clicar_retifica item_exemplo c true (FResp true (Some (obj [("sucesso", JBool true)]))) =
    mk_efeito [] [(TError, "Custo de retífica não definido")] false.
Proof.
  assert (H1 : item_de "motor" (pc "m2" "motor" JNull 0) = Some item_exemplo) by (vm_compute; reflexivity).
  assert (H2 : somaUpgrades (pc "m2" "motor" JNull 0) = Some 0%Q) by reflexivity.
  assert (H3 : qlt (it_percentual item_exemplo) 100 = true) by (vm_compute; reflexivity).
  assert (H4 : (numero_or (jget_opt (pc "m2" "motor" JNull 0) "preco_loja") 0 + 0 <= 0)%Q) by (vm_compute; discriminate).
  split; [exact H1|]. split; [exact H2|]. split; [exact H3|]. split; [exact H4|].
  exact (retifica_sem_custo _ _ _ _ _ _ H1 H2 H3 H4).
Defined.

(** The panel of [carro_exemplo]: the second motor hides the first
    one and is shown at 0% (its life is [null], which [Number] reads
    as 0, not the 100 the code's comment promises for a missing life),
    with a retífica of cost 0; the differential with the life "abc"
    is shown at 100%, without a button. *)
Example painel_exemplo :
  fmap (M:=list) (fun e => match e with
                 | EPeca i => (it_tipo i, jget_opt (it_peca i) "id", Qred (it_percentual i), Qred <$> it_retifica i)
                 | ESem t => (t, JUndef, 0%Q, None) end) <$> gerarHtmlPecas carro_exemplo =
  Some [("motor", JStr "m2", 0%Q, Some 0%Q); ("cambio", JUndef, 0%Q, None);
        ("suspensao", JUndef, 0%Q, None); ("kit_angulo", JUndef, 0%Q, None);
        ("diferencial", JStr "d1", 100%Q, None); ("diferencial", JStr "d2", 40%Q, Some 100%Q)].
Proof. vm_compute. reflexivity. Qed.

End PainelPecas.
