(* ===== verification/Qualifying.v ===== *)
(** * The admin lap table of the qualification (qualificacao.js 1405-1806)

    The admin enters each team's three marks ([nota_linha],
    [nota_angulo], [nota_estilo]) in a table drawn by
    [renderizarVoltasAdmin]. The table marks the team whose turn it is
    and the next one. Once the qualification is finalised, the teams are
    sorted by total and then by line mark. [atualizarTabelaVoltasAdmin]
    and [carregarTabelaVoltasAdmin] load the stage and draw the table,
    [salvarNotaEquipeAdmin] posts one mark, and [finalizarQualificacao]
    closes the qualification and sends it to Challonge.

    [Array.prototype.sort] is modelled in the Section [Ordenacao] by an
    insertion sort. For a consistent comparator the ECMAScript standard
    fixes the result: the stable sorted permutation, which is what the
    Section proves of the insertion sort. *)
From stdpp Require Import sorting.
From S2P Require Import Prelude Js ShopCart Page.
Set Warnings "-register-all".
Local Close Scope Q_scope.

(** ** [Array.prototype.sort(cmp)] *)

(** [q > 0] on a comparator's result. *)
Definition positivo (q : Q) : bool := negb (Qle_bool q 0).

(** The lexicographic order on keys (total, line mark). *)
Definition lt_lex (a b : Q * Q) : Prop := (a.1 < b.1 \/ a.1 == b.1 /\ a.2 < b.2)%Q.

Definition igual_chave (a b : Q * Q) : bool := Qeq_bool a.1 b.1 && Qeq_bool a.2 b.2.

(** [a] may stand before [b] in a list sorted by decreasing key. *)
Definition antes {A} (chave : A -> Q * Q) (a b : A) : Prop := ~ lt_lex (chave a) (chave b).

(** The elements whose key is [k], in their order. *)
Definition filtro {A} (chave : A -> Q * Q) (k : Q * Q) (l : list A) : list A :=
  List.filter (fun y => igual_chave (chave y) k) l.

Section Ordenacao.
Context {A : Type} (cmp : A -> A -> Q).

(** [x] goes after every [y] already sorted unless [cmp(y, x) > 0]. *)
Fixpoint inserir (x : A) (l : list A) : list A :=
  match l with
  | [] => [x]
  | y :: l' => if positivo (cmp y x) then x :: l else y :: inserir x l'
  end.

Definition ordenar (l : list A) : list A := foldl (fun acc x => inserir x acc) [] l.
End Ordenacao.

Lemma lt_lex_trans a b c : lt_lex a b -> lt_lex b c -> lt_lex a c.
Proof. unfold lt_lex. lra. Qed.

Lemma lt_lex_asym a b : lt_lex a b -> ~ lt_lex b a.
Proof. unfold lt_lex. lra. Qed.

Lemma lt_lex_igual_r a b c : igual_chave b c = true -> lt_lex a b -> lt_lex a c.
Proof.
  unfold igual_chave, lt_lex. rewrite andb_true_iff, !Qeq_bool_iff. lra.
Qed.

Lemma lt_lex_igual_l a b c : igual_chave a b = true -> lt_lex a c -> lt_lex b c.
Proof.
  unfold igual_chave, lt_lex. rewrite andb_true_iff, !Qeq_bool_iff. lra.
Qed.

Lemma igual_chave_irrefl_lt a b : igual_chave a b = true -> ~ lt_lex a b.
Proof.
  unfold igual_chave, lt_lex. rewrite andb_true_iff, !Qeq_bool_iff. lra.
Qed.

Lemma Qeq_bool_sym x y : Qeq_bool x y = Qeq_bool y x.
Proof.
  destruct (Qeq_bool x y) eqn:E; symmetry.
  - apply Qeq_bool_iff. apply Qeq_bool_iff in E. lra.
  - apply not_true_iff_false. rewrite Qeq_bool_iff. apply Qeq_bool_neq in E. lra.
Qed.

Lemma igual_chave_sym a b : igual_chave a b = igual_chave b a.
Proof. unfold igual_chave. by rewrite (Qeq_bool_sym a.1), (Qeq_bool_sym a.2). Qed.

Lemma filter_nenhum {A} (p : A -> bool) l : (forall z, In z l -> p z = false) -> List.filter p l = [].
Proof.
  induction l as [|z l IH]; intros H; [done|]. cbn. rewrite H by (by left). apply IH. intros; apply H; by right.
Qed.

Lemma filter_cons_bool {A} (p : A -> bool) x l :
  List.filter p (x :: l) = if p x then x :: List.filter p l else List.filter p l.
Proof. done. Qed.

Section Consistente.
Context {A : Type} (cmp : A -> A -> Q) (chave : A -> Q * Q) (P : A -> Prop).
(** The comparator is consistent on the elements that satisfy [P]:
    [cmp(a, b) > 0] exactly when the key of [a] is smaller, so that [b]
    comes first. *)
Hypothesis cmp_chave : forall a b, P a -> P b ->
  positivo (cmp a b) = true <-> lt_lex (chave a) (chave b).

Lemma inserir_perm x l : inserir cmp x l ≡ₚ x :: l.
Proof.
  induction l as [|y l IH]; cbn; [done|].
  destruct (positivo (cmp y x)); [done|]. rewrite IH. apply perm_swap.
Qed.

Lemma foldl_inserir_perm acc l : foldl (fun acc x => inserir cmp x acc) acc l ≡ₚ l ++ acc.
Proof.
  revert acc. induction l as [|x l IH]; intros acc; cbn; [done|].
  rewrite IH, inserir_perm. symmetry. apply Permutation_middle.
Qed.

Lemma inserir_Forall x l : P x -> Forall P l -> Forall P (inserir cmp x l).
Proof. intros. rewrite inserir_perm. by constructor. Qed.

Lemma inserir_sorted x l :
  P x -> Forall P l ->
  StronglySorted (antes chave) l -> StronglySorted (antes chave) (inserir cmp x l).
Proof.
  intros Px. induction l as [|y l IH]; intros HP Hs; cbn; [by repeat constructor|].
  inversion Hs as [|? ? Hl Hy]; subst. inversion HP as [|? ? Py HPl]; subst.
  destruct (positivo (cmp y x)) eqn:E.
  - apply cmp_chave in E; [|done..]. constructor; [done|]. constructor; [by apply lt_lex_asym|].
    eapply Forall_impl; [exact Hy|]. intros z Hz Hxz. apply Hz. by eapply lt_lex_trans.
  - assert (Hn : antes chave y x) by (intros Hlt; apply cmp_chave in Hlt; [congruence|done..]).
    constructor; [by apply IH|]. apply Forall_forall. intros z Hz.
    rewrite inserir_perm in Hz. apply elem_of_cons in Hz as [->|Hz]; [done|].
    rewrite Forall_forall in Hy. by apply Hy.
Qed.

Lemma inserir_filtro k x l :
  P x -> Forall P l -> StronglySorted (antes chave) l ->
  filtro chave k (inserir cmp x l) = filtro chave k l ++ (if igual_chave (chave x) k then [x] else []).
Proof.
  intros Px. unfold filtro.
  induction l as [|y l IH]; intros HP Hs; cbn [inserir]; [cbn; by destruct (igual_chave (chave x) k)|].
  inversion Hs as [|? ? Hl Hy]; subst. inversion HP as [|? ? Py HPl]; subst.
  destruct (positivo (cmp y x)) eqn:E.
  - apply cmp_chave in E; [|done..]. cbv beta iota. rewrite filter_cons_bool.
    destruct (igual_chave (chave x) k) eqn:Ex; [|by rewrite app_nil_r].
    rewrite filter_nenhum; [done|]. intros z Hz. destruct (igual_chave (chave z) k) eqn:Ez; [|done].
    exfalso. assert (Hyk : lt_lex (chave y) k) by (eapply lt_lex_igual_r; [exact Ex|exact E]).
    destruct Hz as [<-|Hz]; [exact (igual_chave_irrefl_lt _ _ Ez Hyk)|].
    rewrite Forall_forall in Hy. apply (Hy z); [by apply list_elem_of_In|].
    eapply lt_lex_igual_r; [|exact Hyk]. by rewrite igual_chave_sym.
  - cbn. rewrite IH by done. by destruct (igual_chave (chave y) k).
Qed.

Lemma foldl_inserir_sorted acc l :
  Forall P acc -> Forall P l -> StronglySorted (antes chave) acc ->
  StronglySorted (antes chave) (foldl (fun acc x => inserir cmp x acc) acc l) /\
  forall k, filtro chave k (foldl (fun acc x => inserir cmp x acc) acc l) = filtro chave k acc ++ filtro chave k l.
Proof.
  revert acc. induction l as [|x l IH]; intros acc HPa HPl Hs; cbn [foldl].
  - split; [done|]. intros k. by rewrite app_nil_r.
  - inversion HPl as [|? ? Px HPl']; subst.
    destruct (IH (inserir cmp x acc)) as [H1 H2]; [by apply inserir_Forall|done|by apply inserir_sorted|].
    split; [done|]. intros k. rewrite H2, inserir_filtro by done. rewrite <-app_assoc.
    unfold filtro at 3. cbn. by destruct (igual_chave (chave x) k).
Qed.

(** [ordenar] meets the contract of [Array.prototype.sort] for a
    consistent comparator: a permutation, sorted, and stable. *)
Lemma ordenar_spec l :
  Forall P l ->
  ordenar cmp l ≡ₚ l /\ StronglySorted (antes chave) (ordenar cmp l) /\
  forall k, filtro chave k (ordenar cmp l) = filtro chave k l.
Proof.
  intros HP. destruct (foldl_inserir_sorted [] l) as [H1 H2]; [constructor|done|constructor|].
  split_and!; [|done|].
  - unfold ordenar. rewrite foldl_inserir_perm. by rewrite app_nil_r.
  - intros k. unfold ordenar. by rewrite H2.
Qed.
End Consistente.

(** ** The table *)

Module VoltasAdmin.

(** [eq.nota_linha || 0], and the same for the two other marks. *)
Definition nota (e : jv) (campo : string) : jv := js_or (jget_opt e campo) (JNum 0).

(** [(a.nota_linha || 0) + (a.nota_angulo || 0) + (a.nota_estilo || 0)]:
    a mark that is a string concatenates. *)
Definition total (e : jv) : prim :=
  js_mais (js_mais (prim_de (nota e "nota_linha")) (prim_de (nota e "nota_angulo")))
          (prim_de (nota e "nota_estilo")).

(** The comparator of lines 1486-1499: [totalB - totalA] when the totals
    differ ([!==]), else [linhaB - linhaA]; [sort] reads [NaN] as [+0]. *)
Definition comparar (a b : jv) : Q :=
  let totalA := total a in
  let totalB := total b in
  if negb (prim_strict_eq totalB totalA) then default 0%Q (js_menos totalB totalA)
  else default 0%Q (js_menos (prim_de (nota b "nota_linha")) (prim_de (nota a "nota_linha"))).

(** [let equipesOrdenadas = [...equipes]], sorted when the
    qualification is finalised. *)
Definition equipesOrdenadas (fin : bool) (es : list jv) : list jv :=
  if fin then ordenar comparar es else es.

(** [parseInt(notaLinha) + parseInt(notaAngulo) + parseInt(notaEstilo)],
    [None] is [NaN]. *)
Definition somaNotas (e : jv) : option Z :=
  l ← parseInt (js_String (nota e "nota_linha"));
  a ← parseInt (js_String (nota e "nota_angulo"));
  s ← parseInt (js_String (nota e "nota_estilo"));
  Some (l + a + s)%Z.

(** The loop of lines 1546-1564 over [equipesOrdenadas]: the first and
    the second row whose [somaCheck === 0], [-1] when there is none;
    the loop breaks at the second. *)
Fixpoint procurar (l : list jv) (i primeiro proximo : Z) : Z * Z :=
  match l with
  | [] => (primeiro, proximo)
  | e :: l' =>
      if bool_decide (somaNotas e = Some 0%Z) then
        if bool_decide (primeiro = -1)%Z then procurar l' (i + 1) i proximo
        else if bool_decide (proximo = -1)%Z then (primeiro, i)
        else procurar l' (i + 1) primeiro proximo
      else procurar l' (i + 1) primeiro proximo
  end.

(** [statusColor] and [statusText] of a row (lines 1567-1591). *)
Definition status (idx : nat) (pp : Z * Z) (e : jv) : string * string :=
  if bool_decide (Z.of_nat idx = pp.1) then ("#007bff", "🎯 SUA VEZ")
  else if bool_decide (Z.of_nat idx = pp.2) then ("#ffc107", "⏭️ PRÓXIMO")
  else if (match somaNotas e with Some n => bool_decide (0 < n)%Z | None => false end)
  then ("#28a745", "✓ AVALIADO")
  else
    let voltaStatus := js_or (jget_opt e "volta_status") (JStr "aguardando") in
    if js_eq_str voltaStatus "andando" then ("#28a745", "▶ ANDANDO")
    else if js_eq_str voltaStatus "proximo" then ("#ffc107", "→ PRÓXIMO")
    else if js_eq_str voltaStatus "finalizado" then ("#dc3545", "✓ FINALIZADO")
    else ("#666", "○ AGUARDANDO").

(** [String(x).padStart(2, '0')] on the strings it is applied to. *)
Definition padStart2 (s : string) : string :=
  match String.length s with 0 => "00" | 1 => "0" +:+ s | _ => s end.

(** A row of the table as the template of lines 1605-1642 writes it. *)
Record linha := mk_linha {
  ln_posicao : string;           (** [posicaoExibida] *)
  ln_equipe : string;            (** [${eq.equipe_nome}] *)
  ln_equipe_id : string;         (** the id passed to [salvarNotaEquipeAdmin] *)
  ln_piloto : string;            (** [pilotoNome] *)
  ln_notas : list jv;            (** [notaLinha], [notaAngulo], [notaEstilo] *)
  ln_editavel : bool;            (** inputs, or plain text once finalised *)
  ln_soma : option Z;            (** [${somaNotas}], [None] printed [NaN] *)
  ln_status : string * string;   (** [statusColor], [statusText] *)
  ln_atual : bool;               (** [isCurrentDriver] *)
  ln_proximo : bool              (** [isNextDriver] *)
}.

(** The body of [equipesOrdenadas.forEach((eq, idx) => ...)]. *)
Definition linha_de (fin : bool) (pp : Z * Z) (idx : nat) (e : jv) : linha :=
  let o := jget_opt e "ordem_qualificacao" in
  let ordemQualif := if truthy o then padStart2 (js_String o) else "—" in
  let p := jget_opt e "piloto_nome" in
  let atual := bool_decide (Z.of_nat idx = pp.1) in
  mk_linha (if fin then padStart2 (js_String (JNum (inject_Z (Z.of_nat (S idx))))) else ordemQualif)
    (js_String (jget_opt e "equipe_nome")) (js_String (jget_opt e "equipe_id"))
    (if truthy p then js_String p else "⚠️ SEM PILOTO")
    [nota e "nota_linha"; nota e "nota_angulo"; nota e "nota_estilo"] (negb fin)
    (somaNotas e) (status idx pp e) atual (negb atual && bool_decide (Z.of_nat idx = pp.2)).

(** What [renderizarVoltasAdmin] leaves in the page. *)
Record tabela := mk_tabela {
  tb_linhas : list linha;
  tb_botao_finalizar : bool;     (** [botaoFinalizar.style.display] is [block] *)
  tb_finalizada : bool;          (** the closing message and the two sections shown *)
  tb_inline : option jv          (** the stage id given to the two inline loaders *)
}.

(** [renderizarVoltasAdmin(equipes, etapaInfo)] (lines 1472-1718), with
    [etapaIdAtual] the value of the [#etapaIdAtual] input. The logging
    of lines 1473-1474 reads [equipes.length], [equipes.map] and each
    team's fields: anything but an array, or a [null] team, throws. *)
Definition renderizarVoltasAdmin (etapaIdAtual : string) (equipes etapaInfo : jv) : option tabela :=
  es ← (match equipes with JArr es => Some es | _ => None end);
  _ ← mapM (fun e => q ← jget e "ordem_qualificacao"; n ← jget e "equipe_nome"; Some (q, n)) es;
  let fin := truthy (js_or (jget_opt etapaInfo "qualificacao_finalizada") (JBool false)) in
  let ord := equipesOrdenadas fin es in
  let pp := procurar ord 0 (-1) (-1) in
  let temAvaliacoes := existsb (fun e => prim_positivo (total e)) es in
  let etapaId := js_or (JStr etapaIdAtual) (jget_opt etapaInfo "id") in
  Some (mk_tabela (imap (linha_de fin pp) ord) (negb fin && temAvaliacoes) fin
          (if fin && truthy etapaId then Some etapaId else None)).


(** ** The handlers

    What a handler does: the requests it sends, the toasts, the table
    it draws and the [setTimeout] callbacks it schedules. [r], [r1] and
    [r2] are the answers of its requests, in order. *)
Inductive pedido :=
| Get (url : string)
| Post (url : string) (body : jv).

Inductive agendado :=
| RecarregarTabela                    (** [setTimeout(() => atualizarTabelaVoltasAdmin(), 500)] *)
| RecarregarResultados (etapaId : string).  (** the three reloads of lines 1790-1794 *)

Record efeito := mk_efeito {
  ef_pedidos : list pedido;
  ef_toasts : list toast;
  ef_tabela : option tabela;
  ef_agendados : list agendado
}.

Definition url_evento (etapaId : string) : string := "/api/etapas/" +:+ etapaId +:+ "/evento".

(** [atualizarTabelaVoltasAdmin()] (lines 1405-1427): a table drawn
    from the answer's [evento], or one toast. An exception of the
    drawing is caught like a network error. *)
Definition atualizarTabelaVoltasAdmin (etapaIdAtual : string) (r : fetch_result) : efeito :=
  if bool_decide (etapaIdAtual = "") then mk_efeito [] [(TError, "❌ Nenhuma etapa selecionada")] None [] else
  let get := Get (url_evento etapaIdAtual) in
  let conexao := mk_efeito [get] [(TError, "❌ Erro de conexão")] None [] in
  match r with
  | FResp _ (Some data) =>
      match jget data "sucesso" with
      | Some suc =>
          let ev := jget_opt data "evento" in
          if truthy suc && truthy ev then
            match renderizarVoltasAdmin etapaIdAtual (jget_opt ev "equipes") (jget_opt ev "etapa") with
            | Some t => mk_efeito [get] [(TSuccess, "✓ Tabela atualizada")] (Some t) []
            | None => conexao
            end
          else mk_efeito [get] [(TError, "❌ Erro ao carregar dados")] None []
      | None => conexao
      end
  | _ => conexao
  end.

(** [carregarTabelaVoltasAdmin(etapaId)] (lines 1432-1470): the same
    load, then a toast that reads [data.evento.etapa.qualificacao_finalizada],
    which throws after the drawing when [etapa] is [null]. *)
Definition carregarTabelaVoltasAdmin (etapaIdAtual : string) (etapaId : jv) (r : fetch_result) : efeito :=
  if negb (truthy etapaId) then mk_efeito [] [(TError, "❌ ID da etapa não fornecido")] None [] else
  let get := Get (url_evento (js_String etapaId)) in
  let conexao := mk_efeito [get] [(TError, "❌ Erro de conexão")] None [] in
  match r with
  | FResp _ (Some data) =>
      match jget data "sucesso" with
      | Some suc =>
          let ev := jget_opt data "evento" in
          if truthy suc && truthy ev then
            match renderizarVoltasAdmin etapaIdAtual (jget_opt ev "equipes") (jget_opt ev "etapa") with
            | Some t =>
                match jget (jget_opt ev "etapa") "qualificacao_finalizada" with
                | Some f =>
                    mk_efeito [get] [if truthy f then (TInfo, "✓ Qualificação finalizada! A tabela mostra os resultados.") else (TSuccess, "✓ Interface de qualificação pronta! Você pode editar as notas das equipes.")] (Some t) []
                | None => mk_efeito [get] [(TError, "❌ Erro de conexão")] (Some t) []
                end
            | None => conexao
            end
          else mk_efeito [get] [(TError, "❌ Erro ao carregar dados")] None []
      | None => conexao
      end
  | _ => conexao
  end.

(** [parseInt(valor) || 0] *)
Definition valor_nota (valor : string) : Z :=
  match parseInt valor with Some z => z | None => 0%Z end.

(** [salvarNotaEquipeAdmin(equipeId, tipoNota, valor)] (lines 1719-1750),
    the [onchange] of a mark's input. *)
Definition salvarNotaEquipeAdmin (etapaIdAtual equipeId tipoNota valor : string) (r : fetch_result) : efeito :=
  if bool_decide (etapaIdAtual = "") then mk_efeito [] [] None [] else
  let post := Post ("/api/etapas/" +:+ etapaIdAtual +:+ "/notas/" +:+ equipeId)
                   (obj [("nota_" +:+ tipoNota, JNum (inject_Z (valor_nota valor)))]) in
  let erro := mk_efeito [post] [(TError, "❌ Erro ao salvar")] None [] in
  match r with
  | FResp _ (Some data) =>
      match jget data "sucesso" with
      | Some suc =>
          if truthy suc then mk_efeito [post] [(TSuccess, "✓ " +:+ tipoNota +:+ " salva")] None [RecarregarTabela]
          else mk_efeito [post] [(TError, "❌ " +:+ js_String (jget_opt data "erro"))] None []
      | None => erro
      end
  | _ => erro
  end.

(** The inner [try] of [finalizarQualificacao]: the answer of
    [/enviar-challonge]. *)
Definition toasts_challonge (r : fetch_result) : list toast :=
  let erro := [(TError, "⚠ Erro ao enviar para Challonge")] in
  match r with
  | FResp _ (Some d) =>
      match jget d "sucesso" with
      | Some suc =>
          if truthy suc then
            [if truthy (jget_opt d "bracket_pendente") then (TWarning, "⚠ Torneio criado. Inicie manualmente no Challonge (link disponível).") else (TSuccess, "✓ Torneio criado no Challonge!")]
          else if truthy (jget_opt d "erro") then [(TError, "⚠ Challonge: " +:+ js_String (jget_opt d "erro"))]
          else []
      | None => erro
      end
  | _ => erro
  end.

(** [finalizarQualificacao()] (lines 1755-1802); [confirma] is the
    answer to [confirm(...)]. *)
Definition finalizarQualificacao (etapaIdAtual : string) (confirma : bool) (r1 r2 : fetch_result) : efeito :=
  if bool_decide (etapaIdAtual = "") then mk_efeito [] [(TError, "❌ Nenhuma etapa selecionada")] None [] else
  if negb confirma then mk_efeito [] [] None [] else
  let p1 := Post ("/api/admin/finalizar-qualificacao/" +:+ etapaIdAtual) JUndef in
  let erro := mk_efeito [p1] [(TError, "Erro ao finalizar qualificacao")] None [] in
  match r1 with
  | FResp _ (Some data) =>
      match jget data "sucesso" with
      | Some suc =>
          if truthy suc then
            mk_efeito [p1; Post ("/api/etapas/" +:+ etapaIdAtual +:+ "/enviar-challonge") JUndef]
              ((TSuccess, "✓ Qualificação finalizada! Enviando para Challonge...") :: toasts_challonge r2) None [RecarregarResultados etapaIdAtual]
          else mk_efeito [p1] [(TError, "❌ " +:+ js_String (jget_opt data "erro"))] None []
      | None => erro
      end
  | _ => erro
  end.


(** ** Numeric marks and the key of the sort

    When the three marks of a team are numbers (or falsy, read as [0]),
    [+] adds them and the comparator compares the keys (total, line
    mark). *)
Definition numerica (v : jv) : bool := match v with JNum _ => true | _ => false end.

Definition notas_numericas (e : jv) : bool :=
  numerica (nota e "nota_linha") && numerica (nota e "nota_angulo") && numerica (nota e "nota_estilo").

Definition nota_num (e : jv) (campo : string) : Q :=
  match nota e campo with JNum q => q | _ => 0%Q end.

Definition chave (e : jv) : Q * Q :=
  ((nota_num e "nota_linha" + nota_num e "nota_angulo" + nota_num e "nota_estilo")%Q, nota_num e "nota_linha").

(** The reference for the loop [procurar]: the positions, counted from
    [i], of the rows whose [parseInt] sum is [0]. *)
Fixpoint nao_avaliados (i : Z) (l : list jv) : list Z :=
  match l with
  | [] => []
  | e :: l' => (if bool_decide (somaNotas e = Some 0%Z) then [i] else []) ++ nao_avaliados (i + 1) l'
  end.

Lemma numerica_spec v : numerica v = true -> v = JNum (match v with JNum q => q | _ => 0%Q end).
Proof. by destruct v. Qed.

Lemma total_numerico e :
  notas_numericas e = true -> total e = PNum (Some (chave e).1).
Proof.
  unfold notas_numericas, chave, nota_num, total. rewrite !andb_true_iff. intros [[H1 H2] H3].
  rewrite (numerica_spec _ H1), (numerica_spec _ H2), (numerica_spec _ H3). done.
Qed.

Lemma positivo_spec q : positivo q = true <-> (0 < q)%Q.
Proof. unfold positivo. rewrite negb_true_iff, <-not_true_iff_false, Qle_bool_iff. split; intros; lra. Qed.

Lemma comparar_chave a b :
  notas_numericas a = true -> notas_numericas b = true ->
  positivo (comparar a b) = true <-> lt_lex (chave a) (chave b).
Proof.
  intros Ha Hb. unfold comparar. rewrite (total_numerico a Ha), (total_numerico b Hb).
  cbn [prim_strict_eq js_menos prim_Number mbind option_bind].
  assert (Hla : prim_de (nota a "nota_linha") = PNum (Some (chave a).2)).
  { unfold notas_numericas in Ha. rewrite !andb_true_iff in Ha. destruct Ha as [[H1 _] _].
    unfold chave, nota_num. cbn. by rewrite (numerica_spec _ H1). }
  assert (Hlb : prim_de (nota b "nota_linha") = PNum (Some (chave b).2)).
  { unfold notas_numericas in Hb. rewrite !andb_true_iff in Hb. destruct Hb as [[H1 _] _].
    unfold chave, nota_num. cbn. by rewrite (numerica_spec _ H1). }
  rewrite Hla, Hlb. destruct (chave a) as [ta la], (chave b) as [tb lb]. cbn.
  rewrite positivo_spec. unfold lt_lex. cbn.
  destruct (Qeq_bool tb ta) eqn:E; cbn.
  - apply Qeq_bool_iff in E. split; intros; lra.
  - apply Qeq_bool_neq in E. split; intros; lra.
Qed.

Lemma procurar_segundo l i a :
  a <> (-1)%Z -> procurar l i a (-1) = (a, default (-1)%Z (head (nao_avaliados i l))).
Proof.
  intros Ha. revert i. induction l as [|e l IH]; intros i; [done|]. cbn.
  rewrite (bool_decide_eq_false_2 (a = -1)%Z) by done.
  case_bool_decide; [done|]. apply IH.
Qed.

Lemma procurar_spec l i :
  (0 <= i)%Z ->
  procurar l i (-1) (-1) =
    (default (-1)%Z (nao_avaliados i l !! 0), default (-1)%Z (nao_avaliados i l !! 1)).
Proof.
  revert i. induction l as [|e l IH]; intros i Hi; [done|]. cbn.
  case_bool_decide; cbn.
  - rewrite procurar_segundo by lia. by destruct (nao_avaliados (i + 1) l).
  - apply IH. lia.
Qed.

Lemma mapM_None_Exists {A B} (f : A -> option B) l :
  mapM f l = None <-> Exists (fun x => f x = None) l.
Proof.
  induction l as [|x l IH]; cbn.
  - split; [done|]. by intros ?%Exists_nil.
  - rewrite Exists_cons. destruct (f x); cbn; [|naive_solver].
    destruct (mapM f l); cbn; naive_solver.
Qed.


Lemma nao_avaliados_ge i l : Forall (fun x => (i <= x)%Z) (nao_avaliados i l).
Proof.
  revert i. induction l as [|e l IH]; intros i; cbn; [constructor|].
  apply Forall_app. split; [case_bool_decide; repeat constructor; lia|].
  eapply Forall_impl; [apply IH|]. intros x Hx. cbn in *. lia.
Qed.

Lemma nao_avaliados_01 i l a b :
  nao_avaliados i l !! 0 = Some a -> nao_avaliados i l !! 1 = Some b -> (a < b)%Z.
Proof.
  revert i. induction l as [|e l IH]; intros i; cbn; [done|].
  case_bool_decide; cbn; [|apply IH].
  intros [= <-] Hb. pose proof (nao_avaliados_ge (i + 1) l) as Hge.
  rewrite Forall_lookup in Hge. specialize (Hge _ _ Hb). cbn in Hge. lia.
Qed.

Lemma default_menos_um (o : option Z) (n : nat) :
  bool_decide (Z.of_nat n = default (-1)%Z o) = true <-> o = Some (Z.of_nat n).
Proof. rewrite bool_decide_eq_true. destruct o; cbn; [naive_solver|]. split; [lia|done]. Qed.

Lemma jget_linha_none e :
  (q ← jget e "ordem_qualificacao"; n ← jget e "equipe_nome"; Some (q, n)) = None <-> e = JUndef \/ e = JNull.
Proof. destruct e; cbn; naive_solver. Qed.

Lemma mapM_linhas_none es :
  mapM (fun e => q ← jget e "ordem_qualificacao"; n ← jget e "equipe_nome"; Some (q, n)) es = None <->
  ~ Forall (fun e => e <> JUndef /\ e <> JNull) es.
Proof.
  rewrite mapM_None_Exists. induction es as [|e es IH].
  - split; [by intros ?%Exists_nil|]. intros H. exfalso. by apply H.
  - rewrite Exists_cons, Forall_cons, jget_linha_none, IH. destruct e; naive_solver.
Qed.

Lemma mapM_linhas_some es r :
  mapM (fun e => q ← jget e "ordem_qualificacao"; n ← jget e "equipe_nome"; Some (q, n)) es = Some r ->
  Forall (fun e => e <> JUndef /\ e <> JNull) es.
Proof.
  intros H. apply mapM_Some_1 in H. induction H as [|e ? ? ? He _ IH]; constructor; [|done].
  destruct e; cbn in He; naive_solver.
Qed.

Lemma renderizar_none id eqs info :
  renderizarVoltasAdmin id eqs info = None <->
  ~ (exists es, eqs = JArr es /\ Forall (fun e => e <> JUndef /\ e <> JNull) es).
Proof.
  unfold renderizarVoltasAdmin. destruct eqs as [| | | | |es|]; cbn; try (split; [intros _ [? [? _]]; done|done]).
  destruct (mapM _ es) eqn:E; cbn.
  - split; [done|]. intros Hn. exfalso. apply Hn. exists es. split; [done|]. by eapply mapM_linhas_some.
  - split; [|done]. intros _ [es' [[= <-] Hf]]. by apply mapM_linhas_none in E.
Qed.

Lemma renderizar_some id eqs info t :
  renderizarVoltasAdmin id eqs info = Some t ->
  exists es, eqs = JArr es /\ Forall (fun e => e <> JUndef /\ e <> JNull) es.
Proof.
  unfold renderizarVoltasAdmin. destruct eqs as [| | | | |es|]; cbn; try done.
  destruct (mapM _ es) eqn:E; cbn; [|done]. intros _. exists es. split; [done|]. by eapply mapM_linhas_some.
Qed.

Lemma renderizar_linhas id es info t :
  renderizarVoltasAdmin id (JArr es) info = Some t ->
  tb_linhas t = imap (linha_de (tb_finalizada t) (procurar (equipesOrdenadas (tb_finalizada t) es) 0 (-1) (-1)))
                     (equipesOrdenadas (tb_finalizada t) es).
Proof.
  unfold renderizarVoltasAdmin. cbn. destruct (mapM _ es); cbn; [|done]. by intros [= <-].
Qed.

Lemma sucesso_definido (data : jv) :
  truthy (jget_opt data "sucesso") = true -> jget data "sucesso" = Some (jget_opt data "sucesso").
Proof. by destruct data. Qed.

(** C27: C?: once the qualification is finalised and every mark is a
    number, the teams are a permutation of the server's list, sorted by
    decreasing total and then decreasing line mark, and two teams with
    the same total and line mark keep the server's order (the sort is
    stable). *)
Theorem classificacao_ordenada es :
  Forall (fun e => notas_numericas e = true) es ->
  equipesOrdenadas true es ≡ₚ es /\
  StronglySorted (antes chave) (equipesOrdenadas true es) /\
  forall k, filtro chave k (equipesOrdenadas true es) = filtro chave k es.
Proof.
  intros H. apply (ordenar_spec comparar chave (fun e => notas_numericas e = true)); [|done].
  intros a b Ha Hb. by apply comparar_chave.
Qed.

(** C28: C?: in every table drawn, the row marked as the current driver
    ("SUA VEZ") is the first row, in the table's order, whose marks add
    up to 0 under [parseInt], and the row marked next ("PRÓXIMO") is the
    second one: the loop with its [break] computes exactly those two
    positions. *)
Theorem vez_e_proximo id es info t idx ln :
  renderizarVoltasAdmin id (JArr es) info = Some t ->
  tb_linhas t !! idx = Some ln ->
  (ln_atual ln = true <-> nao_avaliados 0 (equipesOrdenadas (tb_finalizada t) es) !! 0 = Some (Z.of_nat idx)) /\
  (ln_proximo ln = true <-> nao_avaliados 0 (equipesOrdenadas (tb_finalizada t) es) !! 1 = Some (Z.of_nat idx)).
Proof.
  intros Ht Hl. rewrite (renderizar_linhas _ _ _ _ Ht), list_lookup_imap in Hl.
  destruct (equipesOrdenadas _ es !! idx) as [e|]; [|done]. injection Hl as <-.
  rewrite procurar_spec by lia. cbn. rewrite andb_true_iff, negb_true_iff, !default_menos_um.
  split; [done|]. split; [by intros [_ ?]|]. intros H1. split; [|done].
  apply not_true_iff_false. rewrite default_menos_um. intros H0.
  pose proof (nao_avaliados_01 _ _ _ _ H0 H1). lia.
Qed.

(** C29: C?: a successful answer ([sucesso] and [evento] set) draws the
    table and shows "Tabela atualizada" exactly when [evento.equipes] is
    an array with no [null] team; otherwise the drawing throws, nothing
    is drawn, and the page shows "Erro de conexão", as for a network
    failure. *)
Theorem atualizar_equipes_invalidas etapa ok data :
  etapa <> "" -> truthy (jget_opt data "sucesso") = true -> truthy (jget_opt data "evento") = true ->
  (ef_toasts (atualizarTabelaVoltasAdmin etapa (FResp ok (Some data))) = [(TSuccess, "✓ Tabela atualizada")] <->
   exists es, jget_opt (jget_opt data "evento") "equipes" = JArr es /\ Forall (fun e => e <> JUndef /\ e <> JNull) es) /\
  (~ (exists es, jget_opt (jget_opt data "evento") "equipes" = JArr es /\ Forall (fun e => e <> JUndef /\ e <> JNull) es) ->
   atualizarTabelaVoltasAdmin etapa (FResp ok (Some data)) =
     mk_efeito [Get (url_evento etapa)] [(TError, "❌ Erro de conexão")] None []).
Proof.
  intros He Hs Hv. unfold atualizarTabelaVoltasAdmin. rewrite bool_decide_eq_false_2 by done.
  rewrite (sucesso_definido _ Hs), Hs, Hv. cbn.
  destruct (renderizarVoltasAdmin etapa _ _) as [t|] eqn:Hr; cbn.
  - pose proof (renderizar_some _ _ _ _ Hr). naive_solver.
  - split; [|done]. split; [done|]. intros Hex. by apply renderizar_none in Hr.
Qed.

(** C?: saving a mark posts exactly one request, whose body holds the
    mark as [parseInt(valor) || 0] (an integer, never [NaN]), shows
    exactly one toast, draws nothing, and schedules the reload of the
    table exactly when the answer has a truthy [sucesso]. *)
Theorem salvar_nota etapa equipeId tipo valor r :
  etapa <> "" ->
  ef_pedidos (salvarNotaEquipeAdmin etapa equipeId tipo valor r) =
    [Post ("/api/etapas/" +:+ etapa +:+ "/notas/" +:+ equipeId)
          (obj [("nota_" +:+ tipo, JNum (inject_Z (valor_nota valor)))])] /\
  length (ef_toasts (salvarNotaEquipeAdmin etapa equipeId tipo valor r)) = 1 /\
  ef_tabela (salvarNotaEquipeAdmin etapa equipeId tipo valor r) = None /\
  (ef_agendados (salvarNotaEquipeAdmin etapa equipeId tipo valor r) = [RecarregarTabela] <->
   exists ok data, r = FResp ok (Some data) /\ truthy (jget_opt data "sucesso") = true).
Proof.
  intros He. unfold salvarNotaEquipeAdmin. rewrite bool_decide_eq_false_2 by done.
  destruct r as [|ok [data|]]; cbn; try (split_and!; naive_solver).
  destruct (jget data "sucesso") as [suc|] eqn:E.
  - pose proof (jget_opt_jget _ _ _ E) as Eo. destruct (truthy suc) eqn:Et; cbn; split_and!; try done.
    + split; [|done]. intros _. exists ok, data. by rewrite Eo.
    + split; [done|]. intros (ok' & data' & [= <- <-] & H). rewrite Eo in H. congruence.
  - apply jget_none in E as [->| ->]; cbn; split_and!; try done; split; try done;
      intros (ok' & data' & [= <- <-] & H); done.
Qed.

(** C30: C?: once confirmed, closing the qualification schedules the reload
    of the results, the bracket and the table exactly when the first
    answer has a truthy [sucesso]; then both requests were sent and the
    first toast announces the closing, whatever Challonge answered. *)
Theorem finalizar_recarrega etapa r1 r2 :
  etapa <> "" ->
  (ef_agendados (finalizarQualificacao etapa true r1 r2) = [RecarregarResultados etapa] <->
   exists ok data, r1 = FResp ok (Some data) /\ truthy (jget_opt data "sucesso") = true) /\
  (ef_agendados (finalizarQualificacao etapa true r1 r2) = [RecarregarResultados etapa] ->
   length (ef_pedidos (finalizarQualificacao etapa true r1 r2)) = 2 /\
   head (ef_toasts (finalizarQualificacao etapa true r1 r2)) = Some (TSuccess, "✓ Qualificação finalizada! Enviando para Challonge...")).
Proof.
  intros He. unfold finalizarQualificacao. rewrite bool_decide_eq_false_2 by done. cbn.
  destruct r1 as [|ok [data|]]; cbn; try (split; [split; [done|]; intros (? & ? & ? & _); done|done]).
  destruct (jget data "sucesso") as [suc|] eqn:E.
  - pose proof (jget_opt_jget _ _ _ E) as Eo. destruct (truthy suc) eqn:Et; cbn.
    + split; [|done]. split; [|done]. intros _. exists ok, data. by rewrite Eo.
    + split; [|done]. split; [done|]. intros (ok' & data' & [= <- <-] & H). rewrite Eo in H. congruence.
  - apply jget_none in E as [->| ->]; cbn; (split; [|done]); split; try done;
      intros (ok' & data' & [= <- <-] & H); done.
Qed.

Lemma finalizar_recarrega_witness :
  "7" <> "" /\
  ((ef_agendados (finalizarQualificacao "7" true (FResp true (Some (obj [("sucesso", JBool true)]))) FNetErr) =
      [RecarregarResultados "7"] <->
    exists ok data, FResp true (Some (obj [("sucesso", JBool true)])) = FResp ok (Some data) /\
                    truthy (jget_opt data "sucesso") = true) /\
   (ef_agendados (finalizarQualificacao "7" true (FResp true (Some (obj [("sucesso", JBool true)]))) FNetErr) =
      [RecarregarResultados "7"] ->
    length (ef_pedidos (finalizarQualificacao "7" true (FResp true (Some (obj [("sucesso", JBool true)]))) FNetErr)) = 2 /\
    head (ef_toasts (finalizarQualificacao "7" true (FResp true (Some (obj [("sucesso", JBool true)]))) FNetErr)) =
      Some (TSuccess, "✓ Qualificação finalizada! Enviando para Challonge..."))).
Proof.
  assert (H : "7" <> "") by discriminate.
  split; [exact H|]. exact (finalizar_recarrega "7" _ FNetErr H).
Defined.

(** ** Examples *)

Definition equipe (id : string) (linha angulo estilo : jv) (ordem : Q) : jv :=
  obj [("equipe_id", JStr id); ("equipe_nome", JStr id); ("ordem_qualificacao", JNum ordem);
       ("piloto_nome", JStr "Piloto"); ("nota_linha", linha); ("nota_angulo", angulo); ("nota_estilo", estilo)].

Definition equipes_exemplo : list jv :=
  [equipe "A" (JNum 10) (JNum 5) JNull 1; equipe "B" (JNum 9) (JNum 9) (JNum 9) 2;
   equipe "C" JNull JNull JNull 3; equipe "D" (JNum 15) JNull JNull 4; equipe "E" JNull JNull JNull 5].

Definition finalizada : jv := obj [("id", JNum 7); ("qualificacao_finalizada", JBool true)].

Definition tabela_exemplo : tabela :=
  Eval vm_compute in default (mk_tabela [] false false None)
                             (renderizarVoltasAdmin "7" (JArr equipes_exemplo) finalizada).

Definition linha_exemplo : linha :=
  Eval vm_compute in nth 3 (tb_linhas tabela_exemplo) (linha_de false (0, 0)%Z 0 JNull).

Lemma classificacao_ordenada_witness :
  Forall (fun e => notas_numericas e = true) equipes_exemplo /\
  (equipesOrdenadas true equipes_exemplo ≡ₚ equipes_exemplo /\
   StronglySorted (antes chave) (equipesOrdenadas true equipes_exemplo) /\
   forall k, filtro chave k (equipesOrdenadas true equipes_exemplo) = filtro chave k equipes_exemplo).
Proof.
  assert (H : Forall (fun e => notas_numericas e = true) equipes_exemplo) by (repeat constructor).
  split; [exact H|]. exact (classificacao_ordenada _ H).
Defined.

Lemma vez_e_proximo_witness :
  renderizarVoltasAdmin "7" (JArr equipes_exemplo) finalizada = Some tabela_exemplo /\
  tb_linhas tabela_exemplo !! 3 = Some linha_exemplo /\
  ((ln_atual linha_exemplo = true <->
    nao_avaliados 0 (equipesOrdenadas (tb_finalizada tabela_exemplo) equipes_exemplo) !! 0 = Some (Z.of_nat 3)) /\
   (ln_proximo linha_exemplo = true <->
    nao_avaliados 0 (equipesOrdenadas (tb_finalizada tabela_exemplo) equipes_exemplo) !! 1 = Some (Z.of_nat 3))).
Proof.
  assert (H1 : renderizarVoltasAdmin "7" (JArr equipes_exemplo) finalizada = Some tabela_exemplo)
    by (vm_compute; reflexivity).
  assert (H2 : tb_linhas tabela_exemplo !! 3 = Some linha_exemplo) by reflexivity.
  split; [exact H1|]. split; [exact H2|]. exact (vez_e_proximo _ _ _ _ _ _ H1 H2).
Defined.

Definition resposta_sem_array : jv :=
  obj [("sucesso", JBool true); ("evento", obj [("equipes", JStr "A,B"); ("etapa", finalizada)])].

Lemma atualizar_equipes_invalidas_witness :
  "7" <> "" /\ truthy (jget_opt resposta_sem_array "sucesso") = true /\
  truthy (jget_opt resposta_sem_array "evento") = true /\
  ((ef_toasts (atualizarTabelaVoltasAdmin "7" (FResp true (Some resposta_sem_array))) = [(TSuccess, "✓ Tabela atualizada")] <->
    exists es, jget_opt (jget_opt resposta_sem_array "evento") "equipes" = JArr es /\
               Forall (fun e => e <> JUndef /\ e <> JNull) es) /\
   (~ (exists es, jget_opt (jget_opt resposta_sem_array "evento") "equipes" = JArr es /\
                  Forall (fun e => e <> JUndef /\ e <> JNull) es) ->
    atualizarTabelaVoltasAdmin "7" (FResp true (Some resposta_sem_array)) =
      mk_efeito [Get (url_evento "7")] [(TError, "❌ Erro de conexão")] None [])).
Proof.
  assert (H1 : "7" <> "") by discriminate.
  assert (H2 : truthy (jget_opt resposta_sem_array "sucesso") = true) by reflexivity.
  assert (H3 : truthy (jget_opt resposta_sem_array "evento") = true) by reflexivity.
  split; [exact H1|]. split; [exact H2|]. split; [exact H3|].
  exact (atualizar_equipes_invalidas "7" true resposta_sem_array H1 H2 H3).
Defined.

Lemma salvar_nota_witness :
  "7" <> "" /\
  (ef_pedidos (salvarNotaEquipeAdmin "7" "3" "linha" "12" FNetErr) =
     [Post ("/api/etapas/" +:+ "7" +:+ "/notas/" +:+ "3") (obj [("nota_" +:+ "linha", JNum (inject_Z (valor_nota "12")))])] /\
   length (ef_toasts (salvarNotaEquipeAdmin "7" "3" "linha" "12" FNetErr)) = 1 /\
   ef_tabela (salvarNotaEquipeAdmin "7" "3" "linha" "12" FNetErr) = None /\
   (ef_agendados (salvarNotaEquipeAdmin "7" "3" "linha" "12" FNetErr) = [RecarregarTabela] <->
    exists ok data, FNetErr = FResp ok (Some data) /\ truthy (jget_opt data "sucesso") = true)).
Proof.
  assert (H : "7" <> "") by discriminate.
  split; [exact H|]. exact (salvar_nota "7" "3" "linha" "12" FNetErr H).
Defined.

(** Once the qualification is finalised the table is sorted (B 27, then
    D and A with 15, D first by its line mark, then C and E in the
    server's order), and the two teams with no
    mark are still shown as the one whose turn it is and the next one. *)
Example finalizada_ainda_mostra_vez :
  (fun l => (ln_posicao l, ln_equipe l, snd (ln_status l))) <$> tb_linhas tabela_exemplo =
  [("01", "B", "✓ AVALIADO"); ("02", "D", "✓ AVALIADO"); ("03", "A", "✓ AVALIADO");
   ("04", "C", "🎯 SUA VEZ"); ("05", "E", "⏭️ PRÓXIMO")].
Proof. vm_compute. reflexivity. Qed.

(** Marks that arrive as strings are concatenated by [+]: the total of
    A ("10", "0", "0") is "1000" and that of B ("9", "9", "9") is "999",
    so A (10 points) is ranked above B (27 points). *)
Example notas_texto_concatenadas :
  option_map (fun t => ln_equipe <$> tb_linhas t)
    (renderizarVoltasAdmin "7" (JArr [equipe "B" (JStr "9") (JStr "9") (JStr "9") 1;
                                      equipe "A" (JStr "10") (JStr "0") (JStr "0") 2]) finalizada) =
  Some ["A"; "B"].
Proof. vm_compute. reflexivity. Qed.

(** A refusal without an [erro] field shows "❌ undefined". *)
Example salvar_recusa_sem_erro :
  ef_toasts (salvarNotaEquipeAdmin "7" "3" "linha" "12" (FResp false (Some (obj [("sucesso", JBool false)])))) =
  [(TError, "❌ undefined")].
Proof. vm_compute. reflexivity. Qed.

End VoltasAdmin.
