(* ===== verification/Garage.v ===== *)
(** * Loading the garage ([carregarGaragem], script.js 544-650)

    [carregarGaragem()] fetches the team's garage, its warehouse and
    the pending car and piece requests, stores the garage in
    [window.garagemAtual], and draws the page only when the payload
    differs from the last one drawn ([_cacheGaragem] holds its
    [JSON.stringify]). The garage object is shared: [garagem] and
    [window.garagemAtual] name the same object, so the later writes
    ([armazem], the [pecas] of each car) reach both.

    The four awaits are modelled in order, with their answers as
    parameters. The calls made after the cache check are recorded as
    events. [renderizarGaragem] and the cart views are not modelled
    and are taken not to throw. *)
From S2P Require Import Prelude Js ShopCart Page.
Set Warnings "-register-all".
Local Close Scope Q_scope.

Module CarregarGaragem.

(** The calls made once the payload is new (lines 643-646). *)
Inductive chamada :=
| RenderizarGaragem (garagem armazem : jv) (solicitacoes solicitacoesPecas : list jv)
| AtualizarUICarrinho
| AtualizarUICarrinhoArmazem
| CarregarProximaEtapa.

Record estado := mk_estado {
  cache : option string;      (** [_cacheGaragem] *)
  garagemAtual : jv;          (** [window.garagemAtual] *)
  pedidos : list string;      (** the URLs fetched *)
  chamadas : list chamada;
  toasts : list toast
}.

(** The answers of the four requests, in order. *)
Record respostas := mk_respostas {
  r_garagem : fetch_result;
  r_armazem : fetch_result;
  r_solicitacoes : fetch_result;
  r_solicitacoesPecas : fetch_result
}.

(** [if (!garagem) garagem = {}; if (!Array.isArray(garagem.carros))
    garagem.carros = [];] (lines 558-560). *)
Definition normalizar (g : jv) : jv :=
  let g := if truthy g then g else JObj [] in
  match jget_opt g "carros" with
  | JArr _ => g
  | _ => default g (js_set g "carros" (JArr []))
  end.

(** The warehouse (lines 567-578): the answer when [respArmazem.ok],
    with [total] set when [pecas_guardadas] is not empty; the default
    otherwise. A [null] answer throws. *)
Definition armazem_padrao : jv := obj [("pecas_guardadas", JArr []); ("total", JNum 0)].

Definition armazem_de (r : fetch_result) : option jv :=
  match r with
  | FNetErr => None
  | FResp false _ => Some armazem_padrao
  | FResp true None => None
  | FResp true (Some a) =>
      pg ← jget a "pecas_guardadas";
      if truthy pg then
        n ← js_length pg;
        if prim_positivo (prim_de n) then js_set a "total" n else Some a
      else Some a
  end.

(** The pending car requests (lines 581-595): [sol.equipe_id ===
    equipeId && sol.status === 'pendente']; any exception leaves [[]]. *)
Definition solicitacoes_carros (equipeId : string) (r : fetch_result) : list jv :=
  match r with
  | FResp true (Some (JArr todas)) =>
      default [] (filter_js (fun sol => e ← jget sol "equipe_id";
                                if js_strict_eq e (JStr equipeId)
                                then st ← jget sol "status"; Some (js_eq_str st "pendente")
                                else Some false) todas)
  | _ => []
  end.

(** The pending piece requests (lines 597-615): the ids compared as
    strings, [String(sol.equipe_id) === String(equipeId)]. The log
    reads [todasSolicitacoesPecas.length] first. *)
Definition solicitacoes_pecas (equipeId : string) (r : fetch_result) : list jv :=
  match r with
  | FResp true (Some (JArr todas)) =>
      default [] (filter_js (fun sol => e ← jget sol "equipe_id";
                                if bool_decide (js_String e = equipeId)
                                then st ← jget sol "status"; Some (js_eq_str st "pendente")
                                else Some false) todas)
  | _ => []
  end.

(** [carro => ({...carro, pecas: carro.pecas || []})] *)
Definition com_pecas (carro : jv) : option jv :=
  p ← jget carro "pecas";
  Some (JObj (campo_set (js_espalhar carro) "pecas" (js_or p (JArr [])))).

(** Lines 617-635 on the normalised answer [g]: the value of
    [window.garagemAtual] and of [garagem] at the end, or [None] when
    [carros.map] throws, with what [window.garagemAtual] holds then.
    When [g] is an object the two names share it. An array shares it
    too, and the properties written on it do not show in its
    [JSON.stringify]. Otherwise [window.garagemAtual] keeps the
    primitive [g] and [garagem] becomes [{...garagem, carros: []}]. *)
Definition montar (g armazem : jv) : jv * option jv :=
  match g with
  | JObj _ =>
      let g1 := default g (js_set g "armazem" armazem) in
      match jget_opt g1 "carros" with
      | JArr cs =>
          match mapM com_pecas cs with
          | Some cs' => let g2 := default g1 (js_set g1 "carros" (JArr cs')) in (g2, Some g2)
          | None => (g1, None)
          end
      | _ => (g1, Some g1)
      end
  | JArr _ => (g, Some g)
  | _ => (g, Some (JObj (campo_set (js_espalhar g) "carros" (JArr []))))
  end.

Definition falhar (urls : list string) (ga : jv) (s : estado) : estado :=
  mk_estado None ga (pedidos s ++ urls) (chamadas s) (toasts s ++ [(TError, "Erro ao carregar garagem")]).

(** The four awaits of [carregarGaragem] for the team [id]: either an
    exception, with the URLs fetched and what [window.garagemAtual]
    was set to before it, or the values that reach the cache check. *)
Inductive resultado :=
| Falha (urls : list string) (ga : option jv)
| Pronto (urls : list string) (ga garagem armazem : jv) (sc sp : list jv).

Definition buscar (id : string) (rs : respostas) : resultado :=
  let u1 := "/api/garagem/" +:+ id in
  let u2 := "/api/armazem/" +:+ id in
  let us := [u1; u2; "/api/admin/solicitacoes-carros"; "/api/admin/solicitacoes-pecas"] in
  match r_garagem rs with
  | FResp true (Some g) =>
      match armazem_de (r_armazem rs) with
      | None => Falha [u1; u2] None
      | Some arm =>
          match montar (normalizar g) arm with
          | (ga, None) => Falha us (Some ga)
          | (ga, Some gar) => Pronto us ga gar arm (solicitacoes_carros id (r_solicitacoes rs))
                                     (solicitacoes_pecas id (r_solicitacoesPecas rs))
          end
      end
  | _ => Falha [u1] None
  end.

(** [{ garagem, armazem, solicitacoesPendentes, solicitacoesPecasPendentes }] *)
Definition payload (garagem armazem : jv) (sc sp : list jv) : jv :=
  obj [("garagem", garagem); ("armazem", armazem);
       ("solicitacoesPendentes", JArr sc); ("solicitacoesPecasPendentes", JArr sp)].

(** [carregarGaragem()]; [equipeId] is [localStorage.getItem('equipe_id')].
    The payload is drawn only when its [JSON.stringify] differs from
    [_cacheGaragem] (lines 638-646); an exception resets the cache and
    shows a toast (lines 647-650). *)
Definition carregarGaragem (equipeId : option string) (rs : respostas) (s : estado) : estado :=
  match equipeId with
  | None => s
  | Some id =>
      match buscar id rs with
      | Falha urls ga => falhar urls (default (garagemAtual s) ga) s
      | Pronto urls ga gar arm sc sp =>
          let hash := js_stringify (payload gar arm sc sp) in
          if bool_decide (cache s = hash)
          then mk_estado (cache s) ga (pedidos s ++ urls) (chamadas s) (toasts s)
          else mk_estado hash ga (pedidos s ++ urls)
                 (chamadas s ++ [RenderizarGaragem gar arm sc sp; AtualizarUICarrinho;
                                 AtualizarUICarrinhoArmazem; CarregarProximaEtapa])
                 (toasts s)
      end
  end.

(** An answer of the four requests: a garage with one car without
    [pecas], a warehouse with one piece, and one pending request of
    team 7 with a numeric [equipe_id] in each list. *)
Definition pedido_exemplo : jv := obj [("equipe_id", JNum 7); ("status", JStr "pendente")].

Definition respostas_exemplo : respostas :=
  mk_respostas (FResp true (Some (obj [("nome", JStr "Equipe 7"); ("carros", JArr [obj [("id", JNum 1)]])])))
               (FResp true (Some (obj [("pecas_guardadas", JArr [JStr "motor"])])))
               (FResp true (Some (JArr [pedido_exemplo])))
               (FResp true (Some (JArr [pedido_exemplo]))).

Lemma normalizar_preserva fs k :
  k <> "carros" -> exists fs', normalizar (JObj fs) = JObj fs' /\ jget_opt (JObj fs') k = jget_opt (JObj fs) k.
Proof.
  intros Hk. unfold normalizar. cbn [truthy]. destruct (jget_opt (JObj fs) "carros").
  all: first [ by exists fs | eexists; split; [done|]; by apply jget_opt_set_ne ].
Qed.

Lemma montar_preserva fs arm k :
  k <> "armazem" -> k <> "carros" -> jget_opt (montar (JObj fs) arm).1 k = jget_opt (JObj fs) k.
Proof.
  intros Ha Hc. cbn [montar js_set default id].
  destruct (jget_opt _ "carros"); cbn [fst]; try by apply jget_opt_set_ne.
  destruct (mapM com_pecas _); cbn [fst js_set default id]; rewrite ?jget_opt_set_ne; done.
Qed.

(** What [window.garagemAtual] holds after a load that got past the
    warehouse: every field of the garage answer but [armazem] and
    [carros] is the answer's. *)
Lemma garagemAtual_preserva id rs s fs k :
  r_garagem rs = FResp true (Some (JObj fs)) -> armazem_de (r_armazem rs) <> None ->
  k <> "armazem" -> k <> "carros" ->
  jget_opt (garagemAtual (carregarGaragem (Some id) rs s)) k = jget_opt (JObj fs) k.
Proof.
  intros Hr Ha Hka Hkc. unfold carregarGaragem, buscar. rewrite Hr.
  destruct (armazem_de (r_armazem rs)) as [a|]; [|done].
  destruct (normalizar_preserva fs k Hkc) as (fs' & -> & Hk).
  pose proof (montar_preserva fs' a k Hka Hkc) as Hm.
  destruct (montar (JObj fs') a) as [g [g'|]]; cbn [fst] in Hm.
  - by case_bool_decide; cbn [garagemAtual]; rewrite Hm.
  - cbn [falhar garagemAtual default Datatypes.id]. by rewrite Hm.
Qed.

Lemma snoc_neq {A} (l : list A) x : l ++ [x] <> l.
Proof. intros H. apply (f_equal length) in H. rewrite length_app in H. cbn in H. lia. Qed.

Lemma normalizar_obj fs : exists fs' cs, normalizar (JObj fs) = JObj fs' /\ jget_opt (JObj fs') "carros" = JArr cs.
Proof.
  unfold normalizar. cbn [truthy]. destruct (jget_opt (JObj fs) "carros") eqn:E.
  all: first [ exists fs; eexists; split; [done|exact E]
             | eexists _, []; split; [done|apply jget_opt_set_eq] ].
Qed.

Lemma com_pecas_truthy c c' : com_pecas c = Some c' -> truthy (jget_opt c' "pecas") = true.
Proof.
  unfold com_pecas. destruct (jget c "pecas") as [p|]; [|done]. intros [= <-].
  rewrite jget_opt_set_eq. apply js_or_arr_truthy.
Qed.

Lemma mapM_com_pecas cs cs' : mapM com_pecas cs = Some cs' -> Forall (fun c => truthy (jget_opt c "pecas") = true) cs'.
Proof.
  intros H. apply mapM_Some_1 in H. induction H; constructor; [|done]. by eapply com_pecas_truthy.
Qed.

Lemma montar_obj fs cs arm ga gar :
  jget_opt (JObj fs) "carros" = JArr cs -> montar (JObj fs) arm = (ga, Some gar) ->
  ga = gar /\ jget_opt gar "armazem" = arm /\
  exists cs', jget_opt gar "carros" = JArr cs' /\ Forall (fun c => truthy (jget_opt c "pecas") = true) cs'.
Proof.
  intros Hc. cbn [montar js_set default id]. rewrite jget_opt_set_ne, Hc by done.
  destruct (mapM com_pecas cs) as [cs'|] eqn:E; [|done]. intros [= <- <-].
  split_and!; [done|..].
  - rewrite jget_opt_set_ne by done. apply jget_opt_set_eq.
  - exists cs'. split; [apply jget_opt_set_eq|]. by eapply mapM_com_pecas.
Qed.

Lemma filter_js_nenhum (f : jv -> option bool) l : Forall (fun x => f x = Some false) l -> filter_js f l = Some [].
Proof. induction 1 as [|x l Hx _ IH]; [done|]. cbn. by rewrite Hx, IH. Qed.

(** C31: loading the garage twice with the same answers draws the page
    at most once: the second load calls nothing, in particular not
    [carregarProximaEtapa], so a stage card goes stale while the garage
    payload stays the same. *)
Theorem recarregar_sem_mudanca id rs s :
  chamadas (carregarGaragem id rs (carregarGaragem id rs s)) = chamadas (carregarGaragem id rs s).
Proof.
  destruct id as [id|]; [|done]. unfold carregarGaragem.
  destruct (buscar id rs) as [urls ga|urls ga gar arm sc sp]; [done|].
  remember (js_stringify (payload gar arm sc sp)) as h eqn:Eh.
  destruct (bool_decide (cache s = h)) eqn:E; cbn [cache chamadas].
  - apply bool_decide_eq_true in E. by rewrite bool_decide_eq_true_2.
  - by rewrite bool_decide_eq_true_2.
Qed.

(** After a failed load (the cache is reset to [null]), the next
    load that shows no error draws the page again and reloads the next
    stage. *)
Theorem falha_redesenha id rs s :
  cache s = None ->
  toasts (carregarGaragem (Some id) rs s) = toasts s ->
  exists g a sc sp,
    chamadas (carregarGaragem (Some id) rs s) =
      chamadas s ++ [RenderizarGaragem g a sc sp; AtualizarUICarrinho; AtualizarUICarrinhoArmazem; CarregarProximaEtapa].
Proof.
  intros Hc. unfold carregarGaragem.
  destruct (buscar id rs) as [urls ga|urls ga gar arm sc sp]; cbn [falhar toasts].
  - intros H. by apply snoc_neq in H.
  - rewrite Hc, bool_decide_eq_false_2 by done. intros _. by eexists _, _, _, _.
Qed.
(** C32: when the garage answer is an object, [garagem] and
    [window.garagemAtual] end as the same object, which holds the
    warehouse under [armazem] and a [carros] array in which every car
    has a truthy [pecas]. *)
Theorem garagem_compartilhada id rs fs urls ga gar arm sc sp :
  r_garagem rs = FResp true (Some (JObj fs)) ->
  buscar id rs = Pronto urls ga gar arm sc sp ->
  ga = gar /\ jget_opt gar "armazem" = arm /\
  exists cs, jget_opt gar "carros" = JArr cs /\ Forall (fun c => truthy (jget_opt c "pecas") = true) cs.
Proof.
  intros Hr. unfold buscar. rewrite Hr.
  destruct (armazem_de (r_armazem rs)) as [a|]; [|done].
  destruct (normalizar_obj fs) as (fs' & cs & -> & Hc).
  destruct (montar (JObj fs') a) as [g [g'|]] eqn:E; [|done]. intros [= <- <- <- <- <- <-].
  by eapply montar_obj.
Qed.

(** C33: a car request whose [equipe_id] is a number is never listed:
    [sol.equipe_id === equipeId] compares it with the string read from
    [localStorage]. *)
Theorem pedidos_carro_numericos id todas :
  Forall (fun sol => exists q, jget sol "equipe_id" = Some (JNum q)) todas ->
  solicitacoes_carros id (FResp true (Some (JArr todas))) = [].
Proof.
  intros H. cbn [solicitacoes_carros]. rewrite filter_js_nenhum; [done|].
  eapply Forall_impl; [exact H|]. intros sol [q ->]. done.
Qed.

Lemma falha_redesenha_witness :
  cache (mk_estado None JUndef [] [] []) = None /\
  toasts (carregarGaragem (Some "7") respostas_exemplo (mk_estado None JUndef [] [] [])) = [] /\
  exists g a sc sp,
    chamadas (carregarGaragem (Some "7") respostas_exemplo (mk_estado None JUndef [] [] [])) =
      [] ++ [RenderizarGaragem g a sc sp; AtualizarUICarrinho; AtualizarUICarrinhoArmazem; CarregarProximaEtapa].
Proof.
  split; [reflexivity|]. split; [vm_compute; reflexivity|].
  apply (falha_redesenha "7" respostas_exemplo (mk_estado None JUndef [] [] [])); vm_compute; reflexivity.
Defined.

Lemma garagem_compartilhada_witness :
  match buscar "7" respostas_exemplo with
  | Pronto _ ga gar arm _ _ =>
      ga = gar /\ jget_opt gar "armazem" = arm /\
      exists cs, jget_opt gar "carros" = JArr cs /\ Forall (fun c => truthy (jget_opt c "pecas") = true) cs
  | Falha _ _ => False
  end.
Proof.
  destruct (buscar "7" respostas_exemplo) as [urls ga|urls ga gar arm sc sp] eqn:E.
  - vm_compute in E. discriminate E.
  - eapply (garagem_compartilhada "7" respostas_exemplo); [reflexivity|exact E].
Defined.

Lemma pedidos_carro_numericos_witness :
  Forall (fun sol => exists q, jget sol "equipe_id" = Some (JNum q)) [pedido_exemplo] /\
  solicitacoes_carros "7" (FResp true (Some (JArr [pedido_exemplo]))) = [] /\
  solicitacoes_pecas "7" (FResp true (Some (JArr [pedido_exemplo]))) = [pedido_exemplo].
Proof.
  split; [repeat constructor; eexists; reflexivity|]. split; [|vm_compute; reflexivity].
  apply pedidos_carro_numericos. repeat constructor. eexists; reflexivity.
Defined.

End CarregarGaragem.
