(* ===== verification/Stage.v ===== *)
(** * The next stage card and the enrolment ([carregarProximaEtapa],
      [inscreverEtapa], script.js 5104-5263)

    [carregarProximaEtapa()] looks up the team's series and the next
    stage of that series, fills the card [#proximaEtapaCard], shows the
    enrolment button when [window.garagemAtual] has an active car, and
    keeps the stage in [window.proximaEtapa]. [inscreverEtapa()] reads
    [window.proximaEtapa] and [window.garagemAtual.carroAtivo], asks the
    server to validate the car's pieces and, when they are valid, posts
    the enrolment.

    Both functions are modelled in the Section [Pagina], whose variables
    are what the page gives them: whether the card and the button are
    in the document (the card's inner elements are taken to be there
    with it), the text [toLocaleDateString] and [toLocaleTimeString]
    give for a date string, and the [message] of a caught exception.
    [window.garagemAtual] is a parameter: it is the [garagemAtual] of
    [Garage]. *)
From S2P Require Import Prelude Js ShopCart Page Garage.
Set Warnings "-register-all".
Local Close Scope Q_scope.

Module ProximaEtapa.

Inductive pedido :=
| Get (url : string)
| Post (url : string) (body : jv).   (** the object given to [JSON.stringify] *)

(** The texts of the card (lines 5140-5148). *)
Record cartao := mk_cartao {
  c_nome : string;
  c_serie : string;
  c_descricao : string;
  c_data : string
}.

(** [#btnInscreverEtapa]: shown or not, and its [dataset]. *)
Record botao := mk_botao {
  b_visivel : bool;
  b_etapaId : option string;
  b_carroId : option string
}.

Record estado := mk_estado {
  proximaEtapa : jv;            (** [window.proximaEtapa] *)
  cartao_atual : option cartao; (** [#proximaEtapaCard], when shown *)
  btn : botao;
  pedidos : list pedido;
  toasts : list toast;
  modal_criado : bool;          (** [#modalPecasFaltando] is in the document *)
  modal_aberturas : nat         (** [modal.show()] calls *)
}.

Definition pedir (p : pedido) (s : estado) : estado :=
  mk_estado (proximaEtapa s) (cartao_atual s) (btn s) (pedidos s ++ [p]) (toasts s)
            (modal_criado s) (modal_aberturas s).

Definition avisar (t : toast) (s : estado) : estado :=
  mk_estado (proximaEtapa s) (cartao_atual s) (btn s) (pedidos s) (toasts s ++ [t])
            (modal_criado s) (modal_aberturas s).

(** [el.textContent = v]: [null] and [undefined] give the empty text. *)
Definition texto (v : jv) : string :=
  match v with JUndef | JNull => "" | _ => js_String v end.

(** [p.charAt(0).toUpperCase() + p.slice(1)] on ASCII letters. *)
Definition maiuscula (a : Ascii.ascii) : Ascii.ascii :=
  let n := Ascii.nat_of_ascii a in
  if Nat.leb 97 n && Nat.leb n 122 then Ascii.ascii_of_nat (n - 32) else a.

Definition capitalizar (s : string) : string :=
  match s with EmptyString => EmptyString | String a r => String (maiuscula a) r end.

(** [validacao.pecas_faltando.map(...).join(', ')]: [map] throws on
    anything but an array, [charAt] on anything but a string. *)
Definition pecas_texto (v : jv) : option string :=
  match v with
  | JArr ps =>
      ss ← mapM (fun p => match p with JStr s => Some (capitalizar s) | _ => None end) ps;
      Some (String.concat ", " ss)
  | _ => None
  end.

Section Pagina.
Context (tem_card tem_botao : bool) (data_texto : string -> string) (mensagem : js_error -> string).

(** Lines 5138-5159, once [etapa.id] is truthy: the card, the button
    when the garage has an active car, and [window.proximaEtapa]. *)
Definition mostrar (etapa ga : jv) (s : estado) : estado :=
  let c := if tem_card
           then Some (mk_cartao (texto (jget_opt etapa "nome")) (texto (jget_opt etapa "serie"))
                                (texto (js_or (jget_opt etapa "descricao") (JStr "-")))
                                (data_texto (js_String (jget_opt etapa "data_etapa") +:+ "T" +:+
                                             js_String (jget_opt etapa "hora_etapa"))))
           else cartao_atual s in
  let carro := jget_opt ga "carroAtivo" in
  let b := if tem_card && tem_botao && truthy ga && truthy carro
           then mk_botao true (Some (js_String (jget_opt etapa "id"))) (Some (js_String (jget_opt carro "id")))
           else btn s in
  mk_estado etapa c b (pedidos s) (toasts s) (modal_criado s) (modal_aberturas s).

(** [carregarProximaEtapa()]: [r1] answers [/api/equipes/{id}] and [r2]
    [/api/proxima-etapa/{serie}]. Every early return and every caught
    exception only logs to the console. *)
Definition carregarProximaEtapa (equipeId : option string) (ga : jv) (r1 r2 : fetch_result) (s : estado) : estado :=
  match equipeId with
  | None => s
  | Some id =>
      let s1 := pedir (Get ("/api/equipes/" +:+ id)) s in
      match r1 with
      | FResp true (Some equipe) =>
          match jget equipe "serie" with
          | Some serie =>
              if truthy serie then
                let s2 := pedir (Get ("/api/proxima-etapa/" +:+ js_String serie)) s1 in
                match r2 with
                | FResp true (Some etapa) =>
                    match jget etapa "id" with
                    | Some eid => if truthy eid then mostrar etapa ga s2 else s2
                    | None => s2
                    end
                | _ => s2
                end
              else s1
          | None => s1
          end
      | _ => s1
      end
  end.

(** The [catch] of [inscreverEtapa] (lines 5227-5230). *)
Definition falha_inscricao (e : js_error) (s : estado) : estado :=
  avisar (TError, "Erro ao inscrever na etapa: " +:+ mensagem e) s.

(** [await resp.json()] on an answer, whatever its status. *)
Definition corpo (r : fetch_result) : js_error + jv :=
  match r with
  | FNetErr => inl NetworkError
  | FResp _ None => inl SyntaxError
  | FResp _ (Some v) => inr v
  end.

(** Lines 5215-5226 on the enrolment answer. *)
Definition apos_inscricao (r : fetch_result) (s : estado) : estado :=
  match corpo r with
  | inl e => falha_inscricao e s
  | inr res =>
      match jget res "sucesso" with
      | None => falha_inscricao TypeError s
      | Some suc =>
          if truthy suc then
            let s' := avisar (TSuccess, "✅ Inscrição confirmada na etapa!") s in
            if tem_botao
            then mk_estado (proximaEtapa s') (cartao_atual s')
                   (mk_botao false (b_etapaId (btn s')) (b_carroId (btn s')))
                   (pedidos s') (toasts s') (modal_criado s') (modal_aberturas s')
            else falha_inscricao TypeError s'
          else avisar (TError, "❌ Erro: " +:+ js_String (js_or (jget_opt res "erro") (JStr "Desconhecido"))) s
      end
  end.

(** Lines 5190-5197: the toast and the modal of the missing pieces. *)
Definition pecas_faltando (validacao : jv) (s : estado) : estado :=
  match pecas_texto (jget_opt validacao "pecas_faltando") with
  | None => falha_inscricao TypeError s
  | Some t =>
      let s' := avisar (TError, "❌ Peças faltando: " +:+ t) s in
      mk_estado (proximaEtapa s') (cartao_atual s') (btn s') (pedidos s') (toasts s')
                true (S (modal_aberturas s'))
  end.

(** [inscreverEtapa()]: [r1] answers the validation and [r2] the
    enrolment. *)
Definition inscreverEtapa (equipeId : option string) (ga : jv) (r1 r2 : fetch_result) (s : estado) : estado :=
  match equipeId with
  | None => avisar (TError, "Erro: equipe não identificada") s
  | Some id =>
      let etapa := proximaEtapa s in
      let carro := jget_opt ga "carroAtivo" in
      if negb (truthy etapa) || negb (truthy carro) then avisar (TError, "Erro: dados incompletos") s
      else
        let s1 := pedir (Post "/api/validar-pecas-etapa"
                              (obj [("carro_id", jget_opt carro "id"); ("equipe_id", JStr id)])) s in
        match corpo r1 with
        | inl e => falha_inscricao e s1
        | inr validacao =>
            match jget validacao "valido" with
            | None => falha_inscricao TypeError s1
            | Some v =>
                if truthy v then
                  apos_inscricao r2
                    (pedir (Post "/api/inscrever-etapa"
                                 (obj [("etapa_id", jget_opt etapa "id"); ("equipe_id", JStr id);
                                       ("carro_id", jget_opt carro "id")])) s1)
                else pecas_faltando validacao s1
            end
        end
  end.

End Pagina.
(** ** Lemmas *)

Lemma apos_inscricao_pedidos tb msg r s : pedidos (apos_inscricao tb msg r s) = pedidos s.
Proof.
  unfold apos_inscricao, falha_inscricao.
  destruct (corpo r); [done|]. destruct (jget _ "sucesso"); [|done].
  destruct (truthy _); [destruct tb|]; done.
Qed.

Lemma pecas_faltando_pedidos msg v s : pedidos (pecas_faltando msg v s) = pedidos s.
Proof. unfold pecas_faltando. by destruct (pecas_texto _). Qed.

Lemma avisar_toasts t s : length (toasts (avisar t s)) = S (length (toasts s)).
Proof. cbn. rewrite length_app. cbn. lia. Qed.

Lemma apos_inscricao_toasts msg r s :
  length (toasts (apos_inscricao true msg r s)) = S (length (toasts s)).
Proof.
  unfold apos_inscricao, falha_inscricao.
  destruct (corpo r); [apply avisar_toasts|]. destruct (jget _ "sucesso"); [|apply avisar_toasts].
  destruct (truthy _); [|apply avisar_toasts]. apply (avisar_toasts _ s).
Qed.

Lemma pecas_faltando_toasts msg v s : length (toasts (pecas_faltando msg v s)) = S (length (toasts s)).
Proof. unfold pecas_faltando, falha_inscricao. destruct (pecas_texto _); apply (avisar_toasts _ s). Qed.

(** A load whose stage answer has no truthy [id] leaves the stage, the
    card and the button as they were. *)
Lemma carregar_sem_etapa tc tb dt eid ga r1 r2 s :
  (forall etapa, r2 = FResp true (Some etapa) -> truthy (jget_opt etapa "id") = false) ->
  let s' := carregarProximaEtapa tc tb dt eid ga r1 r2 s in
  proximaEtapa s' = proximaEtapa s /\ cartao_atual s' = cartao_atual s /\ btn s' = btn s.
Proof.
  intros H. destruct eid as [id|]; [|done]. unfold carregarProximaEtapa.
  destruct r1 as [|[] [equipe|]]; try done. destruct (jget equipe "serie"); [|done].
  destruct (truthy _); [|done]. destruct r2 as [|[] [etapa|]]; try done.
  specialize (H etapa eq_refl). destruct (jget etapa "id") eqn:E; [|done].
  by rewrite (jget_opt_jget _ _ _ E) in H; rewrite H.
Qed.

Lemma inscrever_pedidos_validos tb msg id ga ok v r3 s :
  truthy (proximaEtapa s) = true -> truthy (jget_opt ga "carroAtivo") = true ->
  truthy (jget_opt v "valido") = true ->
  pedidos (inscreverEtapa tb msg (Some id) ga (FResp ok (Some v)) r3 s) =
    pedidos s ++ [Post "/api/validar-pecas-etapa"
                       (obj [("carro_id", jget_opt (jget_opt ga "carroAtivo") "id"); ("equipe_id", JStr id)]);
                  Post "/api/inscrever-etapa"
                       (obj [("etapa_id", jget_opt (proximaEtapa s) "id"); ("equipe_id", JStr id);
                             ("carro_id", jget_opt (jget_opt ga "carroAtivo") "id")])].
Proof.
  intros He Hc Hv. unfold inscreverEtapa. rewrite He, Hc. cbn [negb orb corpo].
  rewrite (jget_truthy_some _ _ Hv), Hv, apos_inscricao_pedidos. cbn. by rewrite <-app_assoc.
Qed.

(** C34: the requests of [inscreverEtapa]: none without a team or
    without both a stage and an active car; otherwise the validation of
    the active car's pieces, followed by the enrolment in
    [window.proximaEtapa] exactly when the validation answer has a
    truthy [valido]. *)
Theorem inscrever_pedidos tb msg eid ga r1 r2 s :
  pedidos (inscreverEtapa tb msg eid ga r1 r2 s) =
  pedidos s ++
  match eid with
  | None => []
  | Some id =>
      if truthy (proximaEtapa s) && truthy (jget_opt ga "carroAtivo") then
        Post "/api/validar-pecas-etapa"
             (obj [("carro_id", jget_opt (jget_opt ga "carroAtivo") "id"); ("equipe_id", JStr id)]) ::
        match corpo r1 with
        | inr v =>
            if truthy (jget_opt v "valido")
            then [Post "/api/inscrever-etapa"
                       (obj [("etapa_id", jget_opt (proximaEtapa s) "id"); ("equipe_id", JStr id);
                             ("carro_id", jget_opt (jget_opt ga "carroAtivo") "id")])]
            else []
        | inl _ => []
        end
      else []
  end.
Proof.
  destruct eid as [id|]; [|cbn; by rewrite app_nil_r]. unfold inscreverEtapa.
  destruct (truthy (proximaEtapa s)), (truthy (jget_opt ga "carroAtivo")); cbn [negb orb andb];
    try (cbn; by rewrite app_nil_r).
  destruct (corpo r1) as [e|v]; [done|].
  destruct (jget v "valido") as [x|] eqn:E.
  - rewrite (jget_opt_jget _ _ _ E). destruct (truthy x).
    + rewrite apos_inscricao_pedidos. cbn. by rewrite <-app_assoc.
    + by rewrite pecas_faltando_pedidos.
  - apply jget_none in E as [-> | ->]; done.
Qed.

(** C35: when a later [carregarProximaEtapa] finds no stage (an answer
    that is not OK, or a stage without [id]), [window.proximaEtapa] and
    the card keep the stage loaded before, and [inscreverEtapa] then
    enrols the team in that stage. *)
Theorem inscricao_etapa_anterior tc tb dt msg id ga r1 r2 ok v r3 s :
  truthy (proximaEtapa s) = true -> truthy (jget_opt ga "carroAtivo") = true ->
  (forall etapa, r2 = FResp true (Some etapa) -> truthy (jget_opt etapa "id") = false) ->
  truthy (jget_opt v "valido") = true ->
  let s' := carregarProximaEtapa tc tb dt (Some id) ga r1 r2 s in
  proximaEtapa s' = proximaEtapa s /\ cartao_atual s' = cartao_atual s /\
  Post "/api/inscrever-etapa"
       (obj [("etapa_id", jget_opt (proximaEtapa s) "id"); ("equipe_id", JStr id);
             ("carro_id", jget_opt (jget_opt ga "carroAtivo") "id")])
    ∈ pedidos (inscreverEtapa tb msg (Some id) ga (FResp ok (Some v)) r3 s').
Proof.
  intros He Hc Hr Hv. cbv zeta.
  destruct (carregar_sem_etapa tc tb dt (Some id) ga r1 r2 s Hr) as (H1 & H2 & _).
  split_and!; [done|done|]. rewrite inscrever_pedidos_validos; [|by rewrite H1|done|done].
  rewrite H1. set_solver.
Qed.

(** C36: the two components together: after a load of an object garage
    whose [carroAtivo] is truthy, a stage load that finds a stage
    shows the enrolment button with that stage's [id] and the active
    car's [id], and keeps the stage in [window.proximaEtapa]. *)
Theorem botao_carro_da_garagem dt id rs s0 fs equipe etapa s :
  CarregarGaragem.r_garagem rs = FResp true (Some (JObj fs)) ->
  CarregarGaragem.armazem_de (CarregarGaragem.r_armazem rs) <> None ->
  truthy (jget_opt (JObj fs) "carroAtivo") = true ->
  truthy (jget_opt equipe "serie") = true -> truthy (jget_opt etapa "id") = true ->
  let ga := CarregarGaragem.garagemAtual (CarregarGaragem.carregarGaragem (Some id) rs s0) in
  let s' := carregarProximaEtapa true true dt (Some id) ga (FResp true (Some equipe)) (FResp true (Some etapa)) s in
  btn s' = mk_botao true (Some (js_String (jget_opt etapa "id")))
                         (Some (js_String (jget_opt (jget_opt (JObj fs) "carroAtivo") "id"))) /\
  proximaEtapa s' = etapa.
Proof.
  intros Hr Ha Hc Hs Hi ga s'.
  assert (Hg : jget_opt ga "carroAtivo" = jget_opt (JObj fs) "carroAtivo")
    by (by apply CarregarGaragem.garagemAtual_preserva).
  rewrite <-Hg in Hc |- *. pose proof (jget_opt_truthy_base _ _ Hc) as Hga.
  subst s'. unfold carregarProximaEtapa.
  rewrite (jget_truthy_some _ _ Hs), Hs, (jget_truthy_some _ _ Hi), Hi. cbn [mostrar btn proximaEtapa andb].
  by rewrite Hga, Hc.
Qed.

(** With the button on the page, every run of [inscreverEtapa] shows
    exactly one toast, on every path. *)
Theorem inscrever_um_toast msg eid ga r1 r2 s :
  length (toasts (inscreverEtapa true msg eid ga r1 r2 s)) = S (length (toasts s)).
Proof.
  destruct eid as [id|]; [|apply avisar_toasts]. unfold inscreverEtapa.
  destruct (negb _ || negb _); [apply avisar_toasts|].
  destruct (corpo r1) as [e|v]; [apply (avisar_toasts _ (pedir _ s))|].
  destruct (jget v "valido") as [x|]; [|apply (avisar_toasts _ (pedir _ s))].
  destruct (truthy x); [rewrite apos_inscricao_toasts|rewrite pecas_faltando_toasts]; done.
Qed.

(** ** Examples *)

Definition estado_inicial : estado := mk_estado JUndef None (mk_botao false None None) [] [] false 0.

Definition carro_exemplo : jv := obj [("id", JNum 9); ("modelo", JStr "GT")].

Definition garagem_exemplo : list (string * jv) :=
  [("nome", JStr "Equipe 7"); ("carroAtivo", carro_exemplo); ("carros", JArr [carro_exemplo])].

Definition etapa_exemplo : jv :=
  obj [("id", JNum 3); ("nome", JStr "Etapa 3"); ("serie", JStr "A");
       ("data_etapa", JStr "2026-11-20"); ("hora_etapa", JStr "14:00")].

(** The stage of [etapa_exemplo] loaded for the garage of [garagem_exemplo]. *)
Definition com_etapa : estado :=
  carregarProximaEtapa true true (fun d => d) (Some "7") (JObj garagem_exemplo)
    (FResp true (Some (obj [("serie", JStr "A")]))) (FResp true (Some etapa_exemplo)) estado_inicial.

Lemma inscricao_etapa_anterior_witness :
  truthy (proximaEtapa com_etapa) = true /\
  truthy (jget_opt (JObj garagem_exemplo) "carroAtivo") = true /\
  (forall etapa, FResp false None = FResp true (Some etapa) -> truthy (jget_opt etapa "id") = false) /\
  truthy (jget_opt (obj [("valido", JBool true)]) "valido") = true /\
  let s' := carregarProximaEtapa true true (fun d => d) (Some "7") (JObj garagem_exemplo)
              (FResp true (Some (obj [("serie", JStr "A")]))) (FResp false None) com_etapa in
  proximaEtapa s' = proximaEtapa com_etapa /\ cartao_atual s' = cartao_atual com_etapa /\
  Post "/api/inscrever-etapa"
       (obj [("etapa_id", jget_opt (proximaEtapa com_etapa) "id"); ("equipe_id", JStr "7");
             ("carro_id", jget_opt (jget_opt (JObj garagem_exemplo) "carroAtivo") "id")])
    ∈ pedidos (inscreverEtapa true (fun _ => "erro") (Some "7") (JObj garagem_exemplo)
                 (FResp true (Some (obj [("valido", JBool true)]))) (FResp true None) s').
Proof.
  split; [vm_compute; reflexivity|]. split; [vm_compute; reflexivity|].
  split; [intros ? [=]|]. split; [vm_compute; reflexivity|].
  apply inscricao_etapa_anterior; [vm_compute; reflexivity|vm_compute; reflexivity|intros ? [=]|vm_compute; reflexivity].
Defined.

Definition respostas_garagem : CarregarGaragem.respostas :=
  CarregarGaragem.mk_respostas (FResp true (Some (JObj garagem_exemplo))) (FResp false None)
                               (FResp false None) (FResp false None).

Lemma botao_carro_da_garagem_witness :
  CarregarGaragem.r_garagem respostas_garagem = FResp true (Some (JObj garagem_exemplo)) /\
  CarregarGaragem.armazem_de (CarregarGaragem.r_armazem respostas_garagem) <> None /\
  truthy (jget_opt (JObj garagem_exemplo) "carroAtivo") = true /\
  truthy (jget_opt (obj [("serie", JStr "A")]) "serie") = true /\
  truthy (jget_opt etapa_exemplo "id") = true /\
  let ga := CarregarGaragem.garagemAtual
              (CarregarGaragem.carregarGaragem (Some "7") respostas_garagem
                 (CarregarGaragem.mk_estado None JUndef [] [] [])) in
  let s' := carregarProximaEtapa true true (fun d => d) (Some "7") ga
              (FResp true (Some (obj [("serie", JStr "A")]))) (FResp true (Some etapa_exemplo)) estado_inicial in
  btn s' = mk_botao true (Some (js_String (jget_opt etapa_exemplo "id")))
                         (Some (js_String (jget_opt (jget_opt (JObj garagem_exemplo) "carroAtivo") "id"))) /\
  proximaEtapa s' = etapa_exemplo.
Proof.
  split; [reflexivity|]. split; [vm_compute; discriminate|].
  split; [vm_compute; reflexivity|]. split; [vm_compute; reflexivity|]. split; [vm_compute; reflexivity|].
  apply botao_carro_da_garagem; [reflexivity|vm_compute; discriminate|vm_compute; reflexivity..].
Defined.

(** The missing pieces are listed capitalised, in order. *)
Example pecas_faltando_exemplo :
  toasts (inscreverEtapa true (fun _ => "erro") (Some "7") (JObj garagem_exemplo)
            (FResp true (Some (obj [("valido", JBool false); ("pecas_faltando", JArr [JStr "motor"; JStr "cambio"])])))
            FNetErr com_etapa) = [(TError, "❌ Peças faltando: Motor, Cambio")].
Proof. vm_compute. reflexivity. Qed.

End ProximaEtapa.
